(** * The EUDR documentation knowledge pipeline (src/documentProcessor.ts)

    A shallow embedding of [DocumentProcessor] and of the cache round trip
    done by the server front ends, with the properties of the
    specification stated and settled against it.  The tool handlers, the
    resource listing and the prompts of the front ends (src/web-server.ts
    and src/mcp-sse-server.ts) follow, with further properties of the
    code.

    Conventions of the embedding.
    - A JavaScript string is a [string]: one [ascii] per UTF-16 code unit,
      so the model covers the code units 0..255 (Latin-1).  Case mapping,
      white space and line terminators are those of ECMAScript restricted
      to that range.
    - A [number] that holds a byte count or a time value is a [Z].
    - The file system and the three format decoders (mammoth, xml2js,
      pdfjs) are not code of the repository: they are the fields of a
      [World] record, each a function that may fail ([None] = throws).
      Their calls return or throw; a call that never returns is not in a
      [World], and what is proved of a run is proved of the runs whose
      calls come back.
    - A thrown exception is the [Throws] outcome; a loop that would never
      end, or a request whose body never arrives, is [Diverges]. *)

From Stdlib Require Import List String Ascii ZArith Lia Bool Arith PeanoNat.
Import ListNotations.
Open Scope string_scope.
Open Scope list_scope.
Open Scope nat_scope.

(* ================================================================== *)
(** * JavaScript strings *)
(* ================================================================== *)

Module JsString.

Definition code (c : ascii) : nat := nat_of_ascii c.

(** [String.prototype.toLowerCase], one code unit at a time: A-Z and the
    Latin-1 capitals U+00C0..U+00DE (U+00D7 is the multiplication sign). *)
Definition lowerChar (c : ascii) : ascii :=
  let n := code c in
  if ((65 <=? n) && (n <=? 90))
     || ((192 <=? n) && (n <=? 222) && negb (n =? 215))
  then ascii_of_nat (n + 32) else c.

(** [String.prototype.toUpperCase] on the code units whose upper case is
    again one Latin-1 code unit: a-z and U+00E0..U+00FE (U+00F7 is the
    division sign).  U+00B5, U+00DF and U+00FF map outside Latin-1 in
    JavaScript and are left alone here. *)
Definition upperChar (c : ascii) : ascii :=
  let n := code c in
  if ((97 <=? n) && (n <=? 122))
     || ((224 <=? n) && (n <=? 254) && negb (n =? 247))
  then ascii_of_nat (n - 32) else c.

Fixpoint toLowerCase (s : string) : string :=
  match s with
  | EmptyString => EmptyString
  | String c s' => String (lowerChar c) (toLowerCase s')
  end.

Fixpoint toUpperCase (s : string) : string :=
  match s with
  | EmptyString => EmptyString
  | String c s' => String (upperChar c) (toUpperCase s')
  end.

(** [sub] is a prefix of [s]. *)
Fixpoint startsWith (s sub : string) {struct sub} : bool :=
  match sub, s with
  | EmptyString, _ => true
  | String _ _, EmptyString => false
  | String a sub', String b s' => Ascii.eqb a b && startsWith s' sub'
  end.

(** [String.prototype.includes]. *)
Fixpoint includes (s sub : string) : bool :=
  startsWith s sub ||
  match s with
  | EmptyString => false
  | String _ s' => includes s' sub
  end.

(** WhiteSpace and LineTerminator code units below 256: TAB, LF, VT, FF,
    CR, SP and NBSP.  This is both [\s] and what [trim] strips. *)
Definition isSpace (c : ascii) : bool :=
  let n := code c in
  ((9 <=? n) && (n <=? 13)) || (n =? 32) || (n =? 160).

Fixpoint trimStart (s : string) : string :=
  match s with
  | EmptyString => EmptyString
  | String c s' => if isSpace c then trimStart s' else s
  end.

Fixpoint trimEnd (s : string) : string :=
  match s with
  | EmptyString => EmptyString
  | String c s' =>
      match trimEnd s' with
      | EmptyString => if isSpace c then EmptyString else String c EmptyString
      | t => String c t
      end
  end.

(** [String.prototype.trim]. *)
Definition trim (s : string) : string := trimEnd (trimStart s).

(** [s.split(sep)] for a one-code-unit separator: never empty. *)
Fixpoint split (sep : ascii) (s : string) : list string :=
  match s with
  | EmptyString => [EmptyString]
  | String c s' =>
      if Ascii.eqb c sep then EmptyString :: split sep s'
      else match split sep s' with
           | [] => [String c EmptyString]
           | l :: ls => String c l :: ls
           end
  end.

(** [Array.prototype.findIndex]: [None] stands for -1. *)
Fixpoint findIndex {A} (p : A -> bool) (l : list A) : option nat :=
  match l with
  | [] => None
  | x :: l' => if p x then Some 0 else option_map S (findIndex p l')
  end.

(** [Array.prototype.join] on strings. *)
Fixpoint join (sep : string) (l : list string) : string :=
  match l with
  | [] => EmptyString
  | [x] => x
  | x :: l' => (x ++ sep ++ join sep l')%string
  end.

Definition LF : ascii := ascii_of_nat 10.
Definition nl : string := String LF EmptyString.

End JsString.
Import JsString.

(* ================================================================== *)
(** * The data model (documentProcessor.ts, lines 9-53) *)
(* ================================================================== *)

(** A [Date] object: its time value in milliseconds since the epoch, or an
    invalid date (time value NaN). *)
Inductive Date : Type :=
| ValidDate (ms : Z)
| InvalidDate.

Inductive DocType : Type := docx | xml | pdf.
Inductive ExampleType : Type := request | response.

Module Metadata.
Record t : Type := mk { size : Z; modified : Date; path : string }.
End Metadata.

Module DocumentContent.
Record t : Type := mk {
  filename : string;
  title : string;
  content : string;
  type : DocType;
  category : string;
  metadata : Metadata.t
}.
End DocumentContent.

Module EndpointInfo.
(** [requestExample] and [responseExample] are optional and never set. *)
Record t : Type := mk {
  name : string;
  description : string;
  method : string;
  url : string;
  category : string;
  source : string
}.
End EndpointInfo.

Module ExampleInfo.
Record t : Type := mk {
  name : string;
  type : ExampleType;
  content : string;
  operation : string;
  source : string
}.
End ExampleInfo.

Module RuleInfo.
Record t : Type := mk {
  name : string;
  description : string;
  category : string;
  source : string
}.
End RuleInfo.

Module ProcessedKnowledge.
Record t : Type := mk {
  documents : list DocumentContent.t;
  endpoints : list EndpointInfo.t;
  examples : list ExampleInfo.t;
  rules : list RuleInfo.t
}.

(** The object literal of the constructor. *)
Definition empty : t := mk [] [] [] [].
End ProcessedKnowledge.

Abbreviation Doc := DocumentContent.t.
Abbreviation KB := ProcessedKnowledge.t.

(* ================================================================== *)
(** * Classification by file name *)
(* ================================================================== *)

(** [categorizeDocument] (lines 231-250). *)
Definition categorizeDocument (filename : string) : string :=
  let lower := toLowerCase filename in
  if includes lower "cf1" then "Basic Connectivity"
  else if includes lower "cf2" then "Submit DDS"
  else if includes lower "cf3" then "Retrieve DDS Status"
  else if includes lower "cf4" then "Error Conditions"
  else if includes lower "cf5" then "Amend DDS"
  else if includes lower "cf6" then "Retract DDS"
  else if includes lower "cf7" then "Retrieve Referenced DDS"
  else if includes lower "validation" then "Validation Rules"
  else if includes lower "specification" then "API Specifications"
  else if includes lower "development" then "Development Options"
  else if includes lower "geojson" then "GeoJSON"
  else if includes lower "python" then "Python Examples"
  else if includes lower "request" then "Request Examples"
  else if includes lower "response" then "Response Examples"
  else "General".

(** [extractOperationFromFilename] (lines 355-366). *)
Definition extractOperationFromFilename (filename : string) : string :=
  let lower := toLowerCase filename in
  if includes lower "echo" then "EchoService"
  else if includes lower "submit" then "SubmitDDS"
  else if includes lower "retrieve" then "RetrieveDDS"
  else if includes lower "amend" then "AmendDDS"
  else if includes lower "retract" then "RetractDDS"
  else if includes lower "statement" then "GetStatement"
  else "Unknown".

(** The precedence tables in the words of the specification. *)
Definition categoryTable : list (string * string) :=
  [ ("cf1", "Basic Connectivity"); ("cf2", "Submit DDS");
    ("cf3", "Retrieve DDS Status"); ("cf4", "Error Conditions");
    ("cf5", "Amend DDS"); ("cf6", "Retract DDS");
    ("cf7", "Retrieve Referenced DDS"); ("validation", "Validation Rules");
    ("specification", "API Specifications");
    ("development", "Development Options"); ("geojson", "GeoJSON");
    ("python", "Python Examples"); ("request", "Request Examples");
    ("response", "Response Examples") ].

Definition operationTable : list (string * string) :=
  [ ("echo", "EchoService"); ("submit", "SubmitDDS");
    ("retrieve", "RetrieveDDS"); ("amend", "AmendDDS");
    ("retract", "RetractDDS"); ("statement", "GetStatement") ].

(** [key] occurs in [s] up to case: some stretch of [s] lower-cases to
    [key]. *)
Definition occursIgnoringCase (key s : string) : Prop :=
  exists pre mid post,
    s = (pre ++ mid ++ post)%string /\ toLowerCase mid = key.

(** First key of the table that occurs, else the default. *)
Inductive FirstMatch (s : string) (dflt : string)
  : list (string * string) -> string -> Prop :=
| FirstMatch_none : FirstMatch s dflt [] dflt
| FirstMatch_here key label rest :
    occursIgnoringCase key s ->
    FirstMatch s dflt ((key, label) :: rest) label
| FirstMatch_later key label rest r :
    ~ occursIgnoringCase key s ->
    FirstMatch s dflt rest r ->
    FirstMatch s dflt ((key, label) :: rest) r.

(* ================================================================== *)
(** * Regular expressions *)
(* ================================================================== *)

(** The fragment of ECMAScript regular expressions the source uses, with
    the backtracking order of the language: a matcher returns every way to
    match from a position, best first, and the first one is the match. *)
Module Regex.

(** A member of a character class. *)
Inductive item : Type :=
| IChar (c : ascii)          (* a character *)
| ISpace.                    (* \s *)

(** What matches one code unit. *)
Inductive atom : Type :=
| Chr (c : ascii)                      (* a pattern character *)
| Class (negated : bool) (items : list item)   (* [...] and [^...] *)
| Dot.                                 (* . *)

Inductive re : Type :=
| Eps
| Atom (a : atom)
| Seq (r1 r2 : re)
| Alt (r1 r2 : re)
| Group (r : re)                       (* the capturing group, number 1 *)
| Rep (min : nat) (a : atom)           (* greedy a{min,}: * is 0, + is 1 *)
| Bol                                  (* ^ *)
| Eol.                                 (* $ *)

Record flags : Type := mkFlags { ignoreCase : bool; multiline : bool }.

(** A position in the subject: its index, the code unit before it, the
    rest of the subject, and the capture made so far. *)
Record state : Type := mkState {
  idx : nat;
  prev : option ascii;
  rest : string;
  cap : option string
}.

Definition isLineTerminator (c : ascii) : bool :=
  (code c =? 10) || (code c =? 13).

(** Canonicalize of the language, for the [i] flag. *)
Definition canon (fl : flags) (c : ascii) : ascii :=
  if ignoreCase fl then upperChar c else c.

Definition itemMatches (fl : flags) (i : item) (c : ascii) : bool :=
  match i with
  | IChar a => Ascii.eqb (canon fl a) (canon fl c)
  | ISpace => isSpace c
  end.

Definition atomMatches (fl : flags) (a : atom) (c : ascii) : bool :=
  match a with
  | Chr a => Ascii.eqb (canon fl a) (canon fl c)
  | Class neg items => xorb neg (existsb (fun i => itemMatches fl i c) items)
  | Dot => negb (isLineTerminator c)
  end.

(** The first [n] code units. *)
Fixpoint take (n : nat) (s : string) : string :=
  match n, s with
  | S n', String c s' => String c (take n' s')
  | _, _ => EmptyString
  end.

Fixpoint drop (n : nat) (s : string) : string :=
  match n, s with
  | S n', String _ s' => drop n' s'
  | _, _ => s
  end.

(** Greedy repetition of one atom: longest first. *)
Fixpoint rep (p : ascii -> bool) (min : nat) (i : nat) (pv : option ascii)
         (s : string) (cp : option string) : list state :=
  (match s with
   | String c s' =>
       if p c then rep p (Nat.pred min) (S i) (Some c) s' cp else []
   | EmptyString => []
   end)
  ++ (if min =? 0 then [mkState i pv s cp] else []).

Definition atLineStart (fl : flags) (st : state) : bool :=
  match prev st with
  | None => true
  | Some c => multiline fl && isLineTerminator c
  end.

Definition atLineEnd (fl : flags) (st : state) : bool :=
  match rest st with
  | EmptyString => true
  | String c _ => multiline fl && isLineTerminator c
  end.

Fixpoint run (fl : flags) (r : re) (st : state) : list state :=
  match r with
  | Eps => [st]
  | Atom a =>
      match rest st with
      | String c s' =>
          if atomMatches fl a c
          then [mkState (S (idx st)) (Some c) s' (cap st)] else []
      | EmptyString => []
      end
  | Seq r1 r2 => flat_map (run fl r2) (run fl r1 st)
  | Alt r1 r2 => run fl r1 st ++ run fl r2 st
  | Group r1 =>
      map (fun st' =>
             mkState (idx st') (prev st') (rest st')
                     (Some (take (idx st' - idx st) (rest st))))
          (run fl r1 st)
  | Rep min a => rep (atomMatches fl a) min (idx st) (prev st) (rest st) (cap st)
  | Bol => if atLineStart fl st then [st] else []
  | Eol => if atLineEnd fl st then [st] else []
  end.

(** A match: where it starts and ends, and what group 1 captured. *)
Record result : Type := mkResult {
  index : nat;
  stop : nat;
  group1 : option string
}.

(** Leftmost match at or after a position. *)
Fixpoint search (fl : flags) (r : re) (i : nat) (pv : option ascii)
         (s : string) : option result :=
  match run fl r (mkState i pv s None) with
  | st' :: _ => Some (mkResult i (idx st') (cap st'))
  | [] =>
      match s with
      | String c s' => search fl r (S i) (Some c) s'
      | EmptyString => None
      end
  end.

(** Move to index [n] of the subject, if it has one. *)
Fixpoint seek (n : nat) (i : nat) (pv : option ascii) (s : string)
  : option (nat * option ascii * string) :=
  match n with
  | 0 => Some (i, pv, s)
  | S n' =>
      match s with
      | String c s' => seek n' (S i) (Some c) s'
      | EmptyString => None
      end
  end.

(** [RegExp.prototype.exec] from [lastIndex]; [None] is [null]. *)
Definition exec (fl : flags) (r : re) (s : string) (lastIndex : nat)
  : option result :=
  match seek lastIndex 0 None s with
  | Some (i, pv, s') => search fl r i pv s'
  | None => None
  end.

(** [while ((match = pattern.exec(content)) !== null) body] for a global
    pattern.  The loop ends when [exec] returns [null]; [None] is the
    loop that runs out of fuel. *)
Fixpoint whileExec {S : Type} (fuel : nat) (fl : flags) (r : re)
         (s : string) (lastIndex : nat) (body : result -> S -> S) (acc : S)
  : option S :=
  match fuel with
  | 0 => None
  | S fuel' =>
      match exec fl r s lastIndex with
      | None => Some acc
      | Some m => whileExec fuel' fl r s (stop m) body (body m acc)
      end
  end.

(** [s.match(r)] for a pattern without the [g] flag. *)
Definition matchFirst (fl : flags) (r : re) (s : string) : option result :=
  exec fl r s 0.

(** A literal string as a pattern. *)
Fixpoint lit (s : string) : re :=
  match s with
  | EmptyString => Eps
  | String c EmptyString => Atom (Chr c)
  | String c s' => Seq (Atom (Chr c)) (lit s')
  end.

Definition space : atom := Class false [ISpace].
Definition notSpace : atom := Class true [ISpace].

End Regex.

(* ================================================================== *)
(** * JSON *)
(* ================================================================== *)

(** [JSON.stringify(v, null, 2)] and [JSON.parse] of ECMAScript on the
    JavaScript values the program serializes.  A [Num] is an integral
    number, printed in decimal (the language does so below 10^21 and reads
    it back exactly up to 2^53); property keys that are array indices,
    which JavaScript objects reorder, are outside the model. *)
Module Json.

#[local] Unset Elimination Schemes.
Inductive value : Type :=
| Null
| Bool (b : bool)
| Num (z : Z)
| Str (s : string)
| DateObj (d : Date)
| Arr (items : list value)
| Obj (props : list (string * value)).
#[local] Set Elimination Schemes.

(** ** Numbers *)

Definition digit (d : Z) : ascii := ascii_of_nat (48 + Z.to_nat d).

Fixpoint digits (fuel : nat) (n : Z) (acc : string) : string :=
  match fuel with
  | 0 => acc
  | S fuel' =>
      let acc' := String (digit (n mod 10)) acc in
      if (n / 10 =? 0)%Z then acc' else digits fuel' (n / 10) acc'
  end.

(** Decimal digits of [n >= 0]. *)
Definition natToString (n : Z) : string :=
  digits (S (Z.to_nat (Z.log2 n))) n EmptyString.

(** Number::toString for an integer. *)
Definition numberToString (z : Z) : string :=
  if (z <? 0)%Z then String "-" (natToString (- z)) else natToString z.

(** [n] in decimal, padded with zeros to [width] digits. *)
Fixpoint pad (width : nat) (s : string) : string :=
  match width - String.length s with
  | 0 => s
  | S _ =>
      match width with
      | 0 => s
      | S w => String "0" (pad w s)
      end
  end.

Definition padded (width : nat) (n : Z) : string := pad width (natToString n).

(** ** Dates *)

Definition msPerDay : Z := 86400000.

(** Year, month and day of a day number (days since 1970-01-01) in the
    proleptic Gregorian calendar. *)
Definition civilFromDays (days : Z) : Z * Z * Z :=
  (let z := days + 719468 in
   let era := z / 146097 in
   let doe := z - era * 146097 in
   let yoe := (doe - doe / 1460 + doe / 36524 - doe / 146096) / 365 in
   let doy := doe - (365 * yoe + yoe / 4 - yoe / 100) in
   let mp := (5 * doy + 2) / 153 in
   let d := doy - (153 * mp + 2) / 5 + 1 in
   let m := if mp <? 10 then mp + 3 else mp - 9 in
   let y := yoe + era * 400 + (if m <=? 2 then 1 else 0) in
   (y, m, d))%Z.

(** [Date.prototype.toISOString]. *)
Definition yearString (y : Z) : string :=
  if ((0 <=? y) && (y <=? 9999))%Z then padded 4 y
  else if (y <? 0)%Z then String "-" (padded 6 (- y))
  else String "+" (padded 6 y).

Definition toISOString (ms : Z) : string :=
  let day := (ms / msPerDay)%Z in
  let t := (ms mod msPerDay)%Z in
  let '(y, m, d) := civilFromDays day in
  (yearString y ++ "-" ++ padded 2 m ++ "-" ++ padded 2 d ++ "T"
     ++ padded 2 (t / 3600000) ++ ":"
     ++ padded 2 ((t / 60000) mod 60) ++ ":"
     ++ padded 2 ((t / 1000) mod 60) ++ "."
     ++ padded 3 (t mod 1000) ++ "Z")%string.

(** ** Strings *)

Definition hexDigit (n : nat) : ascii :=
  if n <? 10 then ascii_of_nat (48 + n) else ascii_of_nat (87 + n).

Definition quoteChar : ascii := ascii_of_nat 34.
Definition backslash : ascii := ascii_of_nat 92.

(** One code unit inside a JSON string literal (QuoteJSONString). *)
Definition escape (c : ascii) : string :=
  let n := code c in
  if n =? 8 then String backslash "b"
  else if n =? 9 then String backslash "t"
  else if n =? 10 then String backslash "n"
  else if n =? 12 then String backslash "f"
  else if n =? 13 then String backslash "r"
  else if n =? 34 then String backslash (String quoteChar EmptyString)
  else if n =? 92 then String backslash (String backslash EmptyString)
  else if n <? 32 then
    String backslash
      (String "u" (String "0" (String "0"
         (String (hexDigit (n / 16)) (String (hexDigit (n mod 16)) EmptyString)))))
  else String c EmptyString.

Fixpoint escapeAll (s : string) : string :=
  match s with
  | EmptyString => EmptyString
  | String c s' => (escape c ++ escapeAll s')%string
  end.

Definition quote (s : string) : string :=
  String quoteChar (escapeAll s ++ String quoteChar EmptyString)%string.

(** ** Serialization *)

Definition gap : string := "  ".

(** SerializeJSONProperty with the current indentation. *)
Fixpoint serialize (indent : string) (v : value) : string :=
  let stepback := indent in
  let indent := (indent ++ gap)%string in
  let separator := ("," ++ nl ++ indent)%string in
  match v with
  | Null => "null"
  | Bool true => "true"
  | Bool false => "false"
  | Num z => numberToString z
  | Str s => quote s
  | DateObj (ValidDate ms) => quote (toISOString ms)   (* toJSON *)
  | DateObj InvalidDate => "null"
  | Arr [] => "[]"
  | Arr items =>
      ("[" ++ nl ++ indent
           ++ join separator (map (serialize indent) items)
           ++ nl ++ stepback ++ "]")%string
  | Obj [] => "{}"
  | Obj props =>
      ("{" ++ nl ++ indent
           ++ join separator
                (map (fun kv => quote (fst kv) ++ ": " ++ serialize indent (snd kv))
                     props)
           ++ nl ++ stepback ++ "}")%string
  end.

(** [JSON.stringify(v, null, 2)]. *)
Definition stringify (v : value) : string := serialize EmptyString v.

(** ** Parsing *)

Definition isWs (c : ascii) : bool :=
  let n := code c in (n =? 32) || (n =? 9) || (n =? 10) || (n =? 13).

Fixpoint skipWs (s : string) : string :=
  match s with
  | String c s' => if isWs c then skipWs s' else s
  | EmptyString => s
  end.

Definition hexValue (c : ascii) : option nat :=
  let n := code c in
  if (48 <=? n) && (n <=? 57) then Some (n - 48)
  else if (97 <=? n) && (n <=? 102) then Some (n - 87)
  else if (65 <=? n) && (n <=? 70) then Some (n - 55)
  else None.

(** The code unit of a one-letter escape. *)
Definition unescape (e : ascii) : option ascii :=
  let n := code e in
  if n =? 34 then Some quoteChar
  else if n =? 92 then Some backslash
  else if n =? 47 then Some "/"%char
  else if n =? 98 then Some (ascii_of_nat 8)
  else if n =? 102 then Some (ascii_of_nat 12)
  else if n =? 110 then Some (ascii_of_nat 10)
  else if n =? 114 then Some (ascii_of_nat 13)
  else if n =? 116 then Some (ascii_of_nat 9)
  else None.

Definition consTo (c : ascii) (r : option (string * string))
  : option (string * string) :=
  match r with
  | Some (s, rest) => Some (String c s, rest)
  | None => None
  end.

(** The characters of a string literal after its opening quote, and what
    follows the closing quote.  A \u escape above U+00FF is refused: the
    model has no such code unit. *)
Fixpoint parseChars (s : string) : option (string * string) :=
  match s with
  | EmptyString => None
  | String c s' =>
      if code c =? 34 then Some (EmptyString, s')
      else if code c =? 92 then
        match s' with
        | String e s'' =>
            match unescape e with
            | Some ch => consTo ch (parseChars s'')
            | None =>
                if code e =? 117 then
                  match s'' with
                  | String h1 (String h2 (String h3 (String h4 t))) =>
                      match hexValue h1, hexValue h2, hexValue h3, hexValue h4 with
                      | Some 0, Some 0, Some a, Some b =>
                          consTo (ascii_of_nat (16 * a + b)) (parseChars t)
                      | _, _, _, _ => None
                      end
                  | _ => None
                  end
                else None
            end
        | EmptyString => None
        end
      else if code c <? 32 then None
      else consTo c (parseChars s')
  end.

Definition isDigit (c : ascii) : bool := (48 <=? code c) && (code c <=? 57).

(** Reads decimal digits onto [acc]. *)
Fixpoint parseDigits (acc : Z) (s : string) : Z * string :=
  match s with
  | String c s' =>
      if isDigit c then parseDigits (acc * 10 + Z.of_nat (code c - 48)) s'
      else (acc, s)
  | EmptyString => (acc, s)
  end.

(** An integer numeral: a leading zero stands alone. *)
Definition parseNat (s : string) : option (Z * string) :=
  match s with
  | String c s' =>
      if code c =? 48 then Some (0%Z, s')
      else if isDigit c then Some (parseDigits 0 s)
      else None
  | EmptyString => None
  end.

Definition parseNumber (s : string) : option (Z * string) :=
  match s with
  | String c s' =>
      if code c =? 45 then
        match parseNat s' with
        | Some (n, rest) => Some ((- n)%Z, rest)
        | None => None
        end
      else parseNat s
  | EmptyString => None
  end.

(** Defining a property: a repeated key keeps its place and takes the
    later value. *)
Fixpoint define (k : string) (v : value) (props : list (string * value))
  : list (string * value) :=
  match props with
  | [] => [(k, v)]
  | (k', v') :: props' =>
      if String.eqb k k' then (k, v) :: props'
      else (k', v') :: define k v props'
  end.

Definition keyword (w : string) (v : value) (s : string)
  : option (value * string) :=
  if startsWith s w then Some (v, Regex.drop (String.length w) s) else None.

Fixpoint parseValue (fuel : nat) (s : string) : option (value * string) :=
  match fuel with
  | 0 => None
  | S fuel' =>
      match skipWs s with
      | EmptyString => None
      | String c s1 =>
          if code c =? 123 then                       (* { *)
            match skipWs s1 with
            | String c2 s2 =>
                if code c2 =? 125 then Some (Obj [], s2)
                else
                  match parseMembers fuel' s1 with
                  | Some (kvs, rest) =>
                      Some (Obj (fold_left (fun o kv => define (fst kv) (snd kv) o)
                                           kvs []), rest)
                  | None => None
                  end
            | EmptyString => None
            end
          else if code c =? 91 then                   (* [ *)
            match skipWs s1 with
            | String c2 s2 =>
                if code c2 =? 93 then Some (Arr [], s2)
                else
                  match parseElements fuel' s1 with
                  | Some (vs, rest) => Some (Arr vs, rest)
                  | None => None
                  end
            | EmptyString => None
            end
          else if code c =? 34 then
            match parseChars s1 with
            | Some (str, rest) => Some (Str str, rest)
            | None => None
            end
          else if code c =? 116 then keyword "true" (Bool true) (String c s1)
          else if code c =? 102 then keyword "false" (Bool false) (String c s1)
          else if code c =? 110 then keyword "null" Null (String c s1)
          else
            match parseNumber (String c s1) with
            | Some (z, rest) => Some (Num z, rest)
            | None => None
            end
      end
  end

with parseElements (fuel : nat) (s : string) : option (list value * string) :=
  match fuel with
  | 0 => None
  | S fuel' =>
      match parseValue fuel' s with
      | Some (v, s1) =>
          match skipWs s1 with
          | String c s2 =>
              if code c =? 44 then
                match parseElements fuel' s2 with
                | Some (vs, rest) => Some (v :: vs, rest)
                | None => None
                end
              else if code c =? 93 then Some ([v], s2)
              else None
          | EmptyString => None
          end
      | None => None
      end
  end

with parseMembers (fuel : nat) (s : string)
  : option (list (string * value) * string) :=
  match fuel with
  | 0 => None
  | S fuel' =>
      match skipWs s with
      | String q s0 =>
          if code q =? 34 then
            match parseChars s0 with
            | Some (k, s1) =>
                match skipWs s1 with
                | String colon s2 =>
                    if code colon =? 58 then
                      match parseValue fuel' s2 with
                      | Some (v, s3) =>
                          match skipWs s3 with
                          | String c s4 =>
                              if code c =? 44 then
                                match parseMembers fuel' s4 with
                                | Some (kvs, rest) => Some ((k, v) :: kvs, rest)
                                | None => None
                                end
                              else if code c =? 125 then Some ([(k, v)], s4)
                              else None
                          | EmptyString => None
                          end
                      | None => None
                      end
                    else None
                | EmptyString => None
                end
            | None => None
            end
          else None
      | EmptyString => None
      end
  end.

(** [JSON.parse]: [None] is a SyntaxError. *)
Definition parse (text : string) : option value :=
  match parseValue (S (String.length text)) text with
  | Some (v, rest) =>
      match skipWs rest with
      | EmptyString => Some v
      | String _ _ => None
      end
  | None => None
  end.

(** What [toJSON] makes of the dates inside a value. *)
Fixpoint dateless (v : value) : value :=
  match v with
  | DateObj (ValidDate ms) => Str (toISOString ms)
  | DateObj InvalidDate => Null
  | Arr items => Arr (map dateless items)
  | Obj props => Obj (map (fun kv => (fst kv, dateless (snd kv))) props)
  | _ => v
  end.

End Json.

(* ================================================================== *)
(** * Paths (node:path, POSIX flavour) *)
(* ================================================================== *)

Module Path.

Definition isSlash (c : ascii) : bool := code c =? 47.
Definition isDot (c : ascii) : bool := code c =? 46.

Fixpoint stripTrailingSlashes (s : string) : string :=
  match s with
  | EmptyString => EmptyString
  | String c s' =>
      match stripTrailingSlashes s' with
      | EmptyString => if isSlash c then EmptyString else String c EmptyString
      | t => String c t
      end
  end.

Fixpoint afterLastSlash (s : string) : string :=
  match s with
  | EmptyString => EmptyString
  | String c s' =>
      if includes s' "/" then afterLastSlash s'
      else if isSlash c then s' else s
  end.

(** [path.basename(p)]. *)
Definition basename (p : string) : string :=
  afterLastSlash (stripTrailingSlashes p).

(** Index of the last dot and the text from it on. *)
Fixpoint lastDot (s : string) : option (nat * string) :=
  match s with
  | EmptyString => None
  | String c s' =>
      match lastDot s' with
      | Some (i, e) => Some (S i, e)
      | None => if isDot c then Some (0, s) else None
      end
  end.

(** [path.extname(p)]: from the last dot of the base name, unless that
    dot opens the base name or the base name is [..]. *)
Definition extname (p : string) : string :=
  let b := basename p in
  match lastDot b with
  | None => EmptyString
  | Some (i, e) => if (i =? 0) || String.eqb b ".." then EmptyString else e
  end.

Fixpoint normalizeSegments (allowAboveRoot : bool) (segs : list string)
         (res : list string) : list string :=
  match segs with
  | [] => rev res
  | seg :: segs' =>
      if String.eqb seg "" || String.eqb seg "." then
        normalizeSegments allowAboveRoot segs' res
      else if String.eqb seg ".." then
        match res with
        | top :: res' =>
            if String.eqb top ".." then
              normalizeSegments allowAboveRoot segs'
                (if allowAboveRoot then ".." :: res else res)
            else normalizeSegments allowAboveRoot segs' res'
        | [] =>
            normalizeSegments allowAboveRoot segs'
              (if allowAboveRoot then [".."] else [])
        end
      else normalizeSegments allowAboveRoot segs' (seg :: res)
  end.

Fixpoint endsWithSlash (s : string) : bool :=
  match s with
  | EmptyString => false
  | String c EmptyString => isSlash c
  | String _ s' => endsWithSlash s'
  end.

(** [path.normalize(p)]. *)
Definition normalize (p : string) : string :=
  match p with
  | EmptyString => "."
  | String c _ =>
      let isAbsolute := isSlash c in
      let trailingSeparator := endsWithSlash p in
      let body :=
        join "/" (normalizeSegments (negb isAbsolute) (split "/"%char p) []) in
      match body with
      | EmptyString =>
          if isAbsolute then "/" else if trailingSeparator then "./" else "."
      | _ =>
          ((if isAbsolute then "/" else "") ++ body
             ++ (if trailingSeparator then "/" else ""))%string
      end
  end.

(** [path.join(a, b)]. *)
Definition join (a b : string) : string :=
  match a, b with
  | EmptyString, EmptyString => "."
  | EmptyString, _ => normalize b
  | _, EmptyString => normalize a
  | _, _ => normalize (a ++ "/" ++ b)%string
  end.

End Path.

(* ================================================================== *)
(** * The outside world *)
(* ================================================================== *)

(** What a computation comes to. *)
Inductive outcome (A : Type) : Type :=
| Ok (a : A)
| Throws
| Diverges.
Arguments Ok {A} a.
Arguments Throws {A}.
Arguments Diverges {A}.

Definition bind {A B} (m : outcome A) (f : A -> outcome B) : outcome B :=
  match m with
  | Ok a => f a
  | Throws => Throws
  | Diverges => Diverges
  end.

Notation "x <- m ;; k" := (bind m (fun x => k))
  (at level 61, m at next level, right associativity).

(** What discovery sees at a path: something that is not a directory (a
    regular file), a directory with its entries in [readdirSync] order, a
    directory that [readdirSync] cannot list (no permission to read it),
    or an entry that [statSync] cannot reach (a dangling link, a path
    that has grown too long through links that loop). *)
#[local] Unset Elimination Schemes.
Inductive FsNode : Type :=
| FsFile
| FsDir (items : list (string * FsNode))
| FsUnreadable
| FsDangling.
#[local] Set Elimination Schemes.

Record Stats : Type := mkStats { st_size : Z; st_mtime : Date }.

(** The file system and the decoders.  [None] is a thrown exception.
    - [lookup] is what discovery finds at a root path ([None]: nothing).
    - [statSync] and [readFileSync] are asked again, by path, for each
      discovered file: a file may have gone since discovery.
    - [mammoth] is the value of [extractRawText], [xml2js] the tree of
      [parseString], which the program prints with [JSON.stringify].
    - [pdfjs] gives the text fragments of each page, a page being [None]
      when fetching it or its text throws.
    - [writeError] tells, by path, whether [writeFileSync] throws there:
      [Some remains] when it does, [remains] being what the file holds
      afterwards ([None]: no file).
    Each of these calls returns or throws.  A call that never returns (a
    read of a named pipe that nobody writes to) has no place in a
    [World]: what is proved of a run is proved of the runs whose system
    and decoder calls come back. *)
Record World : Type := mkWorld {
  lookup : string -> option FsNode;
  statSync : string -> option Stats;
  readFileSync : string -> option string;
  mammoth : string -> option string;
  xml2js : string -> option Json.value;
  pdfjs : string -> option (list (option (list string)));
  writeError : string -> option (option string)
}.

(** [fs.existsSync]: a dangling link does not exist. *)
Definition existsSync (w : World) (p : string) : bool :=
  match lookup w p with
  | Some FsFile | Some (FsDir _) | Some FsUnreadable => true
  | Some FsDangling | None => false
  end.

(* ================================================================== *)
(** * DocumentProcessor *)
(* ================================================================== *)

Record DocumentProcessor : Type := mkProcessor {
  documentsPath : string;
  knowledge : KB
}.

(** The constructor (lines 59-67). *)
Definition newDocumentProcessor (documentsPath : string) : DocumentProcessor :=
  mkProcessor documentsPath ProcessedKnowledge.empty.

(** [getKnowledge] (lines 373-375). *)
Definition getKnowledge (p : DocumentProcessor) : KB := knowledge p.

(** ** File discovery *)

(** [isSupportedFile] (lines 110-113). *)
Definition isSupportedFile (filename : string) : bool :=
  let ext := toLowerCase (Path.extname filename) in
  existsb (String.eqb ext) [".docx"; ".xml"; ".pdf"].

(** The body of [getAllFiles] at a path where the file system has [node]. *)
Fixpoint getAllFilesAt (dirPath : string) (node : FsNode) : outcome (list string) :=
  match node with
  | FsDangling => Ok []                       (* !fs.existsSync(dirPath) *)
  | FsFile => Throws                          (* readdirSync: ENOTDIR *)
  | FsUnreadable => Throws                    (* readdirSync: EACCES *)
  | FsDir items =>
      (fix each (items : list (string * FsNode)) (files : list string)
         : outcome (list string) :=
         match items with
         | [] => Ok files
         | (item, child) :: items' =>
             let fullPath := Path.join dirPath item in
             match child with
             | FsDangling => Throws           (* statSync throws *)
             | FsDir _ | FsUnreadable =>
                 sub <- getAllFilesAt fullPath child ;;
                 each items' (files ++ sub)
             | FsFile =>
                 if isSupportedFile item then each items' (files ++ [fullPath])
                 else each items' files
             end
         end) items []
  end.

(** [getAllFiles] (lines 87-108). *)
Definition getAllFiles (w : World) (dirPath : string) : outcome (list string) :=
  if negb (existsSync w dirPath) then Ok []
  else
    match lookup w dirPath with
    | Some node => getAllFilesAt dirPath node
    | None => Ok []
    end.

(** ** Text extraction *)

(** [processDOCX] (lines 159-168). *)
Definition processDOCX (w : World) (filePath : string) : string :=
  match readFileSync w filePath with
  | Some buffer =>
      match mammoth w buffer with
      | Some value => value
      | None => ("Error processing DOCX: " ++ filePath)%string
      end
  | None => ("Error processing DOCX: " ++ filePath)%string
  end.

(** [processXML] (lines 170-184): a parse failure gives the raw text. *)
Definition processXML (w : World) (filePath : string) : string :=
  match readFileSync w filePath with
  | Some content =>
      match xml2js w content with
      | Some parsed => Json.stringify parsed
      | None => content
      end
  | None => ("Error processing XML: " ++ filePath)%string
  end.

(** The page loop of [processPDF] (lines 195-200). *)
Fixpoint pdfPages (pages : list (option (list string))) (text : string)
  : option string :=
  match pages with
  | [] => Some text
  | None :: _ => None
  | Some items :: pages' =>
      let pageText := join " " items in
      pdfPages pages' (text ++ pageText ++ nl)%string
  end.

(** [processPDF] (lines 186-207). *)
Definition processPDF (w : World) (filePath : string) : string :=
  match readFileSync w filePath with
  | Some buffer =>
      match pdfjs w buffer with
      | Some pages =>
          match pdfPages pages EmptyString with
          | Some text => text
          | None => ("Error processing PDF: " ++ filePath)%string
          end
      | None => ("Error processing PDF: " ++ filePath)%string
      end
  | None => ("Error processing PDF: " ++ filePath)%string
  end.

(** ** Title *)

Import Regex.

Definition noFlags : flags := mkFlags false false.
Definition flag_i : flags := mkFlags true false.
Definition flag_m : flags := mkFlags false true.

(** [/\.[^/.]+$/] *)
Definition extensionPattern : re :=
  Seq (Atom (Chr ".")) (Seq (Rep 1 (Class true [IChar "/"; IChar "."])) Eol).

(** [/^#\s*(.+)$/m], [/^Title:\s*(.+)$/m] and [/^(.+)\n={3,}$/m]. *)
Definition titlePatterns : list re :=
  [ Seq Bol (Seq (Atom (Chr "#")) (Seq (Rep 0 space) (Seq (Group (Rep 1 Dot)) Eol)));
    Seq Bol (Seq (lit "Title:") (Seq (Rep 0 space) (Seq (Group (Rep 1 Dot)) Eol)));
    Seq Bol (Seq (Group (Rep 1 Dot))
                 (Seq (Atom (Chr LF)) (Seq (Rep 3 (Chr "=")) Eol))) ].

(** [s.replace(r, "")] for a pattern without the [g] flag. *)
Definition removeFirst (fl : flags) (r : re) (s : string) : string :=
  match matchFirst fl r s with
  | Some m => (take (index m) s ++ drop (stop m) s)%string
  | None => s
  end.

Definition captured (m : result) : string :=
  match group1 m with
  | Some g => g
  | None => EmptyString
  end.

(** The [for ... break] loop of [extractTitle]. *)
Fixpoint firstTitle (patterns : list re) (content : string) (title : string)
  : string :=
  match patterns with
  | [] => title
  | pattern :: patterns' =>
      match matchFirst flag_m pattern content with
      | Some m => trim (captured m)
      | None => firstTitle patterns' content title
      end
  end.

(** [extractTitle] (lines 209-229). *)
Definition extractTitle (filename content : string) : string :=
  let title := removeFirst noFlags extensionPattern filename in
  firstTitle titlePatterns content title.

(** ** Documents *)

(** [processDocument] (lines 115-157).  [statSync] is outside the [try];
    nothing inside it throws, so the [catch] is never entered. *)
Definition processDocument (w : World) (filePath : string)
  : outcome (option Doc) :=
  match statSync w filePath with
  | None => Throws
  | Some stat =>
      let ext := toLowerCase (Path.extname filePath) in
      let filename := Path.basename filePath in
      let make (type : DocType) (content : string) : outcome (option Doc) :=
        Ok (Some (DocumentContent.mk
                    filename
                    (extractTitle filename content)
                    content
                    type
                    (categorizeDocument filename)
                    (Metadata.mk (st_size stat) (st_mtime stat) filePath))) in
      if String.eqb ext ".docx" then make docx (processDOCX w filePath)
      else if String.eqb ext ".xml" then make xml (processXML w filePath)
      else if String.eqb ext ".pdf" then make pdf (processPDF w filePath)
      else Ok None
  end.

(** ** Structured extraction *)

Definition pushDocument (d : Doc) (kb : KB) : KB :=
  ProcessedKnowledge.mk
    (ProcessedKnowledge.documents kb ++ [d])
    (ProcessedKnowledge.endpoints kb)
    (ProcessedKnowledge.examples kb)
    (ProcessedKnowledge.rules kb).

Definition pushEndpoint (e : EndpointInfo.t) (kb : KB) : KB :=
  ProcessedKnowledge.mk
    (ProcessedKnowledge.documents kb)
    (ProcessedKnowledge.endpoints kb ++ [e])
    (ProcessedKnowledge.examples kb)
    (ProcessedKnowledge.rules kb).

Definition pushExample (e : ExampleInfo.t) (kb : KB) : KB :=
  ProcessedKnowledge.mk
    (ProcessedKnowledge.documents kb)
    (ProcessedKnowledge.endpoints kb)
    (ProcessedKnowledge.examples kb ++ [e])
    (ProcessedKnowledge.rules kb).

Definition pushRule (r : RuleInfo.t) (kb : KB) : KB :=
  ProcessedKnowledge.mk
    (ProcessedKnowledge.documents kb)
    (ProcessedKnowledge.endpoints kb)
    (ProcessedKnowledge.examples kb)
    (ProcessedKnowledge.rules kb ++ [r]).

(** [extractOperationName] (lines 327-331). *)
Definition extractOperationName (endpoint category : string) : string :=
  let parts := split "/"%char endpoint in
  let lastPart := last parts EmptyString in
  (category ++ " - " ++ lastPart)%string.

(** The [for] loop of [extractEndpointDescription], from line [i] for
    [count] lines. *)
Fixpoint descriptionFrom (lines : list string) (endpoint : string)
         (i count : nat) : option string :=
  match count with
  | 0 => None
  | S count' =>
      let line := trim (nth i lines EmptyString) in
      if negb (String.eqb line EmptyString)
         && negb (includes line endpoint)
         && (20 <? String.length line)
      then Some line
      else descriptionFrom lines endpoint (S i) count'
  end.

(** [extractEndpointDescription] (lines 333-348).  The loop runs over
    [max(0, endpointLine - 3) <= i < min(lines.length, endpointLine + 3)];
    subtraction on [nat] stops at 0. *)
Definition extractEndpointDescription (content endpoint : string) : string :=
  let lines := split LF content in
  match findIndex (fun line => includes line endpoint) lines with
  | Some endpointLine =>
      let lo := Nat.max 0 (endpointLine - 3) in
      let hi := Nat.min (List.length lines) (endpointLine + 3) in
      match descriptionFrom lines endpoint lo (hi - lo) with
      | Some line => line
      | None => (endpoint ++ " endpoint")%string
      end
  | None => (endpoint ++ " endpoint")%string
  end.

Definition verbs : re :=
  Alt (lit "POST") (Alt (lit "GET") (Alt (lit "PUT") (lit "DELETE"))).

(** [extractMethod] (lines 350-353): the pattern is
    [(POST|GET|PUT|DELETE)\s+] followed by the endpoint, every special
    character of which is escaped, with the [i] flag. *)
Definition extractMethod (content endpoint : string) : string :=
  let pattern := Seq (Group verbs) (Seq (Rep 1 space) (lit endpoint)) in
  match matchFirst flag_i pattern content with
  | Some methodMatch => toUpperCase (captured methodMatch)
  | None => "POST"
  end.

(** [/(?:POST|GET|PUT|DELETE)\s+([^\s]+)/g], [/endpoint[:\s]+([^\s]+)/gi]
    and [/url[:\s]+([^\s]+)/gi]. *)
Definition colonOrSpace : atom := Class false [IChar ":"; ISpace].

Definition verbTokenPattern : re :=
  Seq verbs (Seq (Rep 1 space) (Group (Rep 1 notSpace))).

Definition endpointTokenPattern : re :=
  Seq (lit "endpoint") (Seq (Rep 1 colonOrSpace) (Group (Rep 1 notSpace))).

Definition urlTokenPattern : re :=
  Seq (lit "url") (Seq (Rep 1 colonOrSpace) (Group (Rep 1 notSpace))).

Definition endpointPatterns : list (flags * re) :=
  [ (noFlags, verbTokenPattern);
    (flag_i, endpointTokenPattern);
    (flag_i, urlTokenPattern) ].

(** The body of the [while] loop of [extractEndpoints] (lines 271-281). *)
Definition endpointBody (doc : Doc) (m : result) (kb : KB) : KB :=
  let content := DocumentContent.content doc in
  match group1 m with
  | Some endpoint =>
      if negb (String.eqb endpoint EmptyString) && includes endpoint "/" then
        pushEndpoint
          (EndpointInfo.mk
             (extractOperationName endpoint (DocumentContent.category doc))
             (extractEndpointDescription content endpoint)
             (extractMethod content endpoint)
             endpoint
             (DocumentContent.category doc)
             (DocumentContent.filename doc))
          kb
      else kb
  | None => kb
  end.

(** [for (const pattern of patterns) while (match = pattern.exec(content))]:
    each pattern is a fresh object, so its [lastIndex] starts at 0.  A loop
    whose matches are never empty moves [lastIndex] forward each time and
    ends within the fuel given here; [None] is left for a loop that would
    not end. *)
Fixpoint forEachPattern (patterns : list (flags * re)) (content : string)
         (body : result -> KB -> KB) (kb : KB) : option KB :=
  match patterns with
  | [] => Some kb
  | (fl, pattern) :: patterns' =>
      match whileExec (S (String.length content)) fl pattern content 0 body kb with
      | Some kb' => forEachPattern patterns' content body kb'
      | None => None
      end
  end.

(** [extractEndpoints] (lines 258-284). *)
Definition extractEndpoints (doc : Doc) (kb : KB) : option KB :=
  forEachPattern endpointPatterns (DocumentContent.content doc) (endpointBody doc) kb.

(** [extractExamples] (lines 286-301). *)
Definition extractExamples (doc : Doc) (kb : KB) : KB :=
  match DocumentContent.type doc with
  | xml =>
      let isRequest := includes (toLowerCase (DocumentContent.filename doc)) "request" in
      let isResponse := includes (toLowerCase (DocumentContent.filename doc)) "response" in
      if isRequest || isResponse then
        pushExample
          (ExampleInfo.mk
             (DocumentContent.title doc)
             (if isRequest then request else response)
             (DocumentContent.content doc)
             (extractOperationFromFilename (DocumentContent.filename doc))
             (DocumentContent.filename doc))
          kb
      else kb
  | _ => kb
  end.

(** [/rule[:\s]+([^\n]+)/gi], [/validation[:\s]+([^\n]+)/gi],
    [/must[:\s]+([^\n]+)/gi] and [/should[:\s]+([^\n]+)/gi]. *)
Definition restOfLine : re := Group (Rep 1 (Class true [IChar LF])).

(** A cue word, colons or white space, and the capture. *)
Definition cuePattern (cue : string) : re :=
  Seq (lit cue) (Seq (Rep 1 colonOrSpace) restOfLine).

Definition rulePatterns : list (flags * re) :=
  [ (flag_i, cuePattern "rule");
    (flag_i, cuePattern "validation");
    (flag_i, cuePattern "must");
    (flag_i, cuePattern "should") ].

(** The body of the [while] loop of [extractRules] (lines 316-321). *)
Definition ruleBody (doc : Doc) (m : result) (kb : KB) : KB :=
  pushRule
    (RuleInfo.mk
       (trim (captured m))
       (trim (captured m))
       "Validation"
       (DocumentContent.filename doc))
    kb.

(** [extractRules] (lines 303-325). *)
Definition extractRules (doc : Doc) (kb : KB) : option KB :=
  if String.eqb (DocumentContent.category doc) "Validation Rules" then
    forEachPattern rulePatterns (DocumentContent.content doc) (ruleBody doc) kb
  else Some kb.

(** [extractStructuredInfo] (lines 252-256). *)
Definition extractStructuredInfo (doc : Doc) (kb : KB) : option KB :=
  match extractEndpoints doc kb with
  | Some kb1 => extractRules doc (extractExamples doc kb1)
  | None => None
  end.

(** ** The pipeline *)

(** The [for] loop of [processAllDocuments] (lines 72-82): an exception of
    [processDocument] is caught and the file skipped. *)
Fixpoint forEachFile (w : World) (files : list string) (kb : KB) : outcome KB :=
  match files with
  | [] => Ok kb
  | filePath :: files' =>
      match processDocument w filePath with
      | Ok (Some doc) =>
          match extractStructuredInfo doc (pushDocument doc kb) with
          | Some kb' => forEachFile w files' kb'
          | None => Diverges
          end
      | Ok None => forEachFile w files' kb
      | Throws => forEachFile w files' kb
      | Diverges => Diverges
      end
  end.

(** [processAllDocuments] (lines 69-85).  The knowledge it returns is the
    processor's own object: [getKnowledge] of the processor it leaves. *)
Definition processAllDocuments (w : World) (p : DocumentProcessor)
  : outcome DocumentProcessor :=
  files <- getAllFiles w (documentsPath p) ;;
  kb <- forEachFile w files (knowledge p) ;;
  Ok (mkProcessor (documentsPath p) kb).

(** ** The cache (saveKnowledge, and web-server.ts lines 28-57) *)

Definition docTypeName (t : DocType) : string :=
  match t with
  | docx => "docx"
  | xml => "xml"
  | pdf => "pdf"
  end.

Definition exampleTypeName (t : ExampleType) : string :=
  match t with
  | request => "request"
  | response => "response"
  end.

(** The objects of the knowledge base as JavaScript values, properties in
    the order of the object literals that create them. *)
Definition jsMetadata (m : Metadata.t) : Json.value :=
  Json.Obj [ ("size", Json.Num (Metadata.size m));
             ("modified", Json.DateObj (Metadata.modified m));
             ("path", Json.Str (Metadata.path m)) ].

Definition jsDocument (d : Doc) : Json.value :=
  Json.Obj [ ("filename", Json.Str (DocumentContent.filename d));
             ("title", Json.Str (DocumentContent.title d));
             ("content", Json.Str (DocumentContent.content d));
             ("type", Json.Str (docTypeName (DocumentContent.type d)));
             ("category", Json.Str (DocumentContent.category d));
             ("metadata", jsMetadata (DocumentContent.metadata d)) ].

Definition jsEndpoint (e : EndpointInfo.t) : Json.value :=
  Json.Obj [ ("name", Json.Str (EndpointInfo.name e));
             ("description", Json.Str (EndpointInfo.description e));
             ("method", Json.Str (EndpointInfo.method e));
             ("url", Json.Str (EndpointInfo.url e));
             ("category", Json.Str (EndpointInfo.category e));
             ("source", Json.Str (EndpointInfo.source e)) ].

Definition jsExample (e : ExampleInfo.t) : Json.value :=
  Json.Obj [ ("name", Json.Str (ExampleInfo.name e));
             ("type", Json.Str (exampleTypeName (ExampleInfo.type e)));
             ("content", Json.Str (ExampleInfo.content e));
             ("operation", Json.Str (ExampleInfo.operation e));
             ("source", Json.Str (ExampleInfo.source e)) ].

Definition jsRule (r : RuleInfo.t) : Json.value :=
  Json.Obj [ ("name", Json.Str (RuleInfo.name r));
             ("description", Json.Str (RuleInfo.description r));
             ("category", Json.Str (RuleInfo.category r));
             ("source", Json.Str (RuleInfo.source r)) ].

Definition jsKnowledge (kb : KB) : Json.value :=
  Json.Obj [ ("documents", Json.Arr (map jsDocument (ProcessedKnowledge.documents kb)));
             ("endpoints", Json.Arr (map jsEndpoint (ProcessedKnowledge.endpoints kb)));
             ("examples", Json.Arr (map jsExample (ProcessedKnowledge.examples kb)));
             ("rules", Json.Arr (map jsRule (ProcessedKnowledge.rules kb))) ].

(** Text files by path: what [writeFileSync] leaves is what
    [readFileSync(path, 'utf8')] returns. *)
Definition TextFiles : Type := string -> option string.

Definition writeFileSync (files : TextFiles) (path text : string) : TextFiles :=
  fun p => if String.eqb p path then Some text else files p.

(** [saveKnowledge] (lines 368-371), when [writeFileSync] returns. *)
Definition saveKnowledge (p : DocumentProcessor) (outputPath : string)
           (files : TextFiles) : TextFiles :=
  let knowledgeJson := Json.stringify (jsKnowledge (knowledge p)) in
  writeFileSync files outputPath knowledgeJson.

Definition DOCUMENTS_PATH : string := "./documents".
Definition KNOWLEDGE_CACHE_PATH : string := "./knowledge-cache.json".

(** [initializeKnowledgeBase] of the server front ends: the global
    [knowledgeBase] it leaves, and the files.  With a cache the pipeline is
    skipped and the cache is parsed.  Without one the pipeline runs and
    [saveKnowledge] writes the cache.  All of it is inside one [try]: a
    failure of discovery, or of the write that comes after the run, leaves
    the empty knowledge base. *)
Definition initializeKnowledgeBase (w : World) (files : TextFiles)
  : outcome (Json.value * TextFiles) :=
  match files KNOWLEDGE_CACHE_PATH with
  | Some cached =>
      match Json.parse cached with
      | Some knowledgeBase => Ok (knowledgeBase, files)
      | None => Ok (jsKnowledge ProcessedKnowledge.empty, files)
      end
  | None =>
      match processAllDocuments w (newDocumentProcessor DOCUMENTS_PATH) with
      | Ok processor =>
          match writeError w KNOWLEDGE_CACHE_PATH with
          | None =>
              Ok (jsKnowledge (getKnowledge processor),
                  saveKnowledge processor KNOWLEDGE_CACHE_PATH files)
          | Some remains =>
              Ok (jsKnowledge ProcessedKnowledge.empty,
                  fun p => if String.eqb p KNOWLEDGE_CACHE_PATH then remains
                           else files p)
          end
      | Throws => Ok (jsKnowledge ProcessedKnowledge.empty, files)
      | Diverges => Diverges
      end
  end.

(* ================================================================== *)
(** * The REST front end (web-server.ts, lines 1-439) *)
(* ================================================================== *)

(** The knowledge base is read at its declared type,
    [ProcessedKnowledge]; the handlers read no [metadata], the one part
    that the cache gives back changed.  The arguments of a tool are a
    JavaScript value as [JSON.parse] gives it. *)
Module WebServer.
Import Json.

(** ToBoolean. *)
Definition truthy (v : value) : bool :=
  match v with
  | Null => false
  | Bool b => b
  | Num z => negb (z =? 0)%Z
  | Str s => negb (String.eqb s EmptyString)
  | DateObj _ | Arr _ | Obj _ => true
  end.

Fixpoint lookupKey (k : string) (props : list (string * value)) : option value :=
  match props with
  | [] => None
  | (k', v) :: props' => if String.eqb k k' then Some v else lookupKey k props'
  end.

(** [args.key], for the keys the front ends ask for: [None] is
    [undefined], which is also what a value that is not an object has
    under these keys. *)
Definition getProp (args : value) (k : string) : option value :=
  match args with
  | Obj props => lookupKey k props
  | _ => None
  end.

(** [x && typeof x === 'string']: the string, when the test passes. *)
Definition stringArg (x : option value) : option string :=
  match x with
  | Some (Str s) => if String.eqb s EmptyString then None else Some s
  | _ => None
  end.

(** [x || {}]. *)
Definition orEmptyObject (x : option value) : value :=
  match x with
  | Some v => if truthy v then v else Obj []
  | None => Obj []
  end.

(** [s.toLowerCase().includes(q.toLowerCase())]. *)
Definition includesLower (s q : string) : bool :=
  includes (toLowerCase s) (toLowerCase q).

(** [const { ... } = args] throws on [null]. *)
Definition destructure {A} (args : value) (k : outcome A) : outcome A :=
  match args with
  | Null => Throws
  | _ => k
  end.

(** [handleQueryEndpoint] (lines 106-136). *)
Definition handleQueryEndpoint (args : value) (kb : KB) : outcome value :=
  destructure args
    (let operation := getProp args "operation" in
     let category := getProp args "category" in
     let endpoints := ProcessedKnowledge.endpoints kb in
     let endpoints :=
       match stringArg operation with
       | Some operation =>
           filter (fun e => includesLower (EndpointInfo.name e) operation
                            || includesLower (EndpointInfo.description e) operation)
                  endpoints
       | None => endpoints
       end in
     let endpoints :=
       match stringArg category with
       | Some category =>
           filter (fun e => includesLower (EndpointInfo.category e) category) endpoints
       | None => endpoints
       end in
     match endpoints with
     | [] => Ok (Str "No endpoints found matching the criteria.")
     | _ =>
         Ok (Arr (map (fun e =>
                         Obj [ ("name", Str (EndpointInfo.name e));
                               ("method", Str (EndpointInfo.method e));
                               ("url", Str (EndpointInfo.url e));
                               ("description", Str (EndpointInfo.description e));
                               ("category", Str (EndpointInfo.category e));
                               ("source", Str (EndpointInfo.source e)) ])
                      endpoints))
     end).

(** [handleGetExamples] (lines 141-167). *)
Definition handleGetExamples (args : value) (kb : KB) : outcome value :=
  destructure args
    (let operation := getProp args "operation" in
     let type := getProp args "type" in
     let examples := ProcessedKnowledge.examples kb in
     let examples :=
       match stringArg operation with
       | Some operation =>
           filter (fun e => includesLower (ExampleInfo.operation e) operation) examples
       | None => examples
       end in
     let examples :=
       match stringArg type with
       | Some type =>
           filter (fun e => String.eqb (exampleTypeName (ExampleInfo.type e)) type)
                  examples
       | None => examples
       end in
     match examples with
     | [] => Ok (Str "No examples found matching the criteria.")
     | _ =>
         Ok (Arr (map (fun e =>
                         Obj [ ("name", Str (ExampleInfo.name e));
                               ("type", Str (exampleTypeName (ExampleInfo.type e)));
                               ("operation", Str (ExampleInfo.operation e));
                               ("content", Str (ExampleInfo.content e));
                               ("source", Str (ExampleInfo.source e)) ])
                      examples))
     end).

(** [handleValidateStructure] (lines 172-197). *)
Definition handleValidateStructure (args : value) (kb : KB) : outcome value :=
  destructure args
    (let data := getProp args "data" in
     let operation := getProp args "operation" in
     match stringArg data with
     | None => Ok (Str "No data provided for validation.")
     | Some data =>
         let relevantExamples := ProcessedKnowledge.examples kb in
         let relevantExamples :=
           match stringArg operation with
           | Some operation =>
               filter (fun e => includesLower (ExampleInfo.operation e) operation)
                      relevantExamples
           | None => relevantExamples
           end in
         Ok (Obj [ ("provided_data", Str data);
                   ("operation_context",
                    match operation with
                    | Some v => if truthy v then v else Str "Not specified"
                    | None => Str "Not specified"
                    end);
                   ("relevant_examples",
                    Arr (map (fun e =>
                                Obj [ ("name", Str (ExampleInfo.name e));
                                      ("type", Str (exampleTypeName (ExampleInfo.type e)));
                                      ("operation", Str (ExampleInfo.operation e)) ])
                             relevantExamples));
                   ("validation_notes",
                    Str "Compare the provided data structure with the relevant examples above.") ])
     end).

(** [handleGetBusinessRules] (lines 202-225): the rules go out as they
    are. *)
Definition handleGetBusinessRules (args : value) (kb : KB) : outcome value :=
  destructure args
    (let category := getProp args "category" in
     let search := getProp args "search" in
     let rules := ProcessedKnowledge.rules kb in
     let rules :=
       match stringArg category with
       | Some category =>
           filter (fun r => includesLower (RuleInfo.category r) category) rules
       | None => rules
       end in
     let rules :=
       match stringArg search with
       | Some search =>
           filter (fun r => includesLower (RuleInfo.name r) search
                            || includesLower (RuleInfo.description r) search)
                  rules
       | None => rules
       end in
     match rules with
     | [] => Ok (Str "No business rules found matching the criteria.")
     | _ => Ok (Arr (map jsRule rules))
     end).

(** [String.prototype.indexOf]: [None] stands for -1. *)
Fixpoint indexOf (s sub : string) : option nat :=
  if startsWith s sub then Some 0
  else
    match s with
    | EmptyString => None
    | String _ s' => option_map S (indexOf s' sub)
    end.

(** [String.prototype.substring] on indices that are not negative. *)
Definition substring (s : string) (start stop : nat) : string :=
  let a := Nat.min start (String.length s) in
  let b := Nat.min stop (String.length s) in
  take (Nat.max a b - Nat.min a b) (drop (Nat.min a b) s).

(** The excerpt of a search result (lines 261-277).  The index is looked
    for in the lower-cased content and used in the content itself.  The
    two have the same length for the code units of a [string], which are
    those of Latin-1; they need not for other texts, which this definition
    does not cover. *)
Definition excerptOf (d : Doc) (query : string) : string :=
  let content := toLowerCase (DocumentContent.content d) in
  let queryLower := toLowerCase query in
  let excerpt :=
    match indexOf content queryLower with
    | Some index =>
        let start := Nat.max 0 (index - 100) in
        let stop := Nat.min (String.length content) (index + String.length query + 100) in
        substring (DocumentContent.content d) start stop
    | None => EmptyString
    end in
  if String.eqb excerpt EmptyString
  then (substring (DocumentContent.content d) 0 200 ++ "...")%string
  else excerpt.

(** [handleSearchDocumentation] (lines 230-280). *)
Definition handleSearchDocumentation (args : value) (kb : KB) : outcome value :=
  destructure args
    (let query := getProp args "query" in
     let document_type := getProp args "document_type" in
     let category := getProp args "category" in
     match stringArg query with
     | None => Ok (Str "No search query provided.")
     | Some query =>
         let documents := ProcessedKnowledge.documents kb in
         let documents :=
           match stringArg document_type with
           | Some document_type =>
               filter (fun d => String.eqb (docTypeName (DocumentContent.type d))
                                           document_type)
                      documents
           | None => documents
           end in
         let documents :=
           match stringArg category with
           | Some category =>
               filter (fun d => includesLower (DocumentContent.category d) category)
                      documents
           | None => documents
           end in
         let searchResults :=
           filter (fun d => includesLower (DocumentContent.content d) query
                            || includesLower (DocumentContent.title d) query
                            || includesLower (DocumentContent.filename d) query)
                  documents in
         match searchResults with
         | [] => Ok (Str "No documents found matching the search criteria.")
         | _ =>
             Ok (Arr (map (fun d =>
                             Obj [ ("filename", Str (DocumentContent.filename d));
                                   ("title", Str (DocumentContent.title d));
                                   ("category", Str (DocumentContent.category d));
                                   ("type", Str (docTypeName (DocumentContent.type d)));
                                   ("excerpt", Str (excerptOf d query)) ])
                          searchResults))
         end
     end).

(** ** [encodeURIComponent] *)

(** The code units that are left as they are: letters, digits and
    [- _ . ! ~ * ' ( )]. *)
Definition unreserved (c : ascii) : bool :=
  let n := code c in
  ((65 <=? n) && (n <=? 90)) || ((97 <=? n) && (n <=? 122))
  || ((48 <=? n) && (n <=? 57))
  || existsb (Nat.eqb n) [45; 95; 46; 33; 126; 42; 39; 40; 41].

Definition upperHex (n : nat) : ascii :=
  if n <? 10 then ascii_of_nat (48 + n) else ascii_of_nat (55 + n).

(** One octet, as [%XX]. *)
Definition percent (octet : nat) : string :=
  String "%" (String (upperHex (octet / 16)) (String (upperHex (octet mod 16)) "")).

(** A code unit below 128 is one octet of UTF-8, one from 128 to 255 is
    two. *)
Definition encodeUnit (c : ascii) : string :=
  let n := code c in
  if unreserved c then String c ""
  else if n <? 128 then percent n
  else (percent (192 + n / 64) ++ percent (128 + n mod 64))%string.

Fixpoint encodeURIComponent (s : string) : string :=
  match s with
  | EmptyString => EmptyString
  | String c s' => (encodeUnit c ++ encodeURIComponent s')%string
  end.

(** ** Responses *)

(** A response: its status and its body. *)
Record response : Type := mkResponse { status : nat; body : string }.

(** [sendJSON] (lines 71-75) and [sendError] (lines 80-82). *)
Definition sendJSON (data : value) (statusCode : nat) : response :=
  mkResponse statusCode (stringify data).

Definition sendError (message : string) (statusCode : nat) : response :=
  sendJSON (Obj [("error", Str message)]) statusCode.

(** The resources of the [/resources] branch (lines 330-360). *)
Definition resources (kb : KB) : list value :=
  map (fun doc =>
         Obj [ ("uri", Str ("eudr://document/"
                              ++ encodeURIComponent (DocumentContent.filename doc)));
               ("mimeType", Str "text/plain");
               ("name", Str (DocumentContent.title doc));
               ("description",
                Str (DocumentContent.category doc ++ " - "
                       ++ DocumentContent.filename doc ++ " ("
                       ++ toUpperCase (docTypeName (DocumentContent.type doc))
                       ++ ")")) ])
      (ProcessedKnowledge.documents kb)
  ++ map (fun endpoint =>
            Obj [ ("uri", Str ("eudr://endpoint/"
                                 ++ encodeURIComponent (EndpointInfo.name endpoint)));
                  ("mimeType", Str "application/json");
                  ("name", Str (EndpointInfo.name endpoint));
                  ("description",
                   Str (EndpointInfo.method endpoint ++ " "
                          ++ EndpointInfo.url endpoint ++ " - "
                          ++ EndpointInfo.description endpoint)) ])
         (ProcessedKnowledge.endpoints kb)
  ++ map (fun example =>
            Obj [ ("uri", Str ("eudr://example/"
                                 ++ encodeURIComponent (ExampleInfo.name example)));
                  ("mimeType", Str "application/xml");
                  ("name", Str (ExampleInfo.name example));
                  ("description",
                   Str (exampleTypeName (ExampleInfo.type example)
                          ++ " example for " ++ ExampleInfo.operation example)) ])
         (ProcessedKnowledge.examples kb).

(** The [switch] of the tools branch (lines 379-398): [None] is an
    unknown tool. *)
Definition dispatch (toolName : string) (args : value) (kb : KB)
  : outcome (option value) :=
  if String.eqb toolName "query_endpoint" then
    result <- handleQueryEndpoint args kb ;; Ok (Some result)
  else if String.eqb toolName "get_examples" then
    result <- handleGetExamples args kb ;; Ok (Some result)
  else if String.eqb toolName "validate_structure" then
    result <- handleValidateStructure args kb ;; Ok (Some result)
  else if String.eqb toolName "get_business_rules" then
    result <- handleGetBusinessRules args kb ;; Ok (Some result)
  else if String.eqb toolName "search_documentation" then
    result <- handleSearchDocumentation args kb ;; Ok (Some result)
  else Ok None.

(** What the HTTP layer sends of an answer: the status, and the body
    unless the request was a HEAD. *)
Definition sent (method : string) (answer : response) : response :=
  if String.eqb method "HEAD" then mkResponse (status answer) EmptyString
  else answer.

(** [handleRequest] (lines 285-411), once the knowledge base is there.
    [parsedUrl] is what [url.parse] does with the request target: [None]
    when it throws, and else the [pathname] it found ([None]: [null]).
    [now] is the time of the request, and [requestBody] what
    [parseRequestBody] settles to: the parsed body ([{}] for an empty
    one), [Throws] when it rejects, [Diverges] when the request never
    ends.  [url.parse] is called before the [try]: when it throws there
    is no answer ([None]), as there is none while the body is awaited.
    Of an answer the status and the body are kept. *)
Definition handleRequest (method : string) (parsedUrl : option (option string))
           (now : Z) (requestBody : outcome value) (kb : KB) : option response :=
  match parsedUrl with
  | None => None
  | Some pathname =>
      if String.eqb method "OPTIONS" then Some (mkResponse 200 EmptyString)
      else
        let count {A} (l : list A) := Num (Z.of_nat (List.length l)) in
        let send (answer : response) := Some (sent method answer) in
        match pathname with
        | None => send (sendError "Not found" 404)
        | Some pathname =>
            if String.eqb pathname "/health" then
              send (sendJSON
                      (Obj [ ("status", Str "healthy");
                             ("timestamp", Str (toISOString now));
                             ("documents", count (ProcessedKnowledge.documents kb));
                             ("endpoints", count (ProcessedKnowledge.endpoints kb));
                             ("examples", count (ProcessedKnowledge.examples kb)) ])
                      200)
            else if String.eqb pathname "/info" then
              send (sendJSON
                      (Obj [ ("name", Str "EUDR MCP Server");
                             ("version", Str "0.1.0");
                             ("description",
                              Str "Model Context Protocol server for EUDR API documentation");
                             ("capabilities",
                              Arr [Str "resources"; Str "tools"; Str "prompts"]);
                             ("transport", Str "HTTP REST") ])
                      200)
            else if String.eqb pathname "/resources" then
              send (sendJSON (Obj [("resources", Arr (resources kb))]) 200)
            else if startsWith pathname "/tools/" then
              let toolName := drop 7 pathname in
              if negb (String.eqb method "POST")
              then send (sendError "Method not allowed" 405)
              else
                match requestBody with
                | Diverges => None
                | Throws => send (sendError "Internal server error" 500)
                | Ok body =>
                    match destructure body
                            (dispatch toolName
                               (orEmptyObject (getProp body "arguments")) kb)
                    with
                    | Ok (Some result) => send (sendJSON (Obj [("result", result)]) 200)
                    | Ok None => send (sendError ("Unknown tool: " ++ toolName) 404)
                    | Throws | Diverges => send (sendError "Internal server error" 500)
                    end
                end
            else send (sendError "Not found" 404)
        end
  end.

End WebServer.

(* ================================================================== *)
(** * The stdio front end (web-server.ts, lines 440-1090) *)
(* ================================================================== *)

Module McpServer.
Import Json.
Import WebServer.

(** The answer of a tool: one text. *)
Definition textContent (text : string) : value :=
  Obj [("content", Arr [Obj [("type", Str "text"); ("text", Str text)]])].

(** The handler of [ListResourcesRequestSchema] (lines 531-569). *)
Definition listResources (kb : KB) : value :=
  let documents :=
    map (fun doc =>
           Obj [ ("uri", Str ("eudr://document/"
                                ++ encodeURIComponent (DocumentContent.filename doc)));
                 ("mimeType", Str "text/plain");
                 ("name", Str (DocumentContent.title doc));
                 ("description",
                  Str (DocumentContent.category doc ++ " - "
                         ++ DocumentContent.filename doc ++ " ("
                         ++ toUpperCase (docTypeName (DocumentContent.type doc))
                         ++ ")")) ])
        (ProcessedKnowledge.documents kb) in
  let endpoints :=
    map (fun endpoint =>
           Obj [ ("uri", Str ("eudr://endpoint/"
                                ++ encodeURIComponent (EndpointInfo.name endpoint)));
                 ("mimeType", Str "application/json");
                 ("name", Str (EndpointInfo.name endpoint));
                 ("description",
                  Str (EndpointInfo.method endpoint ++ " "
                         ++ EndpointInfo.url endpoint ++ " - "
                         ++ EndpointInfo.description endpoint)) ])
        (ProcessedKnowledge.endpoints kb) in
  let examples :=
    map (fun example =>
           Obj [ ("uri", Str ("eudr://example/"
                                ++ encodeURIComponent (ExampleInfo.name example)));
                 ("mimeType", Str "application/xml");
                 ("name", Str (ExampleInfo.name example));
                 ("description",
                  Str (exampleTypeName (ExampleInfo.type example)
                         ++ " example for " ++ ExampleInfo.operation example)) ])
        (ProcessedKnowledge.examples kb) in
  Obj [("resources", Arr (documents ++ endpoints ++ examples))].

(** The handler of [CallToolRequestSchema] (lines 738-974), for the tool
    [name] and [request.params.arguments] ([None]: [undefined]). *)
Definition callTool (name : string) (arguments : option value) (kb : KB)
  : outcome value :=
  let args := orEmptyObject arguments in
  if String.eqb name "query_endpoint" then
    let operation := getProp args "operation" in
    let category := getProp args "category" in
    let endpoints := ProcessedKnowledge.endpoints kb in
    let endpoints :=
      match stringArg operation with
      | Some operation =>
          filter (fun e => includesLower (EndpointInfo.name e) operation
                           || includesLower (EndpointInfo.description e) operation)
                 endpoints
      | None => endpoints
      end in
    let endpoints :=
      match stringArg category with
      | Some category =>
          filter (fun e => includesLower (EndpointInfo.category e) category) endpoints
      | None => endpoints
      end in
    match endpoints with
    | [] => Ok (textContent "No endpoints found matching the criteria.")
    | _ =>
        let result :=
          map (fun e =>
                 Obj [ ("name", Str (EndpointInfo.name e));
                       ("method", Str (EndpointInfo.method e));
                       ("url", Str (EndpointInfo.url e));
                       ("description", Str (EndpointInfo.description e));
                       ("category", Str (EndpointInfo.category e));
                       ("source", Str (EndpointInfo.source e)) ])
              endpoints in
        Ok (textContent (stringify (Arr result)))
    end
  else if String.eqb name "get_examples" then
    let operation := getProp args "operation" in
    let type := getProp args "type" in
    let examples := ProcessedKnowledge.examples kb in
    let examples :=
      match stringArg operation with
      | Some operation =>
          filter (fun e => includesLower (ExampleInfo.operation e) operation) examples
      | None => examples
      end in
    let examples :=
      match stringArg type with
      | Some type =>
          filter (fun e => String.eqb (exampleTypeName (ExampleInfo.type e)) type)
                 examples
      | None => examples
      end in
    match examples with
    | [] => Ok (textContent "No examples found matching the criteria.")
    | _ =>
        let result :=
          map (fun e =>
                 Obj [ ("name", Str (ExampleInfo.name e));
                       ("type", Str (exampleTypeName (ExampleInfo.type e)));
                       ("operation", Str (ExampleInfo.operation e));
                       ("content", Str (ExampleInfo.content e));
                       ("source", Str (ExampleInfo.source e)) ])
              examples in
        Ok (textContent (stringify (Arr result)))
    end
  else if String.eqb name "validate_structure" then
    let data := getProp args "data" in
    let operation := getProp args "operation" in
    match stringArg data with
    | None => Ok (textContent "No data provided for validation.")
    | Some data =>
        let relevantExamples := ProcessedKnowledge.examples kb in
        let relevantExamples :=
          match stringArg operation with
          | Some operation =>
              filter (fun e => includesLower (ExampleInfo.operation e) operation)
                     relevantExamples
          | None => relevantExamples
          end in
        let validation :=
          Obj [ ("provided_data", Str data);
                ("operation_context",
                 match operation with
                 | Some v => if truthy v then v else Str "Not specified"
                 | None => Str "Not specified"
                 end);
                ("relevant_examples",
                 Arr (map (fun e =>
                             Obj [ ("name", Str (ExampleInfo.name e));
                                   ("type", Str (exampleTypeName (ExampleInfo.type e)));
                                   ("operation", Str (ExampleInfo.operation e)) ])
                          relevantExamples));
                ("validation_notes",
                 Str "Compare the provided data structure with the relevant examples above.") ] in
        Ok (textContent (stringify validation))
    end
  else if String.eqb name "get_business_rules" then
    let category := getProp args "category" in
    let search := getProp args "search" in
    let rules := ProcessedKnowledge.rules kb in
    let rules :=
      match stringArg category with
      | Some category =>
          filter (fun r => includesLower (RuleInfo.category r) category) rules
      | None => rules
      end in
    let rules :=
      match stringArg search with
      | Some search =>
          filter (fun r => includesLower (RuleInfo.name r) search
                           || includesLower (RuleInfo.description r) search)
                 rules
      | None => rules
      end in
    match rules with
    | [] => Ok (textContent "No business rules found matching the criteria.")
    | _ => Ok (textContent (stringify (Arr (map jsRule rules))))
    end
  else if String.eqb name "search_documentation" then
    let query := getProp args "query" in
    let document_type := getProp args "document_type" in
    let category := getProp args "category" in
    match stringArg query with
    | None => Ok (textContent "No search query provided.")
    | Some query =>
        let documents := ProcessedKnowledge.documents kb in
        let documents :=
          match stringArg document_type with
          | Some document_type =>
              filter (fun d => String.eqb (docTypeName (DocumentContent.type d))
                                          document_type)
                     documents
          | None => documents
          end in
        let documents :=
          match stringArg category with
          | Some category =>
              filter (fun d => includesLower (DocumentContent.category d) category)
                     documents
          | None => documents
          end in
        let searchResults :=
          filter (fun d => includesLower (DocumentContent.content d) query
                           || includesLower (DocumentContent.title d) query
                           || includesLower (DocumentContent.filename d) query)
                 documents in
        match searchResults with
        | [] => Ok (textContent "No documents found matching the search criteria.")
        | _ =>
            let results :=
              map (fun d =>
                     let content := toLowerCase (DocumentContent.content d) in
                     let queryLower := toLowerCase query in
                     let excerpt :=
                       match indexOf content queryLower with
                       | Some index =>
                           let start := Nat.max 0 (index - 100) in
                           let stop := Nat.min (String.length content)
                                               (index + String.length query + 100) in
                           substring (DocumentContent.content d) start stop
                       | None => EmptyString
                       end in
                     Obj [ ("filename", Str (DocumentContent.filename d));
                           ("title", Str (DocumentContent.title d));
                           ("category", Str (DocumentContent.category d));
                           ("type", Str (docTypeName (DocumentContent.type d)));
                           ("excerpt",
                            Str (if String.eqb excerpt EmptyString
                                 then (substring (DocumentContent.content d) 0 200
                                         ++ "...")%string
                                 else excerpt)) ])
                  searchResults in
            Ok (textContent (stringify (Arr results)))
        end
    end
  else Throws.

(** The handler of [GetPromptRequestSchema] (lines 997-1076). *)
Definition getPrompt (name : string) (kb : KB) : outcome value :=
  let userText (text : string) : value :=
    Obj [ ("role", Str "user");
          ("content", Obj [("type", Str "text"); ("text", Str text)]) ] in
  if String.eqb name "eudr_integration_guide" then
    let documents :=
      map (fun d =>
             Obj [ ("type", Str "resource");
                   ("resource",
                    Obj [ ("uri", Str ("eudr://document/"
                                         ++ encodeURIComponent (DocumentContent.filename d)));
                          ("mimeType", Str "text/plain");
                          ("text", Str (DocumentContent.content d)) ]) ])
          (filter (fun d => includes (DocumentContent.category d) "Basic Connectivity"
                            || includes (DocumentContent.category d) "Development")
                  (ProcessedKnowledge.documents kb)) in
    Ok (Obj [ ("messages",
               Arr ([ userText "Create a comprehensive integration guide for the EUDR API based on the following documentation:" ]
                      ++ map (fun doc => Obj [("role", Str "user"); ("content", doc)])
                             documents
                      ++ [ userText "Please provide a step-by-step integration guide with code examples." ])) ])
  else if String.eqb name "api_reference" then
    let endpoints :=
      map (fun e =>
             Obj [ ("type", Str "resource");
                   ("resource",
                    Obj [ ("uri", Str ("eudr://endpoint/"
                                         ++ encodeURIComponent (EndpointInfo.name e)));
                          ("mimeType", Str "application/json");
                          ("text", Str (stringify (jsEndpoint e))) ]) ])
          (ProcessedKnowledge.endpoints kb) in
    Ok (Obj [ ("messages",
               Arr ([ userText "Generate comprehensive API reference documentation for the following EUDR API endpoints:" ]
                      ++ map (fun endpoint => Obj [("role", Str "user"); ("content", endpoint)])
                             endpoints
                      ++ [ userText "Please organize this into a clear API reference with descriptions, parameters, and examples." ])) ])
  else Throws.

End McpServer.

(* ================================================================== *)
(** * The SSE front end (mcp-sse-server.ts) *)
(* ================================================================== *)

Module SseServer.
Import Json.
Import WebServer.

Section Host.

(** [Date.prototype.toString] writes in the time zone of the host.  The
    arguments of a request are parsed JSON and hold no date. *)
Variable dateText : Date -> string.

Definition hasKey (k : string) (props : list (string * value)) : bool :=
  existsb (fun kv => String.eqb (fst kv) k) props.

(** [v.toString()] for a value that is not [null].  An array joins the
    texts of its elements with commas, [null] counting as the empty
    string; an object is [[object Object]], unless it has a property
    [toString] of its own, which is not a function. *)
Fixpoint toStringCall (v : value) : outcome string :=
  match v with
  | Null => Throws
  | Bool b => Ok (if b then "true" else "false")
  | Num z => Ok (numberToString z)
  | Str s => Ok s
  | DateObj d => Ok (dateText d)
  | Arr items =>
      texts <- (fix each (items : list value) : outcome (list string) :=
                  match items with
                  | [] => Ok []
                  | Null :: items' => texts <- each items' ;; Ok (EmptyString :: texts)
                  | item :: items' =>
                      text <- toStringCall item ;;
                      texts <- each items' ;;
                      Ok (text :: texts)
                  end) items ;;
      Ok (join "," texts)
  | Obj props => if hasKey "toString" props then Throws else Ok "[object Object]"
  end.

(** The arguments of a tool, [request.params.arguments]: a record, which
    the SDK checks before it calls the handler, or [undefined]. *)
Definition arguments : Type := option (list (string * value)).

(** [(args as any)?.key?.toString()]: [Ok None] is [undefined]. *)
Definition textArg (args : arguments) (key : string) : outcome (option string) :=
  match args with
  | None => Ok None
  | Some props =>
      match lookupKey key props with
      | None | Some Null => Ok None
      | Some v => text <- toStringCall v ;; Ok (Some text)
      end
  end.

(** [(args as any)?.key?.toString().toLowerCase()]. *)
Definition lowerArg (args : arguments) (key : string) : outcome (option string) :=
  text <- textArg args key ;; Ok (option_map toLowerCase text).

(** A string that is there and not empty. *)
Definition given (x : option string) : bool :=
  match x with
  | Some s => negb (String.eqb s EmptyString)
  | None => false
  end.

(** [x && s.toLowerCase().includes(x)]. *)
Definition givenIn (x : option string) (s : string) : bool :=
  match x with
  | Some x => negb (String.eqb x EmptyString) && includes (toLowerCase s) x
  | None => false
  end.

Definition textContent (text : string) : value :=
  Obj [("content", Arr [Obj [("type", Str "text"); ("text", Str text)]])].

(** The handler of [CallToolRequestSchema] (lines 334-497). *)
Definition callTool (name : string) (args : arguments) (kb : KB)
  : outcome value :=
  if String.eqb name "query_endpoint" then
    operation <- lowerArg args "operation" ;;
    category <- lowerArg args "category" ;;
    let endpoints :=
      map (fun endpoint =>
             Obj [ ("type", Str "endpoint");
                   ("name", Str (EndpointInfo.name endpoint));
                   ("description", Str (EndpointInfo.description endpoint));
                   ("method", Str (EndpointInfo.method endpoint));
                   ("url", Str (EndpointInfo.url endpoint));
                   ("source", Str (EndpointInfo.source endpoint)) ])
          (filter (fun endpoint => givenIn operation (EndpointInfo.name endpoint))
                  (ProcessedKnowledge.endpoints kb)) in
    let documents :=
      map (fun doc =>
             Obj [ ("type", Str "document");
                   ("title", Str (DocumentContent.title doc));
                   ("category", Str (DocumentContent.category doc));
                   ("filename", Str (DocumentContent.filename doc));
                   ("relevant_content",
                    Str (substring (DocumentContent.content doc) 0 500 ++ "...")) ])
          (filter (fun doc => givenIn operation (DocumentContent.content doc)
                              || givenIn category (DocumentContent.category doc))
                  (ProcessedKnowledge.documents kb)) in
    Ok (textContent (stringify (Arr (endpoints ++ documents))))
  else if String.eqb name "get_examples" then
    operation <- lowerArg args "operation" ;;
    type <- textArg args "type" ;;
    let results :=
      map (fun example =>
             Obj [ ("name", Str (ExampleInfo.name example));
                   ("operation", Str (ExampleInfo.operation example));
                   ("type", Str (exampleTypeName (ExampleInfo.type example)));
                   ("content", Str (ExampleInfo.content example));
                   ("source", Str (ExampleInfo.source example)) ])
          (filter (fun example =>
                     givenIn operation (ExampleInfo.name example)
                     && (negb (given type)
                         || match type with
                            | Some type =>
                                String.eqb (exampleTypeName (ExampleInfo.type example)) type
                            | None => false
                            end))
                  (ProcessedKnowledge.examples kb)) in
    Ok (textContent (stringify (Arr results)))
  else if String.eqb name "validate_structure" then
    data <- textArg args "data" ;;
    operation <- textArg args "operation" ;;
    let suggestions :=
      match operation with
      | Some operation =>
          if negb (String.eqb operation EmptyString) then
            let examples :=
              filter (fun e => includesLower (ExampleInfo.operation e) operation)
                     (ProcessedKnowledge.examples kb) in
            if 0 <? List.length examples then
              [Str ("Found " ++ numberToString (Z.of_nat (List.length examples))
                      ++ " example(s) for " ++ operation)]
            else []
          else []
      | None => []
      end in
    Ok (textContent
          (stringify (Obj [ ("valid", Bool true);
                            ("issues", Arr []);
                            ("suggestions", Arr suggestions) ])))
  else if String.eqb name "get_business_rules" then
    category <- lowerArg args "category" ;;
    search <- lowerArg args "search" ;;
    let results :=
      map (fun rule =>
             Obj [ ("name", Str (RuleInfo.name rule));
                   ("category", Str (RuleInfo.category rule));
                   ("description", Str (RuleInfo.description rule));
                   ("source", Str (RuleInfo.source rule)) ])
          (filter (fun rule =>
                     (negb (given category) || givenIn category (RuleInfo.category rule))
                     && (negb (given search)
                         || givenIn search (RuleInfo.name rule)
                         || givenIn search (RuleInfo.description rule)))
                  (ProcessedKnowledge.rules kb)) in
    Ok (textContent (stringify (Arr results)))
  else if String.eqb name "search_documentation" then
    query <- lowerArg args "query" ;;
    documentType <- textArg args "document_type" ;;
    category <- lowerArg args "category" ;;
    let results :=
      map (fun doc =>
             Obj [ ("title", Str (DocumentContent.title doc));
                   ("category", Str (DocumentContent.category doc));
                   ("filename", Str (DocumentContent.filename doc));
                   ("type", Str (docTypeName (DocumentContent.type doc)));
                   ("relevant_content",
                    Str (substring (DocumentContent.content doc) 0 500 ++ "...")) ])
          (filter (fun doc =>
                     (negb (given documentType)
                      || match documentType with
                         | Some documentType =>
                             String.eqb (docTypeName (DocumentContent.type doc))
                                        documentType
                         | None => false
                         end)
                     && (negb (given category)
                         || givenIn category (DocumentContent.category doc))
                     && givenIn query (DocumentContent.content doc))
                  (ProcessedKnowledge.documents kb)) in
    Ok (textContent (stringify (Arr results)))
  else Throws.

End Host.

End SseServer.

(* ================================================================== *)
(** * Derived notions used by the statements *)
(* ================================================================== *)

(** The successive matches of a global pattern, from [lastIndex] until
    [exec] returns [null]. *)
Inductive Matches (fl : flags) (r : re) (s : string)
  : nat -> list result -> Prop :=
| Matches_done lastIndex :
    exec fl r s lastIndex = None -> Matches fl r s lastIndex []
| Matches_next lastIndex m ms :
    exec fl r s lastIndex = Some m ->
    Matches fl r s (stop m) ms ->
    Matches fl r s lastIndex (m :: ms).

(** Fewest code units a match of the pattern takes. *)
Fixpoint minLen (r : re) : nat :=
  match r with
  | Eps | Bol | Eol => 0
  | Atom _ => 1
  | Seq r1 r2 => minLen r1 + minLen r2
  | Alt r1 r2 => Nat.min (minLen r1) (minLen r2)
  | Group r1 => minLen r1
  | Rep min _ => min
  end.

(** Every pattern of a list needs at least one code unit. *)
Definition allNonEmpty (patterns : list (flags * re)) : Prop :=
  Forall (fun p => 1 <= minLen (snd p)) patterns.

(** The matches the loop body sees, as a list. *)
Fixpoint execAll (fuel : nat) (fl : flags) (r : re) (s : string)
         (lastIndex : nat) : option (list result) :=
  match fuel with
  | 0 => None
  | S fuel' =>
      match exec fl r s lastIndex with
      | None => Some []
      | Some m =>
          match execAll fuel' fl r s (stop m) with
          | Some ms => Some (m :: ms)
          | None => None
          end
      end
  end.

(** The tokens of the matches that make an endpoint. *)
Definition slashTokens (ms : list result) : list string :=
  filter (fun token => includes token "/") (map captured ms).

(** The record pushed for a token. *)
Definition endpointFor (doc : Doc) (token : string) : EndpointInfo.t :=
  EndpointInfo.mk
    (extractOperationName token (DocumentContent.category doc))
    (extractEndpointDescription (DocumentContent.content doc) token)
    (extractMethod (DocumentContent.content doc) token)
    token
    (DocumentContent.category doc)
    (DocumentContent.filename doc).

(** The record pushed for a match of a cue pattern. *)
Definition ruleFor (doc : Doc) (m : result) : RuleInfo.t :=
  RuleInfo.mk (trim (captured m)) (trim (captured m)) "Validation"
              (DocumentContent.filename doc).

(** One knowledge base after another, collection by collection. *)
Definition kbAppend (a b : KB) : KB :=
  ProcessedKnowledge.mk
    (ProcessedKnowledge.documents a ++ ProcessedKnowledge.documents b)
    (ProcessedKnowledge.endpoints a ++ ProcessedKnowledge.endpoints b)
    (ProcessedKnowledge.examples a ++ ProcessedKnowledge.examples b)
    (ProcessedKnowledge.rules a ++ ProcessedKnowledge.rules b).

(** The document a discovered file gives, if it gives one. *)
Definition documentOf (w : World) (filePath : string) : list Doc :=
  match processDocument w filePath with
  | Ok (Some doc) => [doc]
  | _ => []
  end.

Definition documentsOf (w : World) (files : list string) : list Doc :=
  flat_map (documentOf w) files.

(** Appending documents one at a time, each followed by its structured
    extraction. *)
Fixpoint absorb (docs : list Doc) (kb : KB) : option KB :=
  match docs with
  | [] => Some kb
  | doc :: docs' =>
      match extractStructuredInfo doc (pushDocument doc kb) with
      | Some kb' => absorb docs' kb'
      | None => None
      end
  end.

(** Every derived record names a document of the knowledge base. *)
Definition sourced (kb : KB) (src : string) : Prop :=
  exists d, In d (ProcessedKnowledge.documents kb)
            /\ DocumentContent.filename d = src.

Definition referentialIntegrity (kb : KB) : Prop :=
  (forall e, In e (ProcessedKnowledge.endpoints kb) -> sourced kb (EndpointInfo.source e))
  /\ (forall e, In e (ProcessedKnowledge.examples kb) -> sourced kb (ExampleInfo.source e))
  /\ (forall r, In r (ProcessedKnowledge.rules kb) -> sourced kb (RuleInfo.source r)).

(** The format a path is processed as: its extension, whatever its case. *)
Definition formatOf (filePath : string) : option DocType :=
  let ext := toLowerCase (Path.extname filePath) in
  if String.eqb ext ".docx" then Some docx
  else if String.eqb ext ".xml" then Some xml
  else if String.eqb ext ".pdf" then Some pdf
  else None.

Definition placeholder (format filePath : string) : string :=
  ("Error processing " ++ format ++ ": " ++ filePath)%string.

(** The ways text extraction degrades, and the content each leaves: the
    file cannot be read, or its decoder throws.  For XML a parser that
    throws leaves the raw text. *)
Inductive Degraded (w : World) (filePath : string) : DocType -> string -> Prop :=
| Docx_unreadable :
    readFileSync w filePath = None ->
    Degraded w filePath docx (placeholder "DOCX" filePath)
| Docx_decoder buffer :
    readFileSync w filePath = Some buffer -> mammoth w buffer = None ->
    Degraded w filePath docx (placeholder "DOCX" filePath)
| Xml_unreadable :
    readFileSync w filePath = None ->
    Degraded w filePath xml (placeholder "XML" filePath)
| Xml_parser raw :
    readFileSync w filePath = Some raw -> xml2js w raw = None ->
    Degraded w filePath xml raw
| Pdf_unreadable :
    readFileSync w filePath = None ->
    Degraded w filePath pdf (placeholder "PDF" filePath)
| Pdf_decoder buffer :
    readFileSync w filePath = Some buffer -> pdfjs w buffer = None ->
    Degraded w filePath pdf (placeholder "PDF" filePath)
| Pdf_page buffer pages :
    readFileSync w filePath = Some buffer -> pdfjs w buffer = Some pages ->
    In None pages ->
    Degraded w filePath pdf (placeholder "PDF" filePath).

(** The document [processDocument] builds from a content. *)
Definition documentWith (filePath : string) (stat : Stats) (type : DocType)
           (content : string) : Doc :=
  DocumentContent.mk
    (Path.basename filePath)
    (extractTitle (Path.basename filePath) content)
    content
    type
    (categorizeDocument (Path.basename filePath))
    (Metadata.mk (st_size stat) (st_mtime stat) filePath).

Definition hasPath (filePath : string) (d : Doc) : bool :=
  String.eqb (Metadata.path (DocumentContent.metadata d)) filePath.

(** ** The knowledge base as the cache gives it back *)

(** A date after [JSON.stringify] and [JSON.parse]: its ISO string, or
    [null] for an invalid date. *)
Definition isoModified (d : Date) : Json.value :=
  match d with
  | ValidDate ms => Json.Str (Json.toISOString ms)
  | InvalidDate => Json.Null
  end.

Definition jsMetadataCached (m : Metadata.t) : Json.value :=
  Json.Obj [ ("size", Json.Num (Metadata.size m));
             ("modified", isoModified (Metadata.modified m));
             ("path", Json.Str (Metadata.path m)) ].

Definition jsDocumentCached (d : Doc) : Json.value :=
  Json.Obj [ ("filename", Json.Str (DocumentContent.filename d));
             ("title", Json.Str (DocumentContent.title d));
             ("content", Json.Str (DocumentContent.content d));
             ("type", Json.Str (docTypeName (DocumentContent.type d)));
             ("category", Json.Str (DocumentContent.category d));
             ("metadata", jsMetadataCached (DocumentContent.metadata d)) ].

Definition jsKnowledgeCached (kb : KB) : Json.value :=
  Json.Obj [ ("documents", Json.Arr (map jsDocumentCached (ProcessedKnowledge.documents kb)));
             ("endpoints", Json.Arr (map jsEndpoint (ProcessedKnowledge.endpoints kb)));
             ("examples", Json.Arr (map jsExample (ProcessedKnowledge.examples kb)));
             ("rules", Json.Arr (map jsRule (ProcessedKnowledge.rules kb))) ].

(** ** A small world to run the program in *)

Definition sampleTree : FsNode :=
  FsDir [ ("SubmitDDS_Request_Example.xml", FsFile);
          ("Validation_Rules.docx", FsFile);
          ("notes.txt", FsFile);
          ("guides", FsDir [ ("CF2_guide.PDF", FsFile) ]) ].

(** One directory with an XML file that does not parse, a DOCX file that
    decodes, and a PDF file whose decoder throws. *)
Definition sampleWorld : World :=
  mkWorld
    (fun p => if String.eqb p "./documents" then Some sampleTree else None)
    (fun _ => Some (mkStats 2048 (ValidDate 1700000000000)))
    (fun p => if String.eqb p "documents/SubmitDDS_Request_Example.xml"
              then Some "<submit>POST /api/v1/submit"
              else Some "bytes")
    (fun _ => Some ("Rule: Geolocation must include at least one point."
                      ++ nl ++ "Call POST /api/v1/submit to send data.")%string)
    (fun _ => None)
    (fun _ => None)
    (fun _ => None).

(** A world without a document root. *)
Definition emptyWorld : World :=
  mkWorld (fun _ => None) (fun _ => None) (fun _ => None)
          (fun _ => None) (fun _ => None) (fun _ => None) (fun _ => None).

Definition noFiles : TextFiles := fun _ => None.

(** ** The shape of matches *)

(** Every code unit of a string passes a test. *)
Fixpoint every (p : ascii -> bool) (s : string) : bool :=
  match s with
  | EmptyString => true
  | String c s' => p c && every p s'
  end.

(** Two strings are the same to a pattern with these flags. *)
Fixpoint sameUnder (fl : flags) (a b : string) : bool :=
  match a, b with
  | EmptyString, EmptyString => true
  | String x a', String y b' =>
      Ascii.eqb (canon fl x) (canon fl y) && sameUnder fl a' b'
  | _, _ => false
  end.

(** Nothing follows, or a code unit that fails the test. *)
Definition stopsAt (p : ascii -> bool) (s : string) : Prop :=
  match s with
  | EmptyString => True
  | String c _ => p c = false
  end.

(** What a match of [keyword separators (token)] looks like in the
    subject: the keyword as [isKeyword] has it, one or more separators,
    and as token the longest run of token code units, which is what the
    group captures. *)
Definition TokenMatch (isKeyword : string -> Prop) (separator token : ascii -> bool)
           (subject : string) (m : result) : Prop :=
  exists kw sep tok,
    drop (index m) subject = (kw ++ sep ++ tok ++ drop (stop m) subject)%string
    /\ stop m = index m + String.length kw + String.length sep + String.length tok
    /\ isKeyword kw
    /\ sep <> EmptyString /\ every separator sep = true
    /\ tok <> EmptyString /\ every token tok = true
    /\ stopsAt token (drop (stop m) subject)
    /\ group1 m = Some tok.

Definition isColonOrSpace (c : ascii) : bool := Ascii.eqb c ":" || isSpace c.
Definition notSpaceChar (c : ascii) : bool := negb (isSpace c).
Definition notLineFeed (c : ascii) : bool := negb (Ascii.eqb c LF).

(** The same up to the case of letters. *)
Definition sameIgnoringCase (a b : string) : Prop := toUpperCase a = toUpperCase b.

Definition isVerb (kw : string) : Prop :=
  kw = "POST" \/ kw = "GET" \/ kw = "PUT" \/ kw = "DELETE".
(** What the matches of a keyword consume. *)
Definition consumes (fl : flags) (keyword : re) (isKeyword : string -> Prop) : Prop :=
  forall st st',
    In st' (run fl keyword st) ->
    exists n, idx st' = idx st + n /\ n <= String.length (rest st)
              /\ rest st' = drop n (rest st)
              /\ isKeyword (take n (rest st)).

(** A line as [extractEndpointDescription] accepts it: trimmed, it is not
    empty, does not contain the token and has more than 20 code units. *)
Definition qualifies (endpoint line : string) : bool :=
  negb (String.eqb (trim line) EmptyString)
  && negb (includes (trim line) endpoint)
  && (20 <? String.length (trim line)).

Module JsonNotions.
Import Json.

(** Fuel that parsing the text of a value takes. *)
Fixpoint size (v : value) : nat :=
  match v with
  | Arr items => S (fold_right (fun x n => S (size x + n)) 0 items)
  | Obj props => S (fold_right (fun kv n => S (size (snd kv) + n)) 0 props)
  | _ => 1
  end.

(** No key twice. *)
Fixpoint distinct (keys : list string) : bool :=
  match keys with
  | [] => true
  | k :: keys' => negb (existsb (String.eqb k) keys') && distinct keys'
  end.

(** The objects of a value have distinct keys. *)
Fixpoint wellFormed (v : value) : bool :=
  match v with
  | Arr items => forallb wellFormed items
  | Obj props => distinct (map fst props) && forallb (fun kv => wellFormed (snd kv)) props
  | _ => true
  end.

(** Induction on values, through their arrays and objects. *)
Definition value_ind' (P : value -> Prop)
  (HNull : P Null) (HBool : forall b, P (Bool b)) (HNum : forall z, P (Num z))
  (HStr : forall s, P (Str s)) (HDate : forall d, P (DateObj d))
  (HArr : forall items, Forall P items -> P (Arr items))
  (HObj : forall props, Forall (fun kv => P (snd kv)) props -> P (Obj props))
  : forall v, P v :=
  fix F (v : value) : P v :=
    match v with
    | Null => HNull
    | Bool b => HBool b
    | Num z => HNum z
    | Str s => HStr s
    | DateObj d => HDate d
    | Arr items =>
        HArr items ((fix G (l : list value) : Forall P l :=
                       match l with
                       | [] => Forall_nil P
                       | x :: l' => Forall_cons x (F x) (G l')
                       end) items)
    | Obj props =>
        HObj props ((fix G (l : list (string * value)) : Forall (fun kv => P (snd kv)) l :=
                       match l with
                       | [] => Forall_nil _
                       | kv :: l' => Forall_cons kv (F (snd kv)) (G l')
                       end) props)
    end.

(** Only JSON white space. *)
Fixpoint allWs (s : string) : bool :=
  match s with
  | EmptyString => true
  | String c s' => isWs c && allWs s'
  end.

(** What may follow a number: anything but a digit. *)
Definition noDigitStart (s : string) : Prop :=
  match s with
  | EmptyString => True
  | String c _ => isDigit c = false
  end.

Definition sizeList (items : list value) : nat :=
  fold_right (fun x n => S (size x + n)) 0 items.

Definition sizeProps (props : list (string * value)) : nat :=
  fold_right (fun kv n => S (size (snd kv) + n)) 0 props.

(** Parsing the text of a value, whatever follows it, gives the value
    with its dates as [toJSON] leaves them. *)
Definition roundTrips (v : value) : Prop :=
  forall indent rest fuel,
    allWs indent = true -> noDigitStart rest -> size v <= fuel ->
    wellFormed v = true ->
    parseValue fuel (serialize indent v ++ rest) = Some (dateless v, rest).

End JsonNotions.

(** ** Discovery *)

(** Induction on what the file system holds, through directories. *)
Definition FsNode_ind' (P : FsNode -> Prop)
  (HFile : P FsFile) (HDangling : P FsDangling) (HUnreadable : P FsUnreadable)
  (HDir : forall items, Forall (fun kv => P (snd kv)) items -> P (FsDir items))
  : forall node, P node :=
  fix F (node : FsNode) : P node :=
    match node with
    | FsFile => HFile
    | FsDangling => HDangling
    | FsUnreadable => HUnreadable
    | FsDir items =>
        HDir items ((fix G (l : list (string * FsNode))
                       : Forall (fun kv => P (snd kv)) l :=
                       match l with
                       | [] => Forall_nil _
                       | kv :: l' => Forall_cons kv (F (snd kv)) (G l')
                       end) items)
    end.

(** An entry that [statSync] cannot reach, a directory that
    [readdirSync] cannot list, or a directory with one of these somewhere
    below it. *)
Fixpoint broken (node : FsNode) : bool :=
  match node with
  | FsFile => false
  | FsDangling | FsUnreadable => true
  | FsDir items => existsb (fun kv => broken (snd kv)) items
  end.

(** What a tree holds: itself, and what the entries of its directories
    hold. *)
Inductive Holds : FsNode -> FsNode -> Prop :=
| Holds_self (node : FsNode) : Holds node node
| Holds_entry (items : list (string * FsNode)) (item : string)
              (child node : FsNode) :
    In (item, child) items -> Holds child node -> Holds (FsDir items) node.

(** A name as [readdirSync] gives it: not empty, without a slash, and
    neither [.] nor [..]. *)
Definition properName (item : string) : bool :=
  negb (String.eqb item "") && negb (includes item "/")
  && negb (String.eqb item ".") && negb (String.eqb item "..").

(** Every entry below has such a name. *)
Fixpoint properTree (node : FsNode) : bool :=
  match node with
  | FsDir items => forallb (fun kv => properName (fst kv) && properTree (snd kv)) items
  | _ => true
  end.

(** [statSync] succeeds on a path. *)
Definition statable (w : World) (filePath : string) : bool :=
  match statSync w filePath with
  | Some _ => true
  | None => false
  end.

(** The paths of documents, in order. *)
Definition pathsOf (docs : list Doc) : list string :=
  map (fun d => Metadata.path (DocumentContent.metadata d)) docs.

(** A document root with a link that leads nowhere. *)
Definition brokenWorld : World :=
  mkWorld
    (fun p => if String.eqb p "./documents"
              then Some (FsDir [ ("CF1_Echo_Request.xml", FsFile);
                                 ("archive", FsDir [ ("old.pdf", FsDangling) ]) ])
              else None)
    (fun _ => Some (mkStats 10 (ValidDate 0)))
    (fun _ => Some "<echo/>")
    (fun _ => None) (fun _ => None) (fun _ => None) (fun _ => None).

(** The sample world on a disk that takes no cache file. *)
Definition readOnlyWorld : World :=
  mkWorld (lookup sampleWorld) (statSync sampleWorld) (readFileSync sampleWorld)
          (mammoth sampleWorld) (xml2js sampleWorld) (pdfjs sampleWorld)
          (fun _ => Some None).

(** ** Records of a run *)

(** A pattern without a capturing group. *)
Fixpoint groupFree (r : re) : bool :=
  match r with
  | Group _ => false
  | Seq r1 r2 | Alt r1 r2 => groupFree r1 && groupFree r2
  | _ => true
  end.

(** A pattern every match of which captures one or more code units that
    [a] takes. *)
Inductive Captures (a : atom) : re -> Prop :=
| Captures_group min : 1 <= min -> Captures a (Group (Rep min a))
| Captures_before r1 r2 :
    Captures a r1 -> groupFree r2 = true -> Captures a (Seq r1 r2)
| Captures_after r1 r2 : Captures a r2 -> Captures a (Seq r1 r2).

(** A document that [processDocument] gave for some path. *)
Definition processed (w : World) (d : Doc) : Prop :=
  exists filePath, processDocument w filePath = Ok (Some d).

(** What holds of every endpoint record: its method is one of the four
    verbs; its URL is a run of code units that are not white space with a
    slash among them; its name is its category and what follows the last
    slash of the URL; its category is that of its source. *)
Definition endpointShape (e : EndpointInfo.t) : Prop :=
  isVerb (EndpointInfo.method e)
  /\ every notSpaceChar (EndpointInfo.url e) = true
  /\ EndpointInfo.category e = categorizeDocument (EndpointInfo.source e)
  /\ exists pre seg,
       EndpointInfo.url e = (pre ++ "/" ++ seg)%string
       /\ includes seg "/" = false
       /\ EndpointInfo.name e = (EndpointInfo.category e ++ " - " ++ seg)%string.

(** What holds of every rule record: name and description are the same
    trimmed text without a line feed, the category is [Validation], and
    the source is a file of the category [Validation Rules]. *)
Definition ruleShape (r : RuleInfo.t) : Prop :=
  RuleInfo.description r = RuleInfo.name r
  /\ trim (RuleInfo.name r) = RuleInfo.name r
  /\ every notLineFeed (RuleInfo.name r) = true
  /\ RuleInfo.category r = "Validation"
  /\ categorizeDocument (RuleInfo.source r) = "Validation Rules".

(** What holds of every example record: its type and its operation are
    read off the name of its source. *)
Definition exampleShape (e : ExampleInfo.t) : Prop :=
  (includes (toLowerCase (ExampleInfo.source e)) "request" = true
   \/ includes (toLowerCase (ExampleInfo.source e)) "response" = true)
  /\ ExampleInfo.type e
     = (if includes (toLowerCase (ExampleInfo.source e)) "request"
        then request else response)
  /\ ExampleInfo.operation e = extractOperationFromFilename (ExampleInfo.source e).

Definition shaped (kb : KB) : Prop :=
  Forall endpointShape (ProcessedKnowledge.endpoints kb)
  /\ Forall exampleShape (ProcessedKnowledge.examples kb)
  /\ Forall ruleShape (ProcessedKnowledge.rules kb).

(** The codes of the conformance tests, which come first in
    [categorizeDocument]. *)
Definition conformanceCodes : list string :=
  ["cf1"; "cf2"; "cf3"; "cf4"; "cf5"; "cf6"; "cf7"].

(** ** Notions for the front ends *)

(** The text a tool answer is put in by the stdio front end: a message as
    it is, anything else as JSON text. *)
Definition textOf (result : Json.value) : string :=
  match result with
  | Json.Str message => message
  | _ => Json.stringify result
  end.

(** The names of the five tools. *)
Definition toolNames : list string :=
  [ "query_endpoint"; "get_examples"; "validate_structure";
    "get_business_rules"; "search_documentation" ].

(** The documents the integration guide is made of. *)
Definition guideDocuments (kb : KB) : list Doc :=
  filter (fun d => String.eqb (DocumentContent.category d) "Basic Connectivity"
                   || String.eqb (DocumentContent.category d) "Development Options")
         (ProcessedKnowledge.documents kb).

(** The messages of a prompt. *)
Definition messagesOf (prompt : outcome Json.value) : list Json.value :=
  match prompt with
  | Ok (Json.Obj [("messages", Json.Arr messages)]) => messages
  | _ => []
  end.

(** The text of the resource that a message carries. *)
Definition resourceText (message : Json.value) : option string :=
  match WebServer.getProp message "content" with
  | Some content =>
      match WebServer.getProp content "resource" with
      | Some resource =>
          match WebServer.getProp resource "text" with
          | Some (Json.Str text) => Some text
          | _ => None
          end
      | None => None
      end
  | None => None
  end.

(** A code unit that [encodeURIComponent] lets through or writes. *)
Definition uriSafe (c : ascii) : bool :=
  WebServer.unreserved c || Ascii.eqb c "%".

(** The [uri] of a resource. *)
Definition uriOf (resource : Json.value) : string :=
  match WebServer.getProp resource "uri" with
  | Some (Json.Str uri) => uri
  | _ => EmptyString
  end.

(** The [name] of a resource. *)
Definition nameOf (resource : Json.value) : string :=
  match WebServer.getProp resource "name" with
  | Some (Json.Str name) => name
  | _ => EmptyString
  end.

(** ** File names *)

(** A code unit that [[^/.]] takes. *)
Definition notDotSlash (c : ascii) : bool :=
  negb (Ascii.eqb c "/" || Ascii.eqb c ".").

(** A world whose XML parser succeeds. *)
Definition parsedWorld : World :=
  mkWorld (fun _ => None)
          (fun _ => Some (mkStats 6 (ValidDate 0)))
          (fun _ => Some "<dds/>")
          (fun _ => None)
          (fun _ => Some (Json.Obj [("dds", Json.Str "")]))
          (fun _ => None) (fun _ => None).

(** A world whose PDF decoder gives two pages. *)
Definition pdfWorld : World :=
  mkWorld (fun _ => None)
          (fun _ => Some (mkStats 6 (ValidDate 0)))
          (fun _ => Some "%PDF-1")
          (fun _ => None) (fun _ => None)
          (fun _ => Some [Some ["Due"; "Diligence"; "Statement"]; Some []])
          (fun _ => None).

(** The text of the pages of a PDF, page after page. *)
Definition pagesText (pages : list (list string)) : string :=
  fold_right (fun items text => (join " " items ++ nl ++ text)%string)
             EmptyString pages.

(** ** Tokens of a text *)

(** A word of small letters written in any case: code unit by code unit,
    the small letter itself or its capital, which is 32 below it. *)
Fixpoint spells (word kw : string) : Prop :=
  match word, kw with
  | EmptyString, EmptyString => True
  | String c word', String x kw' =>
      (x = c \/ code x + 32 = code c) /\ spells word' kw'
  | _, _ => False
  end.

(** A text begins with a token: a keyword, one or more separators, and
    one or more token code units. *)
Definition StartsToken (isKeyword : string -> Prop) (separator token : ascii -> bool)
           (text : string) : Prop :=
  exists kw sep tok post,
    text = (kw ++ sep ++ tok ++ post)%string
    /\ isKeyword kw
    /\ sep <> EmptyString /\ every separator sep = true
    /\ tok <> EmptyString /\ every token tok = true.

(** The first token of a text at or after [lastIndex], read from the text
    alone: no token begins between [lastIndex] and its index; it is a
    keyword, the longest run of separators that leaves a token code unit
    after it, and then the longest run of token code units, which is its
    capture. *)
Definition FirstToken (isKeyword : string -> Prop) (separator token : ascii -> bool)
           (subject : string) (lastIndex : nat) (m : result) : Prop :=
  lastIndex <= index m
  /\ (forall i, lastIndex <= i -> i < index m ->
                ~ StartsToken isKeyword separator token (drop i subject))
  /\ exists kw sep tok,
       drop (index m) subject = (kw ++ sep ++ tok ++ drop (stop m) subject)%string
       /\ stop m = index m + String.length kw + String.length sep + String.length tok
       /\ isKeyword kw
       /\ sep <> EmptyString /\ every separator sep = true
       /\ tok <> EmptyString /\ every token tok = true
       /\ stopsAt token (drop (stop m) subject)
       /\ group1 m = Some tok
       /\ forall kw' sep' tok' post',
            drop (index m) subject = (kw' ++ sep' ++ tok' ++ post')%string ->
            isKeyword kw' -> every separator sep' = true ->
            tok' <> EmptyString -> every token tok' = true ->
            kw' = kw /\ String.length sep' <= String.length sep.

(** The tokens of a text from [lastIndex] on, one after the end of the
    other, until no token begins anywhere in what is left. *)
Inductive Tokens (isKeyword : string -> Prop) (separator token : ascii -> bool)
          (subject : string) : nat -> list result -> Prop :=
| Tokens_done lastIndex :
    (forall i, lastIndex <= i ->
               ~ StartsToken isKeyword separator token (drop i subject)) ->
    Tokens isKeyword separator token subject lastIndex []
| Tokens_next lastIndex m ms :
    FirstToken isKeyword separator token subject lastIndex m ->
    Tokens isKeyword separator token subject (stop m) ms ->
    Tokens isKeyword separator token subject lastIndex (m :: ms).

(** What a keyword pattern finds: every keyword the text begins with. *)
Definition produces (fl : flags) (keyword : re) (isKeyword : string -> Prop) : Prop :=
  forall st kw post,
    rest st = (kw ++ post)%string -> isKeyword kw ->
    exists st', In st' (run fl keyword st)
                /\ idx st' = idx st + String.length kw /\ rest st' = post.

(** No keyword begins another. *)
Definition prefixFree (isKeyword : string -> Prop) : Prop :=
  forall kw1 kw2 post1 post2,
    isKeyword kw1 -> isKeyword kw2 ->
    (kw1 ++ post1)%string = (kw2 ++ post2)%string -> kw1 = kw2.

(** A small letter of the alphabet. *)
Definition isSmallLetter (c : ascii) : bool := (97 <=? code c) && (code c <=? 122).

(* ================================================================== *)
(** * Facts about strings *)
(* ================================================================== *)

Section StringFacts.

Local Open Scope string_scope.

Lemma append_nil_r (s : string) : s ++ "" = s.
Proof. induction s; simpl; congruence. Qed.

Lemma append_assoc (a b c : string) : (a ++ b) ++ c = a ++ (b ++ c).
Proof. induction a; simpl; congruence. Qed.

Lemma length_append (a b : string) :
  String.length (a ++ b) = String.length a + String.length b.
Proof. induction a; simpl; congruence. Qed.

Lemma startsWith_iff (s sub : string) :
  startsWith s sub = true <-> exists post, s = sub ++ post.
Proof.
  revert s; induction sub as [|a sub IH]; intros s; simpl.
  - split; [intros _; exists s; reflexivity | reflexivity].
  - destruct s as [|b s]; simpl.
    + split; [discriminate | intros [post H]; discriminate].
    + rewrite andb_true_iff, Ascii.eqb_eq, IH. split.
      * intros [-> [post ->]]. exists post; reflexivity.
      * intros [post H]. injection H as -> ->. split; [reflexivity | eauto].
Qed.

Lemma includes_iff (s sub : string) :
  includes s sub = true <-> exists pre post, s = pre ++ sub ++ post.
Proof.
  induction s as [|c s IH].
  - cbn [includes]. rewrite orb_false_r, startsWith_iff. split.
    + intros [post H]. exists "", post. exact H.
    + intros [pre [post H]]. destruct pre; [eauto | discriminate].
  - cbn [includes]. rewrite orb_true_iff, startsWith_iff, IH. split.
    + intros [[post H] | [pre [post H]]].
      * exists "", post. exact H.
      * exists (String c pre), post. simpl. congruence.
    + intros [pre [post H]]. destruct pre as [|c' pre].
      * left. exists post. exact H.
      * right. simpl in H. injection H as -> ->. eauto.
Qed.

Lemma toLowerCase_append (a b : string) :
  toLowerCase (a ++ b) = toLowerCase a ++ toLowerCase b.
Proof. induction a; simpl; congruence. Qed.

Lemma toLowerCase_split (s a b : string) :
  toLowerCase s = a ++ b ->
  exists a' b', s = a' ++ b' /\ toLowerCase a' = a /\ toLowerCase b' = b.
Proof.
  revert s; induction a as [|c a IH]; intros s H.
  - exists "", s. auto.
  - destruct s as [|d s]; [discriminate|].
    simpl in H. injection H as Hc H.
    destruct (IH _ H) as [a' [b' [-> [Ha Hb]]]].
    exists (String d a'), b'. simpl. rewrite Hc, Ha. auto.
Qed.

(** The test of the source, [lower.includes(key)], is the occurrence of
    [key] up to case. *)
Lemma includes_lower_iff (key s : string) :
  includes (toLowerCase s) key = true <-> occursIgnoringCase key s.
Proof.
  rewrite includes_iff. split.
  - intros [pre [post H]].
    destruct (toLowerCase_split _ _ _ H) as [pre' [r [-> [_ Hr]]]].
    destruct (toLowerCase_split _ _ _ Hr) as [mid [post' [-> [Hm _]]]].
    exists pre', mid, post'. auto.
  - intros [pre [mid [post [-> Hm]]]].
    exists (toLowerCase pre), (toLowerCase post).
    now rewrite !toLowerCase_append, Hm.
Qed.

Lemma includes_lower_false (key s : string) :
  includes (toLowerCase s) key = false <-> ~ occursIgnoringCase key s.
Proof.
  rewrite <- includes_lower_iff. destruct (includes _ _); intuition congruence.
Qed.

Lemma FirstMatch_functional s dflt table r1 r2 :
  FirstMatch s dflt table r1 -> FirstMatch s dflt table r2 -> r1 = r2.
Proof.
  induction 1; inversion 1; subst; auto; contradiction.
Qed.

End StringFacts.

Ltac first_match_chain :=
  repeat lazymatch goal with
    | |- FirstMatch _ _ [] _ => apply FirstMatch_none
    | |- FirstMatch ?s _ ((?k, _) :: _) (if includes (toLowerCase ?s) ?k then _ else _) =>
        let E := fresh "E" in
        destruct (includes (toLowerCase s) k) eqn:E;
        [ apply FirstMatch_here; apply includes_lower_iff; exact E
        | apply FirstMatch_later; [ apply includes_lower_false; exact E | ] ]
    end.

Lemma categorizeDocument_FirstMatch (filename : string) :
  FirstMatch filename "General" categoryTable (categorizeDocument filename).
Proof. unfold categorizeDocument, categoryTable. cbv zeta. first_match_chain. Qed.

Lemma extractOperationFromFilename_FirstMatch (filename : string) :
  FirstMatch filename "Unknown" operationTable
             (extractOperationFromFilename filename).
Proof.
  unfold extractOperationFromFilename, operationTable. cbv zeta. first_match_chain.
Qed.

(* ================================================================== *)
(** * Facts about matching *)
(* ================================================================== *)

Section RegexFacts.

Variable fl : flags.

Lemma rep_bounds p min i pv s cp st' :
  In st' (rep p min i pv s cp) ->
  i + min <= idx st' /\ idx st' + String.length (rest st') = i + String.length s.
Proof.
  revert min i pv; induction s as [|c s IH]; intros min i pv; simpl.
  - destruct (Nat.eqb_spec min 0); simpl; [|tauto].
    intros [<- | []]; simpl; lia.
  - intros H. apply in_app_or in H. destruct H as [H | H].
    + destruct (p c); [|contradiction].
      apply IH in H. lia.
    + destruct (Nat.eqb_spec min 0); simpl in H; [|contradiction].
      destruct H as [<- | []]; simpl; lia.
Qed.

Lemma run_bounds r : forall st st',
  In st' (run fl r st) ->
  idx st + minLen r <= idx st'
  /\ idx st' + String.length (rest st') = idx st + String.length (rest st).
Proof.
  induction r as [|a|r1 IH1 r2 IH2|r1 IH1 r2 IH2|r1 IH1|min a| |];
    intros st st'; simpl.
  - intros [<- | []]; lia.
  - destruct (rest st) as [|c s] eqn:E; [contradiction|].
    destruct (atomMatches fl a c); [|contradiction].
    intros [<- | []]; simpl; lia.
  - rewrite in_flat_map. intros [mid [H1 H2]].
    apply IH1 in H1. apply IH2 in H2. lia.
  - intros H. apply in_app_or in H. destruct H as [H | H];
      [apply IH1 in H | apply IH2 in H]; lia.
  - rewrite in_map_iff. intros [st0 [<- H]]. simpl. apply IH1 in H. exact H.
  - apply rep_bounds.
  - destruct (atLineStart fl st); [|contradiction]. intros [<- | []]; lia.
  - destruct (atLineEnd fl st); [|contradiction]. intros [<- | []]; lia.
Qed.

Lemma search_bounds r : forall s i pv m,
  search fl r i pv s = Some m ->
  i <= index m /\ index m + minLen r <= stop m
  /\ stop m <= i + String.length s.
Proof.
  induction s as [|c s IH]; intros i pv m; simpl.
  - destruct (run fl r (mkState i pv "" None)) as [|st' l] eqn:E; [discriminate|].
    intros [= <-]. simpl.
    assert (H : In st' (run fl r (mkState i pv "" None))) by (rewrite E; now left).
    apply run_bounds in H. simpl in H. lia.
  - destruct (run fl r (mkState i pv (String c s) None)) as [|st' l] eqn:E.
    + intros H. apply IH in H. lia.
    + intros [= <-]. simpl.
      assert (H : In st' (run fl r (mkState i pv (String c s) None)))
        by (rewrite E; now left).
      apply run_bounds in H. simpl in H. lia.
Qed.

Lemma seek_bounds n : forall i pv s i' pv' s',
  seek n i pv s = Some (i', pv', s') ->
  i' = i + n /\ i' + String.length s' = i + String.length s.
Proof.
  induction n as [|n IH]; intros i pv s i' pv' s'; simpl.
  - intros [= <- <- <-]. lia.
  - destruct s as [|c s]; [discriminate|].
    intros H. apply IH in H. simpl. lia.
Qed.

(** A match lies at or after [lastIndex], inside the subject, and is at
    least as long as the pattern demands. *)
Lemma exec_bounds r s lastIndex m :
  exec fl r s lastIndex = Some m ->
  lastIndex <= index m /\ index m + minLen r <= stop m
  /\ stop m <= String.length s.
Proof.
  unfold exec.
  destruct (seek lastIndex 0 None s) as [[[i pv] s']|] eqn:E; [|discriminate].
  intros H. apply search_bounds in H. apply seek_bounds in E. lia.
Qed.

(** A pattern that cannot match the empty string is exhausted after at
    most as many matches as the subject has code units left. *)
Lemma execAll_total r s (Hr : 1 <= minLen r) : forall fuel lastIndex,
  String.length s - lastIndex < fuel ->
  exists ms, execAll fuel fl r s lastIndex = Some ms.
Proof.
  induction fuel as [|fuel IH]; intros lastIndex Hf; [lia|].
  simpl. destruct (exec fl r s lastIndex) as [m|] eqn:E; [|eauto].
  apply exec_bounds in E.
  destruct (IH (stop m)) as [ms ->]; [lia|]. eauto.
Qed.

Lemma execAll_Matches r s : forall fuel lastIndex ms,
  execAll fuel fl r s lastIndex = Some ms -> Matches fl r s lastIndex ms.
Proof.
  induction fuel as [|fuel IH]; intros lastIndex ms; simpl; [discriminate|].
  destruct (exec fl r s lastIndex) as [m|] eqn:E.
  - destruct (execAll fuel fl r s (stop m)) as [ms'|] eqn:E'; [|discriminate].
    intros [= <-]. apply Matches_next; auto.
  - intros [= <-]. now apply Matches_done.
Qed.

Lemma Matches_functional r s lastIndex ms1 ms2 :
  Matches fl r s lastIndex ms1 -> Matches fl r s lastIndex ms2 -> ms1 = ms2.
Proof.
  intros H; revert ms2; induction H as [li E | li m ms E _ IH]; intros ms2 H2;
    inversion H2; subst; try congruence.
  assert (m0 = m) by congruence. subst. f_equal. now apply IH.
Qed.

(** The loop of the source applies its body to the matches in order. *)
Lemma whileExec_execAll (S : Type) r s (body : result -> S -> S) :
  forall fuel lastIndex acc,
    whileExec fuel fl r s lastIndex body acc =
    option_map (fun ms => fold_left (fun a m => body m a) ms acc)
               (execAll fuel fl r s lastIndex).
Proof.
  induction fuel as [|fuel IH]; intros lastIndex acc; simpl; [reflexivity|].
  destruct (exec fl r s lastIndex) as [m|]; [|reflexivity].
  rewrite IH. destruct (execAll fuel fl r s (stop m)); reflexivity.
Qed.

End RegexFacts.

(** The passes of [forEachPattern] end, and apply the body to the matches
    of each pattern in turn. *)
Lemma forEachPattern_matches (content : string) (body : result -> KB -> KB) :
  forall patterns, allNonEmpty patterns ->
  forall kb, exists mss,
    Forall2 (fun p ms => Matches (fst p) (snd p) content 0 ms) patterns mss
    /\ forEachPattern patterns content body kb
       = Some (fold_left (fun a m => body m a) (List.concat mss) kb).
Proof.
  induction patterns as [|[fl r] patterns IH]; intros Hne kb.
  - exists []. split; [constructor | reflexivity].
  - inversion Hne as [|? ? Hr Hne']; subst. simpl in Hr.
    destruct (execAll_total fl r content Hr (S (String.length content)) 0)
      as [ms Hms]; [lia|].
    cbn [forEachPattern]. rewrite whileExec_execAll, Hms. cbn [option_map].
    destruct (IH Hne' (fold_left (fun a m => body m a) ms kb)) as [mss [HF Heq]].
    exists (ms :: mss). split.
    + constructor; [|exact HF]. simpl. eapply execAll_Matches; eauto.
    + rewrite Heq. cbn [List.concat]. now rewrite fold_left_app.
Qed.

Lemma endpointPatterns_nonEmpty : allNonEmpty endpointPatterns.
Proof. repeat constructor; simpl; lia. Qed.

Lemma rulePatterns_nonEmpty : allNonEmpty rulePatterns.
Proof. repeat constructor; simpl; lia. Qed.

(* ================================================================== *)
(** * The shape of matches *)
(* ================================================================== *)

Section MatchShape.

Variable fl : flags.

Lemma take_drop (n : nat) (s : string) : (take n s ++ drop n s)%string = s.
Proof.
  revert s; induction n as [|n IH]; intros [|c s]; simpl; try reflexivity.
  now rewrite IH.
Qed.

Lemma drop_drop (a b : nat) (s : string) : drop b (drop a s) = drop (a + b) s.
Proof.
  revert s; induction a as [|a IH]; intros s; simpl; [reflexivity|].
  destruct s as [|c s]; [now destruct b | apply IH].
Qed.

Lemma length_take (n : nat) (s : string) :
  n <= String.length s -> String.length (take n s) = n.
Proof.
  revert s; induction n as [|n IH]; intros [|c s]; simpl; intros H;
    try reflexivity; try lia.
  rewrite IH; lia.
Qed.

Lemma take_take_drop (a b : nat) (s : string) :
  take (a + b) s = (take a s ++ take b (drop a s))%string.
Proof.
  revert s; induction a as [|a IH]; intros s; simpl; [reflexivity|].
  destruct s as [|c s]; simpl; [now destruct b|]. now rewrite IH.
Qed.

Lemma drop_length_append (x y : string) : drop (String.length x) (x ++ y) = y.
Proof. induction x as [|c x IH]; simpl; [now destruct y | exact IH]. Qed.

Lemma rep_shape p : forall s min i pv cp st',
  In st' (rep p min i pv s cp) ->
  exists n, idx st' = i + n /\ min <= n /\ n <= String.length s
            /\ rest st' = drop n s /\ every p (take n s) = true
            /\ cap st' = cp.
Proof.
  induction s as [|c s IH]; intros min i pv cp st' H; simpl in H.
  - destruct (Nat.eqb_spec min 0); simpl in H; [|contradiction].
    destruct H as [<- | []]. exists 0. simpl. repeat split; lia.
  - apply in_app_or in H. destruct H as [H | H].
    + destruct (p c) eqn:Hc; [|contradiction].
      apply IH in H. destruct H as [n [H1 [H2 [H3 [H4 [H5 H6]]]]]].
      exists (S n). simpl. rewrite Hc, H5. repeat split; try assumption; lia.
    + destruct (Nat.eqb_spec min 0); simpl in H; [|contradiction].
      destruct H as [<- | []]. exists 0. simpl. repeat split; lia.
Qed.

Lemma rep_zero_nonempty p s i pv cp : rep p 0 i pv s cp <> [].
Proof.
  destruct s as [|c s]; simpl; [discriminate|].
  intros H. apply app_eq_nil in H. destruct H as [_ H]. discriminate.
Qed.

(** The first way a greedy repetition matches is the longest. *)
Lemma rep_head_stops p : forall s min i pv cp st' l,
  rep p min i pv s cp = st' :: l -> stopsAt p (rest st').
Proof.
  induction s as [|c s IH]; intros min i pv cp st' l H; simpl in H.
  - destruct (min =? 0); simpl in H; [|discriminate].
    injection H as <- _. exact I.
  - destruct (p c) eqn:Hc.
    + destruct (rep p (Nat.pred min) (S i) (Some c) s cp) as [|x xs] eqn:E.
      * destruct min as [|min]; [now apply rep_zero_nonempty in E|].
        simpl in H. discriminate.
      * simpl in H. injection H as <- _. eapply IH; eauto.
    + simpl in H. destruct (min =? 0); simpl in H; [|discriminate].
      injection H as <- _. simpl. exact Hc.
Qed.

Lemma flat_map_head (A B : Type) (f : A -> list B) : forall l x t,
  flat_map f l = x :: t -> exists a t', In a l /\ f a = x :: t'.
Proof.
  induction l as [|a l IH]; intros x t H; simpl in H; [discriminate|].
  destruct (f a) as [|y ys] eqn:E.
  - simpl in H. destruct (IH _ _ H) as [a' [t' [Hin Hf]]].
    exists a', t'. split; [now right | exact Hf].
  - simpl in H. injection H as <- _. exists a, ys. split; [now left | exact E].
Qed.

Lemma run_token_shape (keyword : re) (isKeyword : string -> Prop) (a b : atom) :
  consumes fl keyword isKeyword ->
  forall st st' l,
    run fl (Seq keyword (Seq (Rep 1 a) (Group (Rep 1 b)))) st = st' :: l ->
    exists kw sep tok,
      rest st = (kw ++ sep ++ tok ++ rest st')%string
      /\ idx st' = idx st + String.length kw + String.length sep + String.length tok
      /\ isKeyword kw
      /\ sep <> EmptyString /\ every (atomMatches fl a) sep = true
      /\ tok <> EmptyString /\ every (atomMatches fl b) tok = true
      /\ stopsAt (atomMatches fl b) (rest st')
      /\ cap st' = Some tok.
Proof.
  intros HK st st' l H. cbn [run] in H.
  apply flat_map_head in H. destruct H as [s1 [t1 [H1 H]]].
  apply flat_map_head in H. destruct H as [s2 [t2 [H2 H]]].
  apply HK in H1. destruct H1 as [n1 [I1 [B1 [R1 K1]]]].
  apply rep_shape in H2. destruct H2 as [n2 [I2 [M2 [B2 [R2 [E2 _]]]]]].
  destruct (rep (atomMatches fl b) 1 (idx s2) (prev s2) (rest s2) (cap s2))
    as [|s3 t3] eqn:E3; [discriminate|].
  simpl in H. injection H as <- _. cbn [idx rest cap].
  pose proof (rep_head_stops _ _ _ _ _ _ _ _ E3) as Hstop.
  assert (H3 : In s3 (rep (atomMatches fl b) 1 (idx s2) (prev s2) (rest s2) (cap s2)))
    by (rewrite E3; now left).
  apply rep_shape in H3. destruct H3 as [n3 [I3 [M3 [B3 [R3 [E3' _]]]]]].
  exists (take n1 (rest st)), (take n2 (rest s1)), (take n3 (rest s2)).
  rewrite !length_take by assumption.
  replace (idx s3 - idx s2) with n3 by lia.
  repeat split; try assumption; try lia.
  - rewrite R3. rewrite (take_drop n3 (rest s2)).
    rewrite R2. rewrite (take_drop n2 (rest s1)).
    rewrite R1. now rewrite take_drop.
  - intros E. apply (f_equal String.length) in E.
    rewrite length_take in E by assumption. simpl in E. lia.
  - intros E. apply (f_equal String.length) in E.
    rewrite length_take in E by assumption. simpl in E. lia.
Qed.

Lemma search_run r : forall s i pv m,
  search fl r i pv s = Some m ->
  exists k pv' st' l,
    index m = i + k /\ k <= String.length s
    /\ run fl r (mkState (i + k) pv' (drop k s) None) = st' :: l
    /\ stop m = idx st' /\ group1 m = cap st'.
Proof.
  induction s as [|c s IH]; intros i pv m H; cbn [search] in H.
  - destruct (run fl r (mkState i pv "" None)) as [|st' l] eqn:E; [discriminate|].
    injection H as <-. exists 0, pv, st', l. simpl. rewrite Nat.add_0_r.
    repeat split; auto.
  - destruct (run fl r (mkState i pv (String c s) None)) as [|st' l] eqn:E.
    + apply IH in H. destruct H as [k [pv' [st' [l [H1 [H2 [H3 [H4 H5]]]]]]]].
      exists (S k), pv', st', l. simpl.
      replace (i + S k) with (S i + k) by lia. repeat split; auto; lia.
    + injection H as <-. exists 0, pv, st', l. simpl. rewrite Nat.add_0_r.
      repeat split; auto; lia.
Qed.

Lemma seek_drop n : forall i pv s i' pv' s',
  seek n i pv s = Some (i', pv', s') -> i' = i + n /\ s' = drop n s.
Proof.
  induction n as [|n IH]; intros i pv s i' pv' s'; simpl.
  - intros [= <- <- <-]. split; [lia | reflexivity].
  - destruct s as [|c s]; [discriminate|].
    intros H. apply IH in H. destruct H as [-> ->]. split; [lia | reflexivity].
Qed.

(** A match is the first way the pattern matches at the index of the
    match. *)
Lemma exec_run r s lastIndex m :
  exec fl r s lastIndex = Some m ->
  exists pv st' l,
    run fl r (mkState (index m) pv (drop (index m) s) None) = st' :: l
    /\ stop m = idx st' /\ group1 m = cap st'.
Proof.
  unfold exec.
  destruct (seek lastIndex 0 None s) as [[[i pv] s']|] eqn:E; [|discriminate].
  apply seek_drop in E. destruct E as [-> ->]. intros H.
  apply search_run in H. destruct H as [k [pv' [st' [l [H1 [H2 [H3 [H4 H5]]]]]]]].
  exists pv', st', l. rewrite drop_drop in H3. rewrite H1. auto.
Qed.

Lemma exec_token_shape (keyword : re) (isKeyword : string -> Prop) (a b : atom)
      (s : string) (lastIndex : nat) (m : result) :
  consumes fl keyword isKeyword ->
  exec fl (Seq keyword (Seq (Rep 1 a) (Group (Rep 1 b)))) s lastIndex = Some m ->
  TokenMatch isKeyword (atomMatches fl a) (atomMatches fl b) s m.
Proof.
  intros HK H. apply exec_run in H. destruct H as [pv [st' [l [Hrun [Hstop Hcap]]]]].
  apply (run_token_shape keyword isKeyword a b HK) in Hrun.
  destruct Hrun as [kw [sep [tok [H1 [H2 [H3 [H4 [H5 [H6 [H7 [H8 H9]]]]]]]]]]].
  cbn [idx rest] in *.
  assert (Hrest : rest st' = drop (stop m) s).
  { rewrite Hstop, H2, <- !Nat.add_assoc, <- drop_drop, H1.
    rewrite <- !drop_drop. now rewrite !drop_length_append. }
  exists kw, sep, tok. rewrite <- Hrest, Hcap.
  repeat split; try assumption. lia.
Qed.

Lemma Matches_Forall r s (P : result -> Prop) :
  (forall lastIndex m, exec fl r s lastIndex = Some m -> P m) ->
  forall lastIndex ms, Matches fl r s lastIndex ms -> Forall P ms.
Proof.
  intros HP lastIndex ms H. induction H; constructor; eauto.
Qed.

End MatchShape.

Lemma lit_consumes (fl : flags) : forall s,
  consumes fl (lit s) (fun kw => sameUnder fl s kw = true).
Proof.
  induction s as [|c s IH]; intros st st' H.
  - simpl in H. destruct H as [<- | []]. exists 0. simpl.
    repeat split; try lia; try (now destruct (rest st)).
  - assert (Hone : forall st st', In st' (run fl (Atom (Chr c)) st) ->
                exists x t, rest st = String x t /\ idx st' = S (idx st)
                            /\ rest st' = t
                            /\ Ascii.eqb (canon fl c) (canon fl x) = true).
    { clear. intros st st' H. simpl in H. destruct (rest st) as [|x t]; [contradiction|].
      destruct (Ascii.eqb (canon fl c) (canon fl x)) eqn:E; [|contradiction].
      destruct H as [<- | []]. exists x, t. auto. }
    destruct s as [|d s].
    + apply Hone in H. destruct H as [x [t [E [I1 [R1 C1]]]]].
      exists 1. rewrite E. simpl. rewrite C1.
      repeat split; try lia; auto; try (now destruct t).
    + change (lit (String c (String d s)))
        with (Seq (Atom (Chr c)) (lit (String d s))) in H.
      cbn [run] in H. apply in_flat_map in H. destruct H as [mid [H1 H2]].
      apply Hone in H1. destruct H1 as [x [t [E [I1 [R1 C1]]]]].
      apply IH in H2. destruct H2 as [n [I2 [B2 [R2 K2]]]].
      exists (S n). rewrite E. rewrite R1 in *.
      cbn [take drop String.length].
      change (sameUnder fl (String c (String d s)) (String x (take n t)))
        with (Ascii.eqb (canon fl c) (canon fl x)
              && sameUnder fl (String d s) (take n t)).
      rewrite C1, K2.
      repeat split; try lia; auto.
Qed.

Lemma consumes_weaken (fl : flags) (k : re) (P Q : string -> Prop) :
  (forall kw, P kw -> Q kw) -> consumes fl k P -> consumes fl k Q.
Proof.
  intros HPQ HK st st' H. destruct (HK st st' H) as [n [H1 [H2 [H3 H4]]]].
  exists n. auto.
Qed.

Lemma consumes_alt (fl : flags) (a b : re) (P : string -> Prop) :
  consumes fl a P -> consumes fl b P -> consumes fl (Alt a b) P.
Proof.
  intros Ha Hb st st' H. cbn [run] in H. apply in_app_or in H.
  destruct H as [H | H]; [apply Ha | apply Hb]; exact H.
Qed.

Lemma sameUnder_noFlags : forall s kw, sameUnder noFlags s kw = true -> kw = s.
Proof.
  induction s as [|c s IH]; intros [|x kw]; simpl; try discriminate; [reflexivity|].
  intros H. apply andb_true_iff in H. destruct H as [H1 H2].
  apply Ascii.eqb_eq in H1. unfold canon in H1. simpl in H1. subst x.
  f_equal. now apply IH.
Qed.

Lemma sameUnder_flag_i : forall s kw,
  sameUnder flag_i s kw = true -> sameIgnoringCase kw s.
Proof.
  unfold sameIgnoringCase.
  induction s as [|c s IH]; intros [|x kw]; simpl; try discriminate; [reflexivity|].
  intros H. apply andb_true_iff in H. destruct H as [H1 H2].
  apply Ascii.eqb_eq in H1. unfold canon in H1. simpl in H1. rewrite H1.
  f_equal. now apply IH.
Qed.

Lemma verbs_consumes : consumes noFlags verbs isVerb.
Proof.
  unfold verbs, isVerb.
  repeat apply consumes_alt;
    (eapply consumes_weaken; [|apply lit_consumes]);
    intros kw H; apply sameUnder_noFlags in H; auto.
Qed.

Lemma cue_consumes (cue : string) :
  consumes flag_i (lit cue) (fun kw => sameIgnoringCase kw cue).
Proof.
  eapply consumes_weaken; [|apply lit_consumes]. apply sameUnder_flag_i.
Qed.

Lemma every_ext (p q : ascii -> bool) (s : string) :
  (forall c, p c = q c) -> every p s = every q s.
Proof. intros H. induction s; simpl; [reflexivity|]. now rewrite H, IHs. Qed.

Lemma atom_space (fl : flags) (c : ascii) : atomMatches fl space c = isSpace c.
Proof. simpl. now destruct (isSpace c). Qed.

Lemma atom_notSpace (fl : flags) (c : ascii) :
  atomMatches fl notSpace c = notSpaceChar c.
Proof. unfold notSpaceChar. simpl. now destruct (isSpace c). Qed.

Lemma atom_colonOrSpace (c : ascii) :
  atomMatches flag_i colonOrSpace c = isColonOrSpace c.
Proof. destruct c as [[|] [|] [|] [|] [|] [|] [|] [|]]; reflexivity. Qed.

Lemma atom_notLineFeed (c : ascii) :
  atomMatches flag_i (Class true [IChar LF]) c = notLineFeed c.
Proof. destruct c as [[|] [|] [|] [|] [|] [|] [|] [|]]; reflexivity. Qed.

Lemma TokenMatch_ext (K : string -> Prop) (p p' q q' : ascii -> bool)
      (s : string) (m : result) :
  (forall c, p c = p' c) -> (forall c, q c = q' c) ->
  TokenMatch K p q s m -> TokenMatch K p' q' s m.
Proof.
  intros Hp Hq [kw [sep [tok [H1 [H2 [H3 [H4 [H5 [H6 [H7 [H8 H9]]]]]]]]]]].
  exists kw, sep, tok. rewrite <- (every_ext p p' sep Hp), <- (every_ext q q' tok Hq).
  repeat split; try assumption.
  unfold stopsAt in *. destruct (drop (stop m) s); [exact I | now rewrite <- Hq].
Qed.

(** The matches of the three endpoint patterns. *)
Lemma verbToken_matches (content : string) (lastIndex : nat) (ms : list result) :
  Matches noFlags verbTokenPattern content lastIndex ms ->
  Forall (TokenMatch isVerb isSpace notSpaceChar content) ms.
Proof.
  apply Matches_Forall. intros li m H.
  apply (exec_token_shape noFlags verbs isVerb space notSpace) in H;
    [|exact verbs_consumes].
  revert H. apply TokenMatch_ext; [apply atom_space | apply atom_notSpace].
Qed.

Lemma keywordToken_matches (keyword content : string) (lastIndex : nat)
      (ms : list result) :
  Matches flag_i (Seq (lit keyword) (Seq (Rep 1 colonOrSpace) (Group (Rep 1 notSpace))))
          content lastIndex ms ->
  Forall (TokenMatch (fun kw => sameIgnoringCase kw keyword)
                     isColonOrSpace notSpaceChar content) ms.
Proof.
  apply Matches_Forall. intros li m H.
  apply (exec_token_shape flag_i (lit keyword) (fun kw => sameIgnoringCase kw keyword)
           colonOrSpace notSpace) in H; [|apply cue_consumes].
  revert H. apply TokenMatch_ext; [apply atom_colonOrSpace | apply atom_notSpace].
Qed.

(** The matches of a cue pattern: the cue in any case, colons or white
    space, and the rest of the line. *)
Lemma cue_matches (cue content : string) (lastIndex : nat) (ms : list result) :
  Matches flag_i (cuePattern cue) content lastIndex ms ->
  Forall (TokenMatch (fun kw => sameIgnoringCase kw cue)
                     isColonOrSpace notLineFeed content) ms.
Proof.
  apply Matches_Forall. intros li m H.
  apply (exec_token_shape flag_i (lit cue) (fun kw => sameIgnoringCase kw cue)
           colonOrSpace (Class true [IChar LF])) in H; [|apply cue_consumes].
  revert H. apply TokenMatch_ext; [apply atom_colonOrSpace | apply atom_notLineFeed].
Qed.

(* ================================================================== *)
(** * Structured extraction *)
(* ================================================================== *)

Lemma endpointBody_push (doc : Doc) (m : result) (kb : KB) :
  endpointBody doc m kb =
  if includes (captured m) "/" then pushEndpoint (endpointFor doc (captured m)) kb
  else kb.
Proof.
  unfold endpointBody, captured. destruct (group1 m) as [[|c token]|]; reflexivity.
Qed.

Lemma fold_endpointBody (doc : Doc) : forall ms kb,
  fold_left (fun a m => endpointBody doc m a) ms kb =
  ProcessedKnowledge.mk
    (ProcessedKnowledge.documents kb)
    (ProcessedKnowledge.endpoints kb ++ map (endpointFor doc) (slashTokens ms))
    (ProcessedKnowledge.examples kb)
    (ProcessedKnowledge.rules kb).
Proof.
  induction ms as [|m ms IH]; intros kb.
  - simpl. rewrite app_nil_r. now destruct kb.
  - cbn [fold_left]. rewrite IH, endpointBody_push.
    unfold slashTokens. cbn [map filter].
    destruct (includes (captured m) "/"); [|reflexivity].
    cbn [pushEndpoint ProcessedKnowledge.documents ProcessedKnowledge.endpoints
         ProcessedKnowledge.examples ProcessedKnowledge.rules map].
    now rewrite <- app_assoc.
Qed.

Lemma fold_ruleBody (doc : Doc) : forall ms kb,
  fold_left (fun a m => ruleBody doc m a) ms kb =
  ProcessedKnowledge.mk
    (ProcessedKnowledge.documents kb)
    (ProcessedKnowledge.endpoints kb)
    (ProcessedKnowledge.examples kb)
    (ProcessedKnowledge.rules kb ++ map (ruleFor doc) ms).
Proof.
  induction ms as [|m ms IH]; intros kb.
  - simpl. rewrite app_nil_r. now destruct kb.
  - cbn [fold_left]. rewrite IH. unfold ruleBody at 1 2 3 4.
    cbn [pushRule ProcessedKnowledge.documents ProcessedKnowledge.endpoints
         ProcessedKnowledge.examples ProcessedKnowledge.rules map].
    now rewrite <- app_assoc.
Qed.

(** The three passes of [extractEndpoints], as matches. *)
Lemma extractEndpoints_matches (doc : Doc) (kb : KB) :
  exists ms1 ms2 ms3,
    Matches noFlags verbTokenPattern (DocumentContent.content doc) 0 ms1
    /\ Matches flag_i endpointTokenPattern (DocumentContent.content doc) 0 ms2
    /\ Matches flag_i urlTokenPattern (DocumentContent.content doc) 0 ms3
    /\ extractEndpoints doc kb =
       Some (ProcessedKnowledge.mk
               (ProcessedKnowledge.documents kb)
               (ProcessedKnowledge.endpoints kb
                  ++ map (endpointFor doc) (slashTokens (ms1 ++ ms2 ++ ms3)))
               (ProcessedKnowledge.examples kb)
               (ProcessedKnowledge.rules kb)).
Proof.
  destruct (forEachPattern_matches (DocumentContent.content doc) (endpointBody doc)
              endpointPatterns endpointPatterns_nonEmpty kb) as [mss [HF Heq]].
  unfold endpointPatterns in HF.
  inversion HF as [|? ms1 ? l1 H1 HF1]; subst.
  inversion HF1 as [|? ms2 ? l2 H2 HF2]; subst.
  inversion HF2 as [|? ms3 ? l3 H3 HF3]; subst.
  inversion HF3; subst.
  exists ms1, ms2, ms3. repeat split; try assumption.
  unfold extractEndpoints. rewrite Heq, fold_endpointBody.
  cbn [List.concat]. now rewrite app_nil_r.
Qed.

(** The four passes of [extractRules], as matches. *)
Lemma extractRules_matches (doc : Doc) (kb : KB) :
  DocumentContent.category doc = "Validation Rules" ->
  exists ms1 ms2 ms3 ms4,
    Matches flag_i (cuePattern "rule") (DocumentContent.content doc) 0 ms1
    /\ Matches flag_i (cuePattern "validation") (DocumentContent.content doc) 0 ms2
    /\ Matches flag_i (cuePattern "must") (DocumentContent.content doc) 0 ms3
    /\ Matches flag_i (cuePattern "should") (DocumentContent.content doc) 0 ms4
    /\ extractRules doc kb =
       Some (ProcessedKnowledge.mk
               (ProcessedKnowledge.documents kb)
               (ProcessedKnowledge.endpoints kb)
               (ProcessedKnowledge.examples kb)
               (ProcessedKnowledge.rules kb
                  ++ map (ruleFor doc) (ms1 ++ ms2 ++ ms3 ++ ms4))).
Proof.
  intros Hcat.
  destruct (forEachPattern_matches (DocumentContent.content doc) (ruleBody doc)
              rulePatterns rulePatterns_nonEmpty kb) as [mss [HF Heq]].
  unfold rulePatterns in HF.
  inversion HF as [|? ms1 ? l1 H1 HF1]; subst.
  inversion HF1 as [|? ms2 ? l2 H2 HF2]; subst.
  inversion HF2 as [|? ms3 ? l3 H3 HF3]; subst.
  inversion HF3 as [|? ms4 ? l4 H4 HF4]; subst.
  inversion HF4; subst.
  exists ms1, ms2, ms3, ms4. repeat split; try assumption.
  unfold extractRules. rewrite Hcat. cbn [String.eqb].
  replace (String.eqb "Validation Rules" "Validation Rules") with true by reflexivity.
  rewrite Heq, fold_ruleBody.
  cbn [List.concat]. now rewrite app_nil_r.
Qed.

Lemma extractExamples_append (doc : Doc) (kb : KB) :
  extractExamples doc kb =
  ProcessedKnowledge.mk
    (ProcessedKnowledge.documents kb)
    (ProcessedKnowledge.endpoints kb)
    (ProcessedKnowledge.examples kb
       ++ ProcessedKnowledge.examples (extractExamples doc ProcessedKnowledge.empty))
    (ProcessedKnowledge.rules kb).
Proof.
  unfold extractExamples.
  destruct (DocumentContent.type doc);
    try (simpl; rewrite app_nil_r; now destruct kb).
  destruct (includes _ "request" || includes _ "response");
    [reflexivity | simpl; rewrite app_nil_r; now destruct kb].
Qed.

Lemma extractExamples_source (doc : Doc) :
  Forall (fun e => ExampleInfo.source e = DocumentContent.filename doc)
         (ProcessedKnowledge.examples (extractExamples doc ProcessedKnowledge.empty)).
Proof.
  unfold extractExamples.
  destruct (DocumentContent.type doc); try constructor.
  destruct (includes _ "request" || includes _ "response"); repeat constructor.
Qed.

(** What structured extraction adds for a document does not depend on the
    knowledge base it is added to, and carries the document's file name. *)
Lemma extractStructuredInfo_delta (doc : Doc) :
  exists es xs rs,
    (forall kb,
        extractStructuredInfo doc kb =
        Some (ProcessedKnowledge.mk
                (ProcessedKnowledge.documents kb)
                (ProcessedKnowledge.endpoints kb ++ es)
                (ProcessedKnowledge.examples kb ++ xs)
                (ProcessedKnowledge.rules kb ++ rs)))
    /\ Forall (fun e => EndpointInfo.source e = DocumentContent.filename doc) es
    /\ Forall (fun e => ExampleInfo.source e = DocumentContent.filename doc) xs
    /\ Forall (fun r => RuleInfo.source r = DocumentContent.filename doc) rs.
Proof.
  destruct (extractEndpoints_matches doc ProcessedKnowledge.empty)
    as [e1 [e2 [e3 [He1 [He2 [He3 _]]]]]].
  set (es := map (endpointFor doc) (slashTokens (e1 ++ e2 ++ e3))).
  set (xs := ProcessedKnowledge.examples (extractExamples doc ProcessedKnowledge.empty)).
  assert (Hes : forall kb, extractEndpoints doc kb =
            Some (ProcessedKnowledge.mk (ProcessedKnowledge.documents kb)
                    (ProcessedKnowledge.endpoints kb ++ es)
                    (ProcessedKnowledge.examples kb) (ProcessedKnowledge.rules kb))).
  { intros kb. destruct (extractEndpoints_matches doc kb)
      as [m1 [m2 [m3 [H1 [H2 [H3 Heq]]]]]].
    rewrite (Matches_functional _ _ _ _ _ _ H1 He1), (Matches_functional _ _ _ _ _ _ H2 He2),
      (Matches_functional _ _ _ _ _ _ H3 He3) in Heq. exact Heq. }
  assert (Hsrc : Forall (fun e => EndpointInfo.source e = DocumentContent.filename doc) es).
  { apply Forall_forall. intros e He. apply in_map_iff in He.
    destruct He as [t [<- _]]. reflexivity. }
  destruct (String.eqb_spec (DocumentContent.category doc) "Validation Rules") as [Hc|Hc].
  - destruct (extractRules_matches doc ProcessedKnowledge.empty Hc)
      as [r1 [r2 [r3 [r4 [Hr1 [Hr2 [Hr3 [Hr4 _]]]]]]]].
    exists es, xs, (map (ruleFor doc) (r1 ++ r2 ++ r3 ++ r4)).
    split; [|repeat split].
    + intros kb. unfold extractStructuredInfo. rewrite Hes.
      rewrite extractExamples_append.
      match goal with |- extractRules doc ?k = _ =>
        destruct (extractRules_matches doc k Hc)
          as [m1 [m2 [m3 [m4 [H1 [H2 [H3 [H4 Heq]]]]]]]] end.
      rewrite (Matches_functional _ _ _ _ _ _ H1 Hr1), (Matches_functional _ _ _ _ _ _ H2 Hr2),
        (Matches_functional _ _ _ _ _ _ H3 Hr3), (Matches_functional _ _ _ _ _ _ H4 Hr4) in Heq.
      exact Heq.
    + exact Hsrc.
    + apply extractExamples_source.
    + apply Forall_forall. intros r Hr. apply in_map_iff in Hr.
      destruct Hr as [m [<- _]]. reflexivity.
  - exists es, xs, []. split; [|repeat split].
    + intros kb. unfold extractStructuredInfo. rewrite Hes.
      rewrite extractExamples_append. unfold extractRules.
      cbn [DocumentContent.category ProcessedKnowledge.documents
           ProcessedKnowledge.endpoints ProcessedKnowledge.examples
           ProcessedKnowledge.rules].
      destruct (String.eqb_spec (DocumentContent.category doc) "Validation Rules");
        [contradiction|].
      now rewrite app_nil_r.
    + exact Hsrc.
    + apply extractExamples_source.
    + constructor.
Qed.

(* ================================================================== *)
(** * The pipeline *)
(* ================================================================== *)

Lemma processDocument_ends (w : World) (filePath : string) :
  processDocument w filePath <> Diverges.
Proof.
  unfold processDocument. destruct (statSync w filePath); [|discriminate].
  repeat match goal with |- context [if ?b then _ else _] => destruct b end;
    discriminate.
Qed.

Lemma kbAppend_empty_l (kb : KB) : kbAppend ProcessedKnowledge.empty kb = kb.
Proof. now destruct kb. Qed.

Lemma sourced_app_l (a b : KB) (src : string) :
  sourced a src -> sourced (kbAppend a b) src.
Proof.
  intros [d [Hd Hs]]. exists d. split; [|exact Hs].
  simpl. apply in_or_app. now left.
Qed.

Lemma sourced_app_r (a b : KB) (src : string) :
  sourced b src -> sourced (kbAppend a b) src.
Proof.
  intros [d [Hd Hs]]. exists d. split; [|exact Hs].
  simpl. apply in_or_app. now right.
Qed.

Lemma referentialIntegrity_empty : referentialIntegrity ProcessedKnowledge.empty.
Proof. repeat split; intros ? []. Qed.

Lemma referentialIntegrity_append (a b : KB) :
  referentialIntegrity a -> referentialIntegrity b ->
  referentialIntegrity (kbAppend a b).
Proof.
  intros [Ha1 [Ha2 Ha3]] [Hb1 [Hb2 Hb3]].
  repeat split; intros x Hx; simpl in Hx; apply in_app_or in Hx;
    destruct Hx as [Hx | Hx];
    solve [ apply sourced_app_l; auto | apply sourced_app_r; auto ].
Qed.

(** What a list of documents adds to any knowledge base. *)
Lemma absorb_delta : forall docs,
  exists delta,
    ProcessedKnowledge.documents delta = docs
    /\ referentialIntegrity delta
    /\ forall kb, absorb docs kb = Some (kbAppend kb delta).
Proof.
  induction docs as [|doc docs IH].
  - exists ProcessedKnowledge.empty. repeat split; try (intros ? []).
    intros kb. simpl. unfold kbAppend. simpl. rewrite !app_nil_r. now destruct kb.
  - destruct IH as [delta [Hdocs [Hint Habs]]].
    destruct (extractStructuredInfo_delta doc) as [es [xs [rs [Hex [Hes [Hxs Hrs]]]]]].
    set (one := ProcessedKnowledge.mk [doc] es xs rs).
    assert (Hone : referentialIntegrity one).
    { rewrite Forall_forall in Hes, Hxs, Hrs.
      repeat split; intros x Hx; exists doc; (split; [now left|]);
        symmetry; auto. }
    exists (kbAppend one delta). split; [|split].
    + simpl. now rewrite Hdocs.
    + now apply referentialIntegrity_append.
    + intros kb. cbn [absorb]. rewrite Hex, Habs.
      unfold kbAppend, one. simpl. now rewrite <- !app_assoc.
Qed.

Lemma forEachFile_absorb (w : World) : forall files kb,
  forEachFile w files kb =
  match absorb (documentsOf w files) kb with
  | Some kb' => Ok kb'
  | None => Diverges
  end.
Proof.
  induction files as [|filePath files IH]; intros kb; [reflexivity|].
  cbn [forEachFile documentsOf flat_map]. unfold documentOf at 1.
  pose proof (processDocument_ends w filePath) as Hend.
  destruct (processDocument w filePath) as [[doc|]| |]; try contradiction;
    cbn [app absorb]; try apply IH.
  destruct (extractStructuredInfo doc (pushDocument doc kb)); [apply IH | reflexivity].
Qed.

(** In a [World], where reads and decoders return or throw, the loop
    over the discovered files returns, and appends to the knowledge base
    it starts from something that depends on the files only. *)
Lemma forEachFile_delta (w : World) (files : list string) :
  exists delta,
    ProcessedKnowledge.documents delta = documentsOf w files
    /\ referentialIntegrity delta
    /\ forall kb, forEachFile w files kb = Ok (kbAppend kb delta).
Proof.
  destruct (absorb_delta (documentsOf w files)) as [delta [Hd [Hi Ha]]].
  exists delta. repeat split; try assumption; try apply Hi.
  intros kb. now rewrite forEachFile_absorb, Ha.
Qed.

(** When discovery returns, so does [processAllDocuments] in a
    [World]. *)
Lemma processAllDocuments_returns (w : World) (p : DocumentProcessor) (files : list string) :
  getAllFiles w (documentsPath p) = Ok files ->
  exists delta,
    ProcessedKnowledge.documents delta = documentsOf w files
    /\ referentialIntegrity delta
    /\ processAllDocuments w p =
       Ok (mkProcessor (documentsPath p) (kbAppend (knowledge p) delta)).
Proof.
  intros Hfiles. destruct (forEachFile_delta w files) as [delta [Hd [Hi Hrun]]].
  exists delta. repeat split; try assumption; try apply Hi.
  unfold processAllDocuments. rewrite Hfiles. cbn [bind]. now rewrite Hrun.
Qed.

Lemma processAllDocuments_files (w : World) (p p' : DocumentProcessor) :
  processAllDocuments w p = Ok p' ->
  exists files, getAllFiles w (documentsPath p) = Ok files.
Proof.
  unfold processAllDocuments.
  destruct (getAllFiles w (documentsPath p)) as [files| |]; try discriminate.
  eauto.
Qed.

(* ================================================================== *)
(** * Facts about JSON *)
(* ================================================================== *)

Module JsonFacts.
Import Json JsonNotions.

Lemma parseChars_escape (c : ascii) (x : string) :
  parseChars (escape c ++ x) = consTo c (parseChars x).
Proof.
  destruct c as [[|] [|] [|] [|] [|] [|] [|] [|]]; reflexivity.
Qed.

Lemma parseChars_quote (s rest : string) :
  parseChars (escapeAll s ++ String quoteChar rest) = Some (s, rest).
Proof.
  induction s as [|c s IH]; [reflexivity|].
  cbn [escapeAll]. rewrite append_assoc, parseChars_escape, IH. reflexivity.
Qed.

Lemma digit_code (d : Z) : (0 <= d <= 9)%Z -> code (digit d) = 48 + Z.to_nat d.
Proof.
  intros H. unfold code, digit. apply nat_ascii_embedding. lia.
Qed.

Lemma digits_append fuel : forall n acc rest,
  (digits fuel n acc ++ rest)%string = digits fuel n (acc ++ rest)%string.
Proof.
  induction fuel as [|fuel IH]; intros n acc rest; simpl; [reflexivity|].
  destruct (n / 10 =? 0)%Z; [reflexivity|]. now rewrite IH.
Qed.

Lemma parseDigits_digit (a d : Z) (s : string) :
  (0 <= d <= 9)%Z ->
  parseDigits a (String (digit d) s) = parseDigits (a * 10 + d) s.
Proof.
  intros H. cbn [parseDigits]. unfold isDigit. rewrite (digit_code _ H).
  replace ((48 <=? 48 + Z.to_nat d) && (48 + Z.to_nat d <=? 57)) with true.
  2:{ symmetry. apply andb_true_iff. split; apply Nat.leb_le; lia. }
  replace (48 + Z.to_nat d - 48) with (Z.to_nat d) by lia.
  now rewrite Z2Nat.id by lia.
Qed.

Lemma parseDigits_digits fuel : forall n acc,
  (0 <= n < 2 ^ Z.of_nat fuel)%Z ->
  exists k, forall a,
    parseDigits a (digits fuel n acc) = parseDigits (a * 10 ^ Z.of_nat k + n) acc.
Proof.
  induction fuel as [|fuel IH]; intros n acc Hn.
  - exists 0. intros a. simpl in *. f_equal. lia.
  - cbn [digits]. 
    assert (Hm : (0 <= n mod 10 <= 9)%Z) by (pose proof (Z.mod_pos_bound n 10); lia).
    destruct (Z.eqb_spec (n / 10) 0) as [E|E].
    + exists 1. intros a. rewrite (parseDigits_digit _ _ _ Hm). f_equal.
      rewrite (Z.div_mod n 10) at 2 by lia. rewrite E. change (10 ^ Z.of_nat 1)%Z with 10%Z. lia.
    + destruct (IH (n / 10)%Z (String (digit (n mod 10)) acc)) as [k Hk].
      { split; [apply Z.div_pos; lia|].
        apply Z.div_lt_upper_bound; [lia|].
        rewrite Nat2Z.inj_succ, Z.pow_succ_r in Hn by lia. lia. }
      exists (S k). intros a. rewrite Hk, (parseDigits_digit _ _ _ Hm). f_equal.
      rewrite Nat2Z.inj_succ, Z.pow_succ_r by lia.
      rewrite (Z.div_mod n 10) at 3 by lia. lia.
Qed.

Lemma digits_head fuel : forall n acc,
  (0 < n < 2 ^ Z.of_nat fuel)%Z ->
  exists d t, digits fuel n acc = String (digit d) t /\ (1 <= d <= 9)%Z.
Proof.
  induction fuel as [|fuel IH]; intros n acc Hn.
  - simpl in Hn. lia.
  - cbn [digits]. destruct (Z.eqb_spec (n / 10) 0) as [E|E].
    + exists (n mod 10)%Z, acc. split; [reflexivity|].
      pose proof (Z.mod_pos_bound n 10). pose proof (Z.div_mod n 10). lia.
    + apply IH. split.
      * assert (0 <= n / 10)%Z by (apply Z.div_pos; lia). lia.
      * apply Z.div_lt_upper_bound; [lia|].
        rewrite Nat2Z.inj_succ, Z.pow_succ_r in Hn by lia. lia.
Qed.

Lemma natToString_fuel (n : Z) :
  (0 <= n)%Z -> (0 <= n < 2 ^ Z.of_nat (S (Z.to_nat (Z.log2 n))))%Z.
Proof.
  intros H. split; [exact H|].
  rewrite Nat2Z.inj_succ, Z2Nat.id by apply Z.log2_nonneg.
  destruct (Z.eq_dec n 0) as [->|]; [reflexivity|].
  apply Z.log2_spec. lia.
Qed.

Lemma parseDigits_stop (a : Z) (rest : string) :
  noDigitStart rest -> parseDigits a rest = (a, rest).
Proof. destruct rest as [|c rest]; simpl; [reflexivity|]. now intros ->. Qed.

Lemma parseNat_natToString (n : Z) (rest : string) :
  (0 <= n)%Z -> noDigitStart rest ->
  parseNat (natToString n ++ rest) = Some (n, rest).
Proof.
  intros Hn Hrest. unfold natToString. rewrite digits_append. cbn [append].
  destruct (Z.eq_dec n 0) as [->|Hz].
  - reflexivity.
  - destruct (digits_head (S (Z.to_nat (Z.log2 n))) n rest) as [d [t [E Hd]]].
    { pose proof (natToString_fuel n Hn). lia. }
    destruct (parseDigits_digits (S (Z.to_nat (Z.log2 n))) n rest
                (natToString_fuel n Hn)) as [k Hk].
    specialize (Hk 0%Z). rewrite E in *. unfold parseNat.
    assert (Hc : code (digit d) = 48 + Z.to_nat d) by (apply digit_code; lia).
    rewrite Hc.
    replace (48 + Z.to_nat d =? 48) with false by (symmetry; apply Nat.eqb_neq; lia).
    unfold isDigit. rewrite Hc.
    replace ((48 <=? 48 + Z.to_nat d) && (48 + Z.to_nat d <=? 57)) with true.
    2:{ symmetry. apply andb_true_iff. split; apply Nat.leb_le; lia. }
    rewrite Hk. cbn [Z.mul Z.add]. now rewrite parseDigits_stop.
Qed.

Lemma natToString_head (n : Z) : (0 <= n)%Z ->
  exists d t, natToString n = String (digit d) t /\ (0 <= d <= 9)%Z.
Proof.
  intros Hn. destruct (Z.eq_dec n 0) as [->|Hz].
  - exists 0%Z, "". split; [reflexivity | lia].
  - destruct (digits_head (S (Z.to_nat (Z.log2 n))) n "") as [d [t [E Hd]]].
    { pose proof (natToString_fuel n Hn). lia. }
    exists d, t. split; [exact E | lia].
Qed.

Lemma parseNumber_numberToString (z : Z) (rest : string) :
  noDigitStart rest ->
  parseNumber (numberToString z ++ rest) = Some (z, rest).
Proof.
  intros Hrest. unfold numberToString. destruct (Z.ltb_spec z 0) as [Hneg|Hpos].
  - cbn [append parseNumber]. change (code "-" =? 45) with true. cbn iota.
    rewrite parseNat_natToString by (lia || assumption). f_equal. f_equal. lia.
  - destruct (natToString_head z Hpos) as [d [t [E Hd]]].
    pose proof (parseNat_natToString z rest Hpos Hrest) as HP.
    rewrite E in *. cbn [append parseNumber] in *.
    rewrite (digit_code _ Hd).
    replace (48 + Z.to_nat d =? 45) with false by (symmetry; apply Nat.eqb_neq; lia).
    exact HP.
Qed.

Lemma skipWs_allWs (ws x : string) : allWs ws = true -> skipWs (ws ++ x) = skipWs x.
Proof.
  induction ws as [|c ws IH]; simpl; [reflexivity|].
  intros H. apply andb_true_iff in H. destruct H as [-> H]. auto.
Qed.

Lemma allWs_append (a b : string) :
  allWs a = true -> allWs b = true -> allWs (a ++ b) = true.
Proof.
  induction a as [|c a IH]; simpl; [auto|].
  intros H Hb. apply andb_true_iff in H. destruct H as [-> H]. simpl. auto.
Qed.

Lemma skipWs_idem (s : string) : skipWs (skipWs s) = skipWs s.
Proof.
  induction s as [|c s IH]; simpl; [reflexivity|].
  destruct (isWs c) eqn:E; [exact IH|]. simpl. now rewrite E.
Qed.

Lemma parseValue_skipWs (fuel : nat) (s : string) :
  parseValue fuel (skipWs s) = parseValue fuel s.
Proof. destruct fuel; simpl; [reflexivity|]. now rewrite skipWs_idem. Qed.

Lemma parseElements_skipWs (fuel : nat) (s : string) :
  parseElements fuel (skipWs s) = parseElements fuel s.
Proof. destruct fuel; simpl; [reflexivity|]. now rewrite parseValue_skipWs. Qed.

Lemma parseMembers_skipWs (fuel : nat) (s : string) :
  parseMembers fuel (skipWs s) = parseMembers fuel s.
Proof. destruct fuel; simpl; [reflexivity|]. now rewrite skipWs_idem. Qed.

Lemma parseValue_ws (fuel : nat) (ws s : string) :
  allWs ws = true -> parseValue fuel (ws ++ s) = parseValue fuel s.
Proof.
  intros H. rewrite <- parseValue_skipWs, skipWs_allWs, parseValue_skipWs; auto.
Qed.

Lemma parseElements_ws (fuel : nat) (ws s : string) :
  allWs ws = true -> parseElements fuel (ws ++ s) = parseElements fuel s.
Proof.
  intros H. rewrite <- parseElements_skipWs, skipWs_allWs, parseElements_skipWs; auto.
Qed.

Lemma parseMembers_ws (fuel : nat) (ws s : string) :
  allWs ws = true -> parseMembers fuel (ws ++ s) = parseMembers fuel s.
Proof.
  intros H. rewrite <- parseMembers_skipWs, skipWs_allWs, parseMembers_skipWs; auto.
Qed.

Lemma parseValue_string (fuel : nat) (s rest : string) :
  parseValue (S fuel) (quote s ++ rest) = Some (Str s, rest).
Proof.
  unfold quote. cbn [append]. rewrite append_assoc. cbn [append].
  cbn [parseValue skipWs]. change (isWs quoteChar) with false. cbn iota.
  change (code quoteChar =? 123) with false.
  change (code quoteChar =? 91) with false.
  change (code quoteChar =? 34) with true. cbn iota.
  now rewrite parseChars_quote.
Qed.

Lemma parseValue_number (fuel : nat) (c : ascii) (t : string) :
  c = "-"%char \/ isDigit c = true ->
  parseValue (S fuel) (String c t) =
  match parseNumber (String c t) with
  | Some (z, rest) => Some (Num z, rest)
  | None => None
  end.
Proof.
  intros [-> | H]; [reflexivity|].
  unfold isDigit in H. apply andb_true_iff in H. destruct H as [H1 H2].
  apply Nat.leb_le in H1, H2.
  assert (Hne : forall k, k < 48 \/ 57 < k -> (code c =? k) = false)
    by (intros k Hk; apply Nat.eqb_neq; lia).
  cbn [parseValue skipWs]. unfold isWs.
  rewrite !Hne by lia. cbn [orb]. cbn iota.
  rewrite !Hne by lia. reflexivity.
Qed.

Lemma parseValue_num (fuel : nat) (z : Z) (rest : string) :
  noDigitStart rest ->
  parseValue (S fuel) (numberToString z ++ rest) = Some (Num z, rest).
Proof.
  intros Hrest. pose proof (parseNumber_numberToString z rest Hrest) as HP.
  assert (Hh : exists c t, (numberToString z ++ rest)%string = String c t
                           /\ (c = "-"%char \/ isDigit c = true)).
  { unfold numberToString. destruct (Z.ltb_spec z 0) as [Hneg|Hpos].
    - eexists _, _. split; [reflexivity | now left].
    - destruct (natToString_head z Hpos) as [d [t [E Hd]]]. rewrite E.
      eexists _, _. split; [reflexivity | right].
      unfold isDigit. rewrite (digit_code _ Hd).
      apply andb_true_iff. split; apply Nat.leb_le; lia. }
  destruct Hh as [c [t [E Hc]]]. rewrite E in *.
  now rewrite (parseValue_number fuel c t Hc), HP.
Qed.

Lemma digit_not_ws (d : Z) : (0 <= d <= 9)%Z ->
  isWs (digit d) = false /\ code (digit d) <> 93 /\ code (digit d) <> 125.
Proof.
  intros H. unfold isWs. rewrite (digit_code _ H).
  repeat split; lia.
Qed.

Lemma serialize_head (indent : string) (v : value) :
  exists c t, serialize indent v = String c t
              /\ isWs c = false /\ code c <> 93 /\ code c <> 125.
Proof.
  destruct v as [|[|]|z|s|[ms|]|[|x items]|[|kv props]]; cbn [serialize];
    try (eexists _, _; split; [reflexivity|];
         split; [reflexivity | split; vm_compute; lia]).
  unfold numberToString. destruct (Z.ltb_spec z 0) as [Hneg|Hpos].
  - eexists _, _; split; [reflexivity|].
    split; [reflexivity | split; vm_compute; lia].
  - destruct (natToString_head z Hpos) as [d [t [E Hd]]]. rewrite E.
    exists (digit d), t. split; [reflexivity|]. now apply digit_not_ws.
Qed.

Lemma skipWs_head (c : ascii) (t : string) :
  isWs c = false -> skipWs (String c t) = String c t.
Proof. intros H. simpl. now rewrite H. Qed.

Lemma join_cons2 (sep a b : string) (l : list string) :
  join sep (a :: b :: l) = (a ++ sep ++ join sep (b :: l))%string.
Proof. reflexivity. Qed.

Lemma append_cons (c : ascii) (a b : string) :
  (String c a ++ b)%string = String c (a ++ b).
Proof. reflexivity. Qed.

Lemma noDigitStart_cons (c : ascii) (t : string) :
  isDigit c = false -> noDigitStart (String c t).
Proof. intros H. exact H. Qed.

Lemma parseElements_join (ind wsI tail rest : string) :
  allWs ind = true -> allWs wsI = true ->
  skipWs tail = String "]" rest -> noDigitStart tail ->
  forall items, Forall roundTrips items -> items <> [] ->
  forall fuel ws, allWs ws = true -> sizeList items <= fuel ->
    forallb wellFormed items = true ->
    parseElements fuel
      (ws ++ join (String "," wsI) (map (serialize ind) items) ++ tail)
    = Some (map dateless items, rest).
Proof.
  intros Hind HwsI Htail Hnd.
  induction items as [|x items IH]; [congruence|].
  intros HF _ fuel ws Hws Hsize Hwf.
  inversion HF as [|? ? Hx HF']; subst.
  cbn [sizeList fold_right] in Hsize. fold (sizeList items) in Hsize.
  destruct fuel as [|fuel]; [lia|].
  cbn [forallb] in Hwf. apply andb_true_iff in Hwf. destruct Hwf as [Hwx Hwf].
  rewrite parseElements_ws by assumption. cbn [parseElements].
  destruct items as [|y items'].
  - cbn [map join].
    rewrite (Hx ind tail fuel Hind Hnd) by (assumption || lia).
    rewrite Htail. reflexivity.
  - cbn [map]. rewrite join_cons2, !append_assoc, append_cons.
    rewrite (Hx ind _ fuel Hind) by (assumption || lia || reflexivity).
    rewrite skipWs_head by reflexivity.
    change (code "," =? 44) with true. cbn iota.
    change (serialize ind y :: map (serialize ind) items')
      with (map (serialize ind) (y :: items')).
    rewrite (IH HF' ltac:(discriminate) fuel wsI HwsI) by (assumption || lia).
    reflexivity.
Qed.

Lemma parseMembers_join (ind wsI tail rest : string) :
  allWs ind = true -> allWs wsI = true ->
  skipWs tail = String "}" rest -> noDigitStart tail ->
  forall props, Forall (fun kv => roundTrips (snd kv)) props -> props <> [] ->
  forall fuel ws, allWs ws = true -> sizeProps props <= fuel ->
    forallb (fun kv => wellFormed (snd kv)) props = true ->
    parseMembers fuel
      (ws ++ join (String "," wsI)
                  (map (fun kv => (quote (fst kv) ++ ": " ++ serialize ind (snd kv))%string)
                       props) ++ tail)
    = Some (map (fun kv => (fst kv, dateless (snd kv))) props, rest).
Proof.
  intros Hind HwsI Htail Hnd.
  induction props as [|[k x] props IH]; [congruence|].
  intros HF _ fuel ws Hws Hsize Hwf.
  inversion HF as [|? ? Hx HF']; subst. cbn [snd] in Hx.
  cbn [sizeProps fold_right snd] in Hsize. fold (sizeProps props) in Hsize.
  destruct fuel as [|fuel]; [lia|].
  cbn [forallb snd] in Hwf. apply andb_true_iff in Hwf. destruct Hwf as [Hwx Hwf].
  rewrite parseMembers_ws by assumption. cbn [parseMembers].
  assert (Hkey : forall z : string,
             skipWs (quote k ++ ": " ++ z)%string =
             String quoteChar (escapeAll k ++ String quoteChar (": " ++ z))%string).
  { intros z. unfold quote. rewrite append_cons, append_assoc, append_cons.
    now rewrite skipWs_head by reflexivity. }
  destruct props as [|kv props'].
  - cbn [map join fst snd]. rewrite !append_assoc, Hkey.
    change (code quoteChar =? 34) with true. cbn iota.
    rewrite parseChars_quote.
    rewrite (append_cons ":" " "). rewrite skipWs_head by reflexivity.
    change (code ":" =? 58) with true. cbn iota.
    rewrite (parseValue_ws fuel " " _ eq_refl).
    rewrite (Hx ind tail fuel Hind Hnd) by (assumption || lia).
    rewrite Htail. reflexivity.
  - cbn [map fst snd]. rewrite join_cons2, !append_assoc, Hkey.
    change (code quoteChar =? 34) with true. cbn iota.
    rewrite parseChars_quote.
    rewrite (append_cons ":" " "). rewrite skipWs_head by reflexivity.
    change (code ":" =? 58) with true. cbn iota.
    rewrite (parseValue_ws fuel " " _ eq_refl).
    rewrite (Hx ind _ fuel Hind) by (assumption || lia || reflexivity).
    rewrite (append_cons "," wsI), skipWs_head by reflexivity.
    change (code "," =? 44) with true. cbn iota.
    match goal with |- context [join ?sep (?a :: map ?f props')] =>
      change (a :: map f props') with (map f (kv :: props')) end.
    rewrite (IH HF' ltac:(discriminate) fuel wsI HwsI) by (assumption || lia).
    reflexivity.
Qed.

Lemma existsb_eqb_false (k : string) (l : list string) :
  existsb (String.eqb k) l = false -> forall k', In k' l -> String.eqb k' k = false.
Proof.
  induction l as [|a l IH]; simpl; [intros _ ? []|].
  intros H k' [<- | Hin]; apply orb_false_iff in H; destruct H as [H1 H2].
  - now rewrite String.eqb_sym.
  - auto.
Qed.

Lemma define_fresh (k : string) (v : value) : forall acc,
  existsb (String.eqb k) (map fst acc) = false -> define k v acc = acc ++ [(k, v)].
Proof.
  induction acc as [|[k' v'] acc IH]; simpl; [reflexivity|].
  intros H. apply orb_false_iff in H. destruct H as [-> H]. now rewrite IH.
Qed.

Lemma fold_define : forall kvs acc,
  distinct (map fst kvs) = true ->
  (forall k, In k (map fst kvs) -> existsb (String.eqb k) (map fst acc) = false) ->
  fold_left (fun o kv => define (fst kv) (snd kv) o) kvs acc = acc ++ kvs.
Proof.
  induction kvs as [|[k v] kvs IH]; intros acc Hd Hacc.
  - simpl. now rewrite app_nil_r.
  - cbn [map fst distinct] in Hd. apply andb_true_iff in Hd. destruct Hd as [Hk Hd].
    apply negb_true_iff in Hk.
    cbn [fold_left fst snd]. rewrite define_fresh by (apply Hacc; now left).
    rewrite IH; [now rewrite <- app_assoc | assumption |].
    intros k' Hk'. rewrite map_app, existsb_app. apply orb_false_iff. split.
    + apply Hacc. now right.
    + simpl. rewrite orb_false_r. eapply existsb_eqb_false; eauto.
Qed.

Lemma append_one (c : ascii) (x : string) :
  (String c "" ++ x)%string = String c x.
Proof. reflexivity. Qed.

Lemma parseValue_bracket (fuel : nat) (s1 : string) :
  (exists c t, skipWs s1 = String c t /\ code c <> 93) ->
  parseValue (S fuel) (String "[" s1) =
  match parseElements fuel s1 with
  | Some (vs, rest) => Some (Arr vs, rest)
  | None => None
  end.
Proof.
  intros [c [t [E Hc]]]. cbn [parseValue]. rewrite skipWs_head by reflexivity.
  change (code "[" =? 123) with false. change (code "[" =? 91) with true.
  cbn iota. rewrite E. apply Nat.eqb_neq in Hc. now rewrite Hc.
Qed.

Lemma parseValue_brace (fuel : nat) (s1 : string) :
  (exists c t, skipWs s1 = String c t /\ code c <> 125) ->
  parseValue (S fuel) (String "{" s1) =
  match parseMembers fuel s1 with
  | Some (kvs, rest) =>
      Some (Obj (fold_left (fun o kv => define (fst kv) (snd kv) o) kvs []), rest)
  | None => None
  end.
Proof.
  intros [c [t [E Hc]]]. cbn [parseValue]. rewrite skipWs_head by reflexivity.
  change (code "{" =? 123) with true.
  cbn iota. rewrite E. apply Nat.eqb_neq in Hc. now rewrite Hc.
Qed.

Lemma join_first (sep a : string) (l : list string) :
  exists z, join sep (a :: l) = (a ++ z)%string.
Proof.
  destruct l as [|b l].
  - exists ""%string. simpl. now rewrite append_nil_r.
  - eexists. apply join_cons2.
Qed.

Lemma allWs_indent (indent : string) :
  allWs indent = true -> allWs (nl ++ indent ++ gap) = true.
Proof.
  intros H. apply (allWs_append nl); [reflexivity|].
  apply allWs_append; [assumption | reflexivity].
Qed.

Lemma skipWs_close (stepback : string) (c : ascii) (rest : string) :
  allWs stepback = true -> isWs c = false ->
  skipWs (nl ++ stepback ++ String c rest) = String c rest.
Proof.
  intros H Hc. rewrite <- append_assoc.
  rewrite skipWs_allWs by (apply allWs_append; [reflexivity | assumption]).
  now apply skipWs_head.
Qed.

(** Parsing what [serialize] printed gives the value back, dates as
    [toJSON] leaves them. *)
Theorem parseValue_serialize : forall v, roundTrips v.
Proof.
  induction v as [|b|z|s|d|items IH|props IH] using value_ind';
    intros indent rest fuel Hind Hrest Hsize Hwf;
    (destruct fuel as [|fuel]; [simpl in Hsize; lia|]).
  - reflexivity.
  - destruct b; reflexivity.
  - now apply parseValue_num.
  - apply parseValue_string.
  - destruct d as [ms|]; [apply parseValue_string | reflexivity].
  - destruct items as [|x items]; [reflexivity|].
    set (ind' := (indent ++ gap)%string).
    assert (Hind' : allWs ind' = true)
      by (apply allWs_append; [assumption | reflexivity]).
    assert (Hws : allWs (nl ++ ind') = true) by now apply allWs_indent.
    change (serialize indent (Arr (x :: items)))
      with ("[" ++ nl ++ ind'
                ++ join (String "," (nl ++ ind')) (map (serialize ind') (x :: items))
                ++ nl ++ indent ++ "]")%string.
    rewrite !append_assoc, (append_one "["), (append_one "]").
    rewrite <- (append_assoc nl ind').
    rewrite parseValue_bracket.
    + cbn [size] in Hsize. fold (sizeList (x :: items)) in Hsize.
      rewrite (parseElements_join ind' (nl ++ ind') (nl ++ indent ++ String "]" rest) rest);
        try assumption; try reflexivity; try discriminate; try lia.
      now apply skipWs_close.
    + rewrite skipWs_allWs by assumption. cbn [map].
      destruct (join_first (String "," (nl ++ ind')) (serialize ind' x)
                           (map (serialize ind') items)) as [z ->].
      destruct (serialize_head ind' x) as [c [t [-> [Hc [Hc1 _]]]]].
      rewrite !append_cons, skipWs_head by assumption. eauto.
  - destruct props as [|kv props]; [reflexivity|].
    set (ind' := (indent ++ gap)%string).
    assert (Hind' : allWs ind' = true)
      by (apply allWs_append; [assumption | reflexivity]).
    assert (Hws : allWs (nl ++ ind') = true) by now apply allWs_indent.
    change (serialize indent (Obj (kv :: props)))
      with ("{" ++ nl ++ ind'
                ++ join (String "," (nl ++ ind'))
                     (map (fun kv => quote (fst kv) ++ ": " ++ serialize ind' (snd kv))
                          (kv :: props))
                ++ nl ++ indent ++ "}")%string.
    rewrite !append_assoc, (append_one "{"), (append_one "}").
    rewrite <- (append_assoc nl ind').
    cbn [wellFormed] in Hwf. apply andb_true_iff in Hwf. destruct Hwf as [Hkeys Hwf].
    rewrite parseValue_brace.
    + cbn [size] in Hsize. fold (sizeProps (kv :: props)) in Hsize.
      rewrite (parseMembers_join ind' (nl ++ ind') (nl ++ indent ++ String "}" rest) rest);
        try assumption; try reflexivity; try discriminate; try lia.
      * rewrite fold_define; [reflexivity | | intros ? _; reflexivity].
        now rewrite map_map.
      * now apply skipWs_close.
    + rewrite skipWs_allWs by assumption. cbn [map].
      match goal with |- context [join ?sep (?a :: ?l)] =>
        destruct (join_first sep a l) as [z ->] end.
      unfold quote. rewrite !append_cons, skipWs_head by reflexivity.
      eexists _, _. split; [reflexivity | vm_compute; lia].
Qed.

Lemma fold_le_join (A : Type) (m : A -> nat) (g : A -> string) (sep : string) :
  1 <= String.length sep ->
  forall l, Forall (fun a => m a <= String.length (g a)) l ->
  fold_right (fun a n => S (m a + n)) 0 l <= String.length (join sep (map g l)) + 1.
Proof.
  intros Hsep. induction l as [|a l IH]; intros HF; [simpl; lia|].
  inversion HF as [|? ? Ha HF']; subst. specialize (IH HF').
  destruct l as [|b l].
  - simpl. lia.
  - cbn [map]. rewrite join_cons2, !length_append.
    cbn [fold_right map] in *. lia.
Qed.

Lemma size_le_length : forall v indent,
  size v <= String.length (serialize indent v).
Proof.
  induction v as [|b|z|s|d|items IH|props IH] using value_ind'; intros indent.
  - simpl. lia.
  - destruct b; simpl; lia.
  - destruct (serialize_head indent (Num z)) as [c [t [-> _]]]. simpl. lia.
  - simpl. lia.
  - destruct d; simpl; lia.
  - destruct items as [|x items]; [simpl; lia|].
    set (ind' := (indent ++ gap)%string).
    change (serialize indent (Arr (x :: items)))
      with ("[" ++ nl ++ ind'
                ++ join (String "," (nl ++ ind')) (map (serialize ind') (x :: items))
                ++ nl ++ indent ++ "]")%string.
    rewrite !length_append. cbn [size].
    pose proof (fold_le_join value size (serialize ind') (String "," (nl ++ ind'))
                  ltac:(simpl; lia) (x :: items)) as H.
    simpl String.length at 1 2. 
    assert (HF : Forall (fun a => size a <= String.length (serialize ind' a)) (x :: items)).
    { eapply Forall_impl; [|exact IH]. intros a Ha. apply Ha. }
    specialize (H HF). lia.
  - destruct props as [|kv props]; [simpl; lia|].
    set (ind' := (indent ++ gap)%string).
    change (serialize indent (Obj (kv :: props)))
      with ("{" ++ nl ++ ind'
                ++ join (String "," (nl ++ ind'))
                     (map (fun kv => quote (fst kv) ++ ": " ++ serialize ind' (snd kv))
                          (kv :: props))
                ++ nl ++ indent ++ "}")%string.
    rewrite !length_append. cbn [size].
    pose proof (fold_le_join (string * value) (fun kv => size (snd kv))
                  (fun kv => quote (fst kv) ++ ": " ++ serialize ind' (snd kv))%string
                  (String "," (nl ++ ind'))
                  ltac:(simpl; lia) (kv :: props)) as H.
    simpl String.length at 1 2.
    assert (HF : Forall (fun a => size (snd a) <=
                   String.length (quote (fst a) ++ ": " ++ serialize ind' (snd a))%string)
                   (kv :: props)).
    { eapply Forall_impl; [|exact IH]. intros a Ha. cbv beta in Ha.
      rewrite !length_append. specialize (Ha ind'). lia. }
    specialize (H HF). lia.
Qed.

(** [JSON.parse(JSON.stringify(v, null, 2))]. *)
Theorem parse_stringify (v : value) :
  wellFormed v = true -> parse (stringify v) = Some (dateless v).
Proof.
  intros Hwf. unfold parse, stringify.
  pose proof (parseValue_serialize v "" "" (S (String.length (serialize "" v)))
                eq_refl I) as H.
  rewrite append_nil_r in H. rewrite H; [reflexivity | | assumption].
  pose proof (size_le_length v ""). lia.
Qed.

End JsonFacts.


(* ================================================================== *)
(** * Descriptions *)
(* ================================================================== *)

Lemma findIndex_None (A : Type) (p : A -> bool) : forall l,
  (forall x, In x l -> p x = false) -> findIndex p l = None.
Proof.
  induction l as [|a l IH]; intros H; [reflexivity|].
  simpl. rewrite (H a) by now left. rewrite IH; [reflexivity|].
  intros x Hx. apply H. now right.
Qed.

Lemma findIndex_Some (A : Type) (p : A -> bool) (d : A) : forall l i,
  i < List.length l -> p (nth i l d) = true ->
  (forall j, j < i -> p (nth j l d) = false) ->
  findIndex p l = Some i.
Proof.
  induction l as [|a l IH]; intros i Hi Hp Hbefore; [simpl in Hi; lia|].
  simpl. destruct i as [|i].
  - simpl in Hp. now rewrite Hp.
  - pose proof (Hbefore 0 ltac:(lia)) as H0. simpl in H0. rewrite H0.
    simpl in Hi. rewrite (IH i); [reflexivity | lia | exact Hp |].
    intros j Hj. apply (Hbefore (S j)). lia.
Qed.

Lemma descriptionFrom_step (lines : list string) (endpoint : string) (i count : nat) :
  descriptionFrom lines endpoint i (S count) =
  if qualifies endpoint (nth i lines EmptyString)
  then Some (trim (nth i lines EmptyString))
  else descriptionFrom lines endpoint (S i) count.
Proof. reflexivity. Qed.

Lemma descriptionFrom_None (lines : list string) (endpoint : string) :
  forall count i,
    (forall j, i <= j -> j < i + count ->
               qualifies endpoint (nth j lines EmptyString) = false) ->
    descriptionFrom lines endpoint i count = None.
Proof.
  induction count as [|count IH]; intros i H; [reflexivity|].
  rewrite descriptionFrom_step, (H i) by lia.
  apply IH. intros j H1 H2. apply H; lia.
Qed.

Lemma descriptionFrom_first (lines : list string) (endpoint : string) :
  forall count i k,
    i <= k -> k < i + count ->
    qualifies endpoint (nth k lines EmptyString) = true ->
    (forall j, i <= j -> j < k ->
               qualifies endpoint (nth j lines EmptyString) = false) ->
    descriptionFrom lines endpoint i count = Some (trim (nth k lines EmptyString)).
Proof.
  induction count as [|count IH]; intros i k H1 H2 Hk Hbefore; [lia|].
  rewrite descriptionFrom_step.
  destruct (Nat.eq_dec i k) as [->|Hne].
  - now rewrite Hk.
  - rewrite (Hbefore i) by lia. apply IH; try lia; try assumption.
    intros j Hj1 Hj2. apply Hbefore; lia.
Qed.

(* ================================================================== *)
(** * Degraded extraction *)
(* ================================================================== *)

Lemma pdfPages_None : forall pages text, In None pages -> pdfPages pages text = None.
Proof.
  induction pages as [|[items|] pages IH]; intros text H; simpl.
  - contradiction.
  - destruct H as [H | H]; [discriminate | now apply IH].
  - reflexivity.
Qed.

Lemma processDocument_degraded (w : World) (filePath : string) (stat : Stats)
      (t : DocType) (c : string) :
  statSync w filePath = Some stat ->
  formatOf filePath = Some t ->
  Degraded w filePath t c ->
  processDocument w filePath = Ok (Some (documentWith filePath stat t c)).
Proof.
  intros Hstat Hfmt Hdeg. unfold processDocument, formatOf in *. rewrite Hstat.
  cbv zeta in *.
  destruct (String.eqb _ ".docx");
    [|destruct (String.eqb _ ".xml"); [|destruct (String.eqb _ ".pdf")]];
    try discriminate; injection Hfmt as <-; unfold documentWith;
    inversion Hdeg; subst;
    unfold processDOCX, processXML, processPDF, placeholder;
    repeat match goal with H : _ = _ |- _ => rewrite H end;
    try reflexivity.
  now rewrite pdfPages_None.
Qed.

Lemma documentOf_path (w : World) (f : string) (d : Doc) :
  In d (documentOf w f) -> Metadata.path (DocumentContent.metadata d) = f.
Proof.
  unfold documentOf, processDocument. destruct (statSync w f); [|intros []].
  cbv zeta.
  repeat match goal with |- context [if ?b then _ else _] => destruct b end;
    simpl; intros H; try contradiction; destruct H as [<- | []]; reflexivity.
Qed.

Lemma filter_hasPath_other (w : World) (filePath f : string) :
  f <> filePath -> filter (hasPath filePath) (documentOf w f) = [].
Proof.
  intros Hne. pose proof (documentOf_path w f) as Hp.
  destruct (documentOf w f) as [|d l] eqn:E; [reflexivity|].
  unfold documentOf in E. destruct (processDocument w f) as [[d'|]| |]; try discriminate.
  injection E as <- <-. simpl. unfold hasPath. rewrite (Hp d') by now left.
  destruct (String.eqb_spec f filePath); [contradiction | reflexivity].
Qed.

Lemma filter_hasPath_same (w : World) (filePath : string) :
  filter (hasPath filePath) (documentOf w filePath) = documentOf w filePath.
Proof.
  pose proof (documentOf_path w filePath) as Hp.
  destruct (documentOf w filePath) as [|d l] eqn:E; [reflexivity|].
  unfold documentOf in E.
  destruct (processDocument w filePath) as [[d'|]| |]; try discriminate.
  injection E as <- <-. simpl. unfold hasPath. rewrite (Hp d') by now left.
  now rewrite String.eqb_refl.
Qed.

(** The documents of a path are those its occurrences among the
    discovered files give. *)
Lemma filter_documentsOf (w : World) (filePath : string) : forall files,
  filter (hasPath filePath) (documentsOf w files) =
  List.concat (repeat (documentOf w filePath) (count_occ string_dec files filePath)).
Proof.
  induction files as [|f files IH]; [reflexivity|].
  cbn [documentsOf flat_map]. rewrite filter_app. fold (documentsOf w files).
  rewrite IH. cbn [count_occ]. destruct (string_dec f filePath) as [->|Hne].
  - now rewrite filter_hasPath_same.
  - now rewrite filter_hasPath_other.
Qed.

(* ================================================================== *)
(** * The cache *)
(* ================================================================== *)

Lemma forallb_map_true (A B : Type) (f : B -> bool) (g : A -> B) (l : list A) :
  (forall x, f (g x) = true) -> forallb f (map g l) = true.
Proof. intros H. induction l; simpl; [reflexivity|]. now rewrite H. Qed.

Lemma wellFormed_jsKnowledge (kb : KB) :
  JsonNotions.wellFormed (jsKnowledge kb) = true.
Proof.
  unfold jsKnowledge. cbn [JsonNotions.wellFormed JsonNotions.distinct map fst snd forallb existsb].
  rewrite !forallb_map_true; try reflexivity.
Qed.

Lemma dateless_jsKnowledge (kb : KB) :
  Json.dateless (jsKnowledge kb) = jsKnowledgeCached kb.
Proof.
  unfold jsKnowledge, jsKnowledgeCached. cbn [Json.dateless map fst snd].
  rewrite !map_map. repeat f_equal; apply map_ext; intros x; reflexivity.
Qed.

(** The cache holds the knowledge base with its dates as strings. *)
Lemma parse_stringify_jsKnowledge (kb : KB) :
  Json.parse (Json.stringify (jsKnowledge kb)) = Some (jsKnowledgeCached kb).
Proof.
  rewrite JsonFacts.parse_stringify by apply wellFormed_jsKnowledge.
  now rewrite dateless_jsKnowledge.
Qed.

Lemma jsDocument_not_cached (d : Doc) : jsDocumentCached d <> jsDocument d.
Proof.
  unfold jsDocumentCached, jsDocument, jsMetadataCached, jsMetadata.
  destruct (Metadata.modified (DocumentContent.metadata d)); simpl; congruence.
Qed.

Lemma jsKnowledgeCached_exact (kb : KB) :
  jsKnowledgeCached kb = jsKnowledge kb <-> ProcessedKnowledge.documents kb = [].
Proof.
  unfold jsKnowledgeCached, jsKnowledge. split.
  - intros H.
    destruct (ProcessedKnowledge.documents kb) as [|d l]; [reflexivity|].
    cbn [map] in H. exfalso. apply (jsDocument_not_cached d). congruence.
  - intros ->. reflexivity.
Qed.


(* ================================================================== *)
(** * The program on the examples of the specification *)
(* ================================================================== *)

Example isSupportedFile_examples :
  map isSupportedFile ["a.docx"; "b.XML"; "c.Pdf"; "d.txt"; "e"; ".pdf"; "f.pdf.bak"]
  = [true; true; true; false; false; false; false].
Proof. reflexivity. Qed.

Example extractTitle_markdown :
  extractTitle "spec.docx" ("# Hello World" ++ nl ++ "Body text") = "Hello World".
Proof. reflexivity. Qed.

Example extractTitle_from_filename :
  extractTitle "spec.docx" "Body text without any marker" = "spec".
Proof. reflexivity. Qed.

Example extractTitle_underlined :
  extractTitle "spec.docx" ("Overview" ++ nl ++ "====" ++ nl ++ "Body") = "Overview".
Proof. reflexivity. Qed.

Example extractEndpoints_submit :
  let content := ("Call POST /api/v1/submit to send data." ++ nl
                    ++ "This performs the DDS submission process for operators.")%string in
  let doc := DocumentContent.mk "CF2.docx" "CF2" content docx "Submit DDS"
               (Metadata.mk 94 (ValidDate 0) "documents/CF2.docx") in
  option_map ProcessedKnowledge.endpoints (extractEndpoints doc ProcessedKnowledge.empty)
  = Some [ EndpointInfo.mk "Submit DDS - submit"
             "This performs the DDS submission process for operators."
             "POST" "/api/v1/submit" "Submit DDS" "CF2.docx" ].
Proof. reflexivity. Qed.

Example toISOString_examples :
  map Json.toISOString [0; -1; 951782400000; 1700000000123]%Z
  = [ "1970-01-01T00:00:00.000Z"; "1969-12-31T23:59:59.999Z";
      "2000-02-29T00:00:00.000Z"; "2023-11-14T22:13:20.123Z" ].
Proof. reflexivity. Qed.

Example stringify_example :
  Json.stringify
    (Json.Obj [ ("size", Json.Num 2048);
                ("modified", Json.DateObj (ValidDate 0));
                ("tags", Json.Arr [Json.Str ("a" ++ nl); Json.Arr []]) ])
  = ("{" ++ nl
       ++ "  " ++ Json.quote "size" ++ ": 2048," ++ nl
       ++ "  " ++ Json.quote "modified" ++ ": "
                ++ Json.quote "1970-01-01T00:00:00.000Z" ++ "," ++ nl
       ++ "  " ++ Json.quote "tags" ++ ": [" ++ nl
       ++ "    " ++ String Json.quoteChar ("a\n" ++ String Json.quoteChar ",") ++ nl
       ++ "    []" ++ nl
       ++ "  ]" ++ nl
       ++ "}")%string.
Proof. reflexivity. Qed.

(** Start-up without a document root and without a cache: the empty
    knowledge base, which is then cached. *)
Lemma startup_without_documents (w : World) (files : TextFiles) :
  existsSync w DOCUMENTS_PATH = false ->
  files KNOWLEDGE_CACHE_PATH = None ->
  writeError w KNOWLEDGE_CACHE_PATH = None ->
  exists files',
    initializeKnowledgeBase w files
    = Ok (jsKnowledge ProcessedKnowledge.empty, files')
    /\ option_map Json.parse (files' KNOWLEDGE_CACHE_PATH)
       = Some (Some (jsKnowledge ProcessedKnowledge.empty)).
Proof.
  intros Hno Hcache Hwrite. unfold initializeKnowledgeBase. rewrite Hcache.
  assert (Hfiles : getAllFiles w DOCUMENTS_PATH = Ok [])
    by (unfold getAllFiles; now rewrite Hno).
  unfold processAllDocuments. cbn [documentsPath newDocumentProcessor].
  rewrite Hfiles. cbn [bind forEachFile knowledge]. rewrite Hwrite.
  eexists. split; [reflexivity|]. reflexivity.
Qed.

(* ================================================================== *)
(** * Tokens: what the patterns find, read from the text *)
(* ================================================================== *)

Section TokenFacts.

Variable fl : flags.

Local Open Scope string_scope.

Lemma flat_map_nil_in (A B : Type) (f : A -> list B) (l : list A) (a : A) :
  flat_map f l = [] -> In a l -> f a = [].
Proof.
  induction l as [|x l IH]; simpl; [contradiction|].
  intros H. apply app_eq_nil in H. destruct H as [Hx Hl].
  intros [<- | Hin]; [exact Hx | now apply IH].
Qed.

Lemma take_length_app (x y : string) : take (String.length x) (x ++ y) = x.
Proof. induction x as [|c x IH]; simpl; [now destruct y | now rewrite IH]. Qed.

Lemma app_same_length (a b x y : string) :
  String.length a = String.length b -> a ++ x = b ++ y -> a = b /\ x = y.
Proof.
  revert b. induction a as [|c a IH]; intros [|d b]; simpl; try discriminate.
  - auto.
  - intros Hl H. injection Hl as Hl. injection H as -> H.
    destruct (IH b Hl H) as [-> ->]. auto.
Qed.

Lemma drop_past (n : nat) (s : string) : String.length s <= n -> drop n s = "".
Proof.
  revert s. induction n as [|n IH]; intros [|c s]; simpl; intros H;
    try reflexivity; try lia.
  apply IH. lia.
Qed.

Lemma lit_produces : forall s,
  produces fl (lit s) (fun kw => sameUnder fl s kw = true).
Proof.
  induction s as [|c s IH]; intros st kw post Hrest HK.
  - destruct kw; [|discriminate]. exists st. simpl.
    split; [now left|]. split; [lia | exact Hrest].
  - destruct kw as [|y kw]; [discriminate|].
    cbn [sameUnder] in HK. apply andb_true_iff in HK. destruct HK as [Hc Hs].
    destruct s as [|d s].
    + destruct kw; [|discriminate]. simpl in Hrest.
      exists (mkState (S (idx st)) (Some y) post (cap st)).
      simpl. rewrite Hrest, Hc. split; [now left|]. simpl. split; [lia | reflexivity].
    + change (lit (String c (String d s)))
        with (Seq (Atom (Chr c)) (lit (String d s))). cbn [run].
      destruct (IH (mkState (S (idx st)) (Some y) (kw ++ post) (cap st)) kw post
                   eq_refl Hs) as [st' [Hin [Hi Hr]]].
      exists st'. split.
      * apply in_flat_map. exists (mkState (S (idx st)) (Some y) (kw ++ post) (cap st)).
        split; [|exact Hin]. rewrite Hrest. simpl. rewrite Hc. now left.
      * simpl in Hi |- *. split; [lia | exact Hr].
Qed.

Lemma produces_weaken (k : re) (P Q : string -> Prop) :
  (forall kw, Q kw -> P kw) -> produces fl k P -> produces fl k Q.
Proof. intros HQP HK st kw post Hrest HQ. apply (HK st kw post Hrest). auto. Qed.

Lemma produces_alt (a b : re) (P Q : string -> Prop) :
  produces fl a P -> produces fl b Q ->
  produces fl (Alt a b) (fun kw => P kw \/ Q kw).
Proof.
  intros Ha Hb st kw post Hrest [HP | HQ]; cbn [run].
  - destruct (Ha st kw post Hrest HP) as [st' [Hin H]].
    exists st'. split; [apply in_or_app; now left | exact H].
  - destruct (Hb st kw post Hrest HQ) as [st' [Hin H]].
    exists st'. split; [apply in_or_app; now right | exact H].
Qed.

(** A repetition stops after any admissible number of code units. *)
Lemma rep_complete p : forall s min i pv cp n,
  min <= n -> n <= String.length s -> every p (take n s) = true ->
  exists st', In st' (rep p min i pv s cp)
              /\ idx st' = i + n /\ rest st' = drop n s.
Proof.
  induction s as [|c s IH]; intros min i pv cp n Hmin Hn Hp.
  - simpl in Hn. assert (n = 0) by lia. subst n. assert (min = 0) by lia. subst min.
    simpl. eexists. split; [now left|]. simpl. split; [lia | reflexivity].
  - destruct n as [|n].
    + assert (min = 0) by lia. subst min. cbn [rep]. eexists. split.
      * apply in_or_app. right. simpl. now left.
      * simpl. split; [lia | reflexivity].
    + simpl in Hp. apply andb_true_iff in Hp. destruct Hp as [Hc Hp].
      simpl in Hn.
      destruct (IH (Nat.pred min) (S i) (Some c) cp n) as [st' [Hin [Hi Hr]]];
        [lia | lia | exact Hp |].
      exists st'. split.
      * cbn [rep]. apply in_or_app. left. rewrite Hc. exact Hin.
      * simpl. split; [lia | exact Hr].
Qed.

(** What follows a greedy repetition is tried on the longest run first:
    the first success comes after the longest run after which there is
    one. *)
Lemma rep_head_longest (B : Type) p (f : state -> list B) (G : string -> Prop) :
  (forall st, G (rest st) -> f st <> []) ->
  forall s min i pv cp x t,
    flat_map f (rep p min i pv s cp) = x :: t ->
    exists st2 t',
      In st2 (rep p min i pv s cp) /\ f st2 = x :: t'
      /\ forall n, min <= n -> n <= String.length s ->
                   every p (take n s) = true -> G (drop n s) ->
                   i + n <= idx st2.
Proof.
  intros HG. induction s as [|c s IH]; intros min i pv cp x t H.
  - simpl in H |- *. destruct (Nat.eqb min 0) eqn:E; simpl in H; [|discriminate].
    rewrite app_nil_r in H. exists (mkState i pv "" cp), t.
    split; [now left|]. split; [exact H|].
    intros n _ Hn _ _. simpl in Hn |- *. lia.
  - cbn [rep] in H |- *. rewrite flat_map_app in H.
    destruct (flat_map f (if p c then rep p (Nat.pred min) (S i) (Some c) s cp else []))
      as [|y ys] eqn:E1.
    + simpl in H. destruct (Nat.eqb min 0) eqn:E; simpl in H; [|discriminate].
      rewrite app_nil_r in H. exists (mkState i pv (String c s) cp), t.
      split; [apply in_or_app; right; now left|]. split; [exact H|].
      intros n Hmin Hn Hp HGn. simpl. destruct n as [|n]; [lia|]. exfalso.
      simpl in Hp. apply andb_true_iff in Hp. destruct Hp as [Hc Hp].
      rewrite Hc in E1. simpl in Hn.
      destruct (rep_complete p s (Nat.pred min) (S i) (Some c) cp n)
        as [st' [Hin [Hi Hr]]]; [lia | lia | exact Hp |].
      apply (HG st'); [rewrite Hr; exact HGn|].
      now apply (flat_map_nil_in _ _ f _ st' E1).
    + simpl in H. injection H as <- _.
      destruct (p c) eqn:Hc; [|discriminate].
      destruct (IH _ _ _ _ _ _ E1) as [st2 [t' [Hin [Hf Hmax]]]].
      exists st2, t'. split; [apply in_or_app; now left|]. split; [exact Hf|].
      intros n Hmin Hn Hp HGn. destruct n as [|n].
      * apply rep_shape in Hin. destruct Hin as [k [Hk _]]. lia.
      * simpl in Hp. apply andb_true_iff in Hp. destruct Hp as [_ Hp].
        simpl in Hn, HGn.
        assert (S i + n <= idx st2) by (apply Hmax; [lia | lia | exact Hp | exact HGn]).
        lia.
Qed.

(** The capture finds a token wherever a token code unit comes next. *)
Lemma group_rep_nonempty (b : atom) (st : state) :
  (exists c post, rest st = String c post /\ atomMatches fl b c = true) ->
  run fl (Group (Rep 1 b)) st <> [].
Proof.
  intros [c [post [Hrest Hc]]]. cbn [run]. rewrite Hrest. cbn [rep]. rewrite Hc.
  cbn [Nat.pred Nat.eqb]. rewrite app_nil_r.
  pose proof (rep_zero_nonempty (atomMatches fl b) post (S (idx st)) (Some c) (cap st)) as H.
  destruct (rep (atomMatches fl b) 0 (S (idx st)) (Some c) post (cap st));
    [contradiction | discriminate].
Qed.

Lemma token_begins (q : ascii -> bool) (tok post : string) :
  tok <> "" -> every q tok = true ->
  exists c post', tok ++ post = String c post' /\ q c = true.
Proof.
  destruct tok as [|c tok]; [contradiction|]. intros _ H. simpl in H.
  apply andb_true_iff in H. destruct H as [Hc _]. exists c, (tok ++ post). auto.
Qed.

Section Pattern.

Variables (keyword : re) (isKeyword : string -> Prop) (a b : atom).

Hypothesis keyword_sound : consumes fl keyword isKeyword.
Hypothesis keyword_complete : produces fl keyword isKeyword.
Hypothesis keyword_prefixFree : prefixFree isKeyword.

(** Wherever a token begins, the pattern matches. *)
Lemma run_starts (st : state) :
  StartsToken isKeyword (atomMatches fl a) (atomMatches fl b) (rest st) ->
  run fl (Seq keyword (Seq (Rep 1 a) (Group (Rep 1 b)))) st <> [].
Proof.
  intros [kw [sep [tok [post [Hrest [HK [Hsep [Hp [Htok Hq]]]]]]]]].
  destruct (keyword_complete st kw (sep ++ tok ++ post) Hrest HK) as [s1 [H1 [I1 R1]]].
  destruct (rep_complete (atomMatches fl a) (rest s1) 1 (idx s1) (prev s1) (cap s1)
                         (String.length sep)) as [s2 [H2 [I2 R2]]].
  - destruct sep; [contradiction | simpl; lia].
  - rewrite R1, length_append. lia.
  - rewrite R1, take_length_app. exact Hp.
  - rewrite R1, drop_length_append in R2.
    assert (H3 : run fl (Group (Rep 1 b)) s2 <> []).
    { apply group_rep_nonempty. rewrite R2. now apply token_begins. }
    destruct (run fl (Group (Rep 1 b)) s2) as [|s3 t3] eqn:E3; [contradiction|].
    assert (Hin : In s3 (run fl (Seq keyword (Seq (Rep 1 a) (Group (Rep 1 b)))) st)).
    { cbn [run]. apply in_flat_map. exists s1. split; [exact H1|].
      apply in_flat_map. exists s2. split; [exact H2|].
      cbn [run] in E3. rewrite E3. now left. }
    intros E. rewrite E in Hin. contradiction.
Qed.

(** The first way the pattern matches: the keyword, the longest run of
    separators that leaves a token, and the longest token. *)
Lemma run_first_token (st st' : state) (l : list state) :
  run fl (Seq keyword (Seq (Rep 1 a) (Group (Rep 1 b)))) st = st' :: l ->
  exists kw sep tok,
    rest st = kw ++ sep ++ tok ++ rest st'
    /\ idx st' = idx st + String.length kw + String.length sep + String.length tok
    /\ isKeyword kw
    /\ sep <> "" /\ every (atomMatches fl a) sep = true
    /\ tok <> "" /\ every (atomMatches fl b) tok = true
    /\ stopsAt (atomMatches fl b) (rest st')
    /\ cap st' = Some tok
    /\ forall kw' sep' tok' post',
         rest st = kw' ++ sep' ++ tok' ++ post' ->
         isKeyword kw' -> every (atomMatches fl a) sep' = true ->
         tok' <> "" -> every (atomMatches fl b) tok' = true ->
         kw' = kw /\ String.length sep' <= String.length sep.
Proof.
  intros H. cbn [run] in H.
  apply flat_map_head in H. destruct H as [s1 [t1 [H1 H]]].
  apply (rep_head_longest state (atomMatches fl a) (run fl (Group (Rep 1 b)))
           (fun x => exists c post, x = String c post /\ atomMatches fl b c = true))
    in H;
    [|intros st0 HG; now apply group_rep_nonempty].
  destruct H as [s2 [t2 [H2 [H Hmax]]]].
  apply keyword_sound in H1. destruct H1 as [n1 [I1 [B1 [R1 K1]]]].
  apply rep_shape in H2. destruct H2 as [n2 [I2 [M2 [B2 [R2 [E2 _]]]]]].
  cbn [run] in H.
  destruct (rep (atomMatches fl b) 1 (idx s2) (prev s2) (rest s2) (cap s2))
    as [|s3 t3] eqn:E3; [discriminate|].
  simpl in H. injection H as <- _. cbn [idx rest cap].
  pose proof (rep_head_stops _ _ _ _ _ _ _ _ E3) as Hstop.
  assert (H3 : In s3 (rep (atomMatches fl b) 1 (idx s2) (prev s2) (rest s2) (cap s2)))
    by (rewrite E3; now left).
  apply rep_shape in H3. destruct H3 as [n3 [I3 [M3 [B3 [R3 [E3' _]]]]]].
  exists (take n1 (rest st)), (take n2 (rest s1)), (take n3 (rest s2)).
  rewrite !length_take by assumption.
  replace (idx s3 - idx s2) with n3 by lia.
  repeat split; try assumption; try lia.
  - rewrite R3. rewrite (take_drop n3 (rest s2)).
    rewrite R2. rewrite (take_drop n2 (rest s1)).
    rewrite R1. now rewrite take_drop.
  - intros E. apply (f_equal String.length) in E.
    rewrite length_take in E by assumption. simpl in E. lia.
  - intros E. apply (f_equal String.length) in E.
    rewrite length_take in E by assumption. simpl in E. lia.
  - apply (keyword_prefixFree kw' (take n1 (rest st)) (sep' ++ tok' ++ post')
             (drop n1 (rest st))); [assumption | assumption|].
    rewrite take_drop. now symmetry.
  - assert (Hkw : kw' = take n1 (rest st)).
    { apply (keyword_prefixFree kw' (take n1 (rest st)) (sep' ++ tok' ++ post')
               (drop n1 (rest st))); [assumption | assumption|].
      rewrite take_drop. now symmetry. }
    assert (Hs1 : rest s1 = sep' ++ tok' ++ post').
    { rewrite R1. rewrite <- (take_drop n1 (rest st)) in H at 1.
      rewrite Hkw in H. apply app_same_length in H; [|reflexivity]. now destruct H. }
    destruct (Nat.eq_dec (String.length sep') 0) as [Hz | Hnz]; [lia|].
    assert (Hle : idx s1 + String.length sep' <= idx s2).
    { apply Hmax.
      - lia.
      - rewrite Hs1, length_append. lia.
      - rewrite Hs1, take_length_app. assumption.
      - rewrite Hs1, drop_length_append. now apply token_begins. }
    lia.
Qed.

(** The search passes over the positions where no token begins. *)
Lemma search_leftmost : forall s i pv m,
  search fl (Seq keyword (Seq (Rep 1 a) (Group (Rep 1 b)))) i pv s = Some m ->
  forall k, i + k < index m ->
            ~ StartsToken isKeyword (atomMatches fl a) (atomMatches fl b) (drop k s).
Proof.
  induction s as [|c s IH]; intros i pv m H k Hk; cbn [search] in H.
  - destruct (run fl (Seq keyword (Seq (Rep 1 a) (Group (Rep 1 b))))
                  (mkState i pv "" None)); [discriminate|].
    injection H as <-. simpl in Hk. lia.
  - destruct (run fl (Seq keyword (Seq (Rep 1 a) (Group (Rep 1 b))))
                  (mkState i pv (String c s) None)) as [|st' l] eqn:E.
    + destruct k as [|k].
      * intros HT. now apply (run_starts (mkState i pv (String c s) None)) in HT.
      * simpl. apply (IH (S i) (Some c) m H). lia.
    + injection H as <-. simpl in Hk. lia.
Qed.

Lemma search_none : forall s i pv,
  search fl (Seq keyword (Seq (Rep 1 a) (Group (Rep 1 b)))) i pv s = None ->
  forall k, ~ StartsToken isKeyword (atomMatches fl a) (atomMatches fl b) (drop k s).
Proof.
  induction s as [|c s IH]; intros i pv H k; cbn [search] in H.
  - destruct (run fl (Seq keyword (Seq (Rep 1 a) (Group (Rep 1 b))))
                  (mkState i pv "" None)) eqn:E; [|discriminate].
    replace (drop k "") with "" by (now destruct k).
    intros HT. now apply (run_starts (mkState i pv "" None)) in HT.
  - destruct (run fl (Seq keyword (Seq (Rep 1 a) (Group (Rep 1 b))))
                  (mkState i pv (String c s) None)) as [|st' l] eqn:E;
      [|discriminate].
    destruct k as [|k].
    + intros HT. now apply (run_starts (mkState i pv (String c s) None)) in HT.
    + simpl. now apply (IH (S i) (Some c) H).
Qed.

Lemma seek_none n : forall i pv s,
  seek n i pv s = None -> String.length s < n.
Proof.
  induction n as [|n IH]; intros i pv s; simpl; [discriminate|].
  destruct s as [|c s]; [simpl; lia|]. intros H. apply IH in H. simpl. lia.
Qed.

Lemma no_token_in_nothing :
  ~ StartsToken isKeyword (atomMatches fl a) (atomMatches fl b) "".
Proof.
  intros [kw [sep [tok [post [H [_ [Hsep _]]]]]]].
  destruct kw; [|discriminate]. destruct sep; [contradiction | discriminate].
Qed.

(** What [exec] returns is the first token at or after [lastIndex]. *)
Lemma exec_first_token (s : string) (lastIndex : nat) (m : result) :
  exec fl (Seq keyword (Seq (Rep 1 a) (Group (Rep 1 b)))) s lastIndex = Some m ->
  FirstToken isKeyword (atomMatches fl a) (atomMatches fl b) s lastIndex m.
Proof.
  intros H.
  pose proof (exec_bounds fl (Seq keyword (Seq (Rep 1 a) (Group (Rep 1 b))))
                          s lastIndex m H) as [Hli _].
  split; [exact Hli|]. split.
  - intros i Hi1 Hi2. unfold exec in H.
    destruct (seek lastIndex 0 None s) as [[[i0 pv] s']|] eqn:E; [|discriminate].
    apply seek_drop in E. destruct E as [-> ->].
    pose proof (search_leftmost _ _ _ _ H (i - lastIndex)) as Hno.
    rewrite drop_drop in Hno. replace (lastIndex + (i - lastIndex)) with i in Hno by lia.
    apply Hno. lia.
  - apply exec_run in H. destruct H as [pv [st' [l [Hrun [Hstop Hcap]]]]].
    apply run_first_token in Hrun.
    destruct Hrun as [kw [sep [tok [H1 [H2 [H3 [H4 [H5 [H6 [H7 [H8 [H9 H10]]]]]]]]]]]].
    cbn [idx rest] in *.
    assert (Hrest : rest st' = drop (stop m) s).
    { rewrite Hstop, H2, <- !Nat.add_assoc, <- drop_drop, H1.
      rewrite <- !drop_drop. now rewrite !drop_length_append. }
    exists kw, sep, tok. rewrite <- Hrest, Hcap.
    repeat split; try assumption; try lia;
      apply (H10 kw' sep' tok' post'); assumption.
Qed.

(** When [exec] returns [null] no token begins at or after [lastIndex]. *)
Lemma exec_no_token (s : string) (lastIndex : nat) :
  exec fl (Seq keyword (Seq (Rep 1 a) (Group (Rep 1 b)))) s lastIndex = None ->
  forall i, lastIndex <= i ->
            ~ StartsToken isKeyword (atomMatches fl a) (atomMatches fl b) (drop i s).
Proof.
  unfold exec. intros H i Hi.
  destruct (seek lastIndex 0 None s) as [[[i0 pv] s']|] eqn:E.
  - apply seek_drop in E. destruct E as [-> ->].
    pose proof (search_none _ _ _ H (i - lastIndex)) as Hno.
    rewrite drop_drop in Hno.
    now replace (lastIndex + (i - lastIndex)) with i in Hno by lia.
  - apply seek_none in E. rewrite drop_past by lia. apply no_token_in_nothing.
Qed.

(** The matches of the loop are the tokens of the text. *)
Lemma Matches_Tokens (s : string) (lastIndex : nat) (ms : list result) :
  Matches fl (Seq keyword (Seq (Rep 1 a) (Group (Rep 1 b)))) s lastIndex ms ->
  Tokens isKeyword (atomMatches fl a) (atomMatches fl b) s lastIndex ms.
Proof.
  intros H. induction H as [li E | li m ms E _ IH].
  - apply Tokens_done. now apply exec_no_token.
  - apply Tokens_next; [now apply exec_first_token | exact IH].
Qed.

End Pattern.

End TokenFacts.

(** ** The tokens of a text are determined by the text *)

Section TokensOfText.

Variables (isKeyword : string -> Prop) (separator token : ascii -> bool).
Variable subject : string.

Local Open Scope string_scope.

Lemma FirstToken_starts (lastIndex : nat) (m : result) :
  FirstToken isKeyword separator token subject lastIndex m ->
  StartsToken isKeyword separator token (drop (index m) subject).
Proof.
  intros [_ [_ [kw [sep [tok [H1 [_ [H3 [H4 [H5 [H6 [H7 _]]]]]]]]]]]].
  exists kw, sep, tok, (drop (stop m) subject). repeat split; assumption.
Qed.

(** The longest run of token code units at the start of a text. *)
Lemma longest_run (q : ascii -> bool) : forall tok tok' post post',
  tok ++ post = tok' ++ post' ->
  every q tok = true -> every q tok' = true ->
  stopsAt q post -> stopsAt q post' -> tok = tok'.
Proof.
  induction tok as [|c tok IH]; intros [|c' tok'] post post' H Hq Hq' Hs Hs';
    simpl in *.
  - reflexivity.
  - subst post. simpl in Hs. apply andb_true_iff in Hq'. destruct Hq' as [Hc _].
    congruence.
  - subst post'. simpl in Hs'. apply andb_true_iff in Hq. destruct Hq as [Hc _].
    congruence.
  - injection H as -> H. apply andb_true_iff in Hq. apply andb_true_iff in Hq'.
    f_equal. apply (IH tok' post post'); tauto.
Qed.

Lemma FirstToken_functional (lastIndex : nat) (m m' : result) :
  FirstToken isKeyword separator token subject lastIndex m ->
  FirstToken isKeyword separator token subject lastIndex m' -> m = m'.
Proof.
  intros Hm Hm'.
  pose proof (FirstToken_starts _ _ Hm) as Hs.
  pose proof (FirstToken_starts _ _ Hm') as Hs'.
  destruct Hm as [Hli [Hleft [kw [sep [tok [H1 [H2 [H3 [H4 [H5 [H6 [H7 [H8 [H9 H10]]]]]]]]]]]]]].
  destruct Hm' as [Hli' [Hleft' [kw' [sep' [tok' [H1' [H2' [H3' [H4' [H5' [H6' [H7' [H8' [H9' H10']]]]]]]]]]]]]].
  assert (Hi : index m = index m').
  { destruct (Nat.lt_trichotomy (index m) (index m')) as [Hlt | [Heq | Hgt]].
    - exfalso. now apply (Hleft' (index m)).
    - exact Heq.
    - exfalso. now apply (Hleft (index m')). }
  rewrite <- Hi in *.
  destruct (H10 kw' sep' tok' _ H1' H3' H5' H6' H7') as [Hkw Hle].
  destruct (H10' kw sep tok _ H1 H3 H5 H6 H7) as [_ Hle'].
  subst kw'.
  assert (Hrest : sep ++ tok ++ drop (stop m) subject
                  = sep' ++ tok' ++ drop (stop m') subject).
  { rewrite H1 in H1'. apply app_same_length in H1'; [|reflexivity]. now destruct H1'. }
  apply app_same_length in Hrest; [|lia]. destruct Hrest as [<- Hrest].
  assert (Htok : tok = tok') by (now apply (longest_run token tok tok' _ _ Hrest)).
  subst tok'.
  destruct m as [i e g], m' as [i' e' g']. simpl in *. congruence.
Qed.

Lemma Tokens_functional : forall lastIndex ms ms',
  Tokens isKeyword separator token subject lastIndex ms ->
  Tokens isKeyword separator token subject lastIndex ms' -> ms = ms'.
Proof.
  intros lastIndex ms ms' H. revert ms'.
  induction H as [li Hno | li m ms Hm _ IH]; intros ms' H'; inversion H'; subst.
  - reflexivity.
  - exfalso. match goal with Hf : FirstToken _ _ _ _ _ ?m0 |- _ =>
      apply (Hno (index m0)); [now destruct Hf | now apply (FirstToken_starts li)] end.
  - exfalso. match goal with Hn : forall i, _ -> ~ StartsToken _ _ _ _ |- _ =>
      apply (Hn (index m)); [now destruct Hm | now apply (FirstToken_starts li)] end.
  - match goal with Hf : FirstToken _ _ _ _ _ ?m0 |- _ =>
      assert (m0 = m) by (now apply (FirstToken_functional li)) end.
    subst. f_equal. now apply IH.
Qed.

End TokensOfText.

Lemma StartsToken_ext (K : string -> Prop) (p p' q q' : ascii -> bool) (s : string) :
  (forall c, p c = p' c) -> (forall c, q c = q' c) ->
  StartsToken K p q s -> StartsToken K p' q' s.
Proof.
  intros Hp Hq [kw [sep [tok [post [H1 [H2 [H3 [H4 [H5 H6]]]]]]]]].
  exists kw, sep, tok, post.
  rewrite <- (every_ext p p' sep Hp), <- (every_ext q q' tok Hq).
  repeat split; assumption.
Qed.

Lemma FirstToken_ext (K : string -> Prop) (p p' q q' : ascii -> bool)
      (s : string) (lastIndex : nat) (m : result) :
  (forall c, p c = p' c) -> (forall c, q c = q' c) ->
  FirstToken K p q s lastIndex m -> FirstToken K p' q' s lastIndex m.
Proof.
  intros Hp Hq [Hli [Hleft [kw [sep [tok [H1 [H2 [H3 [H4 [H5 [H6 [H7 [H8 [H9 H10]]]]]]]]]]]]]].
  split; [exact Hli|]. split.
  - intros i Hi1 Hi2 HT. apply (Hleft i Hi1 Hi2).
    revert HT. apply StartsToken_ext; intros c; symmetry; auto.
  - exists kw, sep, tok.
    rewrite <- (every_ext p p' sep Hp), <- (every_ext q q' tok Hq).
    repeat split; try assumption.
    + unfold stopsAt in *. destruct (drop (stop m) s); [exact I | now rewrite <- Hq].
    + apply (H10 kw' sep' tok' post'); try assumption.
      * now rewrite (every_ext p p' sep' Hp).
      * now rewrite (every_ext q q' tok' Hq).
    + apply (H10 kw' sep' tok' post'); try assumption.
      * now rewrite (every_ext p p' sep' Hp).
      * now rewrite (every_ext q q' tok' Hq).
Qed.

Lemma Tokens_ext (K : string -> Prop) (p p' q q' : ascii -> bool)
      (s : string) (lastIndex : nat) (ms : list result) :
  (forall c, p c = p' c) -> (forall c, q c = q' c) ->
  Tokens K p q s lastIndex ms -> Tokens K p' q' s lastIndex ms.
Proof.
  intros Hp Hq H. induction H as [li Hno | li m ms Hm _ IH].
  - apply Tokens_done. intros i Hi HT. apply (Hno i Hi).
    revert HT. apply StartsToken_ext; intros c; symmetry; auto.
  - apply Tokens_next; [|exact IH]. revert Hm. now apply FirstToken_ext.
Qed.

(** ** The keywords *)

Section Keywords.

Local Open Scope string_scope.

Lemma all_ascii (c : ascii) : In c (map ascii_of_nat (seq 0 256)).
Proof.
  rewrite <- (ascii_nat_embedding c). apply in_map. apply in_seq.
  pose proof (nat_ascii_bounded c). lia.
Qed.

(** With the [i] flag a small letter of a pattern matches itself and its
    capital, and nothing else. *)
Lemma canon_small_letter (c x : ascii) :
  isSmallLetter c = true ->
  Ascii.eqb (canon flag_i c) (canon flag_i x) = true
  <-> x = c \/ code x + 32 = code c.
Proof.
  intros Hc.
  assert (H : forallb
                (fun c => if isSmallLetter c
                          then forallb
                                 (fun x => Bool.eqb
                                             (Ascii.eqb (canon flag_i c) (canon flag_i x))
                                             (Ascii.eqb x c
                                              || Nat.eqb (code x + 32) (code c)))
                                 (map ascii_of_nat (seq 0 256))
                          else true)
                (map ascii_of_nat (seq 0 256)) = true)
    by (vm_compute; reflexivity).
  rewrite forallb_forall in H. specialize (H c (all_ascii c)). rewrite Hc in H.
  rewrite forallb_forall in H. specialize (H x (all_ascii x)).
  apply Bool.eqb_prop in H. rewrite H, orb_true_iff, Ascii.eqb_eq, Nat.eqb_eq.
  reflexivity.
Qed.

Lemma sameUnder_spells : forall word kw,
  every isSmallLetter word = true ->
  sameUnder flag_i word kw = true <-> spells word kw.
Proof.
  induction word as [|c word IH]; intros [|x kw] Hw; simpl.
  - split; auto.
  - split; [discriminate | contradiction].
  - split; [discriminate | contradiction].
  - simpl in Hw. apply andb_true_iff in Hw. destruct Hw as [Hc Hw].
    rewrite andb_true_iff, (canon_small_letter c x Hc), (IH kw Hw). reflexivity.
Qed.

Lemma spells_length : forall word kw,
  spells word kw -> String.length kw = String.length word.
Proof.
  induction word as [|c word IH]; intros [|x kw]; simpl; try contradiction.
  - reflexivity.
  - intros [_ H]. f_equal. now apply IH.
Qed.

Lemma spells_consumes (word : string) :
  every isSmallLetter word = true -> consumes flag_i (lit word) (spells word).
Proof.
  intros Hw. eapply consumes_weaken; [|apply lit_consumes].
  intros kw. now apply sameUnder_spells.
Qed.

Lemma spells_produces (word : string) :
  every isSmallLetter word = true -> produces flag_i (lit word) (spells word).
Proof.
  intros Hw. eapply produces_weaken; [|apply lit_produces].
  intros kw. now apply sameUnder_spells.
Qed.

Lemma spells_prefixFree (word : string) : prefixFree (spells word).
Proof.
  intros kw1 kw2 post1 post2 H1 H2 H.
  apply spells_length in H1. apply spells_length in H2.
  apply app_same_length in H; [now destruct H | congruence].
Qed.

Lemma verbs_produces : produces noFlags verbs isVerb.
Proof.
  assert (Hlit : forall word, produces noFlags (lit word) (fun kw => kw = word)).
  { intros word. eapply produces_weaken; [|apply lit_produces].
    intros kw ->. clear. induction word as [|c word IH]; simpl; [reflexivity|].
    rewrite IH. unfold canon. simpl. now rewrite Ascii.eqb_refl. }
  unfold verbs.
  eapply produces_weaken;
    [|apply produces_alt; [apply Hlit | apply produces_alt;
                                         [apply Hlit | apply produces_alt; apply Hlit]]].
  intros kw H. exact H.
Qed.

Lemma verbs_prefixFree : prefixFree isVerb.
Proof.
  intros kw1 kw2 post1 post2 [-> | [-> | [-> | ->]]] [-> | [-> | [-> | ->]]] H;
    try reflexivity; simpl in H; discriminate.
Qed.

(** The matches of the patterns of the source are the tokens of the
    text. *)
Lemma verb_tokens (content : string) (lastIndex : nat) (ms : list result) :
  Matches noFlags verbTokenPattern content lastIndex ms ->
  Tokens isVerb isSpace notSpaceChar content lastIndex ms.
Proof.
  intros H.
  apply (Matches_Tokens noFlags verbs isVerb space notSpace
           verbs_consumes verbs_produces verbs_prefixFree) in H.
  revert H. apply Tokens_ext; [apply atom_space | apply atom_notSpace].
Qed.

Lemma word_tokens (word content : string) (lastIndex : nat) (ms : list result) :
  every isSmallLetter word = true ->
  Matches flag_i (Seq (lit word) (Seq (Rep 1 colonOrSpace) (Group (Rep 1 notSpace))))
          content lastIndex ms ->
  Tokens (spells word) isColonOrSpace notSpaceChar content lastIndex ms.
Proof.
  intros Hw H.
  apply (Matches_Tokens flag_i (lit word) (spells word) colonOrSpace notSpace
           (spells_consumes word Hw) (spells_produces word Hw)
           (spells_prefixFree word)) in H.
  revert H. apply Tokens_ext; [apply atom_colonOrSpace | apply atom_notSpace].
Qed.

Lemma cue_tokens (cue content : string) (lastIndex : nat) (ms : list result) :
  every isSmallLetter cue = true ->
  Matches flag_i (cuePattern cue) content lastIndex ms ->
  Tokens (spells cue) isColonOrSpace notLineFeed content lastIndex ms.
Proof.
  intros Hw H.
  apply (Matches_Tokens flag_i (lit cue) (spells cue) colonOrSpace
           (Class true [IChar LF])
           (spells_consumes cue Hw) (spells_produces cue Hw)
           (spells_prefixFree cue)) in H.
  revert H. apply Tokens_ext; [apply atom_colonOrSpace | apply atom_notLineFeed].
Qed.

End Keywords.

(* ================================================================== *)
(** * The properties of the specification *)
(* ================================================================== *)

(** ** The cache round trip *)

(** C1, as amended.  Saving a knowledge base with [saveKnowledge] and
    reading the file back with [JSON.parse], as [initializeKnowledgeBase]
    does when the cache exists, gives the documents, endpoints, examples
    and rules with the same field values, except that every document's
    [metadata.modified] comes back as the ISO 8601 string of the date
    ([null] for an invalid date) and not as a date; [size] and [path] are
    as they were.  So the result equals the original exactly when there
    is no document. *)
Theorem cache_round_trip (w : World) (p : DocumentProcessor)
        (outputPath : string) (files : TextFiles) :
  (exists cached,
      saveKnowledge p outputPath files outputPath = Some cached
      /\ Json.parse cached = Some (jsKnowledgeCached (getKnowledge p)))
  /\ initializeKnowledgeBase w (saveKnowledge p KNOWLEDGE_CACHE_PATH files)
     = Ok (jsKnowledgeCached (getKnowledge p),
           saveKnowledge p KNOWLEDGE_CACHE_PATH files)
  /\ (jsKnowledgeCached (getKnowledge p) = jsKnowledge (getKnowledge p)
      <-> ProcessedKnowledge.documents (getKnowledge p) = []).
Proof.
  split; [|split].
  - exists (Json.stringify (jsKnowledge (knowledge p))). split.
    + unfold saveKnowledge, writeFileSync. now rewrite String.eqb_refl.
    + apply parse_stringify_jsKnowledge.
  - unfold initializeKnowledgeBase, saveKnowledge at 1, writeFileSync.
    rewrite String.eqb_refl. cbv zeta.
    now rewrite parse_stringify_jsKnowledge.
  - apply jsKnowledgeCached_exact.
Qed.

(** C1 as stated fails: the knowledge base of the sample run does not
    come back equal from its own cache text. *)
Lemma cache_round_trip_changes_dates :
  exists p cached,
    processAllDocuments sampleWorld (newDocumentProcessor DOCUMENTS_PATH) = Ok p
    /\ saveKnowledge p KNOWLEDGE_CACHE_PATH noFiles KNOWLEDGE_CACHE_PATH = Some cached
    /\ Json.parse cached <> Some (jsKnowledge (getKnowledge p)).
Proof.
  destruct (processAllDocuments sampleWorld (newDocumentProcessor DOCUMENTS_PATH))
    as [p'| |] eqn:E0; try (vm_compute in E0; discriminate E0).
  exists p', (Json.stringify (jsKnowledge (getKnowledge p'))).
  split; [reflexivity | split; [reflexivity|]].
  assert (Hd : ProcessedKnowledge.documents (getKnowledge p') <> []).
  { vm_compute in E0. injection E0 as <-. discriminate. }
  rewrite parse_stringify_jsKnowledge. intros H.
  assert (E : jsKnowledgeCached (getKnowledge p') = jsKnowledge (getKnowledge p'))
    by congruence.
  apply jsKnowledgeCached_exact in E. contradiction.
Qed.

(** ** Degraded extraction *)

(** C2, as amended.  When a discovered file cannot be read, or its DOCX or
    PDF decoder throws, its document still appears exactly once among the
    documents of the run, with content ["Error processing <FORMAT>: <path>"]
    (FORMAT one of DOCX, XML, PDF; path the full source path); when the XML
    parser throws, the document appears exactly once with the raw text of
    the file as content.  In each case the document is classified (title
    and category from its file name and that content) and goes through
    structured extraction like every other document of the run. *)
Theorem degraded_document_is_kept (w : World) (p : DocumentProcessor)
        (files : list string) (filePath : string) (stat : Stats)
        (t : DocType) (c : string) :
  getAllFiles w (documentsPath p) = Ok files ->
  count_occ string_dec files filePath = 1 ->
  statSync w filePath = Some stat ->
  formatOf filePath = Some t ->
  Degraded w filePath t c ->
  exists p',
    processAllDocuments w p = Ok p'
    /\ ProcessedKnowledge.documents (getKnowledge p')
       = ProcessedKnowledge.documents (getKnowledge p) ++ documentsOf w files
    /\ filter (hasPath filePath) (documentsOf w files)
       = [documentWith filePath stat t c]
    /\ absorb (documentsOf w files) (getKnowledge p) = Some (getKnowledge p').
Proof.
  intros Hfiles Hcount Hstat Hfmt Hdeg.
  destruct (absorb_delta (documentsOf w files)) as [delta [Hd [_ Habs]]].
  exists (mkProcessor (documentsPath p) (kbAppend (knowledge p) delta)).
  split; [|split; [|split]].
  - unfold processAllDocuments. rewrite Hfiles. cbn [bind].
    now rewrite forEachFile_absorb, Habs.
  - simpl. now rewrite Hd.
  - rewrite filter_documentsOf, Hcount. cbn [repeat List.concat].
    unfold documentOf.
    rewrite (processDocument_degraded w filePath stat t c Hstat Hfmt Hdeg).
    reflexivity.
  - apply Habs.
Qed.

Lemma degraded_document_is_kept_witness :
  exists p',
    processAllDocuments sampleWorld (newDocumentProcessor DOCUMENTS_PATH) = Ok p'
    /\ ProcessedKnowledge.documents (getKnowledge p')
       = [] ++ documentsOf sampleWorld
                 [ "documents/SubmitDDS_Request_Example.xml";
                   "documents/Validation_Rules.docx";
                   "documents/guides/CF2_guide.PDF" ]
    /\ filter (hasPath "documents/guides/CF2_guide.PDF")
              (documentsOf sampleWorld
                 [ "documents/SubmitDDS_Request_Example.xml";
                   "documents/Validation_Rules.docx";
                   "documents/guides/CF2_guide.PDF" ])
       = [ documentWith "documents/guides/CF2_guide.PDF"
             (mkStats 2048 (ValidDate 1700000000000)) pdf
             (placeholder "PDF" "documents/guides/CF2_guide.PDF") ]
    /\ absorb (documentsOf sampleWorld
                 [ "documents/SubmitDDS_Request_Example.xml";
                   "documents/Validation_Rules.docx";
                   "documents/guides/CF2_guide.PDF" ])
              ProcessedKnowledge.empty
       = Some (getKnowledge p').
Proof.
  apply (degraded_document_is_kept sampleWorld (newDocumentProcessor DOCUMENTS_PATH)
           [ "documents/SubmitDDS_Request_Example.xml";
             "documents/Validation_Rules.docx";
             "documents/guides/CF2_guide.PDF" ]
           "documents/guides/CF2_guide.PDF"
           (mkStats 2048 (ValidDate 1700000000000)) pdf
           (placeholder "PDF" "documents/guides/CF2_guide.PDF")).
  - reflexivity.
  - reflexivity.
  - reflexivity.
  - reflexivity.
  - apply (Pdf_decoder sampleWorld "documents/guides/CF2_guide.PDF" "bytes");
      reflexivity.
Defined.

(** C2 as stated fails for XML: the parser throws on the sample request
    file, and the content of its one document is the raw text, not the
    placeholder. *)
Lemma xml_parser_failure_keeps_raw_text :
  readFileSync sampleWorld "documents/SubmitDDS_Request_Example.xml"
    = Some "<submit>POST /api/v1/submit"
  /\ xml2js sampleWorld "<submit>POST /api/v1/submit" = None
  /\ exists p doc,
      processAllDocuments sampleWorld (newDocumentProcessor DOCUMENTS_PATH) = Ok p
      /\ filter (hasPath "documents/SubmitDDS_Request_Example.xml")
                (ProcessedKnowledge.documents (getKnowledge p)) = [doc]
      /\ DocumentContent.content doc = "<submit>POST /api/v1/submit"
      /\ DocumentContent.content doc
         <> placeholder "XML" "documents/SubmitDDS_Request_Example.xml".
Proof.
  split; [reflexivity | split; [reflexivity|]].
  eexists _, _. split; [vm_compute; reflexivity|].
  split; [vm_compute; reflexivity|].
  split; [reflexivity | discriminate].
Qed.

(** ** Endpoint descriptions *)

(** C3, as amended.  Let line [L] be the first line of the content that
    contains the token.  The description is the trimmed text of the first
    line, among the three lines before line [L] through the two lines
    after it, whose trimmed text is not empty, does not contain the token
    and has more than 20 characters.  It is ["<token> endpoint"] when no
    line contains the token, and when no line from three before to three
    after line [L] is such a line. *)
Theorem extractEndpointDescription_window (content endpoint : string) :
  let lines := split LF content in
  let line i := nth i lines EmptyString in
  let description := extractEndpointDescription content endpoint in
  ((forall l, In l lines -> includes l endpoint = false) ->
   description = (endpoint ++ " endpoint")%string)
  /\ (forall L,
         L < List.length lines ->
         includes (line L) endpoint = true ->
         (forall j, j < L -> includes (line j) endpoint = false) ->
         (forall k,
             L <= k + 3 -> k <= L + 2 -> k < List.length lines ->
             qualifies endpoint (line k) = true ->
             (forall j, L <= j + 3 -> j < k -> qualifies endpoint (line j) = false) ->
             description = trim (line k))
         /\ ((forall j, L <= j + 3 -> j <= L + 3 -> j < List.length lines ->
                        qualifies endpoint (line j) = false) ->
             description = (endpoint ++ " endpoint")%string)).
Proof.
  intros lines line description. split.
  - intros Hnone. unfold description, extractEndpointDescription.
    fold lines. now rewrite findIndex_None.
  - intros L HL Hat Hbefore.
    assert (Hidx : findIndex (fun l => includes l endpoint) lines = Some L)
      by (apply (findIndex_Some _ _ EmptyString); assumption).
    split.
    + intros k Hk1 Hk2 Hk3 Hq Hfirst.
      unfold description, extractEndpointDescription. fold lines. rewrite Hidx.
      rewrite (descriptionFrom_first lines endpoint _ _ k); try reflexivity;
        try assumption; try lia.
      intros j Hj1 Hj2. apply Hfirst; lia.
    + intros Hnone.
      unfold description, extractEndpointDescription. fold lines. rewrite Hidx.
      rewrite descriptionFrom_None; [reflexivity|].
      intros j Hj1 Hj2. apply Hnone; lia.
Qed.

Lemma extractEndpointDescription_window_witness :
  extractEndpointDescription
    ("Call POST /api/v1/submit to send data." ++ nl
       ++ "   This performs the DDS submission process for operators.   ")
    "/api/v1/submit"
  = "This performs the DDS submission process for operators.".
Proof.
  apply (proj1 (proj2 (extractEndpointDescription_window
           ("Call POST /api/v1/submit to send data." ++ nl
              ++ "   This performs the DDS submission process for operators.   ")
           "/api/v1/submit") 0 ltac:(simpl; lia) eq_refl
           ltac:(intros j Hj; lia)) 1);
    try (simpl; lia); try reflexivity.
  intros j Hj1 Hj2. assert (j = 0) as -> by lia. reflexivity.
Defined.

(** C3 as stated fails twice.  A line of 25 characters that is mostly
    padding is within one line of the token and does not contain it, and is
    not the description: the test is on the trimmed text.  And a line three
    lines after the token line is not looked at. *)
Lemma extractEndpointDescription_trims_and_stops_short :
  (let content := ("GET /a/b" ++ nl ++ "short text               ")%string in
   nth 1 (split LF content) EmptyString = "short text               "
   /\ includes "short text               " "/a/b" = false
   /\ String.length "short text               " = 25
   /\ extractEndpointDescription content "/a/b" = "/a/b endpoint")
  /\ (let content := ("GET /a/b" ++ nl ++ "x" ++ nl ++ "y" ++ nl
                        ++ "This line is a sufficiently long description")%string in
      nth 3 (split LF content) EmptyString
        = "This line is a sufficiently long description"
      /\ findIndex (fun l => includes l "/a/b") (split LF content) = Some 0
      /\ qualifies "/a/b" "This line is a sufficiently long description" = true
      /\ extractEndpointDescription content "/a/b" = "/a/b endpoint").
Proof. repeat split; reflexivity. Qed.

(** ** Endpoints *)

Lemma Forall2_map_r (A B : Type) (R : A -> B -> Prop) (f : A -> B) (l : list A) :
  (forall x, R x (f x)) -> Forall2 R l (map f l).
Proof. intros H. induction l; simpl; constructor; auto. Qed.

(** C4.  [extractEndpoints] makes three passes over the content, each
    from the start.  With [ms1], [ms2] and [ms3] the tokens of the
    content after a verb (POST, GET, PUT or DELETE as written, and white
    space), after endpoint, and after url (each in any case, and colons
    or white space), it appends to the endpoints already in the
    knowledge base one record for each token that contains a slash, in
    that order, and drops or merges none: the same token found by several
    passes, or already there from another document, gives one more record
    each time.  Nothing else changes.  The tokens are read from the
    content alone, and the content determines them: each is the first one
    that begins at or after the end of the one before, the longest run of
    code units that are not white space after the longest run of
    separators, and a pass ends only when no further token begins. *)
Theorem extractEndpoints_one_record_per_match (doc : Doc) (kb : KB) :
  let content := DocumentContent.content doc in
  exists ms1 ms2 ms3 new,
    Tokens isVerb isSpace notSpaceChar content 0 ms1
    /\ Tokens (spells "endpoint") isColonOrSpace notSpaceChar content 0 ms2
    /\ Tokens (spells "url") isColonOrSpace notSpaceChar content 0 ms3
    /\ (forall ms1' ms2' ms3',
          Tokens isVerb isSpace notSpaceChar content 0 ms1' ->
          Tokens (spells "endpoint") isColonOrSpace notSpaceChar content 0 ms2' ->
          Tokens (spells "url") isColonOrSpace notSpaceChar content 0 ms3' ->
          ms1' = ms1 /\ ms2' = ms2 /\ ms3' = ms3)
    /\ extractEndpoints doc kb =
       Some (ProcessedKnowledge.mk
               (ProcessedKnowledge.documents kb)
               (ProcessedKnowledge.endpoints kb ++ new)
               (ProcessedKnowledge.examples kb)
               (ProcessedKnowledge.rules kb))
    /\ Forall2
         (fun token e =>
            EndpointInfo.url e = token
            /\ EndpointInfo.name e
               = extractOperationName token (DocumentContent.category doc)
            /\ EndpointInfo.description e
               = extractEndpointDescription content token
            /\ EndpointInfo.method e = extractMethod content token
            /\ EndpointInfo.category e = DocumentContent.category doc
            /\ EndpointInfo.source e = DocumentContent.filename doc)
         (filter (fun token => includes token "/")
                 (map captured (ms1 ++ ms2 ++ ms3)))
         new.
Proof.
  intros content.
  destruct (extractEndpoints_matches doc kb) as [ms1 [ms2 [ms3 [H1 [H2 [H3 Heq]]]]]].
  apply verb_tokens in H1.
  apply (word_tokens "endpoint") in H2; [|reflexivity].
  apply (word_tokens "url") in H3; [|reflexivity].
  exists ms1, ms2, ms3, (map (endpointFor doc) (slashTokens (ms1 ++ ms2 ++ ms3))).
  repeat (split; [assumption|]).
  split; [|split; [exact Heq | apply Forall2_map_r; intros token; repeat split]].
  intros ms1' ms2' ms3' H1' H2' H3'.
  split; [|split]; eapply Tokens_functional; eassumption.
Qed.

Lemma extractEndpoints_one_record_per_match_witness :
  let doc := DocumentContent.mk "api.docx" "api"
               "POST /dds ENDPOINT: /dds Url: /dds DELETE /x get /y PUT none"
               docx "General"
               (Metadata.mk 60 (ValidDate 0) "documents/api.docx") in
  exists new,
    extractEndpoints doc ProcessedKnowledge.empty
    = Some (ProcessedKnowledge.mk [] ([] ++ new) [] [])
    /\ map EndpointInfo.url new = ["/dds"; "/x"; "/dds"; "/dds"]
    /\ map EndpointInfo.method new = ["POST"; "DELETE"; "POST"; "POST"].
Proof.
  intros doc.
  destruct (extractEndpoints_one_record_per_match doc ProcessedKnowledge.empty)
    as [ms1 [ms2 [ms3 [new [_ [_ [_ [_ [Heq _]]]]]]]]].
  exists new. split; [exact Heq|].
  vm_compute in Heq. injection Heq as <-. split; reflexivity.
Defined.

(** The tokens of that content: the verbs count as they are written, the
    two words in any case, and a token without a slash is a token
    too. *)
Example tokens_of_a_content :
  let content := "POST /dds ENDPOINT: /dds Url: /dds DELETE /x get /y PUT none" in
  Tokens isVerb isSpace notSpaceChar content 0
         [ mkResult 0 9 (Some "/dds"); mkResult 35 44 (Some "/x");
           mkResult 52 60 (Some "none") ]
  /\ Tokens (spells "endpoint") isColonOrSpace notSpaceChar content 0
            [ mkResult 10 24 (Some "/dds") ]
  /\ Tokens (spells "url") isColonOrSpace notSpaceChar content 0
            [ mkResult 25 34 (Some "/dds") ].
Proof.
  intros content. split; [|split].
  - apply verb_tokens. apply (execAll_Matches noFlags _ _ 100). reflexivity.
  - apply (word_tokens "endpoint"); [reflexivity|].
    apply (execAll_Matches flag_i _ _ 100). reflexivity.
  - apply (word_tokens "url"); [reflexivity|].
    apply (execAll_Matches flag_i _ _ 100). reflexivity.
Qed.

(** The same address written three ways gives three records. *)
Example extractEndpoints_three_ways :
  let doc := DocumentContent.mk "api.docx" "api"
               "POST /dds endpoint: /dds url: /dds" docx "General"
               (Metadata.mk 34 (ValidDate 0) "documents/api.docx") in
  option_map (fun kb => map EndpointInfo.url (ProcessedKnowledge.endpoints kb))
             (extractEndpoints doc ProcessedKnowledge.empty)
  = Some ["/dds"; "/dds"; "/dds"].
Proof. reflexivity. Qed.

(** ** Categories *)

(** C5.  The category of a file name is the label of the first key, in
    the order cf1, cf2, cf3, cf4, cf5, cf6, cf7, validation,
    specification, development, geojson, python, request, response, that
    occurs in it whatever the case, and General when none does.  In
    particular a key that comes later does not count: cf2 comes before
    validation, so a file name in which both occur is never in Validation
    Rules; it is in Submit DDS, cf2 being the first key that occurs in it,
    and in Basic Connectivity when cf1, the one key before cf2, occurs as
    well. *)
Theorem categorizeDocument_precedence (filename : string) :
  (forall label,
      categorizeDocument filename = label
      <-> FirstMatch filename "General" categoryTable label)
  /\ (occursIgnoringCase "cf2" filename ->
      occursIgnoringCase "validation" filename ->
      ~ occursIgnoringCase "cf1" filename ->
      categorizeDocument filename = "Submit DDS")
  /\ (occursIgnoringCase "cf2" filename ->
      occursIgnoringCase "validation" filename ->
      categorizeDocument filename <> "Validation Rules"
      /\ (occursIgnoringCase "cf1" filename ->
          categorizeDocument filename = "Basic Connectivity")).
Proof.
  split; [|split].
  - intros label. split.
    + intros <-. apply categorizeDocument_FirstMatch.
    + intros H. eapply FirstMatch_functional;
        [apply categorizeDocument_FirstMatch | exact H].
  - intros H2 _ H1. apply includes_lower_iff in H2. apply includes_lower_false in H1.
    unfold categorizeDocument. cbv zeta. now rewrite H1, H2.
  - intros H2 _. apply includes_lower_iff in H2.
    unfold categorizeDocument. cbv zeta. rewrite H2. split.
    + destruct (includes (toLowerCase filename) "cf1"); discriminate.
    + intros H1. apply includes_lower_iff in H1. now rewrite H1.
Qed.

Lemma categorizeDocument_precedence_witness :
  categorizeDocument "CF2_Validation_Guide.docx" = "Submit DDS".
Proof.
  apply (proj1 (proj2 (categorizeDocument_precedence "CF2_Validation_Guide.docx"))).
  - exists "", "CF2", "_Validation_Guide.docx". split; reflexivity.
  - exists "CF2_", "Validation", "_Guide.docx". split; reflexivity.
  - apply includes_lower_false. reflexivity.
Defined.

(** The keys in their order, on names that hold several of them. *)
Example categorizeDocument_order :
  categorizeDocument "CF1_CF2_validation.docx" = "Basic Connectivity"
  /\ categorizeDocument "cf2-VALIDATION-rules.pdf" = "Submit DDS"
  /\ categorizeDocument "Validation_of_requests.docx" = "Validation Rules"
  /\ categorizeDocument "Response_in_Python.xml" = "Python Examples"
  /\ categorizeDocument "readme.pdf" = "General".
Proof. repeat split; reflexivity. Qed.

(** ** Examples *)

(** C6.  [extractExamples] adds exactly one example for a document of XML
    format whose file name contains request or response, whatever the
    case, and none for any other document: in the first case the examples
    of the knowledge base are those it had and the new one after them,
    and nothing else changes; in the second the knowledge base is as it
    was.  The example has the title of the document as name, type request
    when the file name contains request and response otherwise, the
    content of the document, the operation of the first of echo, submit,
    retrieve, amend, retract, statement that occurs in the file name
    (Unknown when none does), and the file name as source.  An XML
    document named SubmitDDS_Request_Example.xml gives one example of
    type request and operation SubmitDDS. *)
Theorem extractExamples_one_per_xml_example (doc : Doc) (kb : KB) :
  let name := DocumentContent.filename doc in
  let qualifies :=
    DocumentContent.type doc = xml
    /\ (occursIgnoringCase "request" name \/ occursIgnoringCase "response" name) in
  let after := extractExamples doc kb in
  (qualifies ->
   exists e,
     ProcessedKnowledge.examples after = ProcessedKnowledge.examples kb ++ [e]
     /\ ProcessedKnowledge.documents after = ProcessedKnowledge.documents kb
     /\ ProcessedKnowledge.endpoints after = ProcessedKnowledge.endpoints kb
     /\ ProcessedKnowledge.rules after = ProcessedKnowledge.rules kb
     /\ ExampleInfo.name e = DocumentContent.title doc
     /\ (occursIgnoringCase "request" name -> ExampleInfo.type e = request)
     /\ (~ occursIgnoringCase "request" name -> ExampleInfo.type e = response)
     /\ ExampleInfo.content e = DocumentContent.content doc
     /\ FirstMatch name "Unknown" operationTable (ExampleInfo.operation e)
     /\ ExampleInfo.source e = name)
  /\ (~ qualifies -> after = kb)
  /\ (name = "SubmitDDS_Request_Example.xml" ->
      DocumentContent.type doc = xml ->
      ProcessedKnowledge.examples after
      = ProcessedKnowledge.examples kb
          ++ [ExampleInfo.mk (DocumentContent.title doc) request
                             (DocumentContent.content doc) "SubmitDDS"
                             "SubmitDDS_Request_Example.xml"]).
Proof.
  intros name qualifies after. unfold qualifies, after. split; [|split].
  - intros [Hxml Hocc]. unfold extractExamples. rewrite Hxml. fold name. cbv zeta.
    assert (Hor : includes (toLowerCase name) "request"
                  || includes (toLowerCase name) "response" = true).
    { apply orb_true_iff. destruct Hocc as [H | H];
        apply includes_lower_iff in H; auto. }
    rewrite Hor. eexists. split; [reflexivity|]. cbn.
    repeat split.
    + intros H. apply includes_lower_iff in H. now rewrite H.
    + intros H. apply includes_lower_false in H. now rewrite H.
    + apply extractOperationFromFilename_FirstMatch.
  - intros Hnot. unfold extractExamples.
    destruct (DocumentContent.type doc) eqn:Ht; try reflexivity. fold name. cbv zeta.
    destruct (includes (toLowerCase name) "request") eqn:E1.
    + exfalso. apply Hnot. split; [reflexivity|]. left. now apply includes_lower_iff.
    + destruct (includes (toLowerCase name) "response") eqn:E2; [|reflexivity].
      exfalso. apply Hnot. split; [reflexivity|]. right. now apply includes_lower_iff.
  - intros Hname Hxml. unfold extractExamples. rewrite Hxml. fold name.
    rewrite Hname. reflexivity.
Qed.

Lemma extractExamples_one_per_xml_example_witness :
  let doc := DocumentContent.mk "SubmitDDS_Request_Example.xml" "Submit"
               "<submit/>" xml "Request Examples"
               (Metadata.mk 9 (ValidDate 0) "documents/SubmitDDS_Request_Example.xml") in
  ProcessedKnowledge.examples (extractExamples doc ProcessedKnowledge.empty)
  = [] ++ [ExampleInfo.mk "Submit" request "<submit/>" "SubmitDDS"
                          "SubmitDDS_Request_Example.xml"].
Proof.
  intros doc.
  apply (proj2 (proj2 (extractExamples_one_per_xml_example doc
                         ProcessedKnowledge.empty))); reflexivity.
Defined.

(** A document that is not XML, or whose name has neither word, gives no
    example, and a response is told from a request. *)
Example extractExamples_cases :
  let named filename type :=
    DocumentContent.mk filename "t" "c" type "General"
                       (Metadata.mk 1 (ValidDate 0) filename) in
  map ExampleInfo.type
      (ProcessedKnowledge.examples
         (extractExamples (named "Echo_RESPONSE.xml" xml) ProcessedKnowledge.empty))
  = [response]
  /\ extractExamples (named "Echo_Request.docx" docx) ProcessedKnowledge.empty
     = ProcessedKnowledge.empty
  /\ extractExamples (named "Echo.xml" xml) ProcessedKnowledge.empty
     = ProcessedKnowledge.empty.
Proof. repeat split; reflexivity. Qed.

(** ** Rules *)

(** C7.  [extractRules] leaves the knowledge base alone for a document
    whose category is not Validation Rules.  For a document of that
    category it makes four passes over the content; with [ms1] to [ms4]
    the tokens of the content after rule, validation, must and should
    (each in any case of its letters, and followed by colons or white
    space), it appends one rule for each token, in that order: name and
    description are both the trimmed capture, the category is Validation
    and the source is the file name of the document.  The capture is what
    is left of the line.  The tokens are read from the content alone,
    and the content determines them. *)
Theorem extractRules_one_rule_per_match (doc : Doc) (kb : KB) :
  let content := DocumentContent.content doc in
  (DocumentContent.category doc <> "Validation Rules" ->
   extractRules doc kb = Some kb)
  /\ (DocumentContent.category doc = "Validation Rules" ->
      exists ms1 ms2 ms3 ms4 new,
        Tokens (spells "rule") isColonOrSpace notLineFeed content 0 ms1
        /\ Tokens (spells "validation") isColonOrSpace notLineFeed content 0 ms2
        /\ Tokens (spells "must") isColonOrSpace notLineFeed content 0 ms3
        /\ Tokens (spells "should") isColonOrSpace notLineFeed content 0 ms4
        /\ (forall ms1' ms2' ms3' ms4',
              Tokens (spells "rule") isColonOrSpace notLineFeed content 0 ms1' ->
              Tokens (spells "validation") isColonOrSpace notLineFeed content 0 ms2' ->
              Tokens (spells "must") isColonOrSpace notLineFeed content 0 ms3' ->
              Tokens (spells "should") isColonOrSpace notLineFeed content 0 ms4' ->
              ms1' = ms1 /\ ms2' = ms2 /\ ms3' = ms3 /\ ms4' = ms4)
        /\ extractRules doc kb =
           Some (ProcessedKnowledge.mk
                   (ProcessedKnowledge.documents kb)
                   (ProcessedKnowledge.endpoints kb)
                   (ProcessedKnowledge.examples kb)
                   (ProcessedKnowledge.rules kb ++ new))
        /\ Forall2
             (fun m r =>
                RuleInfo.name r = trim (captured m)
                /\ RuleInfo.description r = trim (captured m)
                /\ RuleInfo.category r = "Validation"
                /\ RuleInfo.source r = DocumentContent.filename doc)
             (ms1 ++ ms2 ++ ms3 ++ ms4)
             new).
Proof.
  intros content. split.
  - intros Hc. unfold extractRules.
    destruct (String.eqb_spec (DocumentContent.category doc) "Validation Rules");
      [contradiction | reflexivity].
  - intros Hc.
    destruct (extractRules_matches doc kb Hc)
      as [ms1 [ms2 [ms3 [ms4 [H1 [H2 [H3 [H4 Heq]]]]]]]].
    apply (cue_tokens "rule") in H1; [|reflexivity].
    apply (cue_tokens "validation") in H2; [|reflexivity].
    apply (cue_tokens "must") in H3; [|reflexivity].
    apply (cue_tokens "should") in H4; [|reflexivity].
    exists ms1, ms2, ms3, ms4, (map (ruleFor doc) (ms1 ++ ms2 ++ ms3 ++ ms4)).
    repeat (split; [assumption|]).
    split; [|split; [exact Heq | apply Forall2_map_r; intros m; repeat split]].
    intros ms1' ms2' ms3' ms4' H1' H2' H3' H4'.
    split; [|split; [|split]]; eapply Tokens_functional; eassumption.
Qed.

Lemma extractRules_one_rule_per_match_witness :
  let doc := DocumentContent.mk "Validation_Rules.docx" "Validation_Rules"
               ("Rule: Geolocation must include at least one point." ++ nl
                  ++ "VALIDATION:" ++ nl ++ "  the area Should: be given  " ++ nl)
               docx "Validation Rules"
               (Metadata.mk 90 (ValidDate 0) "documents/Validation_Rules.docx") in
  exists new,
    extractRules doc ProcessedKnowledge.empty
    = Some (ProcessedKnowledge.mk [] [] [] ([] ++ new))
    /\ map RuleInfo.name new
       = [ "Geolocation must include at least one point.";
           "the area Should: be given";
           "include at least one point.";
           "be given" ]
    /\ map RuleInfo.description new = map RuleInfo.name new
    /\ map RuleInfo.category new
       = ["Validation"; "Validation"; "Validation"; "Validation"].
Proof.
  intros doc.
  destruct (proj2 (extractRules_one_rule_per_match doc ProcessedKnowledge.empty)
                  eq_refl)
    as [ms1 [ms2 [ms3 [ms4 [new [_ [_ [_ [_ [_ [Heq _]]]]]]]]]]].
  exists new. split; [exact Heq|].
  vm_compute in Heq. injection Heq as <-. repeat split; reflexivity.
Defined.

(** The rule of the specification, and the one the must pattern adds. *)
Example extractRules_geolocation :
  let doc := DocumentContent.mk "Validation_Rules.docx" "Validation_Rules"
               ("Rule: Geolocation must include at least one point." ++ nl)
               docx "Validation Rules"
               (Metadata.mk 52 (ValidDate 0) "documents/Validation_Rules.docx") in
  option_map (fun kb => map RuleInfo.name (ProcessedKnowledge.rules kb))
             (extractRules doc ProcessedKnowledge.empty)
  = Some [ "Geolocation must include at least one point.";
           "include at least one point." ].
Proof. reflexivity. Qed.

(** A cue in any case of its letters, and nothing but the cue. *)
Example spells_examples :
  spells "rule" "RULE" /\ spells "should" "Should" /\ spells "url" "uRl"
  /\ ~ spells "must" "most" /\ ~ spells "rule" "rules" /\ ~ spells "rule" "ru1e".
Proof.
  repeat split; simpl; auto;
    intros H; decompose [and or] H; try discriminate; try contradiction.
Qed.

(** The tokens of a line: the cue in any case, the separators, and the
    rest of the line with its blanks. *)
Example tokens_of_a_line :
  Tokens (spells "rule") isColonOrSpace notLineFeed
         ("RULE:  keep  " ++ nl ++ "next") 0
         [ mkResult 0 13 (Some "keep  ") ].
Proof.
  apply (cue_tokens "rule"); [reflexivity|].
  apply (execAll_Matches flag_i _ _ 100). reflexivity.
Qed.

(** ** Discovery *)

(** C8.  When the document root does not exist, [getAllFiles] returns the
    empty list and does not throw, and [processAllDocuments] on a new
    processor returns with the empty knowledge base. *)
Theorem missing_root_gives_empty_knowledge (w : World) (root : string) :
  existsSync w root = false ->
  getAllFiles w root = Ok []
  /\ processAllDocuments w (newDocumentProcessor root)
     = Ok (newDocumentProcessor root)
  /\ getKnowledge (newDocumentProcessor root) = ProcessedKnowledge.empty.
Proof.
  intros Hno.
  assert (Hfiles : getAllFiles w root = Ok [])
    by (unfold getAllFiles; now rewrite Hno).
  split; [exact Hfiles|]. split; [|reflexivity].
  unfold processAllDocuments. cbn [documentsPath newDocumentProcessor].
  now rewrite Hfiles.
Qed.

Lemma missing_root_gives_empty_knowledge_witness :
  getAllFiles emptyWorld DOCUMENTS_PATH = Ok []
  /\ processAllDocuments emptyWorld (newDocumentProcessor DOCUMENTS_PATH)
     = Ok (newDocumentProcessor DOCUMENTS_PATH)
  /\ getKnowledge (newDocumentProcessor DOCUMENTS_PATH) = ProcessedKnowledge.empty.
Proof.
  apply (missing_root_gives_empty_knowledge emptyWorld DOCUMENTS_PATH).
  reflexivity.
Defined.

(** ** The knowledge base *)

(** C9.  After [processAllDocuments] returns on a new processor, the
    source of every endpoint, example and rule of the knowledge base is
    the file name of one of its documents; and a further call on the same
    processor keeps it so. *)
Theorem sources_name_documents (w : World) :
  (forall root p',
      processAllDocuments w (newDocumentProcessor root) = Ok p' ->
      referentialIntegrity (getKnowledge p'))
  /\ (forall p p',
         referentialIntegrity (getKnowledge p) ->
         processAllDocuments w p = Ok p' ->
         referentialIntegrity (getKnowledge p')).
Proof.
  assert (Hkeep : forall p p',
             referentialIntegrity (getKnowledge p) ->
             processAllDocuments w p = Ok p' ->
             referentialIntegrity (getKnowledge p')).
  { intros p p' Hp Hrun.
    destruct (processAllDocuments_files w p p' Hrun) as [files Hfiles].
    destruct (processAllDocuments_returns w p files Hfiles) as [delta [_ [Hi Heq]]].
    rewrite Heq in Hrun. injection Hrun as <-.
    now apply referentialIntegrity_append. }
  split; [|exact Hkeep].
  intros root p'. apply Hkeep. apply referentialIntegrity_empty.
Qed.

Lemma sources_name_documents_witness :
  exists p',
    processAllDocuments sampleWorld (newDocumentProcessor DOCUMENTS_PATH) = Ok p'
    /\ ProcessedKnowledge.endpoints (getKnowledge p') <> []
    /\ referentialIntegrity (getKnowledge p').
Proof.
  destruct (processAllDocuments sampleWorld (newDocumentProcessor DOCUMENTS_PATH))
    as [p'| |] eqn:E; try (vm_compute in E; discriminate E).
  exists p'. split; [reflexivity|]. split.
  - vm_compute in E. injection E as <-. discriminate.
  - exact (proj1 (sources_name_documents sampleWorld) DOCUMENTS_PATH p' E).
Defined.

(** C10.  [processAllDocuments] appends to the knowledge base of the
    processor and never resets it: a second call on the same processor
    over the same root returns, and its knowledge base holds every
    document, endpoint, example and rule of the first call twice, the
    first call's followed by the same again. *)
Theorem second_run_doubles_knowledge (w : World) (root : string)
        (p1 : DocumentProcessor) :
  processAllDocuments w (newDocumentProcessor root) = Ok p1 ->
  exists p2,
    processAllDocuments w p1 = Ok p2
    /\ ProcessedKnowledge.documents (getKnowledge p2)
       = ProcessedKnowledge.documents (getKnowledge p1)
           ++ ProcessedKnowledge.documents (getKnowledge p1)
    /\ ProcessedKnowledge.endpoints (getKnowledge p2)
       = ProcessedKnowledge.endpoints (getKnowledge p1)
           ++ ProcessedKnowledge.endpoints (getKnowledge p1)
    /\ ProcessedKnowledge.examples (getKnowledge p2)
       = ProcessedKnowledge.examples (getKnowledge p1)
           ++ ProcessedKnowledge.examples (getKnowledge p1)
    /\ ProcessedKnowledge.rules (getKnowledge p2)
       = ProcessedKnowledge.rules (getKnowledge p1)
           ++ ProcessedKnowledge.rules (getKnowledge p1).
Proof.
  intros Hrun.
  destruct (processAllDocuments_files w _ p1 Hrun) as [files Hfiles].
  destruct (forEachFile_delta w files) as [delta [_ [_ Hdelta]]].
  assert (Hp1 : p1 = mkProcessor root delta).
  { unfold processAllDocuments in Hrun. rewrite Hfiles in Hrun. cbn [bind] in Hrun.
    rewrite Hdelta in Hrun. cbn [bind] in Hrun. injection Hrun as <-.
    cbn [knowledge documentsPath newDocumentProcessor].
    now rewrite kbAppend_empty_l. }
  subst p1. exists (mkProcessor root (kbAppend delta delta)). split.
  - unfold processAllDocuments. cbn [documentsPath newDocumentProcessor] in *.
    rewrite Hfiles. cbn [bind knowledge]. now rewrite Hdelta.
  - repeat split.
Qed.

Lemma second_run_doubles_knowledge_witness :
  exists p1 p2,
    processAllDocuments sampleWorld (newDocumentProcessor DOCUMENTS_PATH) = Ok p1
    /\ processAllDocuments sampleWorld p1 = Ok p2
    /\ List.length (ProcessedKnowledge.documents (getKnowledge p1)) = 3
    /\ ProcessedKnowledge.documents (getKnowledge p2)
       = ProcessedKnowledge.documents (getKnowledge p1)
           ++ ProcessedKnowledge.documents (getKnowledge p1).
Proof.
  destruct (processAllDocuments sampleWorld (newDocumentProcessor DOCUMENTS_PATH))
    as [p1| |] eqn:E; try (vm_compute in E; discriminate E).
  destruct (second_run_doubles_knowledge sampleWorld DOCUMENTS_PATH p1 E)
    as [p2 [H2 [Hd _]]].
  exists p1, p2. split; [reflexivity|]. split; [exact H2|]. split; [|exact Hd].
  vm_compute in E. injection E as <-. reflexivity.
Defined.

(* ================================================================== *)
(** * Facts about paths *)
(* ================================================================== *)

Section PathFacts.

Local Open Scope string_scope.

Lemma isSlash_eqb (c : ascii) : Ascii.eqb "/" c = Path.isSlash c.
Proof. destruct c as [[|] [|] [|] [|] [|] [|] [|] [|]]; reflexivity. Qed.

Lemma includes_slash_cons (c : ascii) (s : string) :
  includes (String c s) "/" = Path.isSlash c || includes s "/".
Proof.
  cbn [includes startsWith]. rewrite isSlash_eqb.
  now destruct s; rewrite andb_true_r.
Qed.

Lemma includes_slash_append (a b : string) :
  includes (a ++ b) "/" = includes a "/" || includes b "/".
Proof.
  induction a as [|c a IH].
  - reflexivity.
  - change (String c a ++ b) with (String c (a ++ b)).
    rewrite !includes_slash_cons, IH. now rewrite orb_assoc.
Qed.

Lemma split_nonempty (sep : ascii) (s : string) : split sep s <> [].
Proof.
  induction s as [|c s IH]; simpl; [discriminate|].
  destruct (Ascii.eqb c sep); [discriminate|].
  now destruct (split sep s).
Qed.

Lemma split_append (sep : ascii) (a b : string) :
  split sep (a ++ String sep b) = (split sep a ++ split sep b)%list.
Proof.
  induction a as [|c a IH].
  - simpl. now rewrite Ascii.eqb_refl.
  - change (String c a ++ String sep b) with (String c (a ++ String sep b)).
    cbn [split]. rewrite IH.
    destruct (Ascii.eqb c sep); [reflexivity|].
    pose proof (split_nonempty sep a) as Hne.
    now destruct (split sep a).
Qed.

Lemma split_slashfree (s : string) :
  includes s "/" = false -> split "/" s = [s].
Proof.
  induction s as [|c s IH]; [reflexivity|].
  rewrite includes_slash_cons. intros H.
  apply orb_false_iff in H as [Hc Hs].
  cbn [split]. rewrite (IH Hs).
  replace (Ascii.eqb c "/") with (Path.isSlash c); [now rewrite Hc|].
  rewrite <- isSlash_eqb. apply Ascii.eqb_sym.
Qed.

Lemma join_snoc (sep x : string) : forall l,
  l <> [] -> join sep (l ++ [x])%list = join sep l ++ sep ++ x.
Proof.
  induction l as [|a l IH]; [congruence|]. intros _.
  destruct l as [|b l].
  - reflexivity.
  - change (join sep ((a :: b :: l) ++ [x])%list)
      with (a ++ sep ++ join sep ((b :: l) ++ [x])%list).
    rewrite IH by discriminate.
    change (join sep (a :: b :: l)) with (a ++ sep ++ join sep (b :: l)).
    now rewrite !append_assoc.
Qed.

(** A segment that is a name stays last through normalization. *)
Lemma normalizeSegments_snoc (allow : bool) (item : string) :
  properName item = true ->
  forall segs res,
    exists res',
      Path.normalizeSegments allow (segs ++ [item])%list res = (rev res' ++ [item])%list.
Proof.
  intros Hp. unfold properName in Hp.
  apply andb_true_iff in Hp as [Hp Hdd].
  apply andb_true_iff in Hp as [Hp Hd].
  apply andb_true_iff in Hp as [He _].
  apply negb_true_iff in He, Hd, Hdd.
  induction segs as [|seg segs IH]; intros res.
  - exists res. simpl. now rewrite He, Hd, Hdd.
  - change ((seg :: segs) ++ [item])%list with (seg :: (segs ++ [item]))%list.
    cbn [Path.normalizeSegments].
    destruct (String.eqb seg "" || String.eqb seg "."); [apply IH|].
    destruct (String.eqb seg ".."); [|apply IH].
    destruct res as [|top res]; [apply IH|].
    destruct (String.eqb top ".."); apply IH.
Qed.

Lemma stripTrailingSlashes_name (item : string) :
  item <> "" -> includes item "/" = false ->
  forall pre, Path.stripTrailingSlashes (pre ++ item) = pre ++ item.
Proof.
  intros Hne Hs.
  assert (Hitem : Path.stripTrailingSlashes item = item).
  { clear Hne. induction item as [|c s IH]; [reflexivity|].
    rewrite includes_slash_cons in Hs. apply orb_false_iff in Hs as [Hc Hs'].
    cbn [Path.stripTrailingSlashes]. rewrite (IH Hs').
    destruct s; [now rewrite Hc|reflexivity]. }
  induction pre as [|c pre IH]; [exact Hitem|].
  change (String c pre ++ item) with (String c (pre ++ item)).
  cbn [Path.stripTrailingSlashes]. rewrite IH.
  destruct (pre ++ item) eqn:E; [|reflexivity].
  destruct pre; simpl in E; [congruence|discriminate].
Qed.

Lemma afterLastSlash_name (item : string) :
  includes item "/" = false -> Path.afterLastSlash item = item.
Proof.
  destruct item as [|c s]; [reflexivity|].
  rewrite includes_slash_cons. intros H.
  apply orb_false_iff in H as [Hc Hs].
  cbn [Path.afterLastSlash]. now rewrite Hs, Hc.
Qed.

Lemma afterLastSlash_under (item : string) :
  includes item "/" = false ->
  forall pre, Path.afterLastSlash (pre ++ "/" ++ item) = item.
Proof.
  intros Hs. induction pre as [|c pre IH].
  - change ("" ++ "/" ++ item) with (String "/" item).
    cbn [Path.afterLastSlash]. now rewrite Hs.
  - change (String c pre ++ "/" ++ item) with (String c (pre ++ "/" ++ item)).
    cbn [Path.afterLastSlash].
    rewrite includes_slash_append.
    change (includes ("/" ++ item) "/") with true.
    now rewrite orb_true_r.
Qed.

Lemma endsWithSlash_name (item : string) :
  item <> "" -> includes item "/" = false ->
  forall pre, Path.endsWithSlash (pre ++ item) = false.
Proof.
  intros Hne Hs.
  assert (Hitem : Path.endsWithSlash item = false).
  { clear Hne. induction item as [|c s IH]; [reflexivity|].
    rewrite includes_slash_cons in Hs. apply orb_false_iff in Hs as [Hc Hs'].
    cbn [Path.endsWithSlash]. destruct s; [exact Hc|now apply IH]. }
  induction pre as [|c pre IH]; [exact Hitem|].
  change (String c pre ++ item) with (String c (pre ++ item)).
  cbn [Path.endsWithSlash].
  destruct (pre ++ item) eqn:E; [|exact IH].
  destruct pre; simpl in E; [congruence|discriminate].
Qed.

Lemma properName_parts (item : string) :
  properName item = true -> item <> "" /\ includes item "/" = false.
Proof.
  unfold properName. intros Hp.
  apply andb_true_iff in Hp as [Hp _].
  apply andb_true_iff in Hp as [Hp _].
  apply andb_true_iff in Hp as [He Hs].
  apply negb_true_iff in He, Hs. split; [|exact Hs].
  intros ->. discriminate.
Qed.

Lemma basename_name (item : string) :
  properName item = true -> Path.basename item = item.
Proof.
  intros Hp. destruct (properName_parts item Hp) as [Hne Hs].
  unfold Path.basename.
  pose proof (stripTrailingSlashes_name item Hne Hs "") as H. simpl in H.
  rewrite H. now apply afterLastSlash_name.
Qed.

(** Normalizing a path that ends in a name keeps the name last. *)
Lemma normalize_name (item : string) :
  properName item = true ->
  forall pre, pre = "" \/ (exists d, pre = d ++ "/") ->
    Path.normalize (pre ++ item) = item
    \/ exists z, Path.normalize (pre ++ item) = z ++ "/" ++ item.
Proof.
  intros Hp pre Hpre. destruct (properName_parts item Hp) as [Hne Hs].
  assert (Hsplit : exists segs, split "/"%char (pre ++ item) = (segs ++ [item])%list).
  { destruct Hpre as [-> | [d ->]].
    - exists []. simpl. now apply split_slashfree.
    - exists (split "/"%char d). rewrite append_assoc.
      change ("/" ++ item) with (String "/" item).
      now rewrite split_append, (split_slashfree item Hs). }
  destruct Hsplit as [segs Hsplit].
  unfold Path.normalize.
  destruct (pre ++ item) as [|c p] eqn:E.
  { destruct pre; simpl in E; [congruence|discriminate]. }
  pose proof (endsWithSlash_name item Hne Hs pre) as Hends. rewrite E in Hends.
  cbv zeta. rewrite Hsplit, Hends.
  destruct (normalizeSegments_snoc (negb (Path.isSlash c)) item Hp segs []) as [res' ->].
  destruct (rev res') as [|a l] eqn:Er.
  - change (join "/" ([] ++ [item])%list) with item.
    destruct item as [|i0 item']; [congruence|].
    destruct (Path.isSlash c).
    + right. exists "". now rewrite append_nil_r.
    + left. now rewrite append_nil_r.
  - rewrite join_snoc by discriminate.
    destruct (join "/" (a :: l) ++ "/" ++ item) eqn:Eb.
    { destruct (join "/" (a :: l)); discriminate. }
    rewrite <- Eb. right.
    exists ((if Path.isSlash c then "/" else "") ++ join "/" (a :: l)).
    now rewrite append_nil_r, !append_assoc.
Qed.

Lemma basename_join (dirPath item : string) :
  properName item = true -> Path.basename (Path.join dirPath item) = item.
Proof.
  intros Hp. destruct (properName_parts item Hp) as [Hne Hs].
  assert (H : Path.join dirPath item = item
              \/ exists z, Path.join dirPath item = z ++ "/" ++ item).
  { unfold Path.join. destruct dirPath as [|c d].
    - destruct item as [|i0 item']; [congruence|].
      apply (normalize_name _ Hp ""). now left.
    - destruct item as [|i0 item']; [congruence|].
      rewrite <- append_assoc.
      apply (normalize_name _ Hp). right. now exists (String c d). }
  unfold Path.basename. destruct H as [-> | [z ->]].
  - pose proof (stripTrailingSlashes_name item Hne Hs "") as H. simpl in H.
    rewrite H. now apply afterLastSlash_name.
  - rewrite <- append_assoc, (stripTrailingSlashes_name item Hne Hs (z ++ "/")).
    rewrite append_assoc. now apply afterLastSlash_under.
Qed.

Lemma extname_join (dirPath item : string) :
  properName item = true ->
  Path.extname (Path.join dirPath item) = Path.extname item.
Proof.
  intros Hp. unfold Path.extname.
  now rewrite (basename_join dirPath item Hp), (basename_name item Hp).
Qed.

End PathFacts.

(* ================================================================== *)
(** * Discovery *)
(* ================================================================== *)

Lemma formatOf_supported (filePath : string) :
  isSupportedFile filePath = true <-> formatOf filePath <> None.
Proof.
  unfold isSupportedFile, formatOf. cbn [existsb].
  destruct (String.eqb (toLowerCase (Path.extname filePath)) ".docx");
    destruct (String.eqb (toLowerCase (Path.extname filePath)) ".xml");
    destruct (String.eqb (toLowerCase (Path.extname filePath)) ".pdf");
    simpl; split; congruence.
Qed.

Lemma formatOf_join (dirPath item : string) :
  properName item = true ->
  formatOf (Path.join dirPath item) = formatOf item.
Proof. intros Hp. unfold formatOf. now rewrite (extname_join dirPath item Hp). Qed.

(** Discovery below a directory: it throws when an entry below cannot be
    reached, and lists files otherwise. *)
Lemma getAllFilesAt_outcome : forall node items dirPath,
  node = FsDir items ->
  if broken node then getAllFilesAt dirPath node = Throws
  else exists files, getAllFilesAt dirPath node = Ok files.
Proof.
  induction node as [| | |items0 IH] using FsNode_ind'; intros items dirPath E;
    try discriminate.
  clear E items. cbn [getAllFilesAt broken].
  generalize (@nil string) at 2 4 as acc.
  induction IH as [|[item child] items' Hchild _ IHitems]; intros acc.
  - simpl. now exists acc.
  - cbn [existsb snd]. destruct child as [|sub| |].
    + cbn [broken orb]. destruct (isSupportedFile item); apply IHitems.
    + specialize (Hchild sub (Path.join dirPath item) eq_refl). cbn [snd] in Hchild.
      destruct (broken (FsDir sub)).
      * rewrite Hchild. reflexivity.
      * destruct Hchild as [files ->]. cbn [orb bind]. apply IHitems.
    + reflexivity.
    + reflexivity.
Qed.

(** The files of a tree of names all have a supported format. *)
Lemma getAllFilesAt_supported : forall node items dirPath files,
  node = FsDir items ->
  properTree node = true ->
  getAllFilesAt dirPath node = Ok files ->
  Forall (fun f => formatOf f <> None) files.
Proof.
  induction node as [| | |items0 IH] using FsNode_ind'; intros items dirPath files E;
    try discriminate.
  clear E items. cbn [getAllFilesAt properTree].
  assert (Hacc : Forall (fun f => formatOf f <> None) (@nil string)) by constructor.
  revert Hacc. generalize (@nil string) at 1 3 as acc. revert files.
  induction IH as [|[item child] items' Hchild _ IHitems]; intros files acc Hacc Hp Hrun.
  - injection Hrun as <-. exact Hacc.
  - cbn [forallb fst snd] in Hp.
    apply andb_true_iff in Hp as [Hp Hrest].
    apply andb_true_iff in Hp as [Hname Hsub].
    destruct child as [|sub| |].
    + destruct (isSupportedFile item) eqn:Hs.
      * apply (IHitems files (acc ++ [Path.join dirPath item]) ); [|exact Hrest|exact Hrun].
        apply Forall_app. split; [exact Hacc|]. constructor; [|constructor].
        rewrite (formatOf_join dirPath item Hname).
        now apply formatOf_supported.
      * now apply (IHitems files acc).
    + destruct (getAllFilesAt (Path.join dirPath item) (FsDir sub)) as [found| |] eqn:Ef;
        try discriminate.
      cbn [bind] in Hrun.
      apply (IHitems files (acc ++ found)); [|exact Hrest|exact Hrun].
      apply Forall_app. split; [exact Hacc|].
      now apply (Hchild sub (Path.join dirPath item) found eq_refl Hsub).
    + discriminate.
    + discriminate.
Qed.

Lemma getAllFiles_ends (w : World) (root : string) : getAllFiles w root <> Diverges.
Proof.
  unfold getAllFiles, existsSync.
  destruct (lookup w root) as [[|items| |]|]; cbn [negb]; try discriminate.
  pose proof (getAllFilesAt_outcome (FsDir items) items root eq_refl) as H.
  destruct (broken (FsDir items)).
  - rewrite H. discriminate.
  - destruct H as [files ->]. discriminate.
Qed.

Lemma getAllFiles_throws (w : World) (root : string) :
  getAllFiles w root = Throws
  <-> lookup w root = Some FsFile
      \/ lookup w root = Some FsUnreadable
      \/ exists items, lookup w root = Some (FsDir items) /\ broken (FsDir items) = true.
Proof.
  unfold getAllFiles, existsSync.
  destruct (lookup w root) as [[|items| |]|]; cbn [negb].
  - split; [now left|reflexivity].
  - pose proof (getAllFilesAt_outcome (FsDir items) items root eq_refl) as H.
    destruct (broken (FsDir items)) eqn:Eb.
    + split; [|intros _; exact H]. intros _. right. right. exists items. now split.
    + destruct H as [files ->]. split; [discriminate|].
      intros [H | [H | [items' [H Hb]]]]; try discriminate.
      injection H as <-. congruence.
  - split; [now right; left|reflexivity].
  - split; [discriminate|]. intros [H | [H | [items [H _]]]]; discriminate.
  - split; [discriminate|]. intros [H | [H | [items [H _]]]]; discriminate.
Qed.

Lemma getAllFiles_supported (w : World) (root : string) (node : FsNode)
      (files : list string) :
  lookup w root = Some node -> properTree node = true ->
  getAllFiles w root = Ok files ->
  Forall (fun f => formatOf f <> None) files.
Proof.
  unfold getAllFiles, existsSync. intros -> Hp.
  destruct node as [|items| |]; cbn [negb]; try discriminate.
  - intros H. now apply (getAllFilesAt_supported (FsDir items) items root files eq_refl Hp).
  - intros H. injection H as <-. constructor.
Qed.

(** * One document per file *)

Lemma processDocument_outcome (w : World) (filePath : string) :
  match statSync w filePath, formatOf filePath with
  | None, _ => processDocument w filePath = Throws
  | Some _, None => processDocument w filePath = Ok None
  | Some _, Some t =>
      exists d, processDocument w filePath = Ok (Some d)
                /\ DocumentContent.type d = t
                /\ DocumentContent.filename d = Path.basename filePath
                /\ DocumentContent.category d = categorizeDocument (Path.basename filePath)
                /\ Metadata.path (DocumentContent.metadata d) = filePath
  end.
Proof.
  unfold processDocument, formatOf.
  destruct (statSync w filePath) as [stat|]; [|reflexivity].
  destruct (String.eqb (toLowerCase (Path.extname filePath)) ".docx");
    [eexists; repeat split|].
  destruct (String.eqb (toLowerCase (Path.extname filePath)) ".xml");
    [eexists; repeat split|].
  destruct (String.eqb (toLowerCase (Path.extname filePath)) ".pdf");
    [eexists; repeat split|reflexivity].
Qed.

Lemma pathsOf_documentsOf (w : World) : forall files,
  pathsOf (documentsOf w files)
  = filter (fun f => statable w f
                     && match formatOf f with Some _ => true | None => false end)
           files.
Proof.
  induction files as [|f files IH]; [reflexivity|].
  unfold documentsOf, pathsOf in *. cbn [flat_map filter].
  rewrite map_app, IH. unfold documentOf, statable.
  pose proof (processDocument_outcome w f) as H.
  destruct (statSync w f) as [stat|].
  - destruct (formatOf f) as [t|].
    + destruct H as [d [-> [_ [_ [_ Hpath]]]]]. simpl. now rewrite Hpath.
    + now rewrite H.
  - now rewrite H.
Qed.

Lemma filter_ext_Forall (A : Type) (p q : A -> bool) (l : list A) :
  Forall (fun x => p x = q x) l -> filter p l = filter q l.
Proof.
  induction 1 as [|x l Hx _ IH]; [reflexivity|]. simpl. now rewrite Hx, IH.
Qed.

(* ================================================================== *)
(** * The records of a run *)
(* ================================================================== *)

Section TrimFacts.

Local Open Scope string_scope.

Lemma trimStart_head (s : string) (c : ascii) (t : string) :
  trimStart s = String c t -> isSpace c = false.
Proof.
  induction s as [|d s IH]; simpl; [discriminate|].
  destruct (isSpace d) eqn:E; [exact IH|]. intros [= <- _]. exact E.
Qed.

Lemma trimEnd_cons (c : ascii) (s : string) :
  trimEnd (String c s)
  = match trimEnd s with
    | "" => if isSpace c then "" else String c ""
    | t => String c t
    end.
Proof. reflexivity. Qed.

Lemma trimEnd_idem (s : string) : trimEnd (trimEnd s) = trimEnd s.
Proof.
  induction s as [|c s IH]; [reflexivity|].
  rewrite trimEnd_cons. destruct (trimEnd s) as [|d t] eqn:E.
  - destruct (isSpace c) eqn:Ec; [reflexivity|]. simpl. now rewrite Ec.
  - rewrite trimEnd_cons. now rewrite IH.
Qed.

Lemma trimEnd_head (c : ascii) (t : string) :
  isSpace c = false -> exists t', trimEnd (String c t) = String c t'.
Proof.
  intros Hc. rewrite trimEnd_cons. destruct (trimEnd t) as [|d t'].
  - rewrite Hc. now exists "".
  - now exists (String d t').
Qed.

Lemma trim_idem (s : string) : trim (trim s) = trim s.
Proof.
  unfold trim. destruct (trimStart s) as [|c t] eqn:E; [reflexivity|].
  pose proof (trimStart_head s c t E) as Hc.
  destruct (trimEnd_head c t Hc) as [t' Ht]. rewrite Ht.
  cbn [trimStart]. rewrite Hc, <- Ht. apply trimEnd_idem.
Qed.

Lemma trimStart_every (p : ascii -> bool) (s : string) :
  every p s = true -> every p (trimStart s) = true.
Proof.
  induction s as [|c s IH]; [reflexivity|]. intros H. cbn [trimStart].
  destruct (isSpace c); [|exact H].
  simpl in H. apply andb_true_iff in H as [_ H]. now apply IH.
Qed.

Lemma trimEnd_every (p : ascii -> bool) (s : string) :
  every p s = true -> every p (trimEnd s) = true.
Proof.
  induction s as [|c s IH]; [reflexivity|]. intros H.
  simpl in H. apply andb_true_iff in H as [Hc H]. specialize (IH H).
  rewrite trimEnd_cons. destruct (trimEnd s) as [|d t].
  - destruct (isSpace c); [reflexivity|]. simpl. now rewrite Hc.
  - change (every p (String c (String d t))) with (p c && every p (String d t)).
    now rewrite Hc, IH.
Qed.

Lemma trim_every (p : ascii -> bool) (s : string) :
  every p s = true -> every p (trim s) = true.
Proof. intros H. unfold trim. now apply trimEnd_every, trimStart_every. Qed.

Lemma slash_decompose (s : string) :
  includes s "/" = true ->
  exists pre seg, s = pre ++ "/" ++ seg /\ includes seg "/" = false.
Proof.
  induction s as [|c s IH]; [discriminate|].
  rewrite includes_slash_cons. intros H.
  destruct (includes s "/") eqn:Es.
  - destruct (IH eq_refl) as [pre [seg [-> Hseg]]].
    now exists (String c pre), seg.
  - rewrite orb_false_r in H. rewrite <- isSlash_eqb in H.
    apply Ascii.eqb_eq in H. subst c. now exists "", s.
Qed.

Lemma extractOperationName_segment (pre seg category : string) :
  includes seg "/" = false ->
  extractOperationName (pre ++ "/" ++ seg) category = category ++ " - " ++ seg.
Proof.
  intros Hseg. unfold extractOperationName.
  change ("/" ++ seg) with (String "/" seg).
  now rewrite split_append, (split_slashfree seg Hseg), last_last.
Qed.

End TrimFacts.

Lemma run_cap (fl : flags) : forall r st st',
  groupFree r = true -> In st' (run fl r st) -> cap st' = cap st.
Proof.
  induction r as [|a|r1 IH1 r2 IH2|r1 IH1 r2 IH2|r IH|min a| |];
    intros st st' Hg H; cbn [run groupFree] in *.
  - destruct H as [<- | []]. reflexivity.
  - destruct (rest st) as [|c s]; [contradiction|].
    destruct (atomMatches fl a c); [|contradiction].
    destruct H as [<- | []]. reflexivity.
  - apply andb_true_iff in Hg as [Hg1 Hg2].
    apply in_flat_map in H as [mid [H1 H2]].
    rewrite (IH2 mid st' Hg2 H2). now apply IH1.
  - apply andb_true_iff in Hg as [Hg1 Hg2].
    apply in_app_or in H as [H | H]; [now apply IH1 | now apply IH2].
  - discriminate.
  - apply rep_shape in H. destruct H as [n [_ [_ [_ [_ [_ H]]]]]]. exact H.
  - destruct (atLineStart fl st); [|contradiction]. destruct H as [<- | []]. reflexivity.
  - destruct (atLineEnd fl st); [|contradiction]. destruct H as [<- | []]. reflexivity.
Qed.

Lemma lit_groupFree : forall s, groupFree (lit s) = true.
Proof.
  induction s as [|c s IH]; [reflexivity|].
  destruct s as [|d s]; [reflexivity|].
  change (lit (String c (String d s))) with (Seq (Atom (Chr c)) (lit (String d s))).
  cbn [groupFree]. exact IH.
Qed.

Lemma verbs_consumes_i :
  consumes flag_i verbs (fun kw => exists v, isVerb v /\ sameIgnoringCase kw v).
Proof.
  unfold verbs, isVerb.
  repeat apply consumes_alt;
    (eapply consumes_weaken; [|apply cue_consumes]);
    intros kw H; cbv beta in H; eexists; (split; [|exact H]); auto.
Qed.

(** The method of an endpoint is one of the four verbs, in capitals. *)
Lemma extractMethod_verb (content endpoint : string) :
  isVerb (extractMethod content endpoint).
Proof.
  unfold extractMethod.
  destruct (matchFirst flag_i
              (Seq (Group verbs) (Seq (Rep 1 space) (lit endpoint))) content)
    as [m|] eqn:E; [|now left].
  unfold matchFirst in E. apply (exec_run flag_i) in E.
  destruct E as [pv [st' [l [Hrun [_ Hcap]]]]].
  cbn [run] in Hrun.
  apply flat_map_head in Hrun. destruct Hrun as [a [t1 [Ha Hrun]]].
  apply in_map_iff in Ha. destruct Ha as [s1 [<- Hs1]].
  apply flat_map_head in Hrun. destruct Hrun as [b [t2 [Hb Hrun]]].
  apply rep_shape in Hb. destruct Hb as [n2 [_ [_ [_ [_ [_ Hcb]]]]]].
  assert (Hst' : In st' (run flag_i (lit endpoint) b)) by (rewrite Hrun; now left).
  apply (run_cap flag_i _ _ _ (lit_groupFree endpoint)) in Hst'.
  apply verbs_consumes_i in Hs1. destruct Hs1 as [n [I1 [_ [_ [v [Hv Hsame]]]]]].
  cbn [idx rest cap] in *.
  unfold captured. rewrite Hcap, Hst', Hcb.
  replace (idx s1 - index m) with n by lia.
  unfold sameIgnoringCase in Hsame. rewrite Hsame.
  destruct Hv as [-> | [-> | [-> | ->]]]; unfold isVerb; auto.
Qed.

Lemma processed_category (w : World) (d : Doc) :
  processed w d ->
  DocumentContent.category d = categorizeDocument (DocumentContent.filename d).
Proof.
  intros [f Hf]. pose proof (processDocument_outcome w f) as H.
  destruct (statSync w f); [|congruence].
  destruct (formatOf f); [|congruence].
  destruct H as [d' [H [_ [Hn [Hc _]]]]].
  assert (d' = d) by congruence. subst d'. now rewrite Hc, Hn.
Qed.

Lemma TokenMatch_captured (K : string -> Prop) (p q : ascii -> bool)
      (s : string) (m : result) :
  TokenMatch K p q s m -> every q (captured m) = true.
Proof.
  intros [kw [sep [tok [_ [_ [_ [_ [_ [_ [H [_ Hg]]]]]]]]]]].
  unfold captured. now rewrite Hg.
Qed.

Lemma endpointFor_shape (doc : Doc) (token : string) :
  DocumentContent.category doc = categorizeDocument (DocumentContent.filename doc) ->
  every notSpaceChar token = true ->
  includes token "/" = true ->
  endpointShape (endpointFor doc token).
Proof.
  intros Hcat Hns Hsl. unfold endpointShape, endpointFor.
  cbn [EndpointInfo.method EndpointInfo.url EndpointInfo.category
       EndpointInfo.source EndpointInfo.name].
  split; [apply extractMethod_verb|]. split; [exact Hns|]. split; [exact Hcat|].
  destruct (slash_decompose token Hsl) as [pre [seg [-> Hseg]]].
  exists pre, seg. split; [reflexivity|]. split; [exact Hseg|].
  now apply extractOperationName_segment.
Qed.

Lemma ruleFor_shape (doc : Doc) (m : result) :
  DocumentContent.category doc = categorizeDocument (DocumentContent.filename doc) ->
  DocumentContent.category doc = "Validation Rules" ->
  every notLineFeed (captured m) = true ->
  ruleShape (ruleFor doc m).
Proof.
  intros Hcat Hval Hnl. unfold ruleShape, ruleFor.
  cbn [RuleInfo.name RuleInfo.description RuleInfo.category RuleInfo.source].
  split; [reflexivity|]. split; [apply trim_idem|].
  split; [now apply trim_every|]. split; [reflexivity|]. congruence.
Qed.

Lemma extractExamples_shape (doc : Doc) :
  Forall exampleShape
         (ProcessedKnowledge.examples (extractExamples doc ProcessedKnowledge.empty)).
Proof.
  unfold extractExamples.
  destruct (DocumentContent.type doc); try constructor.
  destruct (includes (toLowerCase (DocumentContent.filename doc)) "request") eqn:Hq;
    destruct (includes (toLowerCase (DocumentContent.filename doc)) "response") eqn:Hp;
    cbn [orb pushExample ProcessedKnowledge.examples ProcessedKnowledge.empty app];
    constructor; try constructor; unfold exampleShape;
    cbn [ExampleInfo.source ExampleInfo.type ExampleInfo.operation];
    rewrite Hq, ?Hp; auto.
Qed.

Lemma Forall_slashTokens (P : string -> Prop) (ms : list result) :
  Forall (fun m => P (captured m)) ms ->
  Forall (fun token => P token /\ includes token "/" = true) (slashTokens ms).
Proof.
  intros H. unfold slashTokens. apply Forall_forall. intros token Hin.
  apply filter_In in Hin. destruct Hin as [Hin Hsl].
  apply in_map_iff in Hin. destruct Hin as [m [<- Hm]].
  rewrite Forall_forall in H. split; [now apply H | exact Hsl].
Qed.

(** Structured extraction keeps the shape of the records. *)
Lemma extractStructuredInfo_shaped (doc : Doc) (kb kb' : KB) :
  DocumentContent.category doc = categorizeDocument (DocumentContent.filename doc) ->
  extractStructuredInfo doc kb = Some kb' ->
  shaped kb -> shaped kb'.
Proof.
  intros Hcat Hrun [HE [HX HR]]. unfold extractStructuredInfo in Hrun.
  destruct (extractEndpoints_matches doc kb) as [m1 [m2 [m3 [H1 [H2 [H3 Heq]]]]]].
  rewrite Heq in Hrun. clear Heq.
  rewrite extractExamples_append in Hrun.
  cbn [ProcessedKnowledge.documents ProcessedKnowledge.endpoints
       ProcessedKnowledge.examples ProcessedKnowledge.rules] in Hrun.
  assert (HE' : Forall endpointShape
                  (ProcessedKnowledge.endpoints kb
                     ++ map (endpointFor doc) (slashTokens (m1 ++ m2 ++ m3)))).
  { apply Forall_app. split; [exact HE|].
    apply Forall_forall. intros e He. apply in_map_iff in He.
    destruct He as [token [<- Hin]].
    assert (Hall : Forall (fun m => every notSpaceChar (captured m) = true)
                          (m1 ++ m2 ++ m3)).
    { apply verbToken_matches in H1.
      apply (keywordToken_matches "endpoint") in H2.
      apply (keywordToken_matches "url") in H3.
      repeat (apply Forall_app; split);
        (eapply Forall_impl; [|eassumption]); intros m Hm;
        exact (TokenMatch_captured _ _ _ _ _ Hm). }
    apply (Forall_slashTokens (fun t => every notSpaceChar t = true)) in Hall.
    rewrite Forall_forall in Hall.
    destruct (Hall token Hin) as [Hns Hsl]. now apply endpointFor_shape. }
  assert (HX' : Forall exampleShape
                  (ProcessedKnowledge.examples kb
                     ++ ProcessedKnowledge.examples
                          (extractExamples doc ProcessedKnowledge.empty))).
  { apply Forall_app. split; [exact HX | apply extractExamples_shape]. }
  destruct (String.eqb_spec (DocumentContent.category doc) "Validation Rules") as [Hv|Hv].
  - match type of Hrun with extractRules doc ?k = _ =>
      destruct (extractRules_matches doc k Hv)
        as [r1 [r2 [r3 [r4 [Hr1 [Hr2 [Hr3 [Hr4 Heq]]]]]]]] end.
    rewrite Heq in Hrun. injection Hrun as <-.
    cbn [ProcessedKnowledge.documents ProcessedKnowledge.endpoints
         ProcessedKnowledge.examples ProcessedKnowledge.rules].
    split; [exact HE'|]. split; [exact HX'|].
    cbn [ProcessedKnowledge.rules].
    apply Forall_app. split; [exact HR|].
    apply Forall_forall. intros r Hr. apply in_map_iff in Hr.
    destruct Hr as [m [<- Hin]].
    apply ruleFor_shape; [exact Hcat | exact Hv |].
    apply cue_matches in Hr1, Hr2, Hr3, Hr4.
    assert (Hall : Forall (fun m => every notLineFeed (captured m) = true)
                          (r1 ++ r2 ++ r3 ++ r4)).
    { repeat (apply Forall_app; split);
        (eapply Forall_impl; [|eassumption]); intros m' Hm;
        exact (TokenMatch_captured _ _ _ _ _ Hm). }
    rewrite Forall_forall in Hall. now apply Hall.
  - unfold extractRules in Hrun.
    cbn [DocumentContent.category] in Hrun.
    destruct (String.eqb_spec (DocumentContent.category doc) "Validation Rules");
      [contradiction|].
    injection Hrun as <-. now repeat split.
Qed.

Lemma absorb_shaped : forall docs kb kb',
  Forall (fun d => DocumentContent.category d
                   = categorizeDocument (DocumentContent.filename d)) docs ->
  absorb docs kb = Some kb' -> shaped kb -> shaped kb'.
Proof.
  induction docs as [|doc docs IH]; intros kb kb' Hdocs Hrun Hkb.
  - injection Hrun as <-. exact Hkb.
  - inversion Hdocs as [|? ? Hdoc Hrest]; subst. cbn [absorb] in Hrun.
    destruct (extractStructuredInfo doc (pushDocument doc kb)) as [kb1|] eqn:E;
      [|discriminate].
    apply (IH kb1 kb' Hrest Hrun).
    apply (extractStructuredInfo_shaped doc (pushDocument doc kb) kb1 Hdoc E).
    exact Hkb.
Qed.

Lemma documentsOf_processed (w : World) (files : list string) :
  Forall (processed w) (documentsOf w files).
Proof.
  apply Forall_forall. intros d Hd. unfold documentsOf in Hd.
  apply in_flat_map in Hd. destruct Hd as [f [_ Hd]].
  unfold documentOf in Hd. exists f.
  destruct (processDocument w f) as [[d'|]| |]; try contradiction.
  destruct Hd as [<- | []]. reflexivity.
Qed.

(** A run keeps the shape of the records. *)
Lemma processAllDocuments_shaped (w : World) (p p' : DocumentProcessor) :
  processAllDocuments w p = Ok p' ->
  shaped (getKnowledge p) -> shaped (getKnowledge p').
Proof.
  intros Hrun Hkb. unfold processAllDocuments in Hrun.
  destruct (getAllFiles w (documentsPath p)) as [files| |]; try discriminate.
  cbn [bind] in Hrun. rewrite forEachFile_absorb in Hrun.
  destruct (absorb (documentsOf w files) (knowledge p)) as [kb'|] eqn:E;
    [|discriminate].
  cbn [bind] in Hrun. injection Hrun as <-.
  unfold getKnowledge in *. cbn [knowledge].
  apply (absorb_shaped (documentsOf w files) (knowledge p) kb'); [|exact E|exact Hkb].
  eapply Forall_impl; [|apply documentsOf_processed].
  intros d. apply processed_category.
Qed.

Lemma shaped_empty : shaped ProcessedKnowledge.empty.
Proof. repeat split; constructor. Qed.

(* ================================================================== *)
(** * Facts about the front ends *)
(* ================================================================== *)

Section FrontEndFacts.

Import Json JsonNotions WebServer.
Local Open Scope string_scope.

Lemma orEmptyObject_not_null (x : option value) : orEmptyObject x <> Null.
Proof.
  destruct x as [v|]; [|discriminate]. unfold orEmptyObject.
  destruct v; simpl; try discriminate.
  - destruct b; discriminate.
  - destruct (negb (z =? 0)%Z); discriminate.
  - destruct (negb (String.eqb s "")); discriminate.
Qed.

Lemma lookupKey_wellFormed (k : string) (v : value) : forall props,
  forallb (fun kv => wellFormed (snd kv)) props = true ->
  lookupKey k props = Some v -> wellFormed v = true.
Proof.
  induction props as [|[k' v'] props IH]; [discriminate|].
  cbn [forallb snd lookupKey]. intros H.
  apply andb_true_iff in H as [Hv Hrest].
  destruct (String.eqb k k'); [|now apply IH].
  intros [= <-]. exact Hv.
Qed.

Lemma getProp_wellFormed (args : value) (k : string) (v : value) :
  wellFormed args = true -> getProp args k = Some v -> wellFormed v = true.
Proof.
  destruct args; try discriminate. cbn [wellFormed getProp]. intros H.
  apply andb_true_iff in H as [_ H]. now apply lookupKey_wellFormed.
Qed.

Lemma orEmptyObject_wellFormed (x : option value) :
  (forall v, x = Some v -> wellFormed v = true) ->
  wellFormed (orEmptyObject x) = true.
Proof.
  intros H. destruct x as [v|]; [|reflexivity]. unfold orEmptyObject.
  destruct (truthy v); [now apply H | reflexivity].
Qed.

Lemma value_eq_null (v : value) : v = Null \/ v <> Null.
Proof. destruct v; [now left | right; discriminate ..]. Qed.

Lemma destructure_not_null (A : Type) (args : value) (k : outcome A) :
  args <> Null -> destructure args k = k.
Proof. intros H. destruct args; [congruence | reflexivity ..]. Qed.

(** A handler answers whenever its arguments are not [null]. *)

Lemma handleQueryEndpoint_answers (args : value) (kb : KB) :
  args <> Null ->
  exists result, handleQueryEndpoint args kb = Ok result /\ wellFormed result = true.
Proof.
  intros Hargs. unfold handleQueryEndpoint.
  rewrite destructure_not_null by exact Hargs.
  cbv zeta beta.
  match goal with |- context [match ?l with [] => _ | _ :: _ => _ end] =>
    destruct l end; eexists; (split; [reflexivity|]); [reflexivity|].
  cbn [wellFormed]. now apply forallb_map_true.
Qed.

Lemma handleGetExamples_answers (args : value) (kb : KB) :
  args <> Null ->
  exists result, handleGetExamples args kb = Ok result /\ wellFormed result = true.
Proof.
  intros Hargs. unfold handleGetExamples.
  rewrite destructure_not_null by exact Hargs.
  cbv zeta beta.
  match goal with |- context [match ?l with [] => _ | _ :: _ => _ end] =>
    destruct l end; eexists; (split; [reflexivity|]); [reflexivity|].
  cbn [wellFormed]. now apply forallb_map_true.
Qed.

Lemma handleValidateStructure_answers (args : value) (kb : KB) :
  args <> Null ->
  exists result,
    handleValidateStructure args kb = Ok result
    /\ (wellFormed args = true -> wellFormed result = true).
Proof.
  intros Hargs. unfold handleValidateStructure.
  rewrite destructure_not_null by exact Hargs.
  cbv zeta beta.
  destruct (stringArg (getProp args "data")); eexists; (split; [reflexivity|]);
    intros Hwf; [|reflexivity].
  cbn [wellFormed map fst snd forallb distinct existsb]. simpl distinct.
  rewrite forallb_map_true by reflexivity.
  destruct (getProp args "operation") as [v|] eqn:E; [|reflexivity].
  destruct (truthy v); [|reflexivity].
  now rewrite (getProp_wellFormed args "operation" v Hwf E).
Qed.

Lemma handleGetBusinessRules_answers (args : value) (kb : KB) :
  args <> Null ->
  exists result, handleGetBusinessRules args kb = Ok result /\ wellFormed result = true.
Proof.
  intros Hargs. unfold handleGetBusinessRules.
  rewrite destructure_not_null by exact Hargs.
  cbv zeta beta.
  match goal with |- context [match ?l with [] => _ | _ :: _ => _ end] =>
    destruct l end; eexists; (split; [reflexivity|]); [reflexivity|].
  cbn [wellFormed]. now apply forallb_map_true.
Qed.

Lemma handleSearchDocumentation_answers (args : value) (kb : KB) :
  args <> Null ->
  exists result,
    handleSearchDocumentation args kb = Ok result /\ wellFormed result = true.
Proof.
  intros Hargs. unfold handleSearchDocumentation.
  rewrite destructure_not_null by exact Hargs.
  cbv zeta beta.
  destruct (stringArg (getProp args "query")); [|eexists; split; reflexivity].
  match goal with |- context [match ?l with [] => _ | _ :: _ => _ end] =>
    destruct l end; eexists; (split; [reflexivity|]); [reflexivity|].
  cbn [wellFormed]. now apply forallb_map_true.
Qed.

(** The switch answers for the five tools and for no other name. *)
Lemma dispatch_answers (toolName : string) (args : value) (kb : KB) :
  args <> Null ->
  if existsb (String.eqb toolName) toolNames
  then exists result,
         dispatch toolName args kb = Ok (Some result)
         /\ (wellFormed args = true -> wellFormed result = true)
  else dispatch toolName args kb = Ok None.
Proof.
  intros Hargs. unfold dispatch, toolNames. cbn [existsb].
  destruct (String.eqb toolName "query_endpoint").
  { destruct (handleQueryEndpoint_answers args kb Hargs) as [r [-> Hr]].
    exists r. now split. }
  destruct (String.eqb toolName "get_examples").
  { destruct (handleGetExamples_answers args kb Hargs) as [r [-> Hr]].
    exists r. now split. }
  destruct (String.eqb toolName "validate_structure").
  { destruct (handleValidateStructure_answers args kb Hargs) as [r [-> Hr]].
    exists r. now split. }
  destruct (String.eqb toolName "get_business_rules").
  { destruct (handleGetBusinessRules_answers args kb Hargs) as [r [-> Hr]].
    exists r. now split. }
  destruct (String.eqb toolName "search_documentation").
  { destruct (handleSearchDocumentation_answers args kb Hargs) as [r [-> Hr]].
    exists r. now split. }
  reflexivity.
Qed.

Lemma status_sent (method : string) (answer : response) :
  status (sent method answer) = status answer.
Proof. unfold sent. now destruct (String.eqb method "HEAD"). Qed.

Lemma sent_post (answer : response) : sent "POST" answer = answer.
Proof. reflexivity. Qed.

(** What a request for a tool is answered with. *)
Lemma handleRequest_tool (method toolName : string) (now : Z)
      (requestBody : outcome value) (kb : KB) :
  method <> "OPTIONS" ->
  let answer :=
    handleRequest method (Some (Some ("/tools/" ++ toolName))) now requestBody kb in
  if negb (String.eqb method "POST")
  then answer = Some (sent method (sendError "Method not allowed" 405))
  else
    match requestBody with
    | Diverges => answer = None
    | Throws | Ok Null => answer = Some (sendError "Internal server error" 500)
    | Ok body =>
        let args := orEmptyObject (getProp body "arguments") in
        if existsb (String.eqb toolName) toolNames
        then exists result,
               dispatch toolName args kb = Ok (Some result)
               /\ (wellFormed body = true -> wellFormed result = true)
               /\ answer = Some (sendJSON (Obj [("result", result)]) 200)
        else answer = Some (sendError ("Unknown tool: " ++ toolName) 404)
    end.
Proof.
  intros Hm. apply String.eqb_neq in Hm.
  unfold handleRequest. rewrite Hm.
  change (String.eqb ("/tools/" ++ toolName) "/health") with false.
  change (String.eqb ("/tools/" ++ toolName) "/info") with false.
  change (String.eqb ("/tools/" ++ toolName) "/resources") with false.
  change (startsWith ("/tools/" ++ toolName) "/tools/") with true.
  change (drop 7 ("/tools/" ++ toolName)) with toolName.
  cbv zeta beta iota.
  destruct (String.eqb method "POST") eqn:Ep; cbn [negb]; [|reflexivity].
  apply String.eqb_eq in Ep. subst method.
  destruct requestBody as [body| |]; [|reflexivity|reflexivity].
  destruct (value_eq_null body) as [-> | Hbody]; [reflexivity|].
  rewrite destructure_not_null by exact Hbody.
  pose proof (dispatch_answers toolName (orEmptyObject (getProp body "arguments")) kb
                (orEmptyObject_not_null _)) as H.
  assert (Hwf : wellFormed body = true ->
                wellFormed (orEmptyObject (getProp body "arguments")) = true).
  { intros Hb. apply orEmptyObject_wellFormed. intros v.
    now apply getProp_wellFormed. }
  destruct (existsb (String.eqb toolName) toolNames).
  - destruct H as [result [-> Hr]].
    destruct body; try congruence; exists result; auto.
  - rewrite H. destruct body; try congruence; reflexivity.
Qed.

End FrontEndFacts.

Section ExcerptFacts.

Import Json WebServer.
Local Open Scope string_scope.

Lemma length_toLowerCase (s : string) :
  String.length (toLowerCase s) = String.length s.
Proof. induction s; simpl; congruence. Qed.

Lemma toLowerCase_take (n : nat) : forall s,
  toLowerCase (take n s) = take n (toLowerCase s).
Proof. induction n as [|n IH]; intros [|c s]; simpl; try reflexivity. now rewrite IH. Qed.

Lemma toLowerCase_drop (n : nat) : forall s,
  toLowerCase (drop n s) = drop n (toLowerCase s).
Proof. induction n as [|n IH]; intros [|c s]; simpl; try reflexivity. apply IH. Qed.

Lemma length_take_le (n : nat) : forall s, String.length (take n s) <= n.
Proof.
  induction n as [|n IH]; intros [|c s]; simpl; try lia.
  specialize (IH s). lia.
Qed.

Lemma length_drop (n : nat) : forall s,
  String.length (drop n s) = String.length s - n.
Proof. induction n as [|n IH]; intros [|c s]; simpl; try lia. apply IH. Qed.

Lemma take_append (a b : string) (n : nat) :
  String.length a <= n -> take n (a ++ b) = a ++ take (n - String.length a) b.
Proof.
  revert n. induction a as [|c a IH]; intros n H; simpl in *.
  - now rewrite Nat.sub_0_r.
  - destruct n as [|n]; [lia|]. simpl. rewrite IH by lia. reflexivity.
Qed.

Lemma take_all (n : nat) : forall s, String.length s <= n -> take n s = s.
Proof.
  induction n as [|n IH]; intros [|c s] H; simpl in *; try reflexivity; try lia.
  rewrite IH by lia. reflexivity.
Qed.

Lemma indexOf_Some : forall s sub i,
  indexOf s sub = Some i ->
  i <= String.length s /\ startsWith (drop i s) sub = true.
Proof.
  induction s as [|c s IH]; intros sub i; cbn [indexOf].
  - destruct (startsWith "" sub) eqn:E; [|discriminate].
    intros [= <-]. split; [lia | exact E].
  - destruct (startsWith (String c s) sub) eqn:E.
    + intros [= <-]. split; [lia | exact E].
    + destruct (indexOf s sub) as [j|] eqn:Ej; [|discriminate].
      intros [= <-]. destruct (IH sub j Ej) as [H1 H2].
      split; [simpl; lia | exact H2].
Qed.

Lemma indexOf_None : forall s sub,
  indexOf s sub = None <-> includes s sub = false.
Proof.
  induction s as [|c s IH]; intros sub; cbn [indexOf includes].
  - destruct (startsWith "" sub); simpl; split; congruence.
  - destruct (startsWith (String c s) sub); simpl; [split; congruence|].
    rewrite <- IH. destruct (indexOf s sub); simpl; split; congruence.
Qed.

(** The window cut around a match contains the match. *)
Lemma window_contains (text sub : string) (i start stop : nat) :
  start <= i -> i <= String.length text -> i + String.length sub <= stop ->
  startsWith (drop i text) sub = true ->
  includes (take (stop - start) (drop start text)) sub = true.
Proof.
  intros Hs Hi He Hsub. apply startsWith_iff in Hsub. destruct Hsub as [post Hpost].
  assert (Hsplit : drop start text
                   = take (i - start) (drop start text) ++ sub ++ post).
  { rewrite <- Hpost.
    replace (drop i text) with (drop (i - start) (drop start text)).
    - now rewrite take_drop.
    - rewrite drop_drop. f_equal. lia. }
  apply includes_iff.
  exists (take (i - start) (drop start text)).
  exists (take (stop - start - (i - start) - String.length sub) post).
  rewrite Hsplit at 1.
  assert (Hlen : String.length (take (i - start) (drop start text)) = i - start).
  { apply length_take. rewrite length_drop. lia. }
  rewrite take_append by lia. f_equal.
  rewrite take_append by lia. rewrite Hlen. reflexivity.
Qed.

Lemma substring_window (s : string) (start stop : nat) :
  start <= stop -> stop <= String.length s ->
  substring s start stop = take (stop - start) (drop start s).
Proof.
  intros H1 H2. unfold substring. cbv zeta.
  replace (Nat.min start (String.length s)) with start by lia.
  replace (Nat.min stop (String.length s)) with stop by lia.
  replace (Nat.max start stop) with stop by lia.
  replace (Nat.min start stop) with start by lia.
  reflexivity.
Qed.

Lemma substring_prefix (s : string) (n : nat) : substring s 0 n = take n s.
Proof.
  unfold substring. cbv zeta.
  replace (Nat.min 0 (String.length s)) with 0 by lia.
  replace (Nat.max 0 (Nat.min n (String.length s)))
    with (Nat.min n (String.length s)) by lia.
  replace (Nat.min 0 (Nat.min n (String.length s))) with 0 by lia.
  rewrite Nat.sub_0_r. cbn [drop].
  destruct (Nat.le_gt_cases n (String.length s)) as [H|H].
  - now replace (Nat.min n (String.length s)) with n by lia.
  - replace (Nat.min n (String.length s)) with (String.length s) by lia.
    rewrite !take_all by lia. reflexivity.
Qed.

Lemma eqb_empty_length (s : string) :
  1 <= String.length s -> String.eqb s "" = false.
Proof. destruct s; simpl; [lia | reflexivity]. Qed.

(** The excerpt of a document whose content has the query. *)
Lemma excerptOf_found (d : Doc) (query : string) :
  query <> "" ->
  includesLower (DocumentContent.content d) query = true ->
  exists start stop,
    excerptOf d query = take (stop - start) (drop start (DocumentContent.content d))
    /\ start <= stop <= String.length (DocumentContent.content d)
    /\ stop - start <= String.length query + 200
    /\ includesLower (excerptOf d query) query = true.
Proof.
  intros Hq Hinc. unfold includesLower in Hinc. unfold excerptOf. cbv zeta.
  destruct (indexOf (toLowerCase (DocumentContent.content d)) (toLowerCase query))
    as [i|] eqn:Ei; [|apply indexOf_None in Ei; congruence].
  destruct (indexOf_Some _ _ _ Ei) as [Hi Hsw].
  assert (Hfit : i + String.length query
                 <= String.length (DocumentContent.content d)).
  { pose proof Hsw as H. apply startsWith_iff in H. destruct H as [post H].
    apply (f_equal String.length) in H.
    rewrite length_drop, length_append, !length_toLowerCase in H.
    rewrite length_toLowerCase in Hi. lia. }
  assert (Hqlen : 1 <= String.length query) by (destruct query; simpl; [congruence|lia]).
  rewrite length_toLowerCase.
  set (start := Nat.max 0 (i - 100)).
  set (stop := Nat.min (String.length (DocumentContent.content d))
                       (i + String.length query + 100)).
  assert (Hstart : start <= i) by (unfold start; lia).
  assert (Hstop : i + String.length query <= stop) by (unfold stop; lia).
  assert (Hstop' : stop <= String.length (DocumentContent.content d))
    by (unfold stop; lia).
  rewrite substring_window by lia.
  assert (Hin : includesLower
                  (take (stop - start) (drop start (DocumentContent.content d)))
                  query = true).
  { unfold includesLower. rewrite toLowerCase_take, toLowerCase_drop.
    apply (window_contains _ _ i); [exact Hstart | exact Hi | | exact Hsw].
    now rewrite length_toLowerCase. }
  assert (Hne : String.eqb
                  (take (stop - start) (drop start (DocumentContent.content d)))
                  "" = false).
  { apply eqb_empty_length. rewrite length_take; [lia|].
    rewrite length_drop. lia. }
  rewrite Hne. exists start, stop.
  split; [reflexivity|]. split; [lia|]. split; [unfold start, stop; lia | exact Hin].
Qed.

(** The excerpt of a document found by its title or its file name. *)
Lemma excerptOf_missing (d : Doc) (query : string) :
  includesLower (DocumentContent.content d) query = false ->
  excerptOf d query = take 200 (DocumentContent.content d) ++ "...".
Proof.
  intros Hinc. unfold includesLower in Hinc. apply indexOf_None in Hinc.
  unfold excerptOf. cbv zeta. rewrite Hinc. cbn [String.eqb].
  now rewrite substring_prefix.
Qed.

Lemma every_append (p : ascii -> bool) (a b : string) :
  every p (a ++ b) = every p a && every p b.
Proof. induction a as [|c a IH]; simpl; [reflexivity|]. now rewrite IH, andb_assoc. Qed.

Lemma encodeUnit_safe (c : ascii) : every uriSafe (encodeUnit c) = true.
Proof. destruct c as [[|] [|] [|] [|] [|] [|] [|] [|]]; reflexivity. Qed.

Lemma encodeURIComponent_safe (s : string) :
  every uriSafe (encodeURIComponent s) = true.
Proof.
  induction s as [|c s IH]; [reflexivity|].
  cbn [encodeURIComponent]. now rewrite every_append, encodeUnit_safe, IH.
Qed.

End ExcerptFacts.

(* ================================================================== *)
(** * Facts about file names and titles *)
(* ================================================================== *)

Section NameFacts.

Local Open Scope string_scope.

Lemma isDot_eqb (c : ascii) : Ascii.eqb "." c = Path.isDot c.
Proof. destruct c as [[|] [|] [|] [|] [|] [|] [|] [|]]; reflexivity. Qed.

Lemma includes_dot_cons (c : ascii) (s : string) :
  includes (String c s) "." = Path.isDot c || includes s ".".
Proof.
  cbn [includes startsWith]. rewrite isDot_eqb.
  now destruct s; rewrite andb_true_r.
Qed.

Lemma includes_dot_append (a b : string) :
  includes (a ++ b) "." = includes a "." || includes b ".".
Proof.
  induction a as [|c a IH].
  - reflexivity.
  - change (String c a ++ b) with (String c (a ++ b)).
    rewrite !includes_dot_cons, IH. now rewrite orb_assoc.
Qed.

Lemma every_notDotSlash (s : string) :
  every notDotSlash s = negb (includes s "/" || includes s ".").
Proof.
  induction s as [|c s IH]; [reflexivity|].
  cbn [every]. rewrite IH, includes_slash_cons, includes_dot_cons.
  unfold notDotSlash.
  rewrite (Ascii.eqb_sym c "/"), (Ascii.eqb_sym c "."), isSlash_eqb, isDot_eqb.
  destruct (Path.isSlash c), (Path.isDot c), (includes s "/"), (includes s ".");
    reflexivity.
Qed.

Lemma atom_notDotSlash (c : ascii) :
  atomMatches noFlags (Class true [IChar "/"; IChar "."]) c = notDotSlash c.
Proof. destruct c as [[|] [|] [|] [|] [|] [|] [|] [|]]; reflexivity. Qed.

Lemma lastDot_None (s : string) : includes s "." = false -> Path.lastDot s = None.
Proof.
  induction s as [|c s IH]; [reflexivity|].
  rewrite includes_dot_cons. intros H. apply orb_false_iff in H as [Hc Hs].
  cbn [Path.lastDot]. now rewrite (IH Hs), Hc.
Qed.

Lemma lastDot_extension (ext : string) :
  includes ext "." = false ->
  forall base,
    Path.lastDot (base ++ "." ++ ext) = Some (String.length base, "." ++ ext).
Proof.
  intros Hext. induction base as [|c base IH].
  - change ("" ++ "." ++ ext) with (String "." ext).
    cbn [Path.lastDot]. now rewrite (lastDot_None ext Hext).
  - change (String c base ++ "." ++ ext) with (String c (base ++ "." ++ ext)).
    cbn [Path.lastDot]. now rewrite IH.
Qed.

Lemma eqb_length (a b : string) :
  String.length a <> String.length b -> String.eqb a b = false.
Proof. intros H. apply String.eqb_neq. congruence. Qed.

Lemma basename_slashfree (s : string) :
  s <> "" -> includes s "/" = false -> Path.basename s = s.
Proof.
  intros Hne Hs. unfold Path.basename.
  pose proof (stripTrailingSlashes_name s Hne Hs "") as H. simpl in H.
  rewrite H. now apply afterLastSlash_name.
Qed.

Lemma extname_extension (base ext : string) :
  base <> "" -> includes base "/" = false ->
  ext <> "" -> includes ext "." = false -> includes ext "/" = false ->
  Path.extname (base ++ "." ++ ext) = "." ++ ext.
Proof.
  intros Hb Hbs He Hed Hes.
  assert (Hname : Path.basename (base ++ "." ++ ext) = base ++ "." ++ ext).
  { apply basename_slashfree.
    - destruct base; [congruence|discriminate].
    - rewrite includes_slash_append, Hbs.
      change ("." ++ ext) with (String "." ext).
      now rewrite includes_slash_cons, Hes. }
  unfold Path.extname. rewrite Hname, (lastDot_extension ext Hed base).
  destruct base as [|c base]; [congruence|]. cbn [String.length Nat.eqb orb].
  rewrite eqb_length; [reflexivity|].
  rewrite !length_append. destruct ext; [congruence|]. simpl. lia.
Qed.

Lemma extname_dotfile (ext : string) :
  includes ext "." = false -> includes ext "/" = false ->
  Path.extname ("." ++ ext) = "".
Proof.
  intros Hed Hes.
  assert (Hname : Path.basename ("." ++ ext) = "." ++ ext).
  { apply basename_slashfree; [discriminate|].
    change ("." ++ ext) with (String "." ext).
    now rewrite includes_slash_cons, Hes. }
  unfold Path.extname. rewrite Hname.
  change ("." ++ ext) with (String "." ext). cbn [Path.lastDot].
  now rewrite (lastDot_None ext Hed).
Qed.

(** ** The extension pattern *)

Lemma rep_reaches_end (p : ascii -> bool) (s : string) (min i : nat)
      (pv : option ascii) (cp : option string) (st' : state) :
  In st' (rep p min i pv s cp) -> rest st' = "" -> every p s = true.
Proof.
  intros H Hrest. apply rep_shape in H.
  destruct H as [n [_ [_ [Hn [Hr [He _]]]]]].
  rewrite Hr in Hrest. apply (f_equal String.length) in Hrest.
  rewrite length_drop in Hrest. simpl in Hrest.
  rewrite take_all in He by lia. exact He.
Qed.

Lemma rep_full (p : ascii -> bool) : forall s min i pv cp,
  every p s = true -> min <= String.length s ->
  exists pv' l,
    rep p min i pv s cp = mkState (i + String.length s) pv' "" cp :: l.
Proof.
  induction s as [|c s IH]; intros min i pv cp He Hmin.
  - simpl in Hmin. assert (min = 0) by lia. subst. simpl.
    rewrite Nat.add_0_r. now exists pv, [].
  - cbn [every] in He. apply andb_true_iff in He as [Hc He].
    cbn [rep]. rewrite Hc.
    destruct (IH (Nat.pred min) (S i) (Some c) cp He) as [pv' [l ->]].
    { simpl in Hmin. lia. }
    exists pv'. eexists. cbn [app String.length].
    replace (S i + String.length s) with (i + S (String.length s)) by lia.
    reflexivity.
Qed.

(** Where a dot or a slash follows, the extension pattern does not
    match. *)
Lemma extension_no_match (i : nat) (pv : option ascii) (c : ascii) (t : string) :
  every notDotSlash t = false ->
  run noFlags extensionPattern (mkState i pv (String c t) None) = [].
Proof.
  intros Ht. unfold extensionPattern. cbn [run rest idx cap prev].
  destruct (atomMatches noFlags (Chr ".") c); [|reflexivity].
  cbn [flat_map]. rewrite app_nil_r.
  destruct (flat_map _ _) as [|st' l] eqn:E; [reflexivity|].
  apply flat_map_head in E. destruct E as [a [t' [Ha Hrun]]].
  unfold atLineEnd in Hrun. cbn [multiline noFlags andb] in Hrun.
  destruct (rest a) eqn:Er; [|discriminate].
  apply rep_reaches_end in Ha; [|exact Er].
  cbn [rest] in Ha. rewrite (every_ext _ _ t atom_notDotSlash) in Ha. congruence.
Qed.

Lemma extension_match (i : nat) (pv : option ascii) (ext : string) :
  ext <> "" -> every notDotSlash ext = true ->
  exists st' l,
    run noFlags extensionPattern (mkState i pv (String "." ext) None) = st' :: l
    /\ idx st' = S i + String.length ext /\ cap st' = None.
Proof.
  intros Hne He. unfold extensionPattern. cbn [run rest idx cap prev].
  change (atomMatches noFlags (Chr ".") ".") with true.
  cbn [flat_map]. rewrite app_nil_r. cbn [run idx prev rest cap].
  rewrite <- (every_ext _ _ ext atom_notDotSlash) in He.
  destruct (rep_full _ ext 1 (S i) (Some "."%char) None He) as [pv' [l ->]].
  { destruct ext; [congruence | simpl; lia]. }
  cbn [flat_map]. unfold atLineEnd at 1. cbn [rest app].
  eexists. eexists. split; [reflexivity|]. now split.
Qed.

Lemma search_extension (ext : string) :
  ext <> "" -> every notDotSlash ext = true ->
  forall base i pv,
    search noFlags extensionPattern i pv (base ++ "." ++ ext)
    = Some (mkResult (i + String.length base)
                     (i + String.length base + 1 + String.length ext) None).
Proof.
  intros Hne He. induction base as [|c base IH]; intros i pv.
  - change ("" ++ "." ++ ext) with (String "." ext).
    destruct (extension_match i pv ext Hne He) as [st' [l [Hrun [Hidx Hcap]]]].
    cbn [search]. rewrite Hrun, Hidx, Hcap. f_equal. f_equal; simpl; lia.
  - change (String c base ++ "." ++ ext) with (String c (base ++ "." ++ ext)).
    cbn [search]. rewrite extension_no_match.
    + rewrite IH. f_equal. f_equal; simpl; lia.
    + rewrite every_notDotSlash, includes_dot_append.
      change (includes ("." ++ ext) ".") with true.
      now rewrite !orb_true_r.
Qed.

Lemma take_length_append (a b : string) : take (String.length a) (a ++ b) = a.
Proof. induction a as [|c a IH]; simpl; [now destruct b | now rewrite IH]. Qed.

Lemma drop_all (s : string) : drop (String.length s) s = "".
Proof. induction s; simpl; auto. Qed.

(** Removing the extension leaves what comes before the last dot. *)
Lemma removeFirst_extension (base ext : string) :
  ext <> "" -> includes ext "." = false -> includes ext "/" = false ->
  removeFirst noFlags extensionPattern (base ++ "." ++ ext) = base.
Proof.
  intros Hne Hd Hs.
  assert (He : every notDotSlash ext = true)
    by (now rewrite every_notDotSlash, Hd, Hs).
  unfold removeFirst, matchFirst, exec. cbn [seek].
  rewrite (search_extension ext Hne He base 0 None). cbn [index stop Nat.add].
  rewrite take_length_append.
  replace (String.length base + 1 + String.length ext)
    with (String.length (base ++ "." ++ ext)).
  - now rewrite drop_all, append_nil_r.
  - rewrite !length_append. simpl. lia.
Qed.

Lemma firstTitle_outcome (content title : string) : forall patterns,
  (Forall (fun pattern => matchFirst flag_m pattern content = None) patterns
   /\ firstTitle patterns content title = title)
  \/ (exists pattern m,
         In pattern patterns /\ matchFirst flag_m pattern content = Some m
         /\ firstTitle patterns content title = trim (captured m)).
Proof.
  induction patterns as [|pattern patterns IH].
  - left. split; [constructor | reflexivity].
  - cbn [firstTitle]. destruct (matchFirst flag_m pattern content) as [m|] eqn:E.
    + right. exists pattern, m. split; [now left|]. now split.
    + destruct IH as [[Hall Heq] | [p' [m [Hin [Hm Heq]]]]].
      * left. split; [now constructor | exact Heq].
      * right. exists p', m. split; [now right|]. now split.
Qed.

End NameFacts.

(* ================================================================== *)
(** * Further properties of the pipeline *)
(* ================================================================== *)

(** A tree is broken exactly when it holds an entry that cannot be
    reached or a directory that cannot be listed. *)
Lemma broken_iff : forall node,
  broken node = true
  <-> exists bad, Holds node bad /\ (bad = FsDangling \/ bad = FsUnreadable).
Proof.
  induction node as [| | |items IH] using FsNode_ind'.
  - split; [discriminate|]. intros [bad [H Hbad]].
    inversion H; subst. destruct Hbad; discriminate.
  - split; [|reflexivity]. intros _. exists FsDangling. split; [constructor | now left].
  - split; [|reflexivity]. intros _. exists FsUnreadable. split; [constructor | now right].
  - cbn [broken]. rewrite existsb_exists. rewrite Forall_forall in IH. split.
    + intros [[item child] [Hin Hb]]. cbn [snd] in Hb.
      apply (IH _ Hin) in Hb. destruct Hb as [bad [Hh Hbad]].
      exists bad. split; [|exact Hbad]. now apply (Holds_entry items item child).
    + intros [bad [Hh Hbad]].
      inversion Hh as [|items' name child bad' Hin Hchild]; subst.
      * destruct Hbad; discriminate.
      * exists (name, child). split; [assumption|]. cbn [snd].
        apply (IH (name, child)); [assumption|]. now exists bad.
Qed.

(** X1.  Discovery is not covered by the [try] of the loop, so one
    failure of it aborts the whole run.  [processAllDocuments] throws
    exactly when the document root is there and is not a directory, or is
    a directory that [readdirSync] cannot list, or holds, at any depth, a
    directory that cannot be listed or an entry that [statSync] cannot
    reach.  Nothing that happens to a file once it is listed makes the
    run throw. *)
Theorem processAllDocuments_throws_iff (w : World) (p : DocumentProcessor) :
  processAllDocuments w p = Throws
  <-> lookup w (documentsPath p) = Some FsFile
      \/ lookup w (documentsPath p) = Some FsUnreadable
      \/ exists items bad,
           lookup w (documentsPath p) = Some (FsDir items)
           /\ Holds (FsDir items) bad
           /\ (bad = FsDangling \/ bad = FsUnreadable).
Proof.
  assert (Hdisc : processAllDocuments w p = Throws
                  <-> getAllFiles w (documentsPath p) = Throws).
  { pose proof (getAllFiles_ends w (documentsPath p)) as Hends.
    unfold processAllDocuments.
    destruct (getAllFiles w (documentsPath p)) as [files| |]; cbn [bind].
    - destruct (forEachFile_delta w files) as [delta [_ [_ ->]]]. cbn [bind].
      split; discriminate.
    - split; reflexivity.
    - congruence. }
  rewrite Hdisc, getAllFiles_throws. split.
  - intros [H | [H | [items [H Hb]]]]; [now left | now right; left|].
    right. right. apply broken_iff in Hb. destruct Hb as [bad [Hh Hbad]].
    now exists items, bad.
  - intros [H | [H | [items [bad [H [Hh Hbad]]]]]]; [now left | now right; left|].
    right. right. exists items. split; [exact H|]. apply broken_iff. now exists bad.
Qed.

Example processAllDocuments_throws_examples :
  processAllDocuments brokenWorld (newDocumentProcessor DOCUMENTS_PATH) = Throws
  /\ processAllDocuments
       (mkWorld (fun _ => Some (FsDir [ ("a.xml", FsFile); ("private", FsUnreadable) ]))
                (statSync sampleWorld) (readFileSync sampleWorld)
                (mammoth sampleWorld) (xml2js sampleWorld) (pdfjs sampleWorld)
                (writeError sampleWorld))
       (newDocumentProcessor DOCUMENTS_PATH) = Throws
  /\ processAllDocuments
       (mkWorld (fun _ => Some FsFile)
                (statSync sampleWorld) (readFileSync sampleWorld)
                (mammoth sampleWorld) (xml2js sampleWorld) (pdfjs sampleWorld)
                (writeError sampleWorld))
       (newDocumentProcessor DOCUMENTS_PATH) = Throws.
Proof. repeat split; reflexivity. Qed.

(** X2.  Start-up without a cache file.  The run and the write of the
    cache are inside one [try]: when discovery throws, the knowledge base
    is the empty one and nothing is written, so the next start tries
    again; when the run returns and the cache cannot be written, the
    knowledge base is the empty one as well, whatever the run had found;
    when both succeed the knowledge base is that of the run, and the
    cache holds its JSON text. *)
Theorem startup_without_cache (w : World) (files : TextFiles) :
  files KNOWLEDGE_CACHE_PATH = None ->
  (getAllFiles w DOCUMENTS_PATH = Throws ->
   initializeKnowledgeBase w files
   = Ok (jsKnowledge ProcessedKnowledge.empty, files))
  /\ (forall p',
        processAllDocuments w (newDocumentProcessor DOCUMENTS_PATH) = Ok p' ->
        match writeError w KNOWLEDGE_CACHE_PATH with
        | Some remains =>
            exists files',
              initializeKnowledgeBase w files
              = Ok (jsKnowledge ProcessedKnowledge.empty, files')
              /\ files' KNOWLEDGE_CACHE_PATH = remains
        | None =>
            exists files',
              initializeKnowledgeBase w files
              = Ok (jsKnowledge (getKnowledge p'), files')
              /\ files' KNOWLEDGE_CACHE_PATH
                 = Some (Json.stringify (jsKnowledge (getKnowledge p')))
        end).
Proof.
  intros Hcache. unfold initializeKnowledgeBase. rewrite Hcache. split.
  - intros Hthrows. unfold processAllDocuments.
    cbn [documentsPath newDocumentProcessor]. now rewrite Hthrows.
  - intros p' ->. destruct (writeError w KNOWLEDGE_CACHE_PATH) as [remains|].
    + eexists. split; [reflexivity|]. cbv beta. now rewrite String.eqb_refl.
    + eexists. split; [reflexivity|].
      unfold saveKnowledge, writeFileSync. now rewrite String.eqb_refl.
Qed.

Lemma startup_without_cache_witness :
  (getAllFiles brokenWorld DOCUMENTS_PATH = Throws
   /\ initializeKnowledgeBase brokenWorld noFiles
      = Ok (jsKnowledge ProcessedKnowledge.empty, noFiles))
  /\ (exists p' files',
        processAllDocuments readOnlyWorld (newDocumentProcessor DOCUMENTS_PATH) = Ok p'
        /\ List.length (ProcessedKnowledge.documents (getKnowledge p')) = 3
        /\ initializeKnowledgeBase readOnlyWorld noFiles
           = Ok (jsKnowledge ProcessedKnowledge.empty, files')
        /\ files' KNOWLEDGE_CACHE_PATH = None).
Proof.
  split.
  - split; [reflexivity|].
    apply (startup_without_cache brokenWorld noFiles); reflexivity.
  - destruct (processAllDocuments readOnlyWorld (newDocumentProcessor DOCUMENTS_PATH))
      as [p'| |] eqn:E; try (vm_compute in E; discriminate E).
    destruct (proj2 (startup_without_cache readOnlyWorld noFiles eq_refl) p' E)
      as [files' [Hinit Hfile]].
    exists p', files'. split; [reflexivity|]. split; [|split; assumption].
    vm_compute in E. injection E as <-. reflexivity.
Defined.

(** X3.  Every file that discovery lists has a supported format, so
    [processDocument] never answers [null] for it: the run adds one
    document for each listed file that [statSync] still reaches, in the
    order of discovery, and skips the others. *)
Theorem one_document_per_reachable_file (w : World) (p : DocumentProcessor)
        (node : FsNode) (files : list string) :
  lookup w (documentsPath p) = Some node ->
  properTree node = true ->
  getAllFiles w (documentsPath p) = Ok files ->
  Forall (fun f => processDocument w f <> Ok None) files
  /\ exists p',
       processAllDocuments w p = Ok p'
       /\ pathsOf (ProcessedKnowledge.documents (getKnowledge p'))
          = pathsOf (ProcessedKnowledge.documents (getKnowledge p))
              ++ filter (statable w) files.
Proof.
  intros Hnode Hproper Hfiles.
  pose proof (getAllFiles_supported w (documentsPath p) node files Hnode Hproper Hfiles)
    as Hsup.
  split.
  - apply Forall_forall. intros f Hf.
    rewrite Forall_forall in Hsup. specialize (Hsup f Hf).
    pose proof (processDocument_outcome w f) as H.
    destruct (statSync w f); [|rewrite H; discriminate].
    destruct (formatOf f) as [t|]; [|congruence].
    destruct H as [doc [-> _]]. discriminate.
  - destruct (processAllDocuments_returns w p files Hfiles) as [delta [Hd [_ ->]]].
    eexists. split; [reflexivity|].
    unfold getKnowledge, pathsOf in *. cbn [knowledge kbAppend ProcessedKnowledge.documents].
    rewrite map_app, Hd. f_equal.
    fold (pathsOf (documentsOf w files)). rewrite pathsOf_documentsOf.
    apply filter_ext_Forall.
    eapply Forall_impl; [|exact Hsup].
    intros f Hf. cbv beta in *. destruct (formatOf f); [|congruence].
    now rewrite andb_true_r.
Qed.

Lemma one_document_per_reachable_file_witness :
  Forall (fun f => processDocument sampleWorld f <> Ok None)
         [ "documents/SubmitDDS_Request_Example.xml";
           "documents/Validation_Rules.docx";
           "documents/guides/CF2_guide.PDF" ]
  /\ exists p',
       processAllDocuments sampleWorld (newDocumentProcessor DOCUMENTS_PATH) = Ok p'
       /\ pathsOf (ProcessedKnowledge.documents (getKnowledge p'))
          = pathsOf [] ++ filter (statable sampleWorld)
                            [ "documents/SubmitDDS_Request_Example.xml";
                              "documents/Validation_Rules.docx";
                              "documents/guides/CF2_guide.PDF" ].
Proof.
  apply (one_document_per_reachable_file sampleWorld
           (newDocumentProcessor DOCUMENTS_PATH) sampleTree); reflexivity.
Defined.

(** X4.  Every endpoint record of a run from a fresh processor has one
    of the four verbs as method, a URL without white space that contains a
    slash, the category of its source file, and as name that category
    followed by what comes after the last slash of the URL. *)
Theorem endpoints_of_a_run (w : World) (root : string) (p' : DocumentProcessor) :
  processAllDocuments w (newDocumentProcessor root) = Ok p' ->
  Forall endpointShape (ProcessedKnowledge.endpoints (getKnowledge p')).
Proof.
  intros Hrun.
  apply (processAllDocuments_shaped w (newDocumentProcessor root) p' Hrun).
  exact shaped_empty.
Qed.

Lemma endpoints_of_a_run_witness :
  exists p',
    processAllDocuments sampleWorld (newDocumentProcessor DOCUMENTS_PATH) = Ok p'
    /\ List.length (ProcessedKnowledge.endpoints (getKnowledge p')) = 2
    /\ Forall endpointShape (ProcessedKnowledge.endpoints (getKnowledge p')).
Proof.
  destruct (processAllDocuments sampleWorld (newDocumentProcessor DOCUMENTS_PATH))
    as [p'| |] eqn:E; try (vm_compute in E; discriminate).
  exists p'. split; [reflexivity|]. split.
  - vm_compute in E. injection E as <-. reflexivity.
  - exact (endpoints_of_a_run sampleWorld DOCUMENTS_PATH p' E).
Defined.

(** X5.  Every rule record of a run from a fresh processor has the same
    text as name and description, trimmed and without a line feed, the
    category [Validation], and a source file of the category
    [Validation Rules]. *)
Theorem rules_of_a_run (w : World) (root : string) (p' : DocumentProcessor) :
  processAllDocuments w (newDocumentProcessor root) = Ok p' ->
  Forall ruleShape (ProcessedKnowledge.rules (getKnowledge p')).
Proof.
  intros Hrun.
  apply (processAllDocuments_shaped w (newDocumentProcessor root) p' Hrun).
  exact shaped_empty.
Qed.

Lemma rules_of_a_run_witness :
  exists p',
    processAllDocuments sampleWorld (newDocumentProcessor DOCUMENTS_PATH) = Ok p'
    /\ List.length (ProcessedKnowledge.rules (getKnowledge p')) = 2
    /\ Forall ruleShape (ProcessedKnowledge.rules (getKnowledge p')).
Proof.
  destruct (processAllDocuments sampleWorld (newDocumentProcessor DOCUMENTS_PATH))
    as [p'| |] eqn:E; try (vm_compute in E; discriminate).
  exists p'. split; [reflexivity|]. split.
  - vm_compute in E. injection E as <-. reflexivity.
  - exact (rules_of_a_run sampleWorld DOCUMENTS_PATH p' E).
Defined.

(** X6.  Every example record of a run from a fresh processor comes from
    a file whose name says request or response; its type is [request]
    when the name says request, whatever else it says, and its operation
    is the one [extractOperationFromFilename] reads off the name. *)
Theorem examples_of_a_run (w : World) (root : string) (p' : DocumentProcessor) :
  processAllDocuments w (newDocumentProcessor root) = Ok p' ->
  Forall exampleShape (ProcessedKnowledge.examples (getKnowledge p')).
Proof.
  intros Hrun.
  apply (processAllDocuments_shaped w (newDocumentProcessor root) p' Hrun).
  exact shaped_empty.
Qed.

Lemma examples_of_a_run_witness :
  exists p',
    processAllDocuments sampleWorld (newDocumentProcessor DOCUMENTS_PATH) = Ok p'
    /\ List.length (ProcessedKnowledge.examples (getKnowledge p')) = 1
    /\ Forall exampleShape (ProcessedKnowledge.examples (getKnowledge p')).
Proof.
  destruct (processAllDocuments sampleWorld (newDocumentProcessor DOCUMENTS_PATH))
    as [p'| |] eqn:E; try (vm_compute in E; discriminate).
  exists p'. split; [reflexivity|]. split.
  - vm_compute in E. injection E as <-. reflexivity.
  - exact (examples_of_a_run sampleWorld DOCUMENTS_PATH p' E).
Defined.

(** X7.  A processed document whose file name carries a conformance code
    (cf1 to cf7), or does not say validation, gives no rules, whatever its
    content says: the code decides the category before [validation] is
    looked for. *)
Theorem coded_documents_give_no_rules (w : World) (d : Doc) :
  processed w d ->
  (exists code, In code conformanceCodes
                /\ occursIgnoringCase code (DocumentContent.filename d))
  \/ ~ occursIgnoringCase "validation" (DocumentContent.filename d) ->
  forall kb, extractRules d kb = Some kb.
Proof.
  intros Hd Hname kb. apply processed_category in Hd.
  assert (Hne : categorizeDocument (DocumentContent.filename d) <> "Validation Rules").
  { unfold categorizeDocument. cbv zeta.
    destruct Hname as [[code [Hin Hocc]] | Hno].
    - apply includes_lower_iff in Hocc.
      repeat (destruct Hin as [<- | Hin]; [rewrite ?Hocc;
        repeat match goal with
          | |- context [if includes ?a ?b then _ else _] =>
              destruct (includes a b) eqn:?
          end; try discriminate; congruence |]).
      contradiction.
    - apply includes_lower_false in Hno. rewrite Hno.
      repeat match goal with
        | |- context [if includes ?a ?b then _ else _] =>
            destruct (includes a b) eqn:?
        end; discriminate. }
  unfold extractRules.
  destruct (String.eqb_spec (DocumentContent.category d) "Validation Rules");
    [congruence | reflexivity].
Qed.

Lemma coded_documents_give_no_rules_witness :
  let d := documentWith "documents/CF2_Validation_Rules.docx"
             (mkStats 2048 (ValidDate 1700000000000)) docx
             ("Rule: Geolocation must include at least one point."
                ++ nl ++ "Call POST /api/v1/submit to send data.") in
  extractRules d ProcessedKnowledge.empty = Some ProcessedKnowledge.empty.
Proof.
  intros d.
  apply (coded_documents_give_no_rules sampleWorld d).
  - exists "documents/CF2_Validation_Rules.docx". reflexivity.
  - left. exists "cf2". split; [right; now left|].
    apply includes_lower_iff. reflexivity.
Defined.

(* ================================================================== *)
(** * Further properties of the front ends *)
(* ================================================================== *)

Section FrontEnds.

Import Json JsonNotions WebServer.
Local Open Scope string_scope.

(** X8.  The status of the answer to a request for a tool depends on the
    method, on what becomes of the body, and on the tool name alone: 200
    in answer to OPTIONS and 405 for any other method but POST; for POST,
    500 for a body that is not JSON or is [null], 404 for a name that is
    not one of the five tools, and 200 otherwise, whatever the arguments
    and the knowledge base are.  There is no answer as long as the body
    of a POST has not ended. *)
Theorem tool_request_status (method toolName : string) (now : Z)
        (requestBody : outcome value) (kb : KB) :
  option_map status
    (handleRequest method (Some (Some ("/tools/" ++ toolName))) now requestBody kb)
  = if String.eqb method "OPTIONS" then Some 200
    else if negb (String.eqb method "POST") then Some 405
    else match requestBody with
         | Diverges => None
         | Throws | Ok Null => Some 500
         | Ok _ => Some (if existsb (String.eqb toolName) toolNames then 200 else 404)
         end.
Proof.
  destruct (String.eqb method "OPTIONS") eqn:Eo.
  { unfold handleRequest. now rewrite Eo. }
  apply String.eqb_neq in Eo.
  pose proof (handleRequest_tool method toolName now requestBody kb Eo) as H.
  cbv zeta in H.
  destruct (negb (String.eqb method "POST")).
  { rewrite H. cbn [option_map]. now rewrite status_sent. }
  destruct requestBody as [body| |]; [|now rewrite H|now rewrite H].
  destruct body; try (now rewrite H);
    (destruct (existsb (String.eqb toolName) toolNames);
     [destruct H as [result [_ [_ ->]]]; reflexivity | now rewrite H]).
Qed.

Example tool_request_status_examples :
  option_map status
    (handleRequest "POST" (Some (Some "/tools/get_examples")) 0
       (Ok (Obj [("arguments", Obj [("type", Num 7)])])) ProcessedKnowledge.empty)
  = Some 200
  /\ option_map status
       (handleRequest "OPTIONS" (Some (Some "/tools/get_examples")) 0
          Diverges ProcessedKnowledge.empty)
     = Some 200
  /\ option_map status
       (handleRequest "GET" (Some (Some "/tools/get_examples")) 0
          Diverges ProcessedKnowledge.empty)
     = Some 405
  /\ option_map status
       (handleRequest "POST" (Some (Some "/tools/get_examples")) 0
          (Ok Null) ProcessedKnowledge.empty)
     = Some 500
  /\ option_map status
       (handleRequest "POST" (Some (Some "/tools/list")) 0
          (Ok (Obj [])) ProcessedKnowledge.empty)
     = Some 404.
Proof. repeat split; reflexivity. Qed.

Lemma forallb_app_true (A : Type) (f : A -> bool) (l1 l2 : list A) :
  forallb f l1 = true -> forallb f l2 = true -> forallb f (l1 ++ l2)%list = true.
Proof. intros H1 H2. now rewrite forallb_app, H1, H2. Qed.

Lemma resources_wellFormed (kb : KB) : forallb wellFormed (resources kb) = true.
Proof.
  unfold resources.
  repeat apply forallb_app_true; now apply forallb_map_true.
Qed.

(** X9.  Whenever the REST server answers, the status is one of 200,
    404, 405 and 500, and the body is the JSON text of a value, which
    parsing gives back; only the answers to OPTIONS and to HEAD have an
    empty body.  There is no answer in two cases: [url.parse] throws on
    the request target, which happens before the [try], or the body of a
    POST to a tool never ends. *)
Theorem responses_are_json (method : string) (parsedUrl : option (option string))
        (now : Z) (requestBody : outcome value) (kb : KB) :
  (forall body, requestBody = Ok body -> wellFormed body = true) ->
  match handleRequest method parsedUrl now requestBody kb with
  | Some answer =>
      In (status answer) [200; 404; 405; 500]
      /\ if String.eqb method "OPTIONS" || String.eqb method "HEAD"
         then body answer = ""
         else exists data,
                answer = sendJSON data (status answer)
                /\ parse (body answer) = Some (dateless data)
  | None =>
      parsedUrl = None
      \/ (method = "POST" /\ requestBody = Diverges
          /\ exists toolName, parsedUrl = Some (Some ("/tools/" ++ toolName)))
  end
  /\ handleRequest method None now requestBody kb = None
  /\ (forall toolName,
         handleRequest "POST" (Some (Some ("/tools/" ++ toolName))) now Diverges kb
         = None).
Proof.
  intros Hwf. split; [|split; [reflexivity | intros toolName; reflexivity]].
  destruct parsedUrl as [pathname|]; [|now left].
  destruct (String.eqb method "OPTIONS") eqn:Eo.
  { unfold handleRequest. rewrite Eo. cbn [orb status body].
    split; [simpl; auto | reflexivity]. }
  cbn [orb].
  assert (Hsend : forall data code,
             In code [200; 404; 405; 500] -> wellFormed data = true ->
             match Some (sent method (sendJSON data code)) with
             | Some answer =>
                 In (status answer) [200; 404; 405; 500]
                 /\ if String.eqb method "HEAD"
                    then body answer = ""
                    else exists data',
                           answer = sendJSON data' (status answer)
                           /\ parse (body answer) = Some (dateless data')
             | None =>
                 Some pathname = None
                 \/ (method = "POST" /\ requestBody = Diverges
                     /\ exists toolName,
                          Some pathname = Some (Some ("/tools/" ++ toolName)))
             end).
  { intros data code Hcode Hdata. unfold sent.
    destruct (String.eqb method "HEAD").
    - split; [exact Hcode | reflexivity].
    - split; [exact Hcode|]. exists data. split; [reflexivity|].
      now apply JsonFacts.parse_stringify. }
  destruct pathname as [pathname|].
  2:{ unfold handleRequest. rewrite Eo.
      apply Hsend; [simpl; auto | reflexivity]. }
  destruct (startsWith pathname "/tools/") eqn:Etools.
  - apply startsWith_iff in Etools. destruct Etools as [toolName ->].
    assert (Hm : method <> "OPTIONS") by (now apply String.eqb_neq).
    pose proof (handleRequest_tool method toolName now requestBody kb Hm) as H.
    cbv zeta in H.
    destruct (String.eqb method "POST") eqn:Ep; cbn [negb] in H.
    2:{ rewrite H. apply Hsend; [simpl; auto | reflexivity]. }
    apply String.eqb_eq in Ep. subst method.
    destruct requestBody as [body| |].
    2:{ rewrite H. apply (Hsend _ 500); [simpl; auto | reflexivity]. }
    2:{ rewrite H. right. split; [reflexivity|]. split; [reflexivity|].
        now exists toolName. }
    specialize (Hwf body eq_refl).
    destruct body; try (rewrite H; apply (Hsend _ 500); [simpl; auto | reflexivity]);
      (destruct (existsb (String.eqb toolName) toolNames);
       [ destruct H as [result [_ [Hr ->]]]; apply (Hsend _ 200); [simpl; auto|];
         cbn [wellFormed map fst snd forallb distinct existsb negb andb];
         now rewrite (Hr Hwf)
       | rewrite H; apply (Hsend _ 404); [simpl; auto | reflexivity] ]).
  - unfold handleRequest. rewrite Eo, Etools.
    destruct (String.eqb pathname "/health");
      [apply Hsend; [simpl; auto | reflexivity]|].
    destruct (String.eqb pathname "/info");
      [apply Hsend; [simpl; auto | reflexivity]|].
    destruct (String.eqb pathname "/resources").
    + apply Hsend; [simpl; auto|].
      cbn [wellFormed map fst snd forallb distinct existsb negb andb].
      now rewrite resources_wellFormed.
    + apply Hsend; [simpl; auto | reflexivity].
Qed.

Lemma responses_are_json_witness :
  match
    handleRequest "POST" (Some (Some "/tools/validate_structure")) 0
      (Ok (Obj [("arguments", Obj [("data", Str "<dds/>")])]))
      ProcessedKnowledge.empty
  with
  | Some answer =>
      In (status answer) [200; 404; 405; 500]
      /\ exists data,
           answer = sendJSON data (status answer)
           /\ parse (body answer) = Some (dateless data)
  | None => False
  end.
Proof.
  refine (proj1 (responses_are_json "POST" (Some (Some "/tools/validate_structure")) 0
                   (Ok (Obj [("arguments", Obj [("data", Str "<dds/>")])]))
                   ProcessedKnowledge.empty _)).
  intros body [= <-]. reflexivity.
Defined.

Example responses_without_a_body :
  handleRequest "HEAD" (Some (Some "/health")) 0 (Ok (Obj [])) ProcessedKnowledge.empty
  = Some (mkResponse 200 "")
  /\ handleRequest "OPTIONS" (Some None) 0 (Ok (Obj [])) ProcessedKnowledge.empty
     = Some (mkResponse 200 "")
  /\ handleRequest "GET" None 0 (Ok (Obj [])) ProcessedKnowledge.empty = None
  /\ handleRequest "POST" (Some (Some "/tools/get_examples")) 0 Diverges
       ProcessedKnowledge.empty = None.
Proof. repeat split; reflexivity. Qed.

Lemma stringArg_not_null (args : value) (k s : string) :
  stringArg (getProp args k) = Some s -> args <> Null.
Proof. intros H ->. discriminate. Qed.

Lemma filter_none (A : Type) (p : A -> bool) (l : list A) :
  (forall x, In x l -> p x = false) -> filter p l = [].
Proof.
  induction l as [|x l IH]; intros H; [reflexivity|]. simpl.
  rewrite (H x) by now left. apply IH. intros y Hy. apply H. now right.
Qed.

Lemma filter_all (A : Type) (p : A -> bool) (l : list A) :
  (forall x, In x l -> p x = true) -> filter p l = l.
Proof.
  induction l as [|x l IH]; intros H; [reflexivity|]. simpl.
  rewrite (H x) by now left. f_equal. apply IH. intros y Hy. apply H. now right.
Qed.

(** X10.  The type filters are exact, unlike the other filters, which
    look for the argument inside the field and ignore case.  A type that
    is not literally [request] or [response] finds no example, and a
    document type that is not literally [docx], [xml] or [pdf] finds no
    document, whatever the knowledge base holds. *)
Theorem type_filters_are_exact (args : value) (kb : KB) (type : string) :
  (stringArg (getProp args "type") = Some type ->
   type <> "request" -> type <> "response" ->
   handleGetExamples args kb
   = Ok (Str "No examples found matching the criteria."))
  /\ (stringArg (getProp args "document_type") = Some type ->
      type <> "docx" -> type <> "xml" -> type <> "pdf" ->
      forall query,
        stringArg (getProp args "query") = Some query ->
        handleSearchDocumentation args kb
        = Ok (Str "No documents found matching the search criteria.")).
Proof.
  split.
  - intros Htype Hq Hp. unfold handleGetExamples.
    rewrite destructure_not_null by exact (stringArg_not_null args "type" type Htype).
    cbv zeta. rewrite Htype.
    rewrite filter_none; [reflexivity|].
    intros e _. apply String.eqb_neq.
    destruct (ExampleInfo.type e); simpl; congruence.
  - intros Htype Hd Hx Hp query Hquery. unfold handleSearchDocumentation.
    rewrite destructure_not_null
      by exact (stringArg_not_null args "query" query Hquery).
    cbv zeta. rewrite Hquery, Htype.
    rewrite (filter_none _ _ (ProcessedKnowledge.documents kb)).
    + now destruct (stringArg (getProp args "category")).
    + intros d _. apply String.eqb_neq.
      destruct (DocumentContent.type d); simpl; congruence.
Qed.

Lemma type_filters_are_exact_witness :
  handleGetExamples
    (Obj [("operation", Str "submit"); ("type", Str "Request")])
    (ProcessedKnowledge.mk [] []
       [ExampleInfo.mk "SubmitDDS_Request_Example" request "<submit/>"
                       "SubmitDDS" "SubmitDDS_Request_Example.xml"] [])
  = Ok (Str "No examples found matching the criteria.").
Proof.
  apply (type_filters_are_exact
           (Obj [("operation", Str "submit"); ("type", Str "Request")])
           (ProcessedKnowledge.mk [] []
              [ExampleInfo.mk "SubmitDDS_Request_Example" request "<submit/>"
                              "SubmitDDS" "SubmitDDS_Request_Example.xml"] [])
           "Request");
    [reflexivity | | ]; discriminate.
Defined.

(** X11.  [validate_structure] validates nothing: the data is echoed and
    never looked into.  The rest of the answer is decided by the operation
    argument and the knowledge base, and is the same for any other
    data. *)
Theorem validate_structure_echoes_the_data (args : value) (kb : KB) (data : string) :
  stringArg (getProp args "data") = Some data ->
  exists rest,
    handleValidateStructure args kb = Ok (Obj (("provided_data", Str data) :: rest))
    /\ forall args' data',
         stringArg (getProp args' "data") = Some data' ->
         getProp args' "operation" = getProp args "operation" ->
         handleValidateStructure args' kb
         = Ok (Obj (("provided_data", Str data') :: rest)).
Proof.
  intros Hdata. eexists. split.
  - unfold handleValidateStructure.
    rewrite destructure_not_null by exact (stringArg_not_null args "data" data Hdata).
    cbv zeta. rewrite Hdata. reflexivity.
  - intros args' data' Hdata' Hop. unfold handleValidateStructure.
    rewrite destructure_not_null by exact (stringArg_not_null args' "data" data' Hdata').
    cbv zeta. rewrite Hdata', Hop. reflexivity.
Qed.

Lemma validate_structure_echoes_the_data_witness :
  exists rest,
    handleValidateStructure (Obj [("data", Str "not even XML")])
                            ProcessedKnowledge.empty
    = Ok (Obj (("provided_data", Str "not even XML") :: rest))
    /\ forall args' data',
         stringArg (getProp args' "data") = Some data' ->
         getProp args' "operation" = getProp (Obj [("data", Str "not even XML")]) "operation" ->
         handleValidateStructure args' ProcessedKnowledge.empty
         = Ok (Obj (("provided_data", Str data') :: rest)).
Proof.
  apply (validate_structure_echoes_the_data (Obj [("data", Str "not even XML")])
           ProcessedKnowledge.empty "not even XML").
  reflexivity.
Defined.

(** X12.  The excerpt of a search result.  The index of the query is
    looked for in the lower-cased content and used in the content itself,
    which is right when lower-casing keeps the length of the content, as
    it does for every content in Latin-1 (code units below U+0100), which
    is what a [string] holds here.  For such a content that has the query,
    up to case, the excerpt is a stretch of the content of at most 200
    code units more than the query, and it has the query, up to case.
    When the document was found by its title or file name only, the
    excerpt is the first 200 code units of the content followed by three
    dots, also when the content is shorter.  Outside Latin-1 the
    lower-cased content can be longer than the content (U+0130 becomes
    two code units); the index then points elsewhere, and nothing is said
    here of what the excerpt holds. *)
Theorem search_excerpt (d : Doc) (query : string) :
  query <> "" ->
  (String.length (toLowerCase (DocumentContent.content d))
   = String.length (DocumentContent.content d) ->
   includesLower (DocumentContent.content d) query = true ->
   includesLower (excerptOf d query) query = true
   /\ String.length (excerptOf d query) <= String.length query + 200
   /\ exists before after,
        DocumentContent.content d = before ++ excerptOf d query ++ after)
  /\ (includesLower (DocumentContent.content d) query = false ->
      excerptOf d query = take 200 (DocumentContent.content d) ++ "...").
Proof.
  intros Hq. split; [|apply excerptOf_missing].
  intros _ Hinc.
  destruct (excerptOf_found d query Hq Hinc) as [start [stop [He [Hb [Hlen Hin]]]]].
  split; [exact Hin|]. rewrite He. split.
  - pose proof (length_take_le (stop - start) (drop start (DocumentContent.content d))).
    lia.
  - exists (take start (DocumentContent.content d)).
    exists (drop (stop - start) (drop start (DocumentContent.content d))).
    now rewrite !take_drop.
Qed.

Lemma search_excerpt_witness :
  let d := DocumentContent.mk "CF2.docx" "Submit"
             "Operators submit a Due Diligence Statement." docx "Submit DDS"
             (Metadata.mk 43 (ValidDate 0) "documents/CF2.docx") in
  includesLower (excerptOf d "DUE diligence") "DUE diligence" = true
  /\ String.length (excerptOf d "DUE diligence") <= String.length "DUE diligence" + 200
  /\ exists before after,
       DocumentContent.content d = before ++ excerptOf d "DUE diligence" ++ after.
Proof.
  intros d.
  apply (search_excerpt d "DUE diligence"); [discriminate | reflexivity | reflexivity].
Defined.

(** An excerpt in the middle of a long content: a hundred code units on
    each side of the query. *)
Example search_excerpt_window :
  let filler := "0123456789012345678901234567890123456789012345678901234567890123456789012345678901234567890123456789012345678901234567890123456789" in
  let d := DocumentContent.mk "a.docx" "A" (filler ++ "Geolocation" ++ filler) docx
             "General" (Metadata.mk 271 (ValidDate 0) "documents/a.docx") in
  excerptOf d "GEOLOCATION"
  = drop 30 filler ++ "Geolocation" ++ take 100 filler.
Proof. vm_compute. reflexivity. Qed.

(** X13.  Every rule of a run has the category [Validation], so the
    category filter of [get_business_rules] keeps all rules or none: a
    category that [Validation] does not contain, up to case, finds no
    rule, and any other leaves the answer as it is without the filter. *)
Theorem business_rules_category_is_all_or_nothing (w : World) (root : string)
        (p' : DocumentProcessor) (args : value) (category : string) :
  processAllDocuments w (newDocumentProcessor root) = Ok p' ->
  stringArg (getProp args "category") = Some category ->
  (includesLower "Validation" category = false ->
   handleGetBusinessRules args (getKnowledge p')
   = Ok (Str "No business rules found matching the criteria."))
  /\ (includesLower "Validation" category = true ->
      forall args',
        args' <> Null ->
        stringArg (getProp args' "category") = None ->
        getProp args' "search" = getProp args "search" ->
        handleGetBusinessRules args (getKnowledge p')
        = handleGetBusinessRules args' (getKnowledge p')).
Proof.
  intros Hrun Hcat.
  pose proof (processAllDocuments_shaped w (newDocumentProcessor root) p' Hrun
                shaped_empty) as [_ [_ HR]].
  rewrite Forall_forall in HR.
  assert (Hc : forall r, In r (ProcessedKnowledge.rules (getKnowledge p')) ->
               RuleInfo.category r = "Validation").
  { intros r Hr. now destruct (HR r Hr) as [_ [_ [_ [H _]]]]. }
  pose proof (stringArg_not_null args "category" category Hcat) as Hargs.
  split.
  - intros Hno. unfold handleGetBusinessRules.
    rewrite destructure_not_null by exact Hargs. cbv zeta. rewrite Hcat.
    rewrite (filter_none _ _ (ProcessedKnowledge.rules (getKnowledge p'))).
    + now destruct (stringArg (getProp args "search")).
    + intros r Hr. now rewrite (Hc r Hr).
  - intros Hyes args' Hargs' Hcat' Hsearch. unfold handleGetBusinessRules.
    rewrite !destructure_not_null by assumption. cbv zeta.
    rewrite Hcat, Hcat', Hsearch.
    rewrite (filter_all _ _ (ProcessedKnowledge.rules (getKnowledge p'))).
    + reflexivity.
    + intros r Hr. now rewrite (Hc r Hr).
Qed.

Lemma business_rules_category_is_all_or_nothing_witness :
  exists p',
    processAllDocuments sampleWorld (newDocumentProcessor DOCUMENTS_PATH) = Ok p'
    /\ ProcessedKnowledge.rules (getKnowledge p') <> []
    /\ handleGetBusinessRules (Obj [("category", Str "GeoJSON")]) (getKnowledge p')
       = Ok (Str "No business rules found matching the criteria.").
Proof.
  destruct (processAllDocuments sampleWorld (newDocumentProcessor DOCUMENTS_PATH))
    as [p'| |] eqn:E; try (vm_compute in E; discriminate).
  exists p'. split; [reflexivity|]. split.
  - vm_compute in E. injection E as <-. discriminate.
  - apply (business_rules_category_is_all_or_nothing sampleWorld DOCUMENTS_PATH p'
             (Obj [("category", Str "GeoJSON")]) "GeoJSON" E); reflexivity.
Defined.

Lemma append_comparable : forall a b x y : string,
  a ++ x = b ++ y -> startsWith a b = true \/ startsWith b a = true.
Proof.
  induction a as [|c a IH]; intros [|d b] x y H; simpl in *; auto.
  injection H as -> H. rewrite Ascii.eqb_refl. simpl. now apply (IH b x y).
Qed.

(** No encoding of a code unit begins the encoding of another. *)
Lemma encodeUnit_prefix (c c' : ascii) :
  startsWith (encodeUnit c) (encodeUnit c') = true -> c = c'.
Proof.
  assert (H : forallb
                (fun c => forallb
                            (fun c' => negb (startsWith (encodeUnit c) (encodeUnit c'))
                                       || Ascii.eqb c c')
                            (map ascii_of_nat (seq 0 256)))
                (map ascii_of_nat (seq 0 256)) = true)
    by (vm_compute; reflexivity).
  rewrite forallb_forall in H. specialize (H c (all_ascii c)).
  rewrite forallb_forall in H. specialize (H c' (all_ascii c')).
  intros Hs. rewrite Hs in H. simpl in H. now apply Ascii.eqb_eq.
Qed.

Lemma append_cancel (a x y : string) : a ++ x = a ++ y -> x = y.
Proof. induction a as [|c a IH]; simpl; [auto|]. intros H. injection H as H. auto. Qed.

Lemma encodeUnit_nonempty (c : ascii) (x : string) : encodeUnit c ++ x <> "".
Proof.
  unfold encodeUnit. destruct (unreserved c); [discriminate|].
  destruct (Nat.ltb (code c) 128); discriminate.
Qed.

(** A name can be read back from its encoding. *)
Lemma encodeURIComponent_injective : forall s t,
  encodeURIComponent s = encodeURIComponent t -> s = t.
Proof.
  induction s as [|c s IH]; intros [|d t] H; cbn [encodeURIComponent] in H.
  - reflexivity.
  - symmetry in H. now apply encodeUnit_nonempty in H.
  - now apply encodeUnit_nonempty in H.
  - assert (c = d).
    { destruct (append_comparable _ _ _ _ H) as [Hs | Hs].
      - now apply encodeUnit_prefix.
      - symmetry. now apply encodeUnit_prefix. }
    subst d. apply append_cancel in H. f_equal. now apply IH.
Qed.

(** X14.  The listing of resources has one resource for each document,
    each endpoint and each example, in that order and in the order of the
    knowledge base, and none for a rule.  The URI of a resource is
    [eudr://document/], [eudr://endpoint/] or [eudr://example/] followed
    by the encoding of the file name of the document, or of the name of
    the endpoint or example; its name is the title of the document, or
    that same name.  The encoding writes only code units that
    [encodeURIComponent] lets through and the percent sign (no slash, no
    space), and a name can be read back from it: two resources of a kind
    have the same URI only when the names are the same. *)
Theorem resources_listing (kb : KB) :
  map uriOf (resources kb)
  = (map (fun d => ("eudr://document/"
                      ++ encodeURIComponent (DocumentContent.filename d))%string)
         (ProcessedKnowledge.documents kb)
       ++ map (fun e => ("eudr://endpoint/"
                           ++ encodeURIComponent (EndpointInfo.name e))%string)
              (ProcessedKnowledge.endpoints kb)
       ++ map (fun x => ("eudr://example/"
                           ++ encodeURIComponent (ExampleInfo.name x))%string)
              (ProcessedKnowledge.examples kb))%list
  /\ map nameOf (resources kb)
     = (map DocumentContent.title (ProcessedKnowledge.documents kb)
          ++ map EndpointInfo.name (ProcessedKnowledge.endpoints kb)
          ++ map ExampleInfo.name (ProcessedKnowledge.examples kb))%list
  /\ (forall rules,
         resources (ProcessedKnowledge.mk (ProcessedKnowledge.documents kb)
                                          (ProcessedKnowledge.endpoints kb)
                                          (ProcessedKnowledge.examples kb) rules)
         = resources kb)
  /\ (forall name, every uriSafe (encodeURIComponent name) = true)
  /\ (forall name name',
         encodeURIComponent name = encodeURIComponent name' -> name = name').
Proof.
  split; [|split; [|split; [|split]]].
  - unfold resources. rewrite !map_app, !map_map. reflexivity.
  - unfold resources. rewrite !map_app, !map_map. reflexivity.
  - reflexivity.
  - apply encodeURIComponent_safe.
  - apply encodeURIComponent_injective.
Qed.

Example resources_listing_example :
  map uriOf
      (resources
         (ProcessedKnowledge.mk
            [DocumentContent.mk "CF2 guide.pdf" "Guide" "text" pdf "Submit DDS"
                                (Metadata.mk 4 (ValidDate 0) "documents/CF2 guide.pdf")]
            [EndpointInfo.mk "Submit DDS - submit" "d" "POST" "/api/submit"
                             "Submit DDS" "CF2 guide.pdf"]
            [ExampleInfo.mk "a/b" request "<x/>" "Unknown" "r.xml"]
            [RuleInfo.mk "r" "r" "Validation" "v.docx"]))
  = [ "eudr://document/CF2%20guide.pdf";
      "eudr://endpoint/Submit%20DDS%20-%20submit";
      "eudr://example/a%2Fb" ].
Proof. reflexivity. Qed.

(** X15.  The two front ends give the same answers.  The stdio server
    lists the resources of the REST server, and for each tool it answers
    with the text of what the REST handler returns: a message as it is,
    anything else as JSON text.  It throws for a tool name that the REST
    server answers with 404. *)
Theorem front_ends_agree (name : string) (arguments : option value) (kb : KB) :
  McpServer.listResources kb = Obj [("resources", Arr (resources kb))]
  /\ McpServer.callTool name arguments kb
     = match dispatch name (orEmptyObject arguments) kb with
       | Ok (Some result) => Ok (McpServer.textContent (textOf result))
       | Ok None | Throws => Throws
       | Diverges => Diverges
       end.
Proof.
  split; [reflexivity|].
  unfold McpServer.callTool, dispatch. cbv zeta.
  pose proof (orEmptyObject_not_null arguments) as Hargs.
  revert Hargs. generalize (orEmptyObject arguments) as args. intros args Hargs.
  destruct (String.eqb name "query_endpoint").
  { unfold handleQueryEndpoint. rewrite destructure_not_null by exact Hargs.
    cbv zeta.
    match goal with |- context [match ?l with [] => _ | _ :: _ => _ end] =>
      destruct l end; reflexivity. }
  destruct (String.eqb name "get_examples").
  { unfold handleGetExamples. rewrite destructure_not_null by exact Hargs.
    cbv zeta.
    match goal with |- context [match ?l with [] => _ | _ :: _ => _ end] =>
      destruct l end; reflexivity. }
  destruct (String.eqb name "validate_structure").
  { unfold handleValidateStructure. rewrite destructure_not_null by exact Hargs.
    cbv zeta.
    destruct (stringArg (getProp args "data")); reflexivity. }
  destruct (String.eqb name "get_business_rules").
  { unfold handleGetBusinessRules. rewrite destructure_not_null by exact Hargs.
    cbv zeta.
    match goal with |- context [match ?l with [] => _ | _ :: _ => _ end] =>
      destruct l end; reflexivity. }
  destruct (String.eqb name "search_documentation"); [|reflexivity].
  unfold handleSearchDocumentation. rewrite destructure_not_null by exact Hargs.
  cbv zeta.
  destruct (stringArg (getProp args "query")); [|reflexivity].
  match goal with |- context [match ?l with [] => _ | _ :: _ => _ end] =>
    destruct l end; reflexivity.
Qed.

End FrontEnds.

(* ================================================================== *)
(** * Further properties of file names, titles and contents *)
(* ================================================================== *)

Section Titles.

Local Open Scope string_scope.

Variable fl : flags.

(** What a match has captured has one or more code units, all of which the
    capturing atom takes. *)
Lemma run_captures (a : atom) (r : re) :
  Captures a r ->
  forall st st', In st' (run fl r st) ->
  exists g, cap st' = Some g /\ g <> "" /\ every (atomMatches fl a) g = true.
Proof.
  induction 1 as [min Hmin | r1 r2 _ IH Hfree | r1 r2 _ IH]; intros st st' Hin;
    cbn [run] in Hin.
  - apply in_map_iff in Hin. destruct Hin as [st0 [<- Hin]].
    apply rep_shape in Hin. destruct Hin as [n [Hi [Hn [Hlen [_ [Hp _]]]]]].
    cbn [cap]. replace (idx st0 - idx st) with n by lia.
    exists (take n (rest st)). split; [reflexivity|]. split; [|exact Hp].
    intros E. apply (f_equal String.length) in E.
    rewrite length_take in E by exact Hlen. simpl in E. lia.
  - apply in_flat_map in Hin. destruct Hin as [mid [H1 H2]].
    rewrite (run_cap fl r2 mid st' Hfree H2). now apply (IH st).
  - apply in_flat_map in Hin. destruct Hin as [mid [H1 H2]]. now apply (IH mid).
Qed.

(** The states of a match stay within the subject, and so does what is
    captured. *)
Lemma run_within (subject : string) (r : re) : forall st st',
  In st' (run fl r st) ->
  (exists pre, subject = pre ++ rest st) ->
  (forall g, cap st = Some g -> exists pre post, subject = pre ++ g ++ post) ->
  (exists pre, subject = pre ++ rest st')
  /\ (forall g, cap st' = Some g -> exists pre post, subject = pre ++ g ++ post).
Proof.
  induction r as [|a|r1 IH1 r2 IH2|r1 IH1 r2 IH2|r1 IH1|min a| |];
    intros st st' Hin Hrest Hcap; cbn [run] in Hin.
  - destruct Hin as [<- | []]. auto.
  - destruct (rest st) as [|c s] eqn:E; [contradiction|].
    destruct (atomMatches fl a c); [|contradiction].
    destruct Hin as [<- | []]. cbn [rest cap]. split; [|exact Hcap].
    destruct Hrest as [pre ->]. exists (pre ++ String c "").
    now rewrite append_assoc.
  - apply in_flat_map in Hin. destruct Hin as [mid [H1 H2]].
    destruct (IH1 st mid H1 Hrest Hcap) as [Hr Hc]. now apply (IH2 mid).
  - apply in_app_or in Hin. destruct Hin as [Hin | Hin];
      [now apply (IH1 st) | now apply (IH2 st)].
  - apply in_map_iff in Hin. destruct Hin as [st0 [<- Hin]]. cbn [rest cap].
    destruct (IH1 st st0 Hin Hrest Hcap) as [Hr _]. split; [exact Hr|].
    intros g [= <-]. destruct Hrest as [pre ->].
    exists pre, (drop (idx st0 - idx st) (rest st)). now rewrite take_drop.
  - apply rep_shape in Hin. destruct Hin as [n [_ [_ [_ [Hr [_ Hc]]]]]].
    rewrite Hr, Hc. split; [|exact Hcap].
    destruct Hrest as [pre ->]. exists (pre ++ take n (rest st)).
    now rewrite append_assoc, take_drop.
  - destruct (atLineStart fl st); [|contradiction]. destruct Hin as [<- | []]. auto.
  - destruct (atLineEnd fl st); [|contradiction]. destruct Hin as [<- | []]. auto.
Qed.

(** The capture of the first match of a pattern is a stretch of the
    subject. *)
Lemma matchFirst_captures (a : atom) (r : re) (subject : string) (m : result) :
  Captures a r ->
  matchFirst fl r subject = Some m ->
  exists g pre post,
    group1 m = Some g /\ subject = pre ++ g ++ post
    /\ g <> "" /\ every (atomMatches fl a) g = true.
Proof.
  intros Hc H. unfold matchFirst in H. apply exec_run in H.
  destruct H as [pv [st' [l [Hrun [_ Hg]]]]].
  assert (Hin : In st' (run fl r (mkState (index m) pv (drop (index m) subject) None)))
    by (rewrite Hrun; now left).
  destruct (run_captures a r Hc _ _ Hin) as [g [Hcap [Hne Hp]]].
  destruct (run_within subject r _ _ Hin) as [_ Hsub].
  - exists (take (index m) subject). cbn [rest]. now rewrite take_drop.
  - cbn [cap]. discriminate.
  - destruct (Hsub g Hcap) as [pre [post Hs]].
    exists g, pre, post. rewrite Hg. auto.
Qed.

End Titles.

Section Names.

Local Open Scope string_scope.

Lemma titlePatterns_capture : Forall (Captures Dot) titlePatterns.
Proof.
  unfold titlePatterns.
  apply Forall_cons; [|apply Forall_cons; [|apply Forall_cons; [|apply Forall_nil]]].
  - apply Captures_after, Captures_after, Captures_after, Captures_before;
      [now apply Captures_group | reflexivity].
  - apply Captures_after, Captures_after, Captures_after, Captures_before;
      [now apply Captures_group | reflexivity].
  - apply Captures_after, Captures_before; [now apply Captures_group | reflexivity].
Qed.

(** The loop stops at the first pattern that matches. *)
Lemma firstTitle_first (content title : string) (pattern : re) (m : result)
      (after : list re) : forall before,
  Forall (fun earlier => matchFirst flag_m earlier content = None) before ->
  matchFirst flag_m pattern content = Some m ->
  firstTitle (before ++ pattern :: after) content title = trim (captured m).
Proof.
  induction before as [|earlier before IH]; intros Hnone Hm; cbn [firstTitle app].
  - now rewrite Hm.
  - inversion Hnone as [|? ? Hearlier Hrest]; subst. rewrite Hearlier. now apply IH.
Qed.

(** X16.  The title of a document.  When none of the three title patterns
    matches the content, the title is the file name without its
    extension: for a file name that ends in a dot and an extension, what
    comes before that last dot.  Otherwise, whatever the file name is, it
    is the trimmed capture of the first of the three patterns, in their
    order, that matches: a stretch of the content of one or more code
    units, none of them a line terminator. *)
Theorem extractTitle_first_pattern (filename content : string) :
  (Forall (fun pattern => matchFirst flag_m pattern content = None) titlePatterns ->
   extractTitle filename content = removeFirst noFlags extensionPattern filename
   /\ forall base ext,
        filename = base ++ "." ++ ext ->
        ext <> "" -> includes ext "." = false -> includes ext "/" = false ->
        extractTitle filename content = base)
  /\ (forall before pattern after m,
         titlePatterns = (before ++ pattern :: after)%list ->
         Forall (fun earlier => matchFirst flag_m earlier content = None) before ->
         matchFirst flag_m pattern content = Some m ->
         exists line pre post,
           group1 m = Some line
           /\ extractTitle filename content = trim line
           /\ content = pre ++ line ++ post
           /\ line <> ""
           /\ every (fun c => negb (isLineTerminator c)) line = true).
Proof.
  split.
  - intros Hnone.
    assert (Heq : extractTitle filename content
                  = removeFirst noFlags extensionPattern filename).
    { unfold extractTitle.
      destruct (firstTitle_outcome content
                  (removeFirst noFlags extensionPattern filename) titlePatterns)
        as [[_ Heq] | [pattern [m [Hin [Hm _]]]]]; [exact Heq|].
      rewrite Forall_forall in Hnone. rewrite (Hnone pattern Hin) in Hm. discriminate. }
    split; [exact Heq|].
    intros base ext -> Hne Hd Hs. rewrite Heq. now apply removeFirst_extension.
  - intros before pattern after m Hsplit Hnone Hm.
    assert (Hc : Captures Dot pattern).
    { pose proof titlePatterns_capture as H. rewrite Hsplit in H.
      apply Forall_app in H. destruct H as [_ H]. now inversion H. }
    destruct (matchFirst_captures flag_m Dot pattern content m Hc Hm)
      as [line [pre [post [Hg [Hsub [Hne Hp]]]]]].
    exists line, pre, post. split; [exact Hg|]. split; [|auto].
    unfold extractTitle. rewrite Hsplit.
    rewrite (firstTitle_first content _ pattern m after before Hnone Hm).
    unfold captured. now rewrite Hg.
Qed.

Lemma extractTitle_first_pattern_witness :
  extractTitle "CF2.guide.PDF" "Error processing PDF: documents/guides/CF2.guide.PDF"
  = "CF2.guide"
  /\ exists line pre post,
       extractTitle "CF2.guide.PDF"
                    ("EUDR" ++ nl ++ "Title:  Due Diligence " ++ nl ++ "# Other" ++ nl)
       = trim line
       /\ trim line = "Other"
       /\ "EUDR" ++ nl ++ "Title:  Due Diligence " ++ nl ++ "# Other" ++ nl
          = pre ++ line ++ post.
Proof.
  split.
  - apply (proj1 (extractTitle_first_pattern "CF2.guide.PDF"
                    "Error processing PDF: documents/guides/CF2.guide.PDF"))
      with (base := "CF2.guide") (ext := "PDF");
      try reflexivity; try discriminate.
    repeat constructor.
  - destruct (proj2 (extractTitle_first_pattern "CF2.guide.PDF"
                       ("EUDR" ++ nl ++ "Title:  Due Diligence " ++ nl
                               ++ "# Other" ++ nl))
                    [] (nth 0 titlePatterns Eps) (tl titlePatterns)
                    (mkResult 28 35 (Some "Other")) eq_refl (Forall_nil _) eq_refl)
      as [line [pre [post [Hg [Ht [Hsub _]]]]]].
    exists line, pre, post. split; [exact Ht|]. split; [|exact Hsub].
    injection Hg as <-. reflexivity.
Defined.

(** The three patterns, each on a content that only it matches, and the
    order among them. *)
Example extractTitle_patterns :
  extractTitle "a.docx" ("intro" ++ nl ++ "#  Due Diligence " ++ nl) = "Due Diligence"
  /\ extractTitle "a.docx" ("Title: EUDR API" ++ nl ++ "text") = "EUDR API"
  /\ extractTitle "a.docx" ("Overview" ++ nl ++ "====" ++ nl ++ "text") = "Overview"
  /\ extractTitle "a.docx" ("Title: second" ++ nl ++ "# first" ++ nl) = "first"
  /\ extractTitle "a.docx" ("title: no" ++ nl ++ "==") = "a".
Proof. repeat split; reflexivity. Qed.

(** X17.  A file is supported by its extension alone, whatever its case:
    a name with something before a last dot is supported exactly when
    what follows the dot is docx, xml or pdf in any case.  A name that
    starts with its only dot, such as [.pdf], has no extension and is not
    supported. *)
Theorem isSupportedFile_by_extension (base ext : string) :
  base <> "" -> includes base "/" = false ->
  ext <> "" -> includes ext "." = false -> includes ext "/" = false ->
  isSupportedFile (base ++ "." ++ ext)
  = existsb (String.eqb (toLowerCase ext)) ["docx"; "xml"; "pdf"]
  /\ isSupportedFile ("." ++ ext) = false.
Proof.
  intros Hb Hbs Hne Hd Hs. split.
  - unfold isSupportedFile.
    rewrite (extname_extension base ext Hb Hbs Hne Hd Hs).
    reflexivity.
  - unfold isSupportedFile. now rewrite (extname_dotfile ext Hd Hs).
Qed.

Lemma isSupportedFile_by_extension_witness :
  isSupportedFile ("Guide.v2" ++ "." ++ "DocX")
  = existsb (String.eqb (toLowerCase "DocX")) ["docx"; "xml"; "pdf"]
  /\ isSupportedFile ("." ++ "DocX") = false.
Proof.
  apply (isSupportedFile_by_extension "Guide.v2" "DocX");
    try reflexivity; discriminate.
Defined.

(** X18.  The content of an XML document that the parser accepts is not
    XML: it is the JSON text of the parsed tree, and parses back to that
    tree. *)
Theorem parsed_xml_is_kept_as_json (w : World) (filePath raw : string)
        (stat : Stats) (parsed : Json.value) :
  statSync w filePath = Some stat ->
  formatOf filePath = Some xml ->
  readFileSync w filePath = Some raw ->
  xml2js w raw = Some parsed ->
  JsonNotions.wellFormed parsed = true ->
  processDocument w filePath
  = Ok (Some (documentWith filePath stat xml (Json.stringify parsed)))
  /\ Json.parse (Json.stringify parsed) = Some (Json.dateless parsed).
Proof.
  intros Hstat Hfmt Hread Hparse Hwf. split.
  - unfold processDocument, formatOf in *. rewrite Hstat.
    destruct (String.eqb (toLowerCase (Path.extname filePath)) ".docx");
      [discriminate|].
    destruct (String.eqb (toLowerCase (Path.extname filePath)) ".xml").
    + unfold processXML. now rewrite Hread, Hparse.
    + destruct (String.eqb (toLowerCase (Path.extname filePath)) ".pdf");
        discriminate.
  - now apply JsonFacts.parse_stringify.
Qed.

Lemma parsed_xml_is_kept_as_json_witness :
  processDocument parsedWorld "documents/dds.xml"
  = Ok (Some (documentWith "documents/dds.xml" (mkStats 6 (ValidDate 0)) xml
                (Json.stringify (Json.Obj [("dds", Json.Str "")]))))
  /\ Json.parse (Json.stringify (Json.Obj [("dds", Json.Str "")]))
     = Some (Json.dateless (Json.Obj [("dds", Json.Str "")])).
Proof.
  apply (parsed_xml_is_kept_as_json parsedWorld "documents/dds.xml" "<dds/>");
    reflexivity.
Defined.

End Names.

(* ================================================================== *)
(** * Further properties: PDF text and prompts *)
(* ================================================================== *)

Section Prompts.

Import Json WebServer.
Local Open Scope string_scope.

Lemma pdfPages_text : forall pages text,
  pdfPages (map Some pages) text = Some (text ++ pagesText pages).
Proof.
  induction pages as [|items pages IH]; intros text.
  - simpl. now rewrite append_nil_r.
  - cbn [map pdfPages pagesText fold_right]. rewrite IH.
    fold (pagesText pages). now rewrite !append_assoc.
Qed.

(** X19.  The text of a PDF whose pages can all be read is its pages in
    order, each the items of the page joined by single spaces and closed
    by a line feed, the last page too; a PDF without pages has the empty
    text. *)
Theorem processPDF_text (w : World) (filePath buffer : string)
        (pages : list (list string)) :
  readFileSync w filePath = Some buffer ->
  pdfjs w buffer = Some (map Some pages) ->
  processPDF w filePath = pagesText pages
  /\ (pages = [] -> processPDF w filePath = "")
  /\ String.length (processPDF w filePath)
     = list_sum (map (fun items => S (String.length (join " " items))) pages).
Proof.
  intros Hread Hpdf.
  assert (H : processPDF w filePath = pagesText pages).
  { unfold processPDF. now rewrite Hread, Hpdf, pdfPages_text. }
  rewrite H. split; [reflexivity|]. split; [now intros ->|].
  clear. induction pages as [|items pages IH]; [reflexivity|].
  cbn [pagesText fold_right map list_sum]. fold (pagesText pages).
  rewrite !length_append, IH. change (String.length nl) with 1.
  unfold list_sum. lia.
Qed.

Lemma processPDF_text_witness :
  processPDF pdfWorld "documents/guide.pdf"
  = pagesText [["Due"; "Diligence"; "Statement"]; []]
  /\ String.length (processPDF pdfWorld "documents/guide.pdf") = 25.
Proof.
  destruct (processPDF_text pdfWorld "documents/guide.pdf" "%PDF-1"
              [["Due"; "Diligence"; "Statement"]; []] eq_refl eq_refl)
    as [H1 [_ H2]].
  split; [exact H1 | exact H2].
Defined.

Lemma category_labels (filename : string) :
  let category := categorizeDocument filename in
  includes category "Basic Connectivity" || includes category "Development"
  = String.eqb category "Basic Connectivity"
    || String.eqb category "Development Options".
Proof.
  unfold categorizeDocument. cbv zeta.
  repeat match goal with
    | |- context [if includes ?a ?b then _ else _] => destruct (includes a b)
    end; reflexivity.
Qed.

Lemma run_documents_processed (w : World) (root : string) (p' : DocumentProcessor) :
  processAllDocuments w (newDocumentProcessor root) = Ok p' ->
  Forall (processed w) (ProcessedKnowledge.documents (getKnowledge p')).
Proof.
  intros Hrun.
  destruct (processAllDocuments_files w _ _ Hrun) as [files Hfiles].
  destruct (processAllDocuments_returns w (newDocumentProcessor root) files Hfiles)
    as [delta [Hd [_ Heq]]].
  rewrite Heq in Hrun. injection Hrun as <-.
  unfold getKnowledge. cbn [knowledge newDocumentProcessor kbAppend
                            ProcessedKnowledge.documents ProcessedKnowledge.empty app].
  rewrite Hd. apply documentsOf_processed.
Qed.

(** X20.  The integration guide of the stdio server, on the knowledge of
    a run: between its opening and its closing text it has one message
    for each document of the category [Basic Connectivity] or
    [Development Options], in order, with the content of the document as
    text, and for no other document.  The two prompts are the only ones:
    any other name throws. *)
Theorem integration_guide_documents (w : World) (root : string)
        (p' : DocumentProcessor) :
  processAllDocuments w (newDocumentProcessor root) = Ok p' ->
  let messages :=
    messagesOf (McpServer.getPrompt "eudr_integration_guide" (getKnowledge p')) in
  List.length messages = 2 + List.length (guideDocuments (getKnowledge p'))
  /\ map resourceText (removelast (tl messages))
     = map (fun d => Some (DocumentContent.content d))
           (guideDocuments (getKnowledge p'))
  /\ forall name,
       name <> "eudr_integration_guide" -> name <> "api_reference" ->
       McpServer.getPrompt name (getKnowledge p') = Throws.
Proof.
  intros Hrun.
  pose proof (run_documents_processed w root p' Hrun) as Hdocs.
  assert (Hfilter :
            filter (fun d => includes (DocumentContent.category d) "Basic Connectivity"
                             || includes (DocumentContent.category d) "Development")
                   (ProcessedKnowledge.documents (getKnowledge p'))
            = guideDocuments (getKnowledge p')).
  { unfold guideDocuments. apply filter_ext_Forall.
    eapply Forall_impl; [|exact Hdocs].
    intros d Hd. cbv beta. rewrite (processed_category w d Hd).
    apply category_labels. }
  unfold McpServer.getPrompt. cbv zeta.
  change (String.eqb "eudr_integration_guide" "eudr_integration_guide") with true.
  cbv iota. rewrite Hfilter. cbn [messagesOf app tl].
  split; [|split].
  - cbn [List.length]. rewrite length_app, !length_map. simpl. lia.
  - rewrite removelast_last, !map_map. reflexivity.
  - intros name H1 H2. apply String.eqb_neq in H1, H2. now rewrite H1, H2.
Qed.

Lemma integration_guide_documents_witness :
  exists p',
    processAllDocuments sampleWorld (newDocumentProcessor DOCUMENTS_PATH) = Ok p'
    /\ List.length (ProcessedKnowledge.documents (getKnowledge p')) = 3
    /\ List.length
         (messagesOf (McpServer.getPrompt "eudr_integration_guide" (getKnowledge p')))
       = 2 + List.length (guideDocuments (getKnowledge p')).
Proof.
  destruct (processAllDocuments sampleWorld (newDocumentProcessor DOCUMENTS_PATH))
    as [p'| |] eqn:E; try (vm_compute in E; discriminate).
  exists p'. split; [reflexivity|]. split.
  - vm_compute in E. injection E as <-. reflexivity.
  - apply (integration_guide_documents sampleWorld DOCUMENTS_PATH p' E).
Defined.

End Prompts.

(* ================================================================== *)
(** * Further properties of the SSE front end *)
(* ================================================================== *)

Section Sse.

Import Json WebServer.
Local Open Scope string_scope.

Variable dateText : Date -> string.

(** X21.  The [validate_structure] tool of the SSE server never finds
    fault: whenever it answers, the answer says [valid: true] with no
    issue and at most one suggestion, whatever the data and the knowledge
    base are.  It fails only when the text of an argument cannot be
    taken. *)
Theorem sse_validate_structure_is_always_valid (args : SseServer.arguments)
        (kb : KB) :
  match SseServer.callTool dateText "validate_structure" args kb with
  | Ok answer =>
      exists suggestions,
        answer = SseServer.textContent
                   (stringify (Obj [ ("valid", Bool true);
                                     ("issues", Arr []);
                                     ("suggestions", Arr suggestions) ]))
        /\ List.length suggestions <= 1
  | Throws =>
      SseServer.textArg dateText args "data" = Throws
      \/ SseServer.textArg dateText args "operation" = Throws
  | Diverges =>
      SseServer.textArg dateText args "data" = Diverges
      \/ SseServer.textArg dateText args "operation" = Diverges
  end.
Proof.
  unfold SseServer.callTool.
  change (String.eqb "validate_structure" "query_endpoint") with false.
  change (String.eqb "validate_structure" "get_examples") with false.
  change (String.eqb "validate_structure" "validate_structure") with true.
  cbv iota.
  destruct (SseServer.textArg dateText args "data") as [data| |]; cbn [bind];
    [|now left|now left].
  destruct (SseServer.textArg dateText args "operation") as [operation| |];
    cbn [bind]; [|now right|now right].
  eexists. split; [reflexivity|].
  destruct operation as [operation|]; [|simpl; lia].
  destruct (negb (String.eqb operation "")); [|simpl; lia].
  match goal with |- context [Nat.ltb 0 ?n] => destruct (Nat.ltb 0 n) end;
    simpl; lia.
Qed.

Lemma stringify_nonempty_array (item : value) (items : list value) :
  stringify (Arr (item :: items)) <> "[]".
Proof.
  unfold stringify. cbn [serialize]. unfold nl. cbn [append]. discriminate.
Qed.

(** X22.  The front ends disagree on a request without arguments.  The
    SSE server needs an operation: without one, [get_examples] answers
    with the empty list, and so does [query_endpoint] when it has no
    category either, whatever the knowledge base holds.  The stdio server
    answers the same requests with all the examples and with all the
    endpoints of the knowledge base, each with all its fields and in the
    order of the knowledge base, as one JSON text, and with a message
    when there is none.  So the two answers differ whenever there is
    something to list. *)
Theorem sse_needs_an_operation (kb : KB) :
  SseServer.callTool dateText "get_examples" None kb
  = Ok (SseServer.textContent "[]")
  /\ SseServer.callTool dateText "query_endpoint" None kb
     = Ok (SseServer.textContent "[]")
  /\ McpServer.callTool "get_examples" None kb
     = Ok (McpServer.textContent
             match ProcessedKnowledge.examples kb with
             | [] => "No examples found matching the criteria."
             | _ =>
                 stringify
                   (Arr (map (fun e =>
                                Obj [ ("name", Str (ExampleInfo.name e));
                                      ("type", Str (exampleTypeName (ExampleInfo.type e)));
                                      ("operation", Str (ExampleInfo.operation e));
                                      ("content", Str (ExampleInfo.content e));
                                      ("source", Str (ExampleInfo.source e)) ])
                             (ProcessedKnowledge.examples kb)))
             end)
  /\ McpServer.callTool "query_endpoint" None kb
     = Ok (McpServer.textContent
             match ProcessedKnowledge.endpoints kb with
             | [] => "No endpoints found matching the criteria."
             | _ =>
                 stringify
                   (Arr (map (fun e =>
                                Obj [ ("name", Str (EndpointInfo.name e));
                                      ("method", Str (EndpointInfo.method e));
                                      ("url", Str (EndpointInfo.url e));
                                      ("description", Str (EndpointInfo.description e));
                                      ("category", Str (EndpointInfo.category e));
                                      ("source", Str (EndpointInfo.source e)) ])
                             (ProcessedKnowledge.endpoints kb)))
             end)
  /\ (ProcessedKnowledge.examples kb <> [] ->
      McpServer.callTool "get_examples" None kb
      <> SseServer.callTool dateText "get_examples" None kb)
  /\ (ProcessedKnowledge.endpoints kb <> [] ->
      McpServer.callTool "query_endpoint" None kb
      <> SseServer.callTool dateText "query_endpoint" None kb).
Proof.
  assert (H1 : SseServer.callTool dateText "get_examples" None kb
               = Ok (SseServer.textContent "[]")).
  { unfold SseServer.callTool.
    change (String.eqb "get_examples" "query_endpoint") with false.
    change (String.eqb "get_examples" "get_examples") with true.
    cbv iota. cbn [SseServer.lowerArg SseServer.textArg bind option_map].
    rewrite filter_none; [reflexivity|]. intros e _. reflexivity. }
  assert (H2 : SseServer.callTool dateText "query_endpoint" None kb
               = Ok (SseServer.textContent "[]")).
  { unfold SseServer.callTool.
    change (String.eqb "query_endpoint" "query_endpoint") with true.
    cbv iota. cbn [SseServer.lowerArg SseServer.textArg bind option_map].
    rewrite !filter_none; [reflexivity| |]; intros x _; reflexivity. }
  assert (H3 : McpServer.callTool "get_examples" None kb
               = Ok (McpServer.textContent
                       match ProcessedKnowledge.examples kb with
                       | [] => "No examples found matching the criteria."
                       | _ =>
                           stringify
                             (Arr (map (fun e =>
                                          Obj [ ("name", Str (ExampleInfo.name e));
                                                ("type", Str (exampleTypeName (ExampleInfo.type e)));
                                                ("operation", Str (ExampleInfo.operation e));
                                                ("content", Str (ExampleInfo.content e));
                                                ("source", Str (ExampleInfo.source e)) ])
                                       (ProcessedKnowledge.examples kb)))
                       end)).
  { unfold McpServer.callTool.
    change (String.eqb "get_examples" "query_endpoint") with false.
    change (String.eqb "get_examples" "get_examples") with true.
    cbv iota zeta. cbn [orEmptyObject getProp lookupKey stringArg].
    now destruct (ProcessedKnowledge.examples kb). }
  assert (H4 : McpServer.callTool "query_endpoint" None kb
               = Ok (McpServer.textContent
                       match ProcessedKnowledge.endpoints kb with
                       | [] => "No endpoints found matching the criteria."
                       | _ =>
                           stringify
                             (Arr (map (fun e =>
                                          Obj [ ("name", Str (EndpointInfo.name e));
                                                ("method", Str (EndpointInfo.method e));
                                                ("url", Str (EndpointInfo.url e));
                                                ("description", Str (EndpointInfo.description e));
                                                ("category", Str (EndpointInfo.category e));
                                                ("source", Str (EndpointInfo.source e)) ])
                                       (ProcessedKnowledge.endpoints kb)))
                       end)).
  { unfold McpServer.callTool.
    change (String.eqb "query_endpoint" "query_endpoint") with true.
    cbv iota zeta. cbn [orEmptyObject getProp lookupKey stringArg].
    now destruct (ProcessedKnowledge.endpoints kb). }
  split; [exact H1|]. split; [exact H2|]. split; [exact H3|]. split; [exact H4|].
  split.
  - intros Hne. rewrite H1, H3.
    destruct (ProcessedKnowledge.examples kb) as [|e l]; [congruence|].
    intros H. cbn [map] in H.
    match type of H with
    | context [stringify (Arr (?x :: ?l))] =>
        pose proof (stringify_nonempty_array x l) as Hs
    end.
    unfold McpServer.textContent, SseServer.textContent in H. congruence.
  - intros Hne. rewrite H2, H4.
    destruct (ProcessedKnowledge.endpoints kb) as [|e l]; [congruence|].
    intros H. cbn [map] in H.
    match type of H with
    | context [stringify (Arr (?x :: ?l))] =>
        pose proof (stringify_nonempty_array x l) as Hs
    end.
    unfold McpServer.textContent, SseServer.textContent in H. congruence.
Qed.

End Sse.

Lemma sse_needs_an_operation_witness :
  McpServer.callTool "get_examples" None
    (ProcessedKnowledge.mk [] []
       [ExampleInfo.mk "SubmitDDS_Request_Example" request "<submit/>"
                       "SubmitDDS" "SubmitDDS_Request_Example.xml"] [])
  <> SseServer.callTool (fun _ => EmptyString) "get_examples" None
       (ProcessedKnowledge.mk [] []
          [ExampleInfo.mk "SubmitDDS_Request_Example" request "<submit/>"
                          "SubmitDDS" "SubmitDDS_Request_Example.xml"] []).
Proof.
  apply (sse_needs_an_operation (fun _ => EmptyString)
           (ProcessedKnowledge.mk [] []
              [ExampleInfo.mk "SubmitDDS_Request_Example" request "<submit/>"
                              "SubmitDDS" "SubmitDDS_Request_Example.xml"] [])).
  discriminate.
Defined.

(** The two answers to the same request. *)
Example answers_without_arguments :
  let kb := ProcessedKnowledge.mk [] []
              [ExampleInfo.mk "Submit" request "<submit/>" "SubmitDDS" "Submit_Request.xml"]
              [] in
  option_map (fun answer => Json.parse (textOf answer))
             (match McpServer.callTool "get_examples" None kb with
              | Ok (Json.Obj [(_, Json.Arr [Json.Obj [_; (_, text)]])]) => Some text
              | _ => None
              end)
  = Some (Some (Json.Arr
                  [Json.Obj [ ("name", Json.Str "Submit"); ("type", Json.Str "request");
                              ("operation", Json.Str "SubmitDDS");
                              ("content", Json.Str "<submit/>");
                              ("source", Json.Str "Submit_Request.xml") ]]))
  /\ SseServer.callTool (fun _ => EmptyString) "get_examples" None kb
     = Ok (SseServer.textContent "[]").
Proof. split; vm_compute; reflexivity. Qed.
